(* ===== verification/_CoqProject ===== *)
-Q . S2P
Prelude.v
Text.v
Host.v
Aegis.v
Regex.v
PolicyEngine.v
PolicyYaml.v
CgroupManager.v
EBPFLoader.v
Layout.v
Probes.v
RingBuffer.v
Polling.v
MicroVM.v
SandboxManager.v
Lifecycle.v
Enforcement.v
Cli.v
