(* ===== verification/Prelude.v ===== *)
(** * aegis-sandbox: a verification development

    ** The program

    aegis-sandbox runs untrusted code in Firecracker microVMs.  A command line
    tool (cmd/aegis-cli/main.cpp) creates a [SandboxManager]
    (src/runtime/sandbox_manager.cpp), which for every sandbox makes a cgroup
    (src/runtime/cgroup_manager.cpp), opens a TAP device, forks Firecracker,
    configures it over an HTTP socket, and pushes the rules of a policy of the
    [PolicyEngine] (src/policy/policy_engine.cpp) into kernel maps through the
    [EBPFLoader] (src/ebpf/ebpf_loader.cpp).  Three eBPF programs (ebpf/) read
    those maps, kill or reject what they forbid, and report events that the
    [RingBufferReader] (src/ebpf/ring_buffer_reader.cpp) decodes on a
    background thread.

    ** Conventions

    A method is a function [M S A] (this file): from the state to an outcome
    and a new state.  An outcome is a returned value, a C++ exception, a
    deadlock on a non-recursive [std::mutex], or the end of the process.  A
    mutex is a boolean member of its object; [lock_guard] takes it, runs the
    body and releases it on return and on exception, and locking a held mutex
    is [Deadlock].  Integers are [Z] with the wrap-around of their C++ type
    written where it can happen; maps and sets are [gmap] and [gset]; the
    order in which an [unordered_set] or [unordered_map] is traversed is the
    order of the [gmap], and no theorem's conclusion depends on it.

    What is outside the repository (the kernel, the filesystem, libbpf,
    Firecracker, the guest) is the class [Host] of Host.v: each call answers as
    an arbitrary function of the history of earlier calls and appends one event
    to it.  Every call answers: the reads from the API and guest sockets, which
    have no timeout in the code, are taken to return.  A value written through
    std::ofstream is stored, or not, when the stream is destroyed; the code
    only sees whether the file opened.  Open descriptors, the children that
    were forked and not sent SIGKILL ([unkilled_pids]; one that ended by itself
    still counts), open libbpf objects and the
    contents of the kernel maps are functions of the history, so that the
    theorems on leaks and enforcement are about every behaviour of the machine.
    Two documented facts are assumed where they are needed, as classes:
    [FreshDescriptors] (a new descriptor is not open) and [FreshChildren] (a
    forked child's identifier is not that of a child that was not killed).  What bpf(2) says of
    updates of the kernel maps is the record [filter_object] of Enforcement.v.
    Concrete hosts ([sample_host] and its variants) show that these can hold,
    and the witnesses run the program on them.

    ** Files

    - Prelude: outcomes, the state monad and its mutexes, tactics, hints.
    - Text: the parts of <string>, <format>, <filesystem> and <cstring> used.
    - Host: the environment, its history and what is read off it.
    - Aegis: include/aegis/aegis.hpp.
    - Regex: the matcher for the std::regex expressions of the policy loader.
    - PolicyEngine: the registry, the name table and the two evaluators;
      PolicyYaml: load_from_yaml, its round trip, and the refinement of the
      engine to a map from names to policies.
    - CgroupManager, EBPFLoader: all operations of the two classes.
    - Layout: C structures as bytes.  Probes: the three programs of ebpf/.
      RingBuffer: the raw records and dispatch_event.  Polling: the threads of
      the reader as a step relation over its shared members.
    - MicroVM: the sandbox structures, the HTTP client and the private boot
      steps of SandboxManager.  SandboxManager: its methods, composed from the
      components above, with their invariant.
    - Lifecycle, Enforcement: the end-to-end theorems on the manager.
    - Cli: argument parsing, the commands, main, the signal handler.

    ** What the theorems show

    - Lifecycle.  A sandbox reported as created is recorded, running, with a
      process that was forked, put into the cgroup and not killed, a descriptor
      that was bound to its TAP device and not closed, and a cgroup with the
      requested limits, recorded under its inode number; an error return leaves the
      tables and descriptors as they were; termination undoes creation; every
      sequence of calls that return, ended by the destructor, returns to the
      descriptors of before; and the results are those of a simple registry.
      create_sandbox blocks for ever exactly when the microVM refuses its boot
      request; what this leaves behind is proved, and that every later call
      blocks too.  For this the method is the composition of [acquire_vm] (its
      steps 1 to 5), [boot_request] (step 6) and [boot_and_record].
    - Enforcement.  With the syscall filter loaded, a call of a task in the
      sandbox's cgroup is killed exactly when the policy's block list has its
      number, if the array blocked nothing before; how this differs from
      eval_syscall, accumulates over sandboxes, ends when the hash of 1024
      monitored cgroups is full (the sandbox is still created), and is limited by
      the split of the maps over three objects.
    - Policies.  Exact decisions of both evaluators, the parsing of a rendered
      policy file back to its policy, the branches of load_from_yaml.
    - Components.  What a created cgroup records and hands to its control
      files, and descriptors balanced, in the cgroup manager; the loader's invariant and the effect of its map setters;
      what each eBPF program kills and reports (the process monitor depends on
      memory it reads after releasing it, a parameter of the model); that the reader decodes what
      the programs write, and for network events that it does not.
    - Threads.  With one caller the reader is safe and stop_polling returns;
      with two callers every polling state can reach std::terminate, and a
      replaced ring buffer is never freed.
    - Command line.  Options round-trip; what each command can and cannot do
      with a manager that lives for one invocation.

    ** Bounds

    [wait_for_socket] is a recursion on the 50 attempts of the source, so its
    fuel is the code's own bound.  The tokens of a bracketed list are searched
    with the length of the list as fuel, which [sregex_tokens_fuel] shows to be
    enough.  The HTTP reader that the framing theorem
    uses as its specification reads at most six lines, one more than a request
    has, and the theorem shows that this suffices.  All other recursions are
    structural.  A call that does not return is an outcome like the others: the
    refinement theorem shows that only the creation of a new sandbox can have
    it, and the deadlock theorem says when a refused boot request does.

    ** Not modelled

    The Go guest agent and the gRPC interface definition (other languages; the
    manager sees the guest only as answers on a socket), empty source files,
    diagnostics on std::cerr outside the command line tool, the mount and
    network state of the host, signals raised by a call (SIGPIPE),
    floating-point formatting (a parameter of the command line model) and the
    memory model of the reader's data races (accesses are atomic steps; the
    assignment of the callback is one step).  The attachment of the eBPF
    programs is part of EBPFLoader.v but not a hypothesis of the enforcement
    theorems, which speak of the programs' decisions.  A manager owns its loader
    and engine in the model; two managers that share them are not modelled.

    ** Plan

    Next: that create_sandbox succeeds on every cooperating host; managers
    that share one loader and one engine; calls of several threads on one
    manager; the exception paths of create_sandbox; delivery of an event from
    the program through the polling thread to the callback. *)
From Stdlib Require Export ZArith Lia.
From stdpp Require Export base tactics option list strings gmap pretty.
#[global] Open Scope Z_scope.
#[export] Set Warnings "-clear-no-such-hyp".

(** stdpp blocks the simplification of string concatenation; here literals are
    concatenated with variable parts, so it is allowed on a known head. *)
#[global] Arguments String.append : simpl nomatch.

(** ** Scope, hint databases *)
Declare Scope aegis_scope.
Delimit Scope aegis_scope with aegis.

Create HintDb aegis discriminated.
Create Rewrite HintDb aegis.

(** ** Outcomes of C++ calls

    A call returns a value, throws a C++ exception, or never returns: because
    it locks a [std::mutex] the same thread already holds, or because the
    process ends or is replaced by another program. *)
Inductive cxx_exception : Type :=
| filesystem_error (p : string)
| out_of_range
| invalid_argument.

Inductive outcome (A : Type) : Type :=
| Ret (a : A)
| Throw (e : cxx_exception)
| Deadlock
| Exited.
Arguments Ret {A} a.
Arguments Throw {A} e.
Arguments Deadlock {A}.
Arguments Exited {A}.

#[global] Instance cxx_exception_eq_dec : EqDecision cxx_exception.
Proof. solve_decision. Defined.

(** ** The state and outcome monad *)
Definition M (S A : Type) : Type := S -> outcome A * S.

#[global] Instance M_ret S : MRet (M S) := fun A a s => (Ret a, s).
#[global] Instance M_bind S : MBind (M S) := fun A B f m s =>
  match m s with
  | (Ret a, s') => f a s'
  | (Throw e, s') => (Throw e, s')
  | (Deadlock, s') => (Deadlock, s')
  | (Exited, s') => (Exited, s')
  end.

Definition gets {S A} (f : S -> A) : M S A := fun s => (Ret (f s), s).
Definition modify {S} (f : S -> S) : M S unit := fun s => (Ret tt, f s).
Definition exited {S A} : M S A := fun s => (Exited, s).
Definition throw {S A} (e : cxx_exception) : M S A := fun s => (Throw e, s).

(** Running an operation on a part of a larger state. *)
Definition zoom {S T A} (get : S -> T) (set : T -> S -> S) (m : M T A) : M S A :=
  fun s => let '(r, t) := m (get s) in (r, set t s).

(** [for (x : l) body(x)], the loop stopping at the first exception. *)
Fixpoint for_each {S A} (l : list A) (body : A -> M S unit) : M S unit :=
  match l with
  | [] => mret tt
  | x :: l' => body x ;; for_each l' body
  end.

(** ** Mutexes: [std::lock_guard] over a block *)
Class HasMutex (S : Type) := {
  mutex_held : S -> bool;
  set_mutex : bool -> S -> S
}.

Definition lock_guard {S A} `{HasMutex S} (body : M S A) : M S A := fun s =>
  if mutex_held s then (Deadlock, s)
  else match body (set_mutex true s) with
       | (Deadlock, s') => (Deadlock, s')
       | (Exited, s') => (Exited, s')
       | (r, s') => (r, set_mutex false s')
       end.

(** ** Machine-width unsigned integers *)
Definition u8 (z : Z) : Z := z mod 2 ^ 8.
Definition u16 (z : Z) : Z := z mod 2 ^ 16.
Definition u32 (z : Z) : Z := z mod 2 ^ 32.
Definition u64 (z : Z) : Z := z mod 2 ^ 64.

Definition is_u8 (z : Z) : Prop := 0 <= z < 2 ^ 8.
Definition is_u16 (z : Z) : Prop := 0 <= z < 2 ^ 16.
Definition is_u32 (z : Z) : Prop := 0 <= z < 2 ^ 32.
Definition is_u64 (z : Z) : Prop := 0 <= z < 2 ^ 64.

Lemma u32_id z : is_u32 z -> u32 z = z.
Proof. intros H. by apply Z.mod_small. Qed.

Lemma u64_id z : is_u64 z -> u64 z = z.
Proof. intros H. by apply Z.mod_small. Qed.

Lemma u32_range z : is_u32 (u32 z).
Proof. unfold is_u32, u32. apply Z.mod_pos_bound. lia. Qed.

#[export] Hint Resolve u32_id u64_id u32_range : aegis.

(** ** Monad equations *)
Lemma bind_Ret {S A B} (m : M S A) (f : A -> M S B) s a s' :
  m s = (Ret a, s') -> (m ≫= f) s = f a s'.
Proof. intros H. unfold mbind, M_bind. by rewrite H. Qed.

Lemma bind_inv_Ret {S A B} (m : M S A) (f : A -> M S B) s b s' :
  (m ≫= f) s = (Ret b, s') -> exists a s1, m s = (Ret a, s1) /\ f a s1 = (Ret b, s').
Proof. unfold mbind, M_bind. destruct (m s) as [[a|e| |] s1]; naive_solver. Qed.

Lemma bind_assoc {S A B C} (m : M S A) (f : A -> M S B) (g : B -> M S C) s :
  ((m ≫= f) ≫= g) s = (m ≫= (fun a => f a ≫= g)) s.
Proof. unfold mbind, M_bind. by destruct (m s) as [[] ?]. Qed.

Lemma bind_gets {S A B} (f : S -> A) (k : A -> M S B) s : (gets f ≫= k) s = k (f s) s.
Proof. done. Qed.

(** A guarded block that returns releases its lock. *)
Lemma lock_guard_Ret {S A} `{HasMutex S} (body : M S A) s a s' :
  mutex_held s = false -> body (set_mutex true s) = (Ret a, s') ->
  lock_guard body s = (Ret a, set_mutex false s').
Proof. intros Hm Hb. unfold lock_guard. by rewrite Hm, Hb. Qed.

(** A guarded block entered by the thread that holds its lock never returns. *)
Lemma lock_guard_held {S A} `{HasMutex S} (body : M S A) s :
  mutex_held s = true -> lock_guard body s = (Deadlock, s).
Proof. intros Hm. unfold lock_guard. by rewrite Hm. Qed.

(** ** Tactics *)

(** [munfold] exposes the monad operations of a run as plain matches. *)
Ltac munfold :=
  unfold mbind, M_bind, mret, M_ret, gets, modify, throw, exited, zoom, lock_guard in *.

(** [mcrush] evaluates a run, splitting on every answer of the environment. *)
Ltac mcrush :=
  repeat (simplify_eq/=; try case_match; simplify_eq/=; try done).

(** [split_and_solve tac] splits conjunctions and closes each part by [tac]. *)
Tactic Notation "split_and_solve" tactic3(tac) := repeat split; try solve [tac].

(** [decide_by_vm] proves a decidable proposition on closed data by evaluation. *)
Ltac decide_by_vm :=
  lazymatch goal with
  | |- ?P => apply (bool_decide_eq_true_1 P); vm_compute; reflexivity
  end.
