(* ===== verification/Text.v ===== *)
(** * Text: the C++ library facilities on strings, numbers and paths

    What the sources use of [<string>], [<cstring>], [<format>] and
    [<filesystem>]: C strings and bounded copies, substring search, decimal
    printing and parsing, and POSIX path concatenation. *)
From S2P Require Import Prelude.
From Stdlib Require Import Ascii.

(** ** Characters *)
Definition NUL : ascii := ascii_of_nat 0.
Definition dquote : ascii := ascii_of_nat 34.

Definition ascii_between (lo hi : ascii) (c : ascii) : bool :=
  (N_of_ascii lo <=? N_of_ascii c)%N && (N_of_ascii c <=? N_of_ascii hi)%N.

Definition is_digit : ascii -> bool := ascii_between "0" "9".
Definition is_alpha (c : ascii) : bool :=
  ascii_between "a" "z" c || ascii_between "A" "Z" c.

(** [\s] of ECMAScript: space and the control characters 9 to 13. *)
Definition is_space (c : ascii) : bool :=
  Ascii.eqb c " " || ascii_between (ascii_of_nat 9) (ascii_of_nat 13) c.

(** ** String predicates and cuts *)
Fixpoint str_all (f : ascii -> bool) (s : string) : bool :=
  match s with
  | EmptyString => true
  | String c s' => f c && str_all f s'
  end.

Fixpoint str_mem (c : ascii) (s : string) : bool :=
  match s with
  | EmptyString => false
  | String d s' => Ascii.eqb c d || str_mem c s'
  end.

(** The C string that starts at the first byte of a buffer: up to the NUL. *)
Fixpoint c_string (s : string) : string :=
  match s with
  | EmptyString => EmptyString
  | String c s' => if Ascii.eqb c NUL then EmptyString else String c (c_string s')
  end.

(** [s.substr(0, n)], also the first [n] bytes of a buffer. *)
Fixpoint str_take (n : nat) (s : string) : string :=
  match n, s with
  | S n', String c s' => String c (str_take n' s')
  | _, _ => EmptyString
  end.

(** The text a zero-initialised array of [size] bytes holds after
    [strncpy(dst, src, size - 1)]. *)
Definition strncpy_field (size : nat) (src : string) : string :=
  str_take (size - 1) (c_string src).

(** [haystack.find(needle) != npos]. *)
Fixpoint str_contains (needle haystack : string) : bool :=
  String.prefix needle haystack ||
  match haystack with
  | EmptyString => false
  | String _ h' => str_contains needle h'
  end.

(** ** Decimal numbers *)

(** [std::format("{}", z)] on an integer. *)
Definition format_int (z : Z) : string := pretty z.

Definition digit_val (c : ascii) : Z := Z.of_N (N_of_ascii c) - 48.

(** The value of a run of digits read left to right after [acc]. *)
Fixpoint digits_val (acc : Z) (s : string) : Z :=
  match s with
  | EmptyString => acc
  | String c s' => digits_val (acc * 10 + digit_val c) s'
  end.

(** [std::stoul] on a non-empty run of digits: [unsigned long] is 64 bits wide. *)
Definition stoul (s : string) : cxx_exception + Z :=
  let v := digits_val 0 s in
  if v <? 2 ^ 64 then inr v else inl out_of_range.

(** ** POSIX paths, kept as their native strings *)
Definition is_absolute (p : string) : bool :=
  match p with
  | String c _ => Ascii.eqb c "/"
  | EmptyString => false
  end.

Fixpoint ends_with_slash (p : string) : bool :=
  match p with
  | EmptyString => false
  | String c EmptyString => Ascii.eqb c "/"
  | String _ p' => ends_with_slash p'
  end.

(** [operator/]: an absolute right operand replaces the left one. *)
Definition path_append (p q : string) : string :=
  if is_absolute q then q
  else if (String.eqb p "") || ends_with_slash p then p +:+ q
  else p +:+ "/" +:+ q.

(** [p.filename()]: what follows the last slash. *)
Fixpoint path_filename (p : string) : string :=
  match p with
  | EmptyString => EmptyString
  | String _ p' => if str_mem "/" p then path_filename p' else p
  end.

Fixpoint before_last_dot (s : string) : option string :=
  match s with
  | EmptyString => None
  | String c s' =>
      match before_last_dot s' with
      | Some t => Some (String c t)
      | None => if Ascii.eqb c "." then Some EmptyString else None
      end
  end.

(** [p.stem()]: the file name up to its last dot, unless that dot leads it. *)
Definition path_stem (p : string) : string :=
  let f := path_filename p in
  if String.eqb f "." || String.eqb f ".." then f
  else match before_last_dot f with
       | None | Some EmptyString => f
       | Some t => t
       end.

(** Drop the characters that follow the last slash, and that slash. *)
Fixpoint drop_filename (p : string) : string :=
  match p with
  | EmptyString => EmptyString
  | String c p' =>
      if str_mem "/" p' then String c (drop_filename p') else EmptyString
  end.

(** [p.parent_path()] of a path without repeated slashes. *)
Definition parent_path (p : string) : string :=
  let q := drop_filename p in
  if String.eqb q "" && is_absolute p then "/" else q.

(** ** Lemmas *)
Lemma str_app_assoc a b c : (a +:+ b) +:+ c = a +:+ (b +:+ c).
Proof. induction a as [|x a IH]; simpl; [done|]. by rewrite IH. Qed.

Lemma str_app_nil_r a : a +:+ "" = a.
Proof. induction a as [|x a IH]; simpl; [done|]. by rewrite IH. Qed.

Lemma str_length_app a b :
  String.length (a +:+ b) = (String.length a + String.length b)%nat.
Proof. induction a as [|x a IH]; simpl; [done|]. by rewrite IH. Qed.

Lemma str_all_app f a b : str_all f (a +:+ b) = str_all f a && str_all f b.
Proof. induction a as [|x a IH]; simpl; [done|]. rewrite IH. by destruct (f x). Qed.

Lemma str_mem_app c a b : str_mem c (a +:+ b) = str_mem c a || str_mem c b.
Proof. induction a as [|x a IH]; simpl; [done|]. rewrite IH. by destruct (Ascii.eqb c x). Qed.

Lemma str_all_impl f g s :
  (forall c, f c = true -> g c = true) -> str_all f s = true -> str_all g s = true.
Proof.
  intros H. induction s as [|c s IH]; simpl; [done|].
  rewrite !andb_true_iff. intros [Hc Hs]. auto.
Qed.

Lemma str_take_length n s : (String.length (str_take n s) <= n)%nat.
Proof. revert s. induction n as [|n IH]; intros [|c s]; simpl; [lia..|]. specialize (IH s). lia. Qed.

Lemma str_take_all n s : (String.length s <= n)%nat -> str_take n s = s.
Proof.
  revert s. induction n as [|n IH]; intros [|c s]; simpl; intros; try done; [lia|].
  by rewrite IH by lia.
Qed.

Lemma c_string_id s : str_mem NUL s = false -> c_string s = s.
Proof.
  induction s as [|c s IH]; cbn [str_mem c_string]; [done|]. rewrite orb_false_iff.
  intros [H1 H2]. rewrite Ascii.eqb_sym in H1. rewrite H1. by rewrite IH.
Qed.

Lemma strncpy_field_id size s :
  str_mem NUL s = false -> (String.length s < size)%nat -> strncpy_field size s = s.
Proof.
  intros H1 H2. unfold strncpy_field. rewrite c_string_id by done.
  apply str_take_all. lia.
Qed.

Lemma strncpy_field_length size src :
  (0 < size)%nat -> (String.length (strncpy_field size src) < size)%nat.
Proof. intros H. unfold strncpy_field. pose proof (str_take_length (size - 1) (c_string src)). lia. Qed.

Lemma str_prefix_spec p s :
  String.prefix p s = true <-> exists t, s = p +:+ t.
Proof.
  revert s. induction p as [|c p IH]; intros s; simpl.
  - split; [by exists s|by destruct s].
  - destruct s as [|d s]; simpl; [split; [done|intros [t Ht]; discriminate]|].
    destruct (ascii_dec c d) as [->|Hne].
    + rewrite IH. split; intros [t Ht]; exists t; simpl in *; [by subst|congruence].
    + split; [done|]. intros [t Ht]. simpl in Ht. congruence.
Qed.

Lemma str_contains_spec n h :
  str_contains n h = true <-> exists a b, h = a +:+ n +:+ b.
Proof.
  induction h as [|c h IH]; cbn [str_contains]; rewrite orb_true_iff, str_prefix_spec.
  - split.
    + intros [[t Ht]|?]; [by exists "", t|done].
    + intros (a & b & Hab). left. destruct a; [|done]. by exists b.
  - rewrite IH. split.
    + intros [[t Ht]|(a & b & ->)]; [by exists "", t|by exists (String c a), b].
    + intros (a & b & Hab). destruct a as [|x a]; [left; by exists b|].
      right. injection Hab as Hc Hh. subst. eauto.
Qed.

(** *** Printing and parsing of naturals *)
Lemma pretty_digit x : (x < 10)%N ->
  is_digit (pretty_N_char x) = true /\ digit_val (pretty_N_char x) = Z.of_N x.
Proof.
  intros H.
  assert (x = 0 \/ x = 1 \/ x = 2 \/ x = 3 \/ x = 4 \/ x = 5 \/ x = 6 \/ x = 7 \/ x = 8 \/ x = 9)%N
    as Hx by lia.
  by repeat destruct Hx as [->|Hx]; subst.
Qed.

Lemma digits_val_pretty_go x s acc :
  digits_val acc (pretty_N_go x s) =
  digits_val (acc * 10 ^ Z.of_nat (String.length (pretty_N_go x "")) + Z.of_N x) s.
Proof.
  revert s acc. induction (N.lt_wf_0 x) as [x _ IH]. intros s acc.
  destruct (decide (0 < x)%N) as [Hx|Hx]; [|replace x with 0%N by lia; simpl;
    f_equal; lia].
  rewrite !(pretty_N_go_step x) by done.
  pose proof (N.mod_upper_bound x 10) as Hm. pose proof (N.div_lt x 10) as Hd.
  assert (Hlen : forall y t, String.length (pretty_N_go y t) =
    (String.length (pretty_N_go y "") + String.length t)%nat).
  { clear. intros y. induction (N.lt_wf_0 y) as [y _ IH]. intros t.
    destruct (decide (0 < y)%N) as [Hy|Hy]; [|by replace y with 0%N by lia].
    rewrite !(pretty_N_go_step y) by done.
    pose proof (N.div_lt y 10). rewrite IH by lia.
    rewrite (IH (y `div` 10)%N ltac:(lia) (String _ "")). simpl. lia. }
  rewrite IH by lia. cbn [digits_val]. f_equal.
  rewrite (proj2 (pretty_digit (x `mod` 10) ltac:(lia))). rewrite (Hlen _ (String _ "")). simpl String.length.
  rewrite Nat.add_1_r, Nat2Z.inj_succ, Z.pow_succ_r by lia.
  pose proof (N.div_mod x 10 ltac:(done)) as Hx10. lia.
Qed.

Lemma format_int_pos p : format_int (Zpos p) = pretty_N_go (Npos p) "".
Proof. done. Qed.

Lemma digits_val_format (n : Z) : 0 <= n -> digits_val 0 (format_int n) = n.
Proof.
  intros Hn. destruct n as [|p|p]; [done| |lia].
  by rewrite format_int_pos, digits_val_pretty_go.
Qed.

Lemma pretty_go_digits x s : str_all is_digit s = true -> str_all is_digit (pretty_N_go x s) = true.
Proof.
  revert s. induction (N.lt_wf_0 x) as [x _ IH]. intros s Hs.
  destruct (decide (0 < x)%N) as [Hx|Hx]; [|by replace x with 0%N by lia].
  rewrite (pretty_N_go_step x) by done. pose proof (N.div_lt x 10).
  apply IH; [lia|]. cbn [str_all]. rewrite Hs, andb_true_r.
  apply pretty_digit, N.mod_upper_bound. done.
Qed.

Lemma format_int_digits (n : Z) : 0 <= n -> str_all is_digit (format_int n) = true.
Proof.
  intros Hn. destruct n as [|p|p]; [done| |lia].
  rewrite format_int_pos. by apply pretty_go_digits.
Qed.

Lemma format_int_nonempty (n : Z) : 0 <= n -> format_int n <> "".
Proof.
  intros Hn Heq. destruct (decide (n = 0)) as [->|]; [done|].
  pose proof (digits_val_format n Hn) as H. rewrite Heq in H. simpl in H. lia.
Qed.

Lemma stoul_format (n : Z) : is_u64 n -> stoul (format_int n) = inr n.
Proof.
  intros [H1 H2]. unfold stoul. rewrite digits_val_format by done.
  by rewrite (proj2 (Z.ltb_lt _ _)).
Qed.

(** *** Paths *)
Lemma path_append_relative p q :
  is_absolute q = false -> ends_with_slash p = false -> p <> "" ->
  path_append p q = p +:+ "/" +:+ q.
Proof.
  intros H1 H2 H3. unfold path_append. rewrite H1, H2.
  by rewrite (proj2 (String.eqb_neq p "")).
Qed.

Lemma str_app_inj_l a b c : a +:+ b = a +:+ c -> b = c.
Proof. induction a as [|x a IH]; simpl; [done|]. intros H. injection H. auto. Qed.

Lemma path_append_inj p q1 q2 :
  is_absolute q1 = false -> is_absolute q2 = false ->
  path_append p q1 = path_append p q2 -> q1 = q2.
Proof.
  intros H1 H2. unfold path_append. rewrite H1, H2.
  destruct (_ || _); intros H; apply str_app_inj_l in H; [done|].
  by injection H.
Qed.

#[export] Hint Rewrite str_app_assoc str_app_nil_r : aegis.
#[export] Hint Resolve stoul_format format_int_digits format_int_nonempty : aegis.

#[global] Arguments path_append : simpl never.
#[global] Arguments format_int : simpl never.
