(* ===== verification/Host.v ===== *)
(** * Host: the environment of the runtime as an interface

    The operating system, libbpf, Firecracker and the guest are not part of
    the repository.  They are the class [Host]: every call answers as an
    arbitrary function of the history of calls made so far, so a theorem
    proved for all [Host] instances holds for every behaviour of the machine.
    Each call appends one event (the call with its answer) to the history.
    Every call answers: a read that blocks for ever is not an answer.

    What the proofs need of documented POSIX and bpf(2) behaviour is stated by
    separate classes ([FreshDescriptors], ...) over the history. *)
From S2P Require Import Prelude Text.

(** ** The history *)
Inductive event : Type :=
| EvExists (p : string) (r : option bool)          (* filesystem::exists; None: throws *)
| EvCreateDirectories (p : string) (ok : bool)     (* create_directories(p, ec); ok = !ec *)
| EvRemove (p : string) (ok : bool)                (* filesystem::remove(p); false: throws *)
| EvRemoveAll (p : string)                         (* remove_all(p, ec); ec is never read *)
| EvWriteFile (p v : string) (opened stored : bool) (* ofstream(p) << v; stored: at its destruction *)
| EvReadFile (p : string) (r : option string)      (* ifstream(p).rdbuf(); None: not open *)
| EvStat (p : string) (r : option Z)               (* stat(2): st_ino on success *)
| EvOpen (p : string) (flags : Z) (fd : Z)
| EvClose (fd : Z)
| EvIoctl (fd : Z) (ifr_name : string) (r : Z)     (* TUNSETIFF, IFF_TAP | IFF_NO_PI *)
| EvFork (pid : Z)
| EvDup2 (fd newfd : Z)
| EvExecv (path : string) (argv : list string)      (* in the child *)
| EvKill (pid sig : Z)
| EvWaitpid (pid : Z)                              (* WNOHANG; the status is not read *)
| EvSleep (ms : Z)
| EvSocket (fd : Z)
| EvConnect (fd : Z) (sun_path : string) (r : Z)
| EvWrite (fd : Z) (data : string) (r : Z)
| EvRead (fd : Z) (count : Z) (r : option string)  (* None: -1, otherwise the bytes read *)
| EvClock (ns : Z)
| EvObjectOpen (p : string) (obj : option Z)
| EvObjectLoad (obj : Z) (err : Z)
| EvObjectClose (obj : Z)
| EvAttach (prog : Z) (target : string) (link : option Z)
| EvLinkDestroy (link : Z)
| EvMapUpdate (map_fd key value : Z) (err : Z)
| EvRingNew (map_fd : Z) (rb : option Z)
| EvRingFree (rb : Z)
| EvStdout (text : string)
| EvStderr (text : string).

#[global] Instance event_eq_dec : EqDecision event.
Proof. solve_decision. Defined.

(** Most recent event first. *)
Abbreviation history := (list event).

(** ** The interface

    Object, program, map, link and ring-buffer pointers are integers; a null
    pointer is [None]. *)
Class Host := {
  os_exists : history -> string -> option bool;
  os_create_directories : history -> string -> bool;
  os_remove : history -> string -> bool;
  os_write_file : history -> string -> string -> bool * bool;
  os_read_file : history -> string -> option string;
  os_stat : history -> string -> option Z;
  os_open : history -> string -> Z -> Z;
  os_ioctl : history -> Z -> string -> Z;
  os_fork : history -> Z;
  os_socket : history -> Z;
  os_connect : history -> Z -> string -> Z;
  os_write : history -> Z -> string -> Z;
  os_read : history -> Z -> Z -> option string;
  os_clock : history -> Z;
  bpf_open_file : history -> string -> option Z;
  bpf_load : history -> Z -> Z;
  bpf_programs : Z -> list Z;
  bpf_program_name : Z -> option string;
  bpf_find_program : Z -> string -> option Z;
  bpf_attach : history -> Z -> string -> option Z;
  bpf_find_map : Z -> string -> option Z;
  bpf_map_fd : Z -> Z;
  bpf_map_update : history -> Z -> Z -> Z -> Z;
  bpf_ring_new : history -> Z -> option Z
}.

(** ** Calls, from any state that carries the history *)
Class HasHistory (S : Type) := {
  history_of : S -> history;
  set_history : history -> S -> S
}.

Class HasHistoryLaws (S : Type) `{HasHistory S} := {
  history_set : forall h (s : S), history_of (set_history h s) = h;
  set_history_set : forall h1 h2 (s : S), set_history h1 (set_history h2 s) = set_history h1 s;
  set_history_id : forall (s : S), set_history (history_of s) s = s
}.

#[global] Instance pair_history C : HasHistory (C * history) :=
  {| history_of := snd; set_history := fun h s => (s.1, h) |}.

#[global] Instance pair_history_laws C : HasHistoryLaws (C * history).
Proof. split; [done|done|by intros []]. Qed.

#[global] Instance pair_mutex C `{HasMutex C} : HasMutex (C * history) :=
  {| mutex_held := fun s => mutex_held s.1;
     set_mutex := fun b s => (set_mutex b s.1, s.2) |}.

Section Calls.
Context {host : Host} {S : Type} `{HasHistory S}.

Definition call {A} (answer : history -> A) (ev : A -> event) : M S A := fun s =>
  let r := answer (history_of s) in
  (Ret r, set_history (ev r :: history_of s) s).

Definition log (ev : event) : M S unit := call (fun _ => tt) (fun _ => ev).

(** [std::filesystem::exists(p)], the throwing overload. *)
Definition fs_exists (p : string) : M S bool :=
  r ← call (fun h => os_exists h p) (EvExists p);
  match r with Some b => mret b | None => throw (filesystem_error p) end.

(** [std::filesystem::remove(p)], the throwing overload. *)
Definition fs_remove (p : string) : M S unit :=
  ok ← call (fun h => os_remove h p) (EvRemove p);
  if (ok : bool) then mret tt else throw (filesystem_error p).

Definition create_directories (p : string) : M S bool :=
  call (fun h => os_create_directories h p) (EvCreateDirectories p).
Definition remove_all (p : string) : M S unit := log (EvRemoveAll p).
Definition sys_read_file (p : string) : M S (option string) :=
  call (fun h => os_read_file h p) (EvReadFile p).
Definition sys_write_file (p v : string) : M S (bool * bool) :=
  call (fun h => os_write_file h p v) (fun r => EvWriteFile p v r.1 r.2).
Definition sys_stat (p : string) : M S (option Z) :=
  call (fun h => os_stat h p) (EvStat p).
Definition sys_open (p : string) (flags : Z) : M S Z :=
  call (fun h => os_open h p flags) (EvOpen p flags).
Definition sys_close (fd : Z) : M S unit := log (EvClose fd).
Definition sys_ioctl_tap (fd : Z) (name : string) : M S Z :=
  call (fun h => os_ioctl h fd name) (EvIoctl fd name).
Definition sys_fork : M S Z := call os_fork EvFork.
Definition sys_kill (pid sig : Z) : M S unit := log (EvKill pid sig).
Definition sys_waitpid (pid : Z) : M S unit := log (EvWaitpid pid).
Definition sleep_ms (ms : Z) : M S unit := log (EvSleep ms).
Definition sys_socket : M S Z := call os_socket EvSocket.
Definition sys_connect (fd : Z) (sun_path : string) : M S Z :=
  call (fun h => os_connect h fd sun_path) (EvConnect fd sun_path).
Definition sys_write (fd : Z) (data : string) : M S Z :=
  call (fun h => os_write h fd data) (EvWrite fd data).
Definition sys_read (fd count : Z) : M S (option string) :=
  call (fun h => os_read h fd count) (EvRead fd count).
Definition clock_now : M S Z := call os_clock EvClock.
Definition print_out (text : string) : M S unit := log (EvStdout text).
Definition print_err (text : string) : M S unit := log (EvStderr text).
End Calls.

(** ** Resources read off the history *)

(** Descriptors opened and not yet closed. *)
Fixpoint open_fds (h : history) : gset Z :=
  match h with
  | [] => ∅
  | EvOpen _ _ fd :: h' | EvSocket fd :: h' =>
      if 0 <=? fd then {[fd]} ∪ open_fds h' else open_fds h'
  | EvClose fd :: h' => open_fds h' ∖ {[fd]}
  | _ :: h' => open_fds h'
  end.

(** Child processes that were forked and to which the program has not sent SIGKILL.  A child
    that has ended by itself is one of them: the program never waits for it otherwise. *)
Fixpoint unkilled_pids (h : history) : gset Z :=
  match h with
  | [] => ∅
  | EvFork pid :: h' => if 0 <? pid then {[pid]} ∪ unkilled_pids h' else unkilled_pids h'
  | EvKill pid 9 :: h' => unkilled_pids h' ∖ {[pid]}
  | _ :: h' => unkilled_pids h'
  end.

(** BPF objects loaded into the kernel and not yet closed. *)
Fixpoint open_objects (h : history) : gset Z :=
  match h with
  | [] => ∅
  | EvObjectOpen _ (Some o) :: h' => {[o]} ∪ open_objects h'
  | EvObjectClose o :: h' => open_objects h' ∖ {[o]}
  | _ :: h' => open_objects h'
  end.

(** The value a BPF hash map holds for a key: that of the last successful
    update, since no modelled call deletes a key. *)
Fixpoint map_value (h : history) (map_fd key : Z) : option Z :=
  match h with
  | [] => None
  | EvMapUpdate fd k v err :: h' =>
      if (fd =? map_fd) && (k =? key) && (err =? 0) then Some v
      else map_value h' map_fd key
  | _ :: h' => map_value h' map_fd key
  end.

(** The keys a BPF map holds; the sources only ever update keys. *)
Fixpoint map_keys (h : history) (map_fd : Z) : gset Z :=
  match h with
  | [] => ∅
  | EvMapUpdate fd k _ err :: h' =>
      if (fd =? map_fd) && (err =? 0) then {[k]} ∪ map_keys h' map_fd
      else map_keys h' map_fd
  | _ :: h' => map_keys h' map_fd
  end.

(** ** Unchanged resources *)
Definition same_maps (h h' : history) : Prop :=
  forall fd k, map_value h' fd k = map_value h fd k.

(** Nothing the process owns has changed: descriptors, children, map entries. *)
Definition quiet (h h' : history) : Prop :=
  open_fds h' = open_fds h /\ unkilled_pids h' = unkilled_pids h /\
  same_maps h h'.

#[global] Instance quiet_refl : Reflexive quiet.
Proof. by intros h. Qed.
#[global] Instance quiet_trans : Transitive quiet.
Proof.
  intros h1 h2 h3 (F1 & P1 & M1) (F2 & P2 & M2). split; [congruence|]. split; [congruence|].
  intros fd k. by rewrite M2, M1.
Qed.

(** ** Histories that grow without closing what was open *)
Definition keeps (h h' : history) : Prop :=
  exists new, h' = new ++ h /\ forall fd, EvClose fd ∈ new -> fd ∉ open_fds h.

Lemma open_fds_app new h fd :
  fd ∈ open_fds h -> EvClose fd ∉ new -> fd ∈ open_fds (new ++ h).
Proof.
  intros Hfd. induction new as [|ev new IH]; simpl; [done|].
  rewrite not_elem_of_cons. intros [Hne Hnew]. specialize (IH Hnew).
  destruct ev; try done; try (destruct (0 <=? _); set_solver).
  rewrite elem_of_difference, elem_of_singleton. split; [done|]. congruence.
Qed.

#[global] Instance keeps_refl : Reflexive keeps.
Proof. intros h. exists []. split; [done|]. intros fd. by rewrite elem_of_nil. Qed.
#[global] Instance keeps_trans : Transitive keeps.
Proof.
  intros h1 h2 h3 (n1 & -> & H1) (n2 & -> & H2). exists (n2 ++ n1). split; [by rewrite app_assoc|].
  intros fd [Hc|Hc]%elem_of_app Hin; [|by apply (H1 fd)]. apply (H2 fd Hc).
  apply open_fds_app; [done|]. intros Hc1. by apply (H1 fd).
Qed.

Lemma keeps_cons h ev : (forall fd, ev <> EvClose fd) -> keeps h (ev :: h).
Proof.
  intros Hev. exists [ev]. split; [done|]. intros fd Hc. apply list_elem_of_singleton in Hc.
  by destruct (Hev fd).
Qed.

(** A computation that closes only descriptors it has opened. *)
Class Tidy {S A} `{HasHistory S} (m : M S A) : Prop :=
  tidy : forall s r s', m s = (r, s') -> keeps (history_of s) (history_of s').

Section TidyInstances.
Context {host : Host} {C : Type}.
Abbreviation S := (C * history)%type.

#[global] Instance tidy_ret {A} (a : A) : Tidy (S := S) (mret a).
Proof. by intros s r s' [= <- <-]. Qed.
#[global] Instance tidy_gets {A} (f : S -> A) : Tidy (gets f).
Proof. by intros s r s' [= <- <-]. Qed.
#[global] Instance tidy_throw {A} e : Tidy (S := S) (throw (A := A) e).
Proof. by intros s r s' [= <- <-]. Qed.
Lemma tidy_bind {A B} (m : M S A) (k : A -> M S B) :
  Tidy m -> (forall a, Tidy (k a)) -> Tidy (m ≫= k).
Proof.
  intros Hm Hk s r s' Hrun. unfold mbind, M_bind in Hrun.
  destruct (m s) as [[a|e| |] s1] eqn:E; simplify_eq; apply Hm in E; try done.
  etrans; [exact E|]. by eapply Hk.
Qed.
Lemma tidy_if {A} (b : bool) (m1 m2 : M S A) :
  Tidy m1 -> Tidy m2 -> Tidy (if b then m1 else m2).
Proof. by destruct b. Qed.
Lemma tidy_option {A B} (o : option B) (f : B -> M S A) (m : M S A) :
  (forall b, Tidy (f b)) -> Tidy m -> Tidy (match o with Some b => f b | None => m end).
Proof. by destruct o. Qed.
Lemma tidy_lock_guard `{HasMutex C} {A} (body : M S A) : Tidy body -> Tidy (lock_guard body).
Proof.
  intros Hb s r s' Hrun. unfold lock_guard in Hrun. destruct (mutex_held s); [by simplify_eq|].
  destruct (body (set_mutex true s)) as [o s1] eqn:E. apply Hb in E. destruct s as [c h].
  destruct o; simplify_eq; exact E.
Qed.

Lemma tidy_call {A} (answer : history -> A) (ev : A -> event) :
  (forall a fd, ev a <> EvClose fd) -> Tidy (S := S) (call answer ev).
Proof. intros Hev s r s' [= <- <-]. by apply keeps_cons. Qed.

#[global] Instance tidy_fs_exists p : Tidy (S := S) (fs_exists p).
Proof. apply tidy_bind; [by apply tidy_call|]. intros [b|]; [apply tidy_ret|apply tidy_throw]. Qed.
#[global] Instance tidy_fs_remove p : Tidy (S := S) (fs_remove p).
Proof. apply tidy_bind; [by apply tidy_call|]. intros [|]; [apply tidy_ret|apply tidy_throw]. Qed.
#[global] Instance tidy_sleep ms : Tidy (S := S) (sleep_ms ms).
Proof. by apply tidy_call. Qed.
#[global] Instance tidy_write_file p v : Tidy (S := S) (sys_write_file p v).
Proof. by apply tidy_call. Qed.
End TidyInstances.

(** [tidy_body] proves [Tidy] of a method body from the instances of the calls it makes. *)
Ltac tidy_body :=
  repeat (intros; cbv zeta; lazymatch goal with
    | |- Tidy (_ ≫= _) => apply tidy_bind
    | |- Tidy (lock_guard _) => apply tidy_lock_guard
    | |- Tidy (match ?x with _ => _ end) => destruct x
    | |- Tidy _ => apply _
    end).

(** ** Resources owned by the entries of a table *)
Section Owned.
Context {A : Type} (f : A -> Z).
Implicit Types (t : gmap string A).

(** The resource [f] of every entry. *)
Definition owned (t : gmap string A) : gset Z := list_to_set (f <$> (map_to_list t).*2).

(** No two entries share one. *)
Definition owned_once (t : gmap string A) : Prop :=
  forall i j a b, t !! i = Some a -> t !! j = Some b -> f a = f b -> i = j.

Lemma elem_of_owned t x : x ∈ owned t <-> exists id a, t !! id = Some a /\ f a = x.
Proof.
  unfold owned. rewrite elem_of_list_to_set, list_elem_of_fmap.
  setoid_rewrite list_elem_of_fmap. split.
  - intros (a & -> & [id a'] & -> & Hin%elem_of_map_to_list). eauto.
  - intros (id & a & Hl & <-). exists a. split; [done|]. exists (id, a).
    split; [done|]. by apply elem_of_map_to_list.
Qed.

Lemma owned_empty : owned ∅ = ∅.
Proof. unfold owned. by rewrite map_to_list_empty. Qed.

Lemma owned_once_empty : owned_once ∅.
Proof. intros i j a b Ha. by rewrite lookup_empty in Ha. Qed.

Lemma owned_insert t id a : t !! id = None -> owned (<[id := a]> t) = {[f a]} ∪ owned t.
Proof.
  intros Hid. apply set_eq. intros x.
  rewrite elem_of_union, elem_of_singleton, !elem_of_owned.
  setoid_rewrite lookup_insert_Some. split.
  - intros (i & b & [[<- <-]|[Hne Hb]] & <-); eauto.
  - intros [->|(i & b & Hb & <-)]; [by eauto 10|].
    exists i, b. split; [|done]. right. split; [congruence|done].
Qed.

Lemma owned_once_insert t id a :
  owned_once t -> f a ∉ owned t -> owned_once (<[id := a]> t).
Proof.
  intros Hinj Hnew i j b c [[<- <-]|[Hi Hb]]%lookup_insert_Some [[<- <-]|[Hj Hc]]%lookup_insert_Some Heq.
  - done.
  - destruct Hnew. apply elem_of_owned. eauto.
  - destruct Hnew. apply elem_of_owned. eauto.
  - by eapply Hinj.
Qed.

Lemma owned_delete t id a :
  owned_once t -> t !! id = Some a -> owned (delete id t) = owned t ∖ {[f a]}.
Proof.
  intros Hinj Hid. apply set_eq. intros x.
  rewrite elem_of_difference, elem_of_singleton, !elem_of_owned.
  setoid_rewrite lookup_delete_Some. split.
  - intros (i & b & [Hne Hb] & <-). split; [by eauto|]. intros Heq. by eapply Hne, Hinj.
  - intros [(i & b & Hb & <-) Hne]. exists i, b. split; [|done]. split; [congruence|done].
Qed.

Lemma owned_once_delete t id : owned_once t -> owned_once (delete id t).
Proof. intros Hinj i j a b [_ Ha]%lookup_delete_Some [_ Hb]%lookup_delete_Some. by apply Hinj. Qed.
End Owned.

(** ** Documented behaviour of the host, as hypotheses *)

(** open(2), socket(2): a new descriptor is not open in the process. *)
Class FreshDescriptors `{Host} := {
  open_fresh : forall h p fl, 0 <= os_open h p fl -> os_open h p fl ∉ open_fds h;
  socket_fresh : forall h, 0 <= os_socket h -> os_socket h ∉ open_fds h
}.

(** fork(2), wait(2): the identifier of a child is not given to another one before the child
    has been waited for, which the program only does after killing it. *)
Class FreshChildren `{Host} := {
  fork_fresh : forall h, 0 < os_fork h -> os_fork h ∉ unkilled_pids h
}.

Lemma map_keys_value h fd k : k ∈ map_keys h fd <-> is_Some (map_value h fd k).
Proof.
  induction h as [|ev h IH].
  - split; [set_solver|by intros [? ?]].
  - destruct ev; cbn [map_keys map_value]; try exact IH.
    destruct (map_fd =? fd), (err =? 0); simpl; rewrite ?andb_true_r, ?andb_false_r; try exact IH.
    rewrite elem_of_union, elem_of_singleton.
    destruct (Z.eqb_spec key k) as [->|Hne]; [split; eauto|].
    rewrite IH. split; [intros [?|?]; congruence|by right].
Qed.

(** ** A concrete machine

    A host on which every call succeeds, with a table of file contents and of
    the maps its BPF object defines; it satisfies the hypotheses above, and the
    witnesses run on it. *)
Definition next_above (X : gset Z) : Z := foldr Z.max 2 (elements X) + 1.

Lemma next_above_fresh X : next_above X ∉ X.
Proof.
  rewrite <- elem_of_elements. unfold next_above. generalize (elements X) as l.
  intros l Hin. assert (H : forall x, x ∈ l -> x <= foldr Z.max 2 l).
  { clear. induction l as [|y l IH]; intros x; [by intros ?%elem_of_nil|].
    rewrite elem_of_cons. intros [->|Hx%IH]; simpl; lia. }
  specialize (H _ Hin). lia.
Qed.

Lemma next_above_pos X : 2 < next_above X.
Proof.
  unfold next_above. assert (2 <= foldr Z.max 2 (elements X)); [|lia].
  induction (elements X); simpl; lia.
Qed.

Fixpoint find_index (n : string) (l : list string) (i : Z) : option Z :=
  match l with
  | [] => None
  | m :: l' => if String.eqb n m then Some i else find_index n l' (i + 1)
  end.

Definition sample_host (files : string -> option string) (maps : list string) : Host := {|
  os_exists h p := Some true;
  os_create_directories h p := true;
  os_remove h p := true;
  os_write_file h p v := (true, true);
  os_read_file h p := files p;
  os_stat h p := Some 4242;
  os_open h p fl := next_above (open_fds h);
  os_ioctl h fd name := 0;
  os_fork h := next_above (unkilled_pids h);
  os_socket h := next_above (open_fds h);
  os_connect h fd p := 0;
  os_write h fd data := Z.of_nat (String.length data);
  os_read h fd n := Some "HTTP/1.1 204 No Content";
  os_clock h := Z.of_nat (length h);
  bpf_open_file h p := Some (Z.of_nat (length h) + 1);
  bpf_load h o := 0;
  bpf_programs o := [1];
  bpf_program_name p := Some "handle_sys_enter";
  bpf_find_program o n := if String.eqb n "handle_sys_enter" then Some 1 else None;
  bpf_attach h p t := Some (Z.of_nat (length h) + 1);
  bpf_find_map o n := find_index n maps 100;
  bpf_map_fd m := m;
  bpf_map_update h fd k v := 0;
  bpf_ring_new h fd := Some 1
|}.

#[global] Instance sample_host_fresh files maps : FreshDescriptors (H := sample_host files maps).
Proof. split; intros; apply next_above_fresh. Qed.

#[global] Instance sample_host_children files maps : FreshChildren (H := sample_host files maps).
Proof. split; intros; apply next_above_fresh. Qed.
