(* ===== verification/Aegis.v ===== *)
(** * Aegis: include/aegis/aegis.hpp

    Status codes, runtime environments, sandbox states and metadata, the
    exception class and the version.  Times are nanosecond counts of the
    clock they are read from; [boot_time_ms] is kept as the number of
    nanoseconds the [double] millisecond count is computed from. *)
From S2P Require Import Prelude Text.

Inductive Status : Type :=
| Success
| ErrMicroVMBootFailed
| ErrSnapshotRestoreFailed
| ErrEBPFProbeLoadFailed
| ErrSyscallBlocked
| ErrNetworkEgressBlocked
| ErrAgentExecutionTimeout
| ErrPolicyViolation
| ErrCgroupQuotaExceeded
| ErrInvalidSandboxID
| ErrTAPInterfaceCreationFailed
| ErrUnknown.

#[global] Instance Status_eq_dec : EqDecision Status.
Proof. solve_decision. Defined.

(** The underlying [uint32_t] of an enumerator. *)
Definition status_code (s : Status) : Z :=
  match s with
  | Success => 0
  | ErrMicroVMBootFailed => 1
  | ErrSnapshotRestoreFailed => 2
  | ErrEBPFProbeLoadFailed => 3
  | ErrSyscallBlocked => 4
  | ErrNetworkEgressBlocked => 5
  | ErrAgentExecutionTimeout => 6
  | ErrPolicyViolation => 7
  | ErrCgroupQuotaExceeded => 8
  | ErrInvalidSandboxID => 9
  | ErrTAPInterfaceCreationFailed => 10
  | ErrUnknown => 999
  end.

Definition status_to_string (status : Status) : string :=
  match status with
  | Success => "Success"
  | ErrMicroVMBootFailed => "Error: Firecracker MicroVM Boot Failed"
  | ErrSnapshotRestoreFailed => "Error: MicroVM Memory Snapshot Restore Failed"
  | ErrEBPFProbeLoadFailed => "Error: eBPF Kernel Probe Loading Failed"
  | ErrSyscallBlocked => "Security Alert: Syscall Blocked by eBPF Policy"
  | ErrNetworkEgressBlocked => "Security Alert: Network Egress Blocked by eBPF Policy"
  | ErrAgentExecutionTimeout => "Error: Agent Execution Timeout Reached"
  | ErrPolicyViolation => "Error: Security Policy Constraints Violated"
  | ErrCgroupQuotaExceeded => "Error: Cgroups v2 Resource Quota Exceeded"
  | ErrInvalidSandboxID => "Error: Invalid or Non-Existent Sandbox ID"
  | ErrTAPInterfaceCreationFailed => "Error: TAP Network Interface Creation Failed"
  | ErrUnknown => "Error: Unknown Runtime Failure"
  end.

Record AegisException := { m_status : Status; m_message : string }.

Definition make_AegisException (status : Status) (message : string) : AegisException :=
  {| m_status := status;
     m_message := "[AEGIS-" +:+ format_int (status_code status) +:+ "] " +:+ message |}.

Definition exception_what (e : AegisException) : string := m_message e.
Definition exception_status (e : AegisException) : Status := m_status e.

Inductive RuntimeEnvironment : Type := Unspecified | Python311 | Bash | NodeJS.

Inductive SandboxState : Type :=
| Initializing | Prewarmed | Running | Terminating | Terminated | Violated.

#[global] Instance RuntimeEnvironment_eq_dec : EqDecision RuntimeEnvironment.
Proof. solve_decision. Defined.
#[global] Instance SandboxState_eq_dec : EqDecision SandboxState.
Proof. solve_decision. Defined.

Record SandboxMetadata := {
  md_sandbox_id : string;
  md_environment : RuntimeEnvironment;
  md_state : SandboxState;
  md_vcpus : Z;
  md_memory_mb : Z;
  md_vram_mb : Z;
  md_boot_time_ms : Z;
  md_guest_ip : string;
  md_tap_device_name : string;
  md_created_at : Z
}.

(** [SandboxMetadata{}]: the member initialisers, [created_at] read from the clock. *)
Definition default_metadata (now : Z) : SandboxMetadata :=
  {| md_sandbox_id := ""; md_environment := Unspecified; md_state := Initializing;
     md_vcpus := 1; md_memory_mb := 512; md_vram_mb := 0; md_boot_time_ms := 0;
     md_guest_ip := ""; md_tap_device_name := ""; md_created_at := now |}.

Record Version := { major : Z; minor : Z; patch : Z }.

Definition version_to_string (v : Version) : string :=
  format_int (major v) +:+ "." +:+ format_int (minor v) +:+ "." +:+ format_int (patch v).

Definition AEGIS_VERSION_STRING : string := "0.1.0".
Definition get_version : Version := {| major := 0; minor := 1; patch := 0 |}.

(** ** Properties *)
Lemma status_code_inj s1 s2 : status_code s1 = status_code s2 -> s1 = s2.
Proof. by destruct s1, s2. Qed.

Lemma status_to_string_inj s1 s2 : status_to_string s1 = status_to_string s2 -> s1 = s2.
Proof. by destruct s1, s2. Qed.

Example version_string_agrees : version_to_string get_version = AEGIS_VERSION_STRING.
Proof. reflexivity. Qed.
