(* ===== verification/Regex.v ===== *)
(** * Regex: the part of [std::regex] that the policy loader uses

    The expressions of [PolicyEngine::load_from_yaml] are sequences of
    literals, optional characters, repeated character classes and one capture
    group.  The matcher backtracks the way ECMAScript requires: repetitions
    are greedy, alternatives are tried in order, and a search returns the
    first match of the leftmost position. *)
From S2P Require Import Prelude Text.
From Stdlib Require Import Ascii.

Inductive ritem : Type :=
| RChar (c : ascii)                  (* c *)
| ROpt (c : ascii)                   (* c? *)
| RStar (cls : ascii -> bool)        (* [cls]* *)
| RPlusCap (cls : ascii -> bool)     (* ([cls]+) *)
| RAltCap (alts : list string).      (* (a|b|..) *)

Abbreviation regex := (list ritem).

(** A literal word. *)
Fixpoint rlit (s : string) : list ritem :=
  match s with
  | EmptyString => []
  | String c s' => RChar c :: rlit s'
  end.

(** [strip p s]: what follows the prefix [p] of [s]. *)
Fixpoint strip (p s : string) : option string :=
  match p, s with
  | EmptyString, _ => Some s
  | String c p', String d s' => if Ascii.eqb c d then strip p' s' else None
  | _, _ => None
  end.

(** [rmatch r s]: match [r] at the start of [s]; the captured groups and the
    rest of the input. *)
Fixpoint rmatch (r : regex) (s : string) {struct r} : option (list string * string) :=
  match r with
  | [] => Some ([], s)
  | RChar c :: r' =>
      match s with
      | String d s' => if Ascii.eqb c d then rmatch r' s' else None
      | EmptyString => None
      end
  | ROpt c :: r' =>
      match s with
      | String d s' =>
          if Ascii.eqb c d then
            match rmatch r' s' with Some m => Some m | None => rmatch r' s end
          else rmatch r' s
      | EmptyString => rmatch r' s
      end
  | RStar cls :: r' =>
      (fix star (s : string) : option (list string * string) :=
         match s with
         | String d s' =>
             if cls d then
               match star s' with Some m => Some m | None => rmatch r' s end
             else rmatch r' s
         | EmptyString => rmatch r' s
         end) s
  | RPlusCap cls :: r' =>
      let close (cap s : string) :=
        match rmatch r' s with Some (cs, rest) => Some (cap :: cs, rest) | None => None end in
      (fix plus (cap s : string) : option (list string * string) :=
         match s with
         | String d s' =>
             if cls d then
               let cap' := cap +:+ String d "" in
               match plus cap' s' with Some m => Some m | None => close cap' s' end
             else None
         | EmptyString => None
         end) "" s
  | RAltCap alts :: r' =>
      (fix try (alts : list string) : option (list string * string) :=
         match alts with
         | [] => None
         | a :: alts' =>
             match strip a s with
             | Some s' =>
                 match rmatch r' s' with
                 | Some (cs, rest) => Some (a :: cs, rest)
                 | None => try alts'
                 end
             | None => try alts'
             end
         end) alts
  end.

(** [std::regex_search]: the groups of the first match, and what follows it. *)
Fixpoint regex_search (r : regex) (s : string) : option (list string * string) :=
  match rmatch r s with
  | Some m => Some m
  | None =>
      match s with
      | String _ s' => regex_search r s'
      | EmptyString => None
      end
  end.

(** [match[1].str()]. *)
Definition group1 (m : list string * string) : string := default "" (head m.1).

Lemma group1_single x rest : group1 ([x], rest) = x.
Proof. done. Qed.

(** The first groups of the matches of a [sregex_iterator]; [fuel] bounds their
    number, and [length s] of it is enough when every match is non-empty
    ([sregex_tokens_fuel]). *)
Fixpoint regex_iter (fuel : nat) (r : regex) (s : string) : list string :=
  match fuel with
  | O => []
  | S fuel' =>
      match regex_search r s with
      | Some m => group1 m :: regex_iter fuel' r m.2
      | None => []
      end
  end.

Definition sregex_tokens (r : regex) (s : string) : list string :=
  regex_iter (String.length s) r s.

(** ** Matching lemmas *)

(** [min_length r]: a match of [r] has at least this many characters. *)
Definition item_min (i : ritem) : nat :=
  match i with RChar _ | RPlusCap _ => 1 | _ => 0 end.

Fixpoint min_length (r : regex) : nat :=
  match r with [] => 0 | i :: r' => item_min i + min_length r' end.

Lemma strip_length p s t : strip p s = Some t -> (String.length t <= String.length s)%nat.
Proof.
  revert s. induction p as [|c p IH]; intros [|d s]; cbn [strip]; intros H; try by simplify_eq/=.
  destruct (Ascii.eqb c d); [|done]. apply IH in H. simpl. lia.
Qed.

Lemma rmatch_length r s m :
  rmatch r s = Some m -> (String.length m.2 + min_length r <= String.length s)%nat.
Proof.
  revert s m. induction r as [|i r IH]; intros s m; simpl.
  { intros [= <-]. simpl. lia. }
  destruct i as [c|c|cls|cls|alts]; simpl.
  - destruct s as [|d s]; [done|]. case_match; [|done]. intros ?%IH. simpl. lia.
  - destruct s as [|d s]; [apply IH|].
    repeat case_match; simplify_eq/=; intros; simplify_eq/=;
      repeat match goal with H : rmatch r _ = Some _ |- _ => apply IH in H end; simpl in *; lia.
  - induction s as [|d s IHs]; [apply IH|].
    destruct (cls d); [|apply IH].
    match goal with |- match ?e with _ => _ end = _ -> _ => destruct e eqn:He end; [|apply IH].
    intros [= ->]. specialize (IHs eq_refl). simpl. lia.
  - match goal with |- ?f _ s = _ -> ?G =>
      enough (Hcap : forall cap, f cap s = Some m -> G) by apply Hcap end.
    induction s as [|d s IHs]; intros cap; [done|].
    destruct (cls d); [|done].
    match goal with |- match ?e with _ => _ end = _ -> _ => destruct e eqn:He end.
    + intros [= ->]. apply IHs in He. simpl. lia.
    + destruct (rmatch r s) as [[cs rest]|] eqn:Hr; [|done]. intros [= <-].
      apply IH in Hr. simpl in *. lia.
  - induction alts as [|a alts IHa]; [done|].
    destruct (strip a s) as [t|] eqn:Ht; [|exact IHa].
    destruct (rmatch r t) as [[cs rest]|] eqn:Hr; [|exact IHa]. intros [= <-].
    apply IH in Hr. apply strip_length in Ht. simpl in *. lia.
Qed.

Lemma regex_search_length r s m :
  regex_search r s = Some m -> (String.length m.2 + min_length r <= String.length s)%nat.
Proof.
  induction s as [|c s IH]; cbn [regex_search]; destruct (rmatch r _) as [m'|] eqn:Hm;
    intros H; simplify_eq; try (by apply rmatch_length in Hm).
  apply IH in H. simpl. lia.
Qed.

(** An expression without empty matches has at most [length s] matches in [s],
    so the fuel of [sregex_tokens] never cuts them off. *)
Lemma sregex_tokens_fuel r s fuel :
  (0 < min_length r)%nat -> (String.length s <= fuel)%nat ->
  regex_iter fuel r s = sregex_tokens r s.
Proof.
  intros Hr. unfold sregex_tokens.
  assert (Hgen : forall n k t, (String.length t <= n)%nat -> (String.length t <= k)%nat ->
    regex_iter n r t = regex_iter k r t).
  { induction n as [|n IH]; intros [|k] t Hn Hk; cbn [regex_iter]; try done.
    - destruct (regex_search r t) eqn:Hs; [apply regex_search_length in Hs; lia|done].
    - destruct (regex_search r t) eqn:Hs; [apply regex_search_length in Hs; lia|done].
    - destruct (regex_search r t) as [m|] eqn:Hs; [|done]. apply regex_search_length in Hs.
      f_equal. apply IH; lia. }
  intros Hf. apply Hgen; lia.
Qed.

(** [starts cls s]: the first character exists and is in the class. *)
Definition starts (cls : ascii -> bool) (s : string) : bool :=
  match s with String c _ => cls c | EmptyString => false end.

Lemma rmatch_lit kw r s : rmatch (rlit kw ++ r) (kw +:+ s) = rmatch r s.
Proof. induction kw as [|c kw IH]; simpl; [done|]. by rewrite Ascii.eqb_refl. Qed.

Lemma rmatch_lit_inv kw r s m :
  rmatch (rlit kw ++ r) s = Some m -> exists t, s = kw +:+ t /\ rmatch r t = Some m.
Proof.
  revert s. induction kw as [|c kw IH]; intros s; simpl; [by exists s|].
  destruct s as [|d s]; [done|]. destruct (Ascii.eqb_spec c d) as [->|]; [|done].
  intros (t & -> & Ht)%IH. by exists t.
Qed.

Lemma rmatch_star_none cls r s :
  starts cls s = false -> rmatch (RStar cls :: r) s = rmatch r s.
Proof. destruct s as [|c s]; simpl; [done|]. by intros ->. Qed.

Lemma rmatch_star_one cls r c s m :
  cls c = true -> rmatch (RStar cls :: r) s = Some m ->
  rmatch (RStar cls :: r) (String c s) = Some m.
Proof.
  intros Hc Hs. cbn [rmatch]. rewrite Hc.
  change (rmatch (RStar cls :: r) s) with
    ((fix star (s : string) : option (list string * string) :=
        match s with
        | String d s' =>
            if cls d then match star s' with Some m => Some m | None => rmatch r s end
            else rmatch r s
        | EmptyString => rmatch r s
        end) s) in Hs.
  by rewrite Hs.
Qed.

Lemma rmatch_opt_hit c r s m :
  rmatch r s = Some m -> rmatch (ROpt c :: r) (String c s) = Some m.
Proof. intros H. cbn [rmatch]. by rewrite Ascii.eqb_refl, H. Qed.

(** A greedy capture takes the whole run [w] when the rest of the expression
    matches after it. *)
Lemma rmatch_plus cls r w s cs rest :
  w <> "" -> str_all cls w = true -> starts cls s = false ->
  rmatch r s = Some (cs, rest) ->
  rmatch (RPlusCap cls :: r) (w +:+ s) = Some (w :: cs, rest).
Proof.
  intros Hw Hall Hs Hr. cbn [rmatch].
  match goal with |- ?f "" _ = _ => set (plus := f) end.
  cut (forall w cap, w <> "" -> str_all cls w = true ->
         plus cap (w +:+ s) = Some ((cap +:+ w) :: cs, rest)).
  { intros H. by rewrite (H w "" Hw Hall). }
  clear w Hw Hall. intros w. induction w as [|c w IH]; intros cap Hw Hall; [done|].
  cbn [str_all] in Hall. apply andb_true_iff in Hall as [Hc Hall].
  simpl String.append. cbn [plus]. subst plus. cbn beta iota. rewrite Hc.
  destruct w as [|d w].
  - simpl. destruct s as [|x s]; simpl in *; [by rewrite Hr|]. by rewrite Hs, Hr.
  - rewrite IH by done. by rewrite str_app_assoc.
Qed.

(** ** Search lemmas *)
Lemma search_hit r s m : rmatch r s = Some m -> regex_search r s = Some m.
Proof. destruct s; cbn [regex_search]; by intros ->. Qed.

Lemma search_skip_char r c s :
  rmatch r (String c s) = None -> regex_search r (String c s) = regex_search r s.
Proof. cbn [regex_search]. by intros ->. Qed.

Lemma search_skip r a b :
  (forall a1 c a2, a = a1 +:+ String c a2 -> rmatch r (String c a2 +:+ b) = None) ->
  regex_search r (a +:+ b) = regex_search r b.
Proof.
  induction a as [|c a IH]; intros H; [done|].
  change (String c a +:+ b) with (String c (a +:+ b)).
  rewrite search_skip_char by exact (H "" c a eq_refl).
  apply IH. intros a1 d a2 ->. by apply (H (String c a1)).
Qed.

(** [clashes kw s]: [kw] and [s] differ before either of them ends. *)
Fixpoint clashes (kw s : string) : bool :=
  match kw, s with
  | String c kw', String d s' => if Ascii.eqb c d then clashes kw' s' else true
  | _, _ => false
  end.

Fixpoint all_clash (kw a : string) : bool :=
  match a with
  | EmptyString => true
  | String _ a' => clashes kw a && all_clash kw a'
  end.

Lemma clashes_no_match kw r a b :
  clashes kw a = true -> rmatch (rlit kw ++ r) (a +:+ b) = None.
Proof.
  revert a. induction kw as [|c kw IH]; intros [|d a]; simpl; try done.
  destruct (Ascii.eqb c d); [apply IH|done].
Qed.

Lemma search_skip_clash kw r a b :
  all_clash kw a = true ->
  regex_search (rlit kw ++ r) (a +:+ b) = regex_search (rlit kw ++ r) b.
Proof.
  induction a as [|c a IH]; cbn [all_clash]; [done|].
  intros [H1 H2]%andb_true_iff. change (String c a +:+ b) with (String c (a +:+ b)).
  rewrite search_skip_char; [by apply IH|]. exact (clashes_no_match kw r (String c a) b H1).
Qed.

(** A match consumes a required character. *)
Lemma rmatch_needs_char c r s m :
  RChar c ∈ r -> rmatch r s = Some m -> str_mem c s = true.
Proof.
  revert s m. induction r as [|it r IH]; intros s m Hin; [by apply elem_of_nil in Hin|].
  apply elem_of_cons in Hin as [<-|Hin].
  { destruct s as [|d s]; cbn [rmatch str_mem]; [done|].
    destruct (Ascii.eqb_spec c d); done. }
  assert (IH' : forall s m, rmatch r s = Some m -> str_mem c s = true) by eauto. clear IH.
  destruct it as [d|d|cls|cls|alts]; cbn [rmatch].
  - destruct s as [|x s]; [done|]. destruct (Ascii.eqb d x); [|done].
    intros H%IH'. cbn [str_mem]. by rewrite H, orb_true_r.
  - destruct s as [|x s]; [apply IH'|]. destruct (Ascii.eqb d x); [|apply IH'].
    destruct (rmatch r s) eqn:E; [|apply IH'].
    intros _. apply IH' in E. cbn [str_mem]. by rewrite E, orb_true_r.
  - induction s as [|x s IHs]; [apply IH'|]. destruct (cls x); [|apply IH'].
    match goal with |- context [match ?X with _ => _ end] => destruct X eqn:E end; [|apply IH'].
    intros H. cbn [str_mem]. by rewrite IHs, orb_true_r.
  - match goal with |- ?f "" _ = _ -> _ =>
      cut (forall s cap m, f cap s = Some m -> str_mem c s = true); [eauto|] end.
    clear s m. intros s. induction s as [|x s IHs]; intros cap m; [done|].
    destruct (cls x); [|done].
    match goal with |- context [match ?X with _ => _ end] => destruct X eqn:E end.
    + intros _. apply IHs in E. cbn [str_mem]. by rewrite E, orb_true_r.
    + destruct (rmatch r s) eqn:E'; [|done]. intros _. apply IH' in E'. cbn [str_mem].
      by rewrite E', orb_true_r.
  - induction alts as [|a alts IHa]; [done|].
    assert (Hstrip : forall t, strip a s = Some t -> s = a +:+ t).
    { clear. revert s. induction a as [|y a IHa]; intros s t; simpl; [congruence|].
      destruct s as [|x s]; [done|]. destruct (Ascii.eqb_spec y x) as [->|]; [|done].
      intros ->%IHa. done. }
    destruct (strip a s) as [t|]; [|exact IHa]. specialize (Hstrip t eq_refl).
    destruct (rmatch r t) as [[cs rest]|] eqn:E; [|exact IHa].
    intros _. apply IH' in E. by rewrite Hstrip, str_mem_app, E, orb_true_r.
Qed.

Lemma search_needs_char c r s :
  RChar c ∈ r -> str_mem c s = false -> regex_search r s = None.
Proof.
  intros Hin. induction s as [|d s IH]; intros Hc; cbn [regex_search].
  - destruct (rmatch r "") eqn:E; [|done]. by apply (rmatch_needs_char c) in E.
  - destruct (rmatch r (String d s)) eqn:E; [apply (rmatch_needs_char c) in E; congruence|].
    apply IH. cbn [str_mem] in Hc. by apply orb_false_iff in Hc as [_ ?].
Qed.
