(* ===== verification/PolicyEngine.v ===== *)
(** * PolicyEngine: src/policy/policy_engine.cpp, include/aegis/policy/policy_engine.hpp

    The registry of security policies, the system-call name table and the two
    evaluators.  The loader of policy files is in PolicyYaml.v. *)
From S2P Require Import Prelude Text Host Aegis Regex.
From Stdlib Require Import Ascii.

(** ** Data *)
Record SyscallPolicyRule := {
  allowed_syscalls : gset Z;
  blocked_syscalls : gset Z;
  default_allow : bool
}.

Record NetworkPolicyRule := {
  block_all_egress : bool;
  block_cloud_metadata : bool;
  blocked_cidrs : list string;
  blocked_ips_network_order : list Z
}.

Record SecurityPolicy := {
  policy_name : string;
  syscall_rule : SyscallPolicyRule;
  network_rule : NetworkPolicyRule;
  max_execution_time_sec : Z
}.

(** [SecurityPolicy{}]: the member initialisers. *)
Definition default_policy : SecurityPolicy :=
  {| policy_name := "";
     syscall_rule := {| allowed_syscalls := ∅; blocked_syscalls := ∅; default_allow := false |};
     network_rule := {| block_all_egress := false; block_cloud_metadata := true;
                        blocked_cidrs := []; blocked_ips_network_order := [] |};
     max_execution_time_sec := 30 |}.

(** The initialiser list of [s_syscall_name_map]. *)
Definition syscall_name_table : list (string * Z) := [
  ("read", 0); ("write", 1); ("open", 2); ("close", 3); ("stat", 4); ("fstat", 5);
  ("lstat", 6); ("poll", 7); ("lseek", 8); ("mmap", 9); ("mprotect", 10); ("munmap", 11);
  ("brk", 12); ("rt_sigaction", 13); ("rt_sigprocmask", 14); ("rt_sigreturn", 15);
  ("ioctl", 16); ("pread64", 17); ("pwrite64", 18); ("readv", 19); ("writev", 20);
  ("access", 21); ("pipe", 22); ("select", 23); ("sched_yield", 24); ("mremap", 25);
  ("msync", 26); ("mincore", 27); ("madvise", 28); ("dup", 32); ("dup2", 33);
  ("pause", 34); ("nanosleep", 35); ("getpid", 39); ("sendfile", 40); ("socket", 41);
  ("connect", 42); ("accept", 43); ("sendto", 44); ("recvfrom", 45); ("sendmsg", 46);
  ("recvmsg", 47); ("shutdown", 48); ("bind", 49); ("listen", 50); ("getsockname", 51);
  ("getpeername", 52); ("socketpair", 53); ("setsockopt", 54); ("getsockopt", 55);
  ("clone", 56); ("fork", 57); ("vfork", 58); ("execve", 59); ("exit", 60); ("wait4", 61);
  ("kill", 62); ("uname", 63); ("fcntl", 72); ("flock", 73); ("fsync", 74);
  ("fdatasync", 75); ("getcwd", 79); ("chdir", 80); ("mkdir", 83); ("rmdir", 84);
  ("unlink", 87); ("chmod", 90); ("fchmod", 91); ("chown", 92); ("gettimeofday", 96);
  ("getrlimit", 97); ("getrusage", 98); ("sysinfo", 99); ("ptrace", 101); ("getuid", 102);
  ("getgid", 104); ("setuid", 105); ("setgid", 106); ("geteuid", 107); ("getegid", 108);
  ("sigaltstack", 131); ("statfs", 137); ("fstatfs", 138); ("prctl", 157);
  ("arch_prctl", 158); ("setrlimit", 160); ("chroot", 161); ("sync", 162); ("reboot", 169);
  ("init_module", 175); ("delete_module", 176); ("gettid", 186); ("futex", 202);
  ("sched_setaffinity", 203); ("sched_getaffinity", 204); ("epoll_create", 213);
  ("epoll_ctl", 233); ("epoll_wait", 232); ("set_tid_address", 218);
  ("clock_gettime", 228); ("clock_getres", 229); ("clock_nanosleep", 230);
  ("exit_group", 231); ("tgkill", 234); ("openat", 257); ("mkdirat", 258);
  ("mknodat", 259); ("fchownat", 260); ("fstatat", 262); ("unlinkat", 263);
  ("renameat", 264); ("fchmodat", 268); ("faccessat", 269); ("pselect6", 270);
  ("ppoll", 271); ("unshare", 272); ("splice", 275); ("epoll_pwait", 281);
  ("timerfd_create", 283); ("eventfd", 284); ("fallocate", 285); ("timerfd_settime", 286);
  ("accept4", 288); ("signalfd4", 289); ("eventfd2", 290); ("epoll_create1", 291);
  ("dup3", 292); ("pipe2", 293); ("inotify_init1", 294); ("preadv", 295); ("pwritev", 296);
  ("prlimit64", 302); ("name_to_handle_at", 303); ("open_by_handle_at", 304);
  ("getrandom", 318); ("memfd_create", 319); ("bpf", 321); ("execveat", 322);
  ("userfaultfd", 323); ("copy_file_range", 326); ("statx", 332); ("io_uring_setup", 425);
  ("io_uring_enter", 426); ("io_uring_register", 427); ("openat2", 437);
  ("faccessat2", 439); ("epoll_pwait2", 441); ("landlock_create_ruleset", 444);
  ("landlock_restrict_self", 445)
].

Definition s_syscall_name_map : gmap string Z := list_to_map syscall_name_table.

Record PolicyEngine := {
  pe_mutex : bool;
  m_policies : gmap string SecurityPolicy
}.

#[global] Instance PolicyEngine_mutex : HasMutex PolicyEngine :=
  {| mutex_held := pe_mutex;
     set_mutex := fun b e => {| pe_mutex := b; m_policies := m_policies e |} |}.

Definition set_policies (f : gmap string SecurityPolicy -> gmap string SecurityPolicy)
    (e : PolicyEngine) : PolicyEngine :=
  {| pe_mutex := pe_mutex e; m_policies := f (m_policies e) |}.

(** Operations of the engine, which also sees the host. *)
Abbreviation PE := (PolicyEngine * history)%type.
Definition modify_policies (f : gmap string SecurityPolicy -> gmap string SecurityPolicy) : M PE unit :=
  modify (fun s => (set_policies f s.1, s.2)).

(** [inet_addr] on the dotted quad [a.b.c.d], as the [uint32_t] of a little-endian
    host whose bytes in memory are [a b c d]. *)
Definition inet_addr (a b c d : Z) : Z :=
  a + Z.shiftl b 8 + Z.shiftl c 16 + Z.shiftl d 24.

Definition metadata_ip : Z := inet_addr 169 254 169 254.

(** ** Operations *)
Definition resolve_syscall_name (syscall_name : string) : option Z :=
  s_syscall_name_map !! syscall_name.

(** The loops that insert the resolved names of a list into a set. *)
Definition insert_resolved (names : list string) (acc : gset Z) : gset Z :=
  fold_left (fun acc sys_name =>
    match resolve_syscall_name sys_name with
    | Some sys_nr => {[sys_nr]} ∪ acc
    | None => acc
    end) names acc.

Definition register_policy (policy : SecurityPolicy) : M PE Status :=
  lock_guard (
    modify_policies <[policy_name policy := policy]> ;;
    mret Success).

Definition strict_python_allowed : list string := [
  "read"; "write"; "openat"; "close"; "fstat"; "mmap"; "mprotect"; "munmap"; "brk";
  "rt_sigaction"; "rt_sigprocmask"; "ioctl"; "access"; "futex"; "exit_group";
  "epoll_create1"; "epoll_ctl"; "epoll_wait"; "getrandom"; "statx"; "fcntl"; "getcwd";
  "getuid"; "getgid"; "geteuid"; "getegid"; "gettid"; "lseek"
].

Definition strict_python_blocked : list string := [
  "ptrace"; "bpf"; "init_module"; "delete_module"; "kexec_load"; "pivot_root";
  "reboot"; "chroot"; "sysfs"; "iopl"; "ioperm"
].

Definition strict_python_policy : SecurityPolicy :=
  {| policy_name := "strict_python";
     syscall_rule := {| allowed_syscalls := insert_resolved strict_python_allowed ∅;
                        blocked_syscalls := insert_resolved strict_python_blocked ∅;
                        default_allow := false |};
     network_rule := {| block_all_egress := false; block_cloud_metadata := true;
                        blocked_cidrs := []; blocked_ips_network_order := [] |};
     max_execution_time_sec := 15 |}.

Definition register_default_strict_python_policy : M PE Status :=
  register_policy strict_python_policy.

(** The constructor, run on the empty registry. *)
Definition PolicyEngine_init : PolicyEngine := {| pe_mutex := false; m_policies := ∅ |}.
Definition make_PolicyEngine : PolicyEngine :=
  (register_default_strict_python_policy (PolicyEngine_init, [])).2.1.

Definition load_from_json (json_str : string) : M PE Status :=
  register_policy
    {| policy_name := "json_imported_policy";
       syscall_rule := syscall_rule default_policy;
       network_rule := {| block_all_egress := block_all_egress (network_rule default_policy);
                          block_cloud_metadata := true;
                          blocked_cidrs := blocked_cidrs (network_rule default_policy);
                          blocked_ips_network_order :=
                            blocked_ips_network_order (network_rule default_policy) |};
       max_execution_time_sec := max_execution_time_sec default_policy |}.

(** The decision of [eval_syscall] on the rule of a known policy. *)
Definition syscall_rule_allows (rule : SyscallPolicyRule) (syscall_nr : Z) : bool :=
  if bool_decide (syscall_nr ∈ blocked_syscalls rule) then false
  else if bool_decide (syscall_nr ∈ allowed_syscalls rule) then true
  else default_allow rule.

Definition eval_syscall (name : string) (syscall_nr : Z) : M PE bool :=
  lock_guard (
    policies ← gets (fun s => m_policies s.1);
    match policies !! name with
    | None => mret false
    | Some policy => mret (syscall_rule_allows (syscall_rule policy) syscall_nr)
    end).

(** The loop over [blocked_ips_network_order]. *)
Fixpoint ip_listed (ip : Z) (l : list Z) : bool :=
  match l with
  | [] => false
  | blocked_ip :: l' => if ip =? blocked_ip then true else ip_listed ip l'
  end.

Definition network_rule_allows (net_rule : NetworkPolicyRule) (ipv4_network_order : Z) : bool :=
  if block_all_egress net_rule then false
  else if block_cloud_metadata net_rule && (ipv4_network_order =? metadata_ip) then false
  else if ip_listed ipv4_network_order (blocked_ips_network_order net_rule) then false
  else true.

Definition eval_network_egress (name : string) (ipv4_network_order : Z) : M PE bool :=
  lock_guard (
    policies ← gets (fun s => m_policies s.1);
    match policies !! name with
    | None => mret false
    | Some policy => mret (network_rule_allows (network_rule policy) ipv4_network_order)
    end).

Definition get_policy (name : string) : M PE (option SecurityPolicy) :=
  lock_guard (gets (fun s => m_policies s.1 !! name)).

(** ** Lemmas on the table *)
Lemma syscall_names_NoDup : NoDup syscall_name_table.*1.
Proof. decide_by_vm. Qed.

Lemma syscall_numbers_NoDup : NoDup syscall_name_table.*2.
Proof. decide_by_vm. Qed.

Lemma resolve_in_table name nr :
  resolve_syscall_name name = Some nr <-> (name, nr) ∈ syscall_name_table.
Proof. symmetry. apply elem_of_list_to_map, syscall_names_NoDup. Qed.

Lemma table_range name nr : (name, nr) ∈ syscall_name_table -> 0 <= nr < 512.
Proof.
  assert (H : Forall (fun kv => 0 <= kv.2 < 512) syscall_name_table).
  { decide_by_vm. }
  rewrite Forall_forall in H. intros Hin. exact (H _ Hin).
Qed.

Lemma resolve_inj n1 n2 nr :
  resolve_syscall_name n1 = Some nr -> resolve_syscall_name n2 = Some nr -> n1 = n2.
Proof.
  rewrite !resolve_in_table. intros H1 H2.
  apply list_elem_of_lookup in H1 as [i Hi], H2 as [j Hj].
  assert (i = j) as ->; [|congruence].
  eapply NoDup_lookup; [exact syscall_numbers_NoDup|..];
    rewrite list_lookup_fmap; [by rewrite Hi|by rewrite Hj].
Qed.

#[global] Opaque s_syscall_name_map.

Lemma elem_of_insert_resolved nr names acc :
  nr ∈ insert_resolved names acc <->
  nr ∈ acc \/ exists n, n ∈ names /\ resolve_syscall_name n = Some nr.
Proof.
  unfold insert_resolved. generalize resolve_syscall_name as resolve. intros resolve.
  revert acc. induction names as [|n names IH]; intros acc; simpl.
  - split; [auto|]. intros [?|(n & Hn & _)]; [assumption|]. by apply elem_of_nil in Hn.
  - rewrite IH. setoid_rewrite elem_of_cons.
    destruct (resolve n) as [k|] eqn:E; [rewrite elem_of_union, elem_of_singleton|]; naive_solver.
Qed.

(** ** The lock is released: reading operations leave the engine as it was *)
Lemma engine_unlock_id (e : PolicyEngine) :
  pe_mutex e = false -> {| pe_mutex := false; m_policies := m_policies e |} = e.
Proof. destruct e as [[] ?]; [done|reflexivity]. Qed.

Lemma eval_syscall_run e h name nr :
  pe_mutex e = false ->
  eval_syscall name nr (e, h) =
  (Ret (match m_policies e !! name with
        | Some p => syscall_rule_allows (syscall_rule p) nr
        | None => false
        end), (e, h)).
Proof.
  intros He. unfold eval_syscall. munfold. simpl. rewrite He.
  destruct (m_policies e !! name); simpl; by rewrite engine_unlock_id.
Qed.

Lemma eval_network_run e h name ip :
  pe_mutex e = false ->
  eval_network_egress name ip (e, h) =
  (Ret (match m_policies e !! name with
        | Some p => network_rule_allows (network_rule p) ip
        | None => false
        end), (e, h)).
Proof.
  intros He. unfold eval_network_egress. munfold. simpl. rewrite He.
  destruct (m_policies e !! name); simpl; by rewrite engine_unlock_id.
Qed.

Lemma get_policy_run e h name :
  pe_mutex e = false -> get_policy name (e, h) = (Ret (m_policies e !! name), (e, h)).
Proof. intros He. unfold get_policy. munfold. simpl. by rewrite He, engine_unlock_id. Qed.

Lemma register_policy_run e h p :
  pe_mutex e = false ->
  register_policy p (e, h) =
  (Ret Success, ({| pe_mutex := false; m_policies := <[policy_name p := p]> (m_policies e) |}, h)).
Proof. intros He. unfold register_policy, modify_policies. munfold. simpl. by rewrite He. Qed.

Lemma syscall_rule_allows_true rule nr :
  syscall_rule_allows rule nr = true <->
  (nr ∉ blocked_syscalls rule) /\ (nr ∈ allowed_syscalls rule \/ default_allow rule = true).
Proof.
  unfold syscall_rule_allows. repeat case_bool_decide; naive_solver.
Qed.

Lemma ip_listed_true ip l : ip_listed ip l = true <-> ip ∈ l.
Proof.
  induction l as [|x l IH]; simpl.
  - split; [done|]. by intros ?%elem_of_nil.
  - rewrite elem_of_cons. destruct (Z.eqb_spec ip x); naive_solver.
Qed.

Lemma network_rule_allows_true net ip :
  network_rule_allows net ip = true <->
  block_all_egress net = false /\
  ~ (block_cloud_metadata net = true /\ ip = metadata_ip) /\
  ip ∉ blocked_ips_network_order net.
Proof.
  unfold network_rule_allows. rewrite <- ip_listed_true.
  destruct (block_all_egress net), (block_cloud_metadata net), (Z.eqb_spec ip metadata_ip),
    (ip_listed ip _); simpl; naive_solver.
Qed.

(** ** Properties *)

(** C11: a system call is permitted exactly when the policy is registered, does
    not block the number, and either whitelists it or allows by default: an
    unknown policy denies, the block list has priority over the white list,
    and evaluation leaves the engine and the host untouched. *)
Theorem eval_syscall_spec (e : PolicyEngine) (h : history) (name : string) (nr : Z) :
  pe_mutex e = false ->
  exists b, eval_syscall name nr (e, h) = (Ret b, (e, h)) /\
  (b = true <->
   exists p, m_policies e !! name = Some p /\
     (nr ∉ blocked_syscalls (syscall_rule p)) /\
     (nr ∈ allowed_syscalls (syscall_rule p) \/ default_allow (syscall_rule p) = true)).
Proof.
  intros He. eexists. split; [by apply eval_syscall_run|].
  destruct (m_policies e !! name) as [p|]; [|naive_solver].
  rewrite syscall_rule_allows_true. naive_solver.
Qed.

(** C12: an outbound connection is permitted exactly when the policy is registered,
    does not block all egress, the destination is not the cloud metadata address
    under a policy that blocks it, and it is not on the explicit list. *)
Theorem eval_network_egress_spec (e : PolicyEngine) (h : history) (name : string) (ip : Z) :
  pe_mutex e = false ->
  exists b, eval_network_egress name ip (e, h) = (Ret b, (e, h)) /\
  (b = true <->
   exists p, m_policies e !! name = Some p /\
     block_all_egress (network_rule p) = false /\
     ~ (block_cloud_metadata (network_rule p) = true /\ ip = metadata_ip) /\
     ip ∉ blocked_ips_network_order (network_rule p)).
Proof.
  intros He. eexists. split; [by apply eval_network_run|].
  destruct (m_policies e !! name) as [p|]; [|naive_solver].
  rewrite network_rule_allows_true. naive_solver.
Qed.

(** the name table is a bijection onto its numbers, and every number it yields
    indexes the 512-entry [aegis_syscall_policy] array. *)
Theorem resolve_syscall_name_bijective :
  (forall name nr, resolve_syscall_name name = Some nr <-> (name, nr) ∈ syscall_name_table) /\
  (forall n1 n2 nr, resolve_syscall_name n1 = Some nr -> resolve_syscall_name n2 = Some nr -> n1 = n2) /\
  (forall name nr, resolve_syscall_name name = Some nr -> 0 <= nr < 512).
Proof.
  split; [exact resolve_in_table|]. split; [exact resolve_inj|].
  intros name nr H. by eapply table_range, resolve_in_table.
Qed.

(** The numbers the default policy whitelists. *)
Definition strict_python_numbers : list Z :=
  [0; 1; 257; 3; 5; 9; 10; 11; 12; 13; 14; 16; 21; 202; 231; 291; 233; 232; 318; 332; 72;
   79; 102; 104; 107; 108; 186; 8].

Lemma strict_python_sets :
  allowed_syscalls (syscall_rule strict_python_policy) = list_to_set strict_python_numbers /\
  blocked_syscalls (syscall_rule strict_python_policy) = {[101; 321; 175; 176; 169; 161]}.
Proof. split; decide_by_vm. Qed.

Lemma strict_python_rule_allows nr :
  syscall_rule_allows (syscall_rule strict_python_policy) nr = true <->
  nr ∈ strict_python_numbers.
Proof.
  rewrite syscall_rule_allows_true. destruct strict_python_sets as [-> ->].
  rewrite elem_of_list_to_set. split; [naive_solver|]. intros Hin. split; [|by left].
  assert (H : Forall (fun k => k ∉ ({[101; 321; 175; 176; 169; 161]} : gset Z)) strict_python_numbers)
    by decide_by_vm.
  rewrite Forall_forall in H. by apply H.
Qed.

Lemma make_PolicyEngine_eq :
  make_PolicyEngine = {| pe_mutex := false; m_policies := {["strict_python" := strict_python_policy]} |}.
Proof.
  unfold make_PolicyEngine, register_default_strict_python_policy.
  by rewrite register_policy_run.
Qed.

(** C33: on a freshly constructed engine the policy strict_python permits exactly the 28
    whitelisted system calls and no other number; in particular [execve] (59) is denied. *)
Theorem strict_python_decisions (h : history) (nr : Z) :
  exists b, eval_syscall "strict_python" nr (make_PolicyEngine, h) =
    (Ret b, (make_PolicyEngine, h)) /\
  (b = true <-> nr ∈ strict_python_numbers).
Proof.
  rewrite make_PolicyEngine_eq. eexists. split; [by apply eval_syscall_run|].
  simpl. rewrite lookup_singleton_eq. apply strict_python_rule_allows.
Qed.

(** the default policy denies egress to the cloud metadata address 169.254.169.254
    and permits every other destination. *)
Theorem strict_python_egress (h : history) (ip : Z) :
  exists b, eval_network_egress "strict_python" ip (make_PolicyEngine, h) =
    (Ret b, (make_PolicyEngine, h)) /\
  (b = true <-> ip <> metadata_ip).
Proof.
  rewrite make_PolicyEngine_eq. eexists. split; [by apply eval_network_run|].
  simpl. rewrite lookup_singleton_eq, network_rule_allows_true. simpl.
  split; [naive_solver|]. intros H. split; [done|]. split; [naive_solver|]. apply not_elem_of_nil.
Qed.

(** ** Witnesses *)
Lemma eval_syscall_spec_witness :
  exists b, eval_syscall "strict_python" 101 (make_PolicyEngine, []) =
    (Ret b, (make_PolicyEngine, [])) /\
  (b = true <->
   exists p, m_policies make_PolicyEngine !! "strict_python" = Some p /\
     (101 ∉ blocked_syscalls (syscall_rule p)) /\
     (101 ∈ allowed_syscalls (syscall_rule p) \/ default_allow (syscall_rule p) = true)).
Proof. apply (eval_syscall_spec make_PolicyEngine [] "strict_python" 101). reflexivity. Defined.

Lemma eval_network_egress_spec_witness :
  exists b, eval_network_egress "strict_python" metadata_ip (make_PolicyEngine, []) =
    (Ret b, (make_PolicyEngine, [])) /\
  (b = true <->
   exists p, m_policies make_PolicyEngine !! "strict_python" = Some p /\
     block_all_egress (network_rule p) = false /\
     ~ (block_cloud_metadata (network_rule p) = true /\ metadata_ip = metadata_ip) /\
     metadata_ip ∉ blocked_ips_network_order (network_rule p)).
Proof.
  apply (eval_network_egress_spec make_PolicyEngine [] "strict_python" metadata_ip).
  reflexivity.
Defined.
