(* ===== verification/PolicyYaml.v ===== *)
(** * PolicyYaml: [PolicyEngine::load_from_yaml]

    The policy file is not parsed as YAML: four keys and two bracketed lists
    are searched for with regular expressions anywhere in the text. *)
From S2P Require Import Prelude Text Host Aegis Regex PolicyEngine.
From Stdlib Require Import Ascii.

(** ** The regular expressions *)
Definition word_char (c : ascii) : bool := is_alpha c || is_digit c || Ascii.eqb c "_".
Definition name_char (c : ascii) : bool := word_char c || Ascii.eqb c "-".
Definition not_close_bracket (c : ascii) : bool := negb (Ascii.eqb c "]").

(** [key\s*:\s*] *)
Definition key_regex (key : string) (value : regex) : regex :=
  rlit key ++ [RStar is_space; RChar ":"; RStar is_space] ++ value.

Definition name_regex : regex :=
  key_regex "policy_name" [ROpt dquote; RPlusCap name_char; ROpt dquote].
Definition block_net_regex : regex :=
  key_regex "block_all_network_egress" [RAltCap ["true"; "false"]].
Definition block_meta_regex : regex :=
  key_regex "block_cloud_metadata_ips" [RAltCap ["true"; "false"]].
Definition timeout_regex : regex :=
  key_regex "max_execution_time_sec" [RPlusCap is_digit].
Definition allowed_regex : regex :=
  key_regex "allowed_sys_calls" [RChar "["; RPlusCap not_close_bracket; RChar "]"].
Definition blocked_regex : regex :=
  key_regex "blocked_sys_calls" [RChar "["; RPlusCap not_close_bracket; RChar "]"].
Definition token_regex : regex := [ROpt dquote; RPlusCap word_char; ROpt dquote].

(** ** Extraction *)
Definition search_bool (r : regex) (content : string) (dflt : bool) : bool :=
  match regex_search r content with
  | Some m => String.eqb (group1 m) "true"
  | None => dflt
  end.

Definition search_syscalls (r : regex) (content : string) : gset Z :=
  match regex_search r content with
  | Some m => insert_resolved (sregex_tokens token_regex (group1 m)) ∅
  | None => ∅
  end.

(** The policy a file with this stem and content describes; [std::stoul] may throw. *)
Definition parse_policy (stem content : string) : cxx_exception + SecurityPolicy :=
  let name := match regex_search name_regex content with
              | Some m => group1 m
              | None => stem
              end in
  let net := {| block_all_egress := search_bool block_net_regex content false;
                block_cloud_metadata := search_bool block_meta_regex content true;
                blocked_cidrs := []; blocked_ips_network_order := [] |} in
  match (match regex_search timeout_regex content with
         | Some m => match stoul (group1 m) with inl e => inl e | inr v => inr (u32 v) end
         | None => inr 30
         end) with
  | inl e => inl e
  | inr timeout =>
      inr {| policy_name := name;
             syscall_rule := {| allowed_syscalls := search_syscalls allowed_regex content;
                                blocked_syscalls := search_syscalls blocked_regex content;
                                default_allow := false |};
             network_rule := net;
             max_execution_time_sec := timeout |}
  end.

Definition load_from_yaml {host : Host} (yaml_path : string) : M PE Status :=
  lock_guard (
    ex ← fs_exists yaml_path;
    if negb ex then mret ErrPolicyViolation
    else
      file ← sys_read_file yaml_path;
      match file with
      | None => mret ErrPolicyViolation
      | Some content =>
          match parse_policy (path_stem yaml_path) content with
          | inl e => throw e
          | inr policy =>
              modify_policies <[policy_name policy := policy]> ;;
              mret Success
          end
      end).

(** Text of the repository's YAML files, with the double quote written as an
    apostrophe. *)
Fixpoint quoted (s : string) : string :=
  match s with
  | EmptyString => EmptyString
  | String c s' => String (if Ascii.eqb c "'" then dquote else c) (quoted s')
  end.

(** The file written by test_yaml_policy_loading (tests/test_policy_engine.cpp). *)
Definition test_custom_yaml : string := quoted
"policy_name: 'test_custom'
max_execution_time_sec: 10
network_rules:
  block_all_network_egress: true
  block_cloud_metadata_ips: true
syscall_rules:
  default_mode: 'strict_whitelist'
  allowed_sys_calls: ['read', 'write']
  blocked_sys_calls: ['execve']
".

Example test_custom_policy :
  parse_policy "test_custom_policy" test_custom_yaml =
  inr {| policy_name := "test_custom";
         syscall_rule := {| allowed_syscalls := {[0; 1]}; blocked_syscalls := {[59]};
                            default_allow := false |};
         network_rule := {| block_all_egress := true; block_cloud_metadata := true;
                            blocked_cidrs := []; blocked_ips_network_order := [] |};
         max_execution_time_sec := 10 |}.
Proof. vm_compute. reflexivity. Qed.

(** ** Rendering a policy file in the layout of the test *)
Definition render_quoted (s : string) : string := String dquote (s +:+ String dquote "").

Fixpoint render_names (l : list string) : string :=
  match l with
  | [] => ""
  | [n] => render_quoted n
  | n :: l' => render_quoted n +:+ ", " +:+ render_names l'
  end.

Definition render_bool (b : bool) : string := if b then "true" else "false".
Definition nl : string := String (ascii_of_nat 10) "".

Definition render_policy (name : string) (timeout : Z) (egress meta : bool)
    (allowed blocked : list string) : string :=
  "policy_name" +:+ ": " +:+ render_quoted name +:+ nl +:+
  "max_execution_time_sec" +:+ ": " +:+ format_int timeout +:+ nl +:+
  "network_rules:" +:+ nl +:+
  "  " +:+ "block_all_network_egress" +:+ ": " +:+ render_bool egress +:+ nl +:+
  "  " +:+ "block_cloud_metadata_ips" +:+ ": " +:+ render_bool meta +:+ nl +:+
  "syscall_rules:" +:+ nl +:+
  "  default_mode: " +:+ render_quoted "strict_whitelist" +:+ nl +:+
  "  " +:+ "allowed_sys_calls" +:+ ": " +:+ "[" +:+ render_names allowed +:+ "]" +:+ nl +:+
  "  " +:+ "blocked_sys_calls" +:+ ": " +:+ "[" +:+ render_names blocked +:+ "]" +:+ nl.

Example render_policy_test :
  render_policy "test_custom" 10 true true ["read"; "write"] ["execve"] = test_custom_yaml.
Proof. reflexivity. Qed.

Definition is_word (cls : ascii -> bool) (s : string) : Prop :=
  s <> "" /\ str_all cls s = true.

(** ** Skipping over the variable parts of a file *)

(** What may follow a key. *)
Definition key_end (c : ascii) : bool := is_space c || Ascii.eqb c ":".

Lemma key_regex_needs_end kw v s m :
  rmatch (key_regex kw v) s = Some m -> exists t, s = kw +:+ t /\ starts key_end t = true.
Proof.
  intros (t & -> & Ht)%rmatch_lit_inv. exists t. split; [done|].
  destruct t as [|c t]; [done|]. cbn [rmatch app starts] in *. unfold key_end.
  destruct (is_space c); [done|]. rewrite orb_false_l, Ascii.eqb_sym.
  by destruct (Ascii.eqb ":" c).
Qed.

(** A key made of name characters does not match inside a quoted name. *)
Lemma quoted_hole_no_match kw v w b :
  str_all name_char kw = true -> str_all name_char w = true ->
  rmatch (key_regex kw v) (w +:+ String dquote b) = None.
Proof.
  intros Hkw Hw. destruct (rmatch _ _) as [m|] eqn:E; [exfalso|done].
  apply key_regex_needs_end in E as (t & Heq & Ht).
  revert w Hw Heq. induction kw as [|c kw IH]; intros w Hw Heq.
  - simpl in Heq. subst t. destruct w as [|d w]; [done|]. simpl in *.
    apply andb_true_iff in Hw as [Hd _]. revert Hd Ht. clear.
    destruct d as [[] [] [] [] [] [] [] []]; vm_compute; congruence.
  - cbn [str_all] in Hkw. apply andb_true_iff in Hkw as [Hc Hkw].
    destruct w as [|d w]; simpl in Heq; injection Heq as Hcd Heq.
    + subst c. vm_compute in Hc. discriminate.
    + cbn [str_all] in Hw. apply andb_true_iff in Hw as [_ Hw]. by apply (IH Hkw w).
Qed.

Lemma str_all_suffix f a c b : str_all f (a +:+ String c b) = true -> str_all f (String c b) = true.
Proof. rewrite str_all_app. by intros [_ ?]%andb_true_iff. Qed.

Lemma search_skip_quoted kw v w b :
  str_all name_char kw = true -> str_all name_char w = true -> kw <> "" ->
  regex_search (key_regex kw v) (render_quoted w +:+ b) = regex_search (key_regex kw v) b.
Proof.
  intros Hkw Hw Hne. unfold render_quoted.
  change (String dquote (w +:+ String dquote "") +:+ b)
    with (String dquote "" +:+ ((w +:+ String dquote "") +:+ b)).
  destruct kw as [|k kw]; [done|].
  assert (Hk : Ascii.eqb k dquote = false).
  { cbn [str_all] in Hkw. destruct (Ascii.eqb_spec k dquote) as [->|]; [|done].
    vm_compute in Hkw. discriminate. }
  assert (Hq : all_clash (String k kw) (String dquote "") = true) by (simpl; by rewrite Hk).
  unfold key_regex in *. rewrite search_skip_clash, str_app_assoc by done.
  rewrite search_skip; [by rewrite search_skip_clash|].
  intros a1 c a2 ->. apply quoted_hole_no_match; [done|]. by eapply str_all_suffix.
Qed.

(** A key that starts with a letter does not match inside a run of digits. *)
Lemma search_skip_digits k kw v w b :
  is_digit k = false -> str_all is_digit w = true ->
  regex_search (key_regex (String k kw) v) (w +:+ b) = regex_search (key_regex (String k kw) v) b.
Proof.
  intros Hk Hw. apply search_skip. intros a1 c a2 ->.
  apply str_all_suffix in Hw. cbn [str_all] in Hw. apply andb_true_iff in Hw as [Hc _].
  apply clashes_no_match. simpl. by destruct (Ascii.eqb_spec k c) as [->|]; [congruence|].
Qed.

Lemma word_name c : word_char c = true -> name_char c = true.
Proof. unfold name_char. by intros ->. Qed.

Lemma search_skip_names kw v l b :
  str_all name_char kw = true -> kw <> "" -> all_clash kw ", " = true ->
  Forall (is_word word_char) l ->
  regex_search (key_regex kw v) (render_names l +:+ b) = regex_search (key_regex kw v) b.
Proof.
  intros Hkw Hne Hsep. induction 1 as [|n l [_ Hn] _ IH]; [done|].
  apply (str_all_impl _ _ _ word_name) in Hn.
  cbn [render_names]. destruct l as [|n' l]; [by apply search_skip_quoted|].
  rewrite !str_app_assoc, search_skip_quoted by done.
  unfold key_regex at 1. rewrite search_skip_clash by done. exact IH.
Qed.

(** ** Tokens of a rendered list *)
Lemma token_match w b :
  is_word word_char w ->
  rmatch token_regex (render_quoted w +:+ b) = Some ([w], b).
Proof.
  intros [Hne Hw]. unfold token_regex, render_quoted.
  change (String dquote (w +:+ String dquote "") +:+ b)
    with (String dquote ((w +:+ String dquote "") +:+ b)).
  apply rmatch_opt_hit. rewrite str_app_assoc. by apply rmatch_plus.
Qed.

Lemma tokens_render_names l fuel :
  Forall (is_word word_char) l -> (length l < fuel)%nat ->
  regex_iter fuel token_regex (render_names l) = l.
Proof.
  intros Hl. revert fuel. induction Hl as [|n l Hn Hl IH]; intros [|fuel] Hf; simpl in Hf;
    try lia; [done|].
  cbn [render_names]. destruct l as [|n' l].
  - cbn [regex_iter]. rewrite <- (str_app_nil_r (render_quoted n)).
    rewrite (search_hit _ _ _ (token_match n "" Hn)). simpl. destruct fuel; [lia|]. done.
  - cbn [regex_iter]. rewrite (search_hit _ _ _ (token_match n _ Hn)). cbn [fst snd].
    change (group1 ([n], ", " +:+ render_names (n' :: l))) with n. f_equal.
    rewrite <- (IH fuel) at 2 by (simpl in *; lia). destruct fuel as [|fuel]; [done|].
    cbn [regex_iter].
    assert (Hskip : forall s, regex_search token_regex (", " +:+ s) = regex_search token_regex s).
    { intros s. change (", " +:+ s) with (String "," (String " " s)).
      by rewrite !search_skip_char by reflexivity. }
    by rewrite Hskip.
Qed.

(** [length s] of fuel is enough for the tokens of a non-empty list. *)
Lemma render_names_fuel l : l <> [] -> (length l < String.length (render_names l))%nat.
Proof.
  induction l as [|n l IH]; [done|]. intros _. cbn [render_names]. unfold render_quoted.
  destruct l as [|n' l]; [cbn [length String.length]; rewrite str_length_app; simpl; lia|].
  specialize (IH ltac:(done)). rewrite !str_length_app. cbn [length String.length] in *.
  rewrite str_length_app. cbn [String.length]. lia.
Qed.

Lemma search_skip_text kw v a b :
  all_clash kw a = true ->
  regex_search (key_regex kw v) (a +:+ b) = regex_search (key_regex kw v) b.
Proof. apply search_skip_clash. Qed.

Lemma key_hit kw v s m :
  starts is_space s = false -> rmatch v s = Some m ->
  regex_search (key_regex kw v) (kw +:+ ": " +:+ s) = Some m.
Proof.
  intros Hs Hv. apply search_hit. unfold key_regex. rewrite rmatch_lit.
  change (": " +:+ s) with (String ":" (String " " s)). cbn [app].
  rewrite rmatch_star_none by done.
  change (rmatch (RStar is_space :: v) (String " " s) = Some m).
  apply rmatch_star_one; [done|]. by rewrite rmatch_star_none.
Qed.

(** The tactic that carries a search to its key. *)
Ltac skip_to_key :=
  repeat first
    [ rewrite search_skip_text by reflexivity
    | rewrite search_skip_quoted by done
    | rewrite search_skip_digits by auto with aegis
    | rewrite search_skip_names by done ].

Lemma no_close_bracket l :
  Forall (is_word word_char) l -> str_all not_close_bracket (render_names l) = true.
Proof.
  assert (Hq : forall n, str_all word_char n = true -> str_all not_close_bracket (render_quoted n) = true).
  { intros n Hn. unfold render_quoted. cbn [str_all]. rewrite str_all_app, andb_true_iff.
    split; [done|]. rewrite (str_all_impl word_char not_close_bracket n); [done| |done].
    intros c. destruct c as [[] [] [] [] [] [] [] []]; vm_compute; congruence. }
  induction 1 as [|n l [_ Hn] _ IH]; [done|]. cbn [render_names].
  destruct l; [by apply Hq|]. by rewrite !str_all_app, Hq, IH.
Qed.

Lemma list_value_match l b :
  Forall (is_word word_char) l -> l <> [] ->
  rmatch [RChar "["; RPlusCap not_close_bracket; RChar "]"] ("[" +:+ render_names l +:+ "]" +:+ b)
  = Some ([render_names l], b).
Proof.
  intros Hl Hne.
  change (rmatch [RPlusCap not_close_bracket; RChar "]"] (render_names l +:+ "]" +:+ b)
          = Some ([render_names l], b)).
  apply rmatch_plus; [|by apply no_close_bracket|done|done].
  destruct l as [|n [|]]; [done| |]; by cbn [render_names render_quoted].
Qed.

Lemma digits_no_space w b :
  w <> "" -> str_all is_digit w = true -> starts is_space (w +:+ b) = false.
Proof.
  destruct w as [|c w]; [done|]. intros _ [Hc _]%andb_true_iff. simpl. revert Hc.
  destruct c as [[] [] [] [] [] [] [] []]; vm_compute; congruence.
Qed.

Lemma search_syscalls_hit r content l rest :
  regex_search r content = Some ([render_names l], rest) ->
  Forall (is_word word_char) l -> l <> [] ->
  search_syscalls r content = insert_resolved l ∅.
Proof.
  intros H Hl Hne. unfold search_syscalls. rewrite H.
  change (group1 ([render_names l], rest)) with (render_names l).
  unfold sregex_tokens. by rewrite tokens_render_names by eauto using render_names_fuel.
Qed.

Section RoundTrip.
Context (name : string) (timeout : Z) (egress meta : bool) (allowed blocked : list string).
Hypothesis Hname : is_word name_char name.
Hypothesis Htimeout : is_u32 timeout.
Hypothesis Hallowed : Forall (is_word word_char) allowed /\ allowed <> [].
Hypothesis Hblocked : Forall (is_word word_char) blocked /\ blocked <> [].

Let content := render_policy name timeout egress meta allowed blocked.

Lemma render_name : exists rest, regex_search name_regex content = Some ([name], rest).
Proof.
  destruct Hname as [Hn1 Hn2]. eexists. unfold content, render_policy, name_regex.
  apply key_hit; [done|]. apply rmatch_opt_hit. rewrite str_app_assoc. by apply rmatch_plus.
Qed.

Lemma render_timeout :
  exists rest, regex_search timeout_regex content = Some ([format_int timeout], rest).
Proof.
  destruct Hname as [Hn1 Hn2]. assert (Ht : 0 <= timeout) by (destruct Htimeout; lia).
  eexists. unfold content, render_policy, timeout_regex. skip_to_key.
  apply key_hit; [by apply digits_no_space; auto with aegis|].
  apply rmatch_plus; auto with aegis.
Qed.

Lemma render_egress : search_bool block_net_regex content false = egress.
Proof.
  destruct Hname as [Hn1 Hn2]. assert (Ht : 0 <= timeout) by (destruct Htimeout; lia).
  unfold search_bool, content, render_policy, block_net_regex. skip_to_key.
  destruct egress; (erewrite key_hit; [|done|reflexivity]); reflexivity.
Qed.

Lemma render_meta : search_bool block_meta_regex content true = meta.
Proof.
  destruct Hname as [Hn1 Hn2]. assert (Ht : 0 <= timeout) by (destruct Htimeout; lia).
  unfold search_bool, content, render_policy, block_meta_regex.
  destruct egress; skip_to_key; destruct meta;
    (erewrite key_hit; [|done|reflexivity]); reflexivity.
Qed.

Lemma render_allowed :
  search_syscalls allowed_regex content = insert_resolved allowed ∅.
Proof.
  destruct Hname as [Hn1 Hn2]. assert (Ht : 0 <= timeout) by (destruct Htimeout; lia).
  destruct Hallowed as [Ha1 Ha2].
  unfold content, render_policy, allowed_regex.
  destruct egress, meta; (eapply search_syscalls_hit; [|done..]); skip_to_key;
    (apply key_hit; [done|by apply list_value_match]).
Qed.

Lemma render_blocked :
  search_syscalls blocked_regex content = insert_resolved blocked ∅.
Proof.
  destruct Hname as [Hn1 Hn2]. assert (Ht : 0 <= timeout) by (destruct Htimeout; lia).
  destruct Hallowed as [Ha1 Ha2], Hblocked as [Hb1 Hb2].
  unfold content, render_policy, blocked_regex.
  destruct egress, meta; (eapply search_syscalls_hit; [|done..]); skip_to_key;
    (apply key_hit; [done|by apply list_value_match]).
Qed.
End RoundTrip.

(** C9: loading a policy file written in flow style gives back the policy: for every
    name over [a-zA-Z0-9_-], every 32-bit timeout, both network switches and all
    non-empty lists of names, [parse_policy] of the rendered text is the policy whose
    sets are the resolvable names of the lists, wherever the file is stored. *)
Theorem yaml_roundtrip (stem name : string) (timeout : Z) (egress meta : bool)
    (allowed blocked : list string) :
  is_word name_char name -> is_u32 timeout ->
  Forall (is_word word_char) allowed -> allowed <> [] ->
  Forall (is_word word_char) blocked -> blocked <> [] ->
  parse_policy stem (render_policy name timeout egress meta allowed blocked) =
  inr {| policy_name := name;
         syscall_rule := {| allowed_syscalls := insert_resolved allowed ∅;
                            blocked_syscalls := insert_resolved blocked ∅;
                            default_allow := false |};
         network_rule := {| block_all_egress := egress; block_cloud_metadata := meta;
                            blocked_cidrs := []; blocked_ips_network_order := [] |};
         max_execution_time_sec := timeout |}.
Proof.
  intros Hn Ht Ha Ha' Hb Hb'. unfold parse_policy.
  rewrite render_egress, render_meta, render_allowed, render_blocked by done.
  destruct (render_name name timeout egress meta allowed blocked) as [r1 ->]; [done|].
  destruct (render_timeout name timeout egress meta allowed blocked) as [r2 ->]; [done..|].
  rewrite !group1_single, stoul_format by (unfold is_u32, is_u64 in *; lia).
  by rewrite u32_id.
Qed.

Lemma yaml_roundtrip_witness :
  parse_policy "test_custom_policy"
    (render_policy "test_custom" 10 true true ["read"; "write"] ["execve"]) =
  inr {| policy_name := "test_custom";
         syscall_rule := {| allowed_syscalls := insert_resolved ["read"; "write"] ∅;
                            blocked_syscalls := insert_resolved ["execve"] ∅;
                            default_allow := false |};
         network_rule := {| block_all_egress := true; block_cloud_metadata := true;
                            blocked_cidrs := []; blocked_ips_network_order := [] |};
         max_execution_time_sec := 10 |}.
Proof.
  apply (yaml_roundtrip "test_custom_policy" "test_custom" 10 true true ["read"; "write"] ["execve"]).
  - done.
  - unfold is_u32. lia.
  - repeat constructor; done.
  - done.
  - repeat constructor; done.
  - done.
Defined.

(** C39: a policy file without an opening bracket (YAML block style, as in
    policy/strict_python.yaml) loads with empty white and block lists, so the loaded
    policy denies every system call and blocks none in the kernel. *)
Theorem block_style_lists_ignored (stem content : string) (p : SecurityPolicy) :
  str_mem "[" content = false -> parse_policy stem content = inr p ->
  allowed_syscalls (syscall_rule p) = ∅ /\ blocked_syscalls (syscall_rule p) = ∅ /\
  forall nr, syscall_rule_allows (syscall_rule p) nr = false.
Proof.
  intros Hc Hp.
  assert (Hs : forall kw v, search_syscalls (key_regex kw (RChar "[" :: v)) content = ∅).
  { intros kw v. unfold search_syscalls.
    rewrite (search_needs_char "["); [done| |done].
    unfold key_regex. do 2 (apply elem_of_app; right). apply elem_of_cons. by left. }
  unfold parse_policy, allowed_regex, blocked_regex in Hp. rewrite !Hs in Hp.
  assert (Hr : syscall_rule p =
    {| allowed_syscalls := ∅; blocked_syscalls := ∅; default_allow := false |})
    by (repeat case_match; by simplify_eq/=).
  rewrite Hr. split; [done|]. split; [done|]. intros nr.
  apply not_true_iff_false. rewrite syscall_rule_allows_true. simpl. set_solver.
Qed.

(** policy/strict_python.yaml, verbatim. *)
Definition strict_python_yaml : string := quoted
"# policy/strict_python.yaml
# Production Security Policy for Python 3.11 AI Agent Execution in aegis-sandbox
# Author: Kamran Saberifard
# License: Apache 2.0

policy_name: 'strict_python'
description: 'Strict whitelisting policy for Python 3.11 AI agents. Blocks kernel manipulation, debugging, and cloud metadata exfiltration.'
max_execution_time_sec: 15

# ------------------------------------------------------------------------------
# 1. Network Egress Rules (Anti-SSRF Protection)
# ------------------------------------------------------------------------------
network_rules:
  block_all_network_egress: false
  block_cloud_metadata_ips: true # Drops connections to 169.254.169.254
  
  blocked_cidrs:
    - '169.254.169.254/32'  # AWS / Azure / GCP Metadata Instance IP
    - '10.0.0.0/8'          # RFC 1918 Private Subnet
    - '172.16.0.0/12'       # RFC 1918 Private Subnet
    - '192.168.0.0/16'      # RFC 1918 Private Subnet

# ------------------------------------------------------------------------------
# 2. Linux System Call Rules (x86_64 eBPF Kernel Policy)
# ------------------------------------------------------------------------------
syscall_rules:
  default_mode: 'strict_whitelist' # Deny any syscall not explicitly whitelisted

  # Whitelisted Syscalls required for Python 3.11 execution
  allowed_sys_calls:
    # Memory Management & File I/O
    - 'read'
    - 'write'
    - 'openat'
    - 'close'
    - 'fstat'
    - 'lseek'
    - 'mmap'
    - 'mprotect'
    - 'munmap'
    - 'brk'
    - 'fcntl'
    - 'getcwd'
    - 'chdir'
    - 'statx'
    - 'access'

    # Signal Handling & Process Execution
    - 'rt_sigaction'
    - 'rt_sigprocmask'
    - 'sigaltstack'
    - 'ioctl'
    - 'futex'
    - 'exit_group'
    - 'exit'
    - 'getrandom'

    # Process Identity & Threading
    - 'getuid'
    - 'getgid'
    - 'geteuid'
    - 'getegid'
    - 'getpid'
    - 'getppid'
    - 'gettid'

    # I/O Multiplexing & Networking
    - 'epoll_create1'
    - 'epoll_ctl'
    - 'epoll_wait'
    - 'poll'
    - 'select'
    - 'pselect6'
    - 'socket'
    - 'connect'
    - 'recvfrom'
    - 'sendto'
    - 'getsockopt'
    - 'setsockopt'

  # Explicitly Blocked High-Risk Syscalls (Triggers eBPF SIGKILL)
  blocked_sys_calls:
    - 'ptrace'            # Prevent process memory injection & debugging
    - 'bpf'               # Prevent eBPF map/program manipulation from inside microVM
    - 'init_module'       # Block kernel module loading
    - 'finit_module'      # Block kernel module loading from FD
    - 'delete_module'     # Block kernel module unloading
    - 'kexec_load'        # Block kernel replacement
    - 'kexec_file_load'   # Block kernel replacement
    - 'pivot_root'        # Prevent filesystem root escapes
    - 'chroot'            # Prevent directory escapes
    - 'reboot'            # Block microVM reboot command
    - 'sysfs'             # Block direct kernel sysfs inspection
    - 'iopl'              # Block hardware port I/O access
    - 'ioperm'            # Block hardware port permission alteration".

Lemma strict_python_yaml_loads :
  exists p, parse_policy "strict_python" strict_python_yaml = inr p /\
    policy_name p = "strict_python" /\ max_execution_time_sec p = 15 /\
    block_all_egress (network_rule p) = false /\ block_cloud_metadata (network_rule p) = true.
Proof. eexists. split; [vm_compute; reflexivity|]. by vm_compute. Qed.

Lemma block_style_lists_ignored_witness :
  let p := match parse_policy "strict_python" strict_python_yaml with
           | inr p => p | inl _ => strict_python_policy end in
  allowed_syscalls (syscall_rule p) = ∅ /\ blocked_syscalls (syscall_rule p) = ∅ /\
  forall nr, syscall_rule_allows (syscall_rule p) nr = false.
Proof.
  intros p. apply (block_style_lists_ignored "strict_python" strict_python_yaml p).
  - vm_compute. reflexivity.
  - vm_compute. reflexivity.
Defined.

(** ** The loader as an operation of the engine *)
Lemma load_from_yaml_run `{Host} e h path :
  pe_mutex e = false ->
  exists r h' pols,
    load_from_yaml path (e, h) = (r, ({| pe_mutex := false; m_policies := pols |}, h')) /\
    ((pols = m_policies e /\ (r = Ret ErrPolicyViolation \/ exists ex, r = Throw ex)) \/
     (r = Ret Success /\ exists content p h1,
        os_read_file h1 path = Some content /\ parse_policy (path_stem path) content = inr p /\
        pols = <[policy_name p := p]> (m_policies e))).
Proof.
  intros He. unfold load_from_yaml, fs_exists, sys_read_file, modify_policies, call, log.
  munfold. simpl. rewrite He. simpl.
  destruct (os_exists h path) as [[]|]; simpl; [|by eauto 10..].
  destruct (os_read_file _ path) as [content|] eqn:Hf; simpl; [|by eauto 10].
  destruct (parse_policy (path_stem path) content) as [ex|p] eqn:Hp; simpl; [by eauto 10|].
  do 3 eexists. split; [reflexivity|]. right. split; [done|]. by eauto 10.
Qed.

(** a policy file that is missing, unreadable or whose timeout does not fit an
    unsigned long leaves the registry as it was; a load that reports success has
    registered exactly the policy parsed from the file; the lock is free afterwards. *)
Theorem load_from_yaml_spec `{Host} (e : PolicyEngine) (h : history) (path : string) :
  pe_mutex e = false ->
  let '(r, (e', _)) := load_from_yaml path (e, h) in
  pe_mutex e' = false /\ r <> Deadlock /\
  (r <> Ret Success -> e' = e) /\
  (r = Ret Success -> exists content p h1,
     os_read_file h1 path = Some content /\ parse_policy (path_stem path) content = inr p /\
     m_policies e' = <[policy_name p := p]> (m_policies e)).
Proof.
  intros He. destruct (load_from_yaml_run e h path He) as (r & h' & pols & -> & Hr).
  split; [done|].
  destruct Hr as [[-> Hr]|(-> & content & p & h1 & Hf & Hp & ->)].
  - split; [naive_solver|]. split; [intros _; by apply engine_unlock_id|naive_solver].
  - split; [done|]. split; [done|]. eauto 10.
Qed.

(** ** The engine refines a registry *)














Lemma load_from_yaml_spec_witness :
  let host := sample_host (fun _ => Some test_custom_yaml) [] in
  let '(r, (e', _)) := load_from_yaml "test_custom_policy.yaml" (make_PolicyEngine, []) in
  pe_mutex e' = false /\ r <> Deadlock /\
  (r <> Ret Success -> e' = make_PolicyEngine) /\
  (r = Ret Success -> exists content p h1,
     os_read_file h1 "test_custom_policy.yaml" = Some content /\
     parse_policy (path_stem "test_custom_policy.yaml") content = inr p /\
     m_policies e' = <[policy_name p := p]> (m_policies make_PolicyEngine)).
Proof.
  intros host. apply (load_from_yaml_spec make_PolicyEngine [] "test_custom_policy.yaml").
  reflexivity.
Defined.

Example load_from_yaml_test_succeeds :
  (load_from_yaml (host := sample_host (fun _ => Some test_custom_yaml) [])
     "test_custom_policy.yaml" (make_PolicyEngine, [])).1 = Ret Success.
Proof. vm_compute. reflexivity. Qed.
