(* ===== verification/CgroupManager.v ===== *)
(** * CgroupManager: src/runtime/cgroup_manager.cpp, include/aegis/runtime/cgroup_manager.hpp

    The table of cgroup v2 directories, one per sandbox, with their resource
    limits, inode numbers and directory descriptors. *)
From S2P Require Import Prelude Text Host Aegis.

(** ** Data *)
Record CgroupLimits := {
  cpu_cores : Z;
  memory_mb : Z;
  vram_mb : Z;
  max_pids : Z
}.

Definition default_limits : CgroupLimits :=
  {| cpu_cores := 1; memory_mb := 512; vram_mb := 0; max_pids := 100 |}.

(** Every field is a [uint32_t]. *)
Definition limits_wf (l : CgroupLimits) : Prop :=
  is_u32 (cpu_cores l) /\ is_u32 (memory_mb l) /\ is_u32 (vram_mb l) /\ is_u32 (max_pids l).

Record CgroupInfo := {
  ci_sandbox_id : string;
  cgroup_path : string;
  cgroup_id : Z;
  cgroup_fd : Z;
  ci_limits : CgroupLimits
}.

Record CgroupManager := {
  m_root_path : string;
  cg_mutex : bool;
  m_cgroups : gmap string CgroupInfo
}.

#[global] Instance CgroupManager_mutex : HasMutex CgroupManager :=
  {| mutex_held := cg_mutex;
     set_mutex := fun b m => {| m_root_path := m_root_path m; cg_mutex := b;
                                m_cgroups := m_cgroups m |} |}.

Definition set_cgroups (f : gmap string CgroupInfo -> gmap string CgroupInfo)
    (m : CgroupManager) : CgroupManager :=
  {| m_root_path := m_root_path m; cg_mutex := cg_mutex m; m_cgroups := f (m_cgroups m) |}.

Abbreviation CG := (CgroupManager * history)%type.

(** [O_DIRECTORY | O_RDONLY | O_CLOEXEC] on Linux x86_64. *)
Definition CGROUP_OPEN_FLAGS : Z := Z.lor 65536 (Z.lor 0 524288).

Section Operations.
Context {host : Host}.

Definition modify_cgroups (f : gmap string CgroupInfo -> gmap string CgroupInfo) : M CG unit :=
  modify (fun s => (set_cgroups f s.1, s.2)).
Definition find_cgroup (id : string) : M CG (option CgroupInfo) :=
  gets (fun s => m_cgroups s.1 !! id).

(** ** Operations *)

(** [file << value] puts the value into the stream's buffer, which all values written here
    fit in, so [file.good()] holds; the write happens when the stream is destroyed at the
    return, and its result is lost. *)
Definition write_sysfs_file (file_path value : string) : M CG bool :=
  r ← sys_write_file file_path value;
  let '(is_open, _) := r in
  if negb is_open then mret false else mret true.

(** The constructor; the members are initialised first. *)
Definition CgroupManager_init (root : string) : CgroupManager :=
  {| m_root_path := root; cg_mutex := false; m_cgroups := ∅ |}.
Definition CgroupManager_ctor : M CG unit :=
  root ← gets (fun s => m_root_path s.1);
  ok ← create_directories root;
  if (ok : bool) then
    write_sysfs_file (path_append (parent_path root) "cgroup.subtree_control")
      "+cpu +memory +pids" ;;
    mret tt
  else mret tt.

Definition apply_limits (path : string) (limits : CgroupLimits) : M CG Status :=
  let cpu_quota := u64 (cpu_cores limits * 100000) in
  ok1 ← write_sysfs_file (path_append path "cpu.max") (format_int cpu_quota +:+ " 100000");
  if negb ok1 then mret ErrCgroupQuotaExceeded else
  let memory_bytes := u64 (u64 (memory_mb limits * 1024) * 1024) in
  ok2 ← write_sysfs_file (path_append path "memory.max") (format_int memory_bytes);
  if negb ok2 then mret ErrCgroupQuotaExceeded else
  ok3 ← write_sysfs_file (path_append path "pids.max") (format_int (max_pids limits));
  if negb ok3 then mret ErrCgroupQuotaExceeded else
  mret Success.

Definition fetch_inode_id (path : string) : M CG Z :=
  st ← sys_stat path;
  match st with
  | Some st_ino => mret (u64 st_ino)
  | None => mret 0
  end.

Definition create_cgroup (sbx_id : string) (limits : CgroupLimits) : M CG Status :=
  lock_guard (
    entry ← find_cgroup sbx_id;
    if bool_decide (is_Some entry) then mret ErrInvalidSandboxID else
    root ← gets (fun s => m_root_path s.1);
    let path := path_append root sbx_id in
    ok ← create_directories path;
    if negb ok then mret ErrCgroupQuotaExceeded else
    status ← apply_limits path limits;
    if negb (bool_decide (status = Success)) then remove_all path ;; mret status else
    id ← fetch_inode_id path;
    if id =? 0 then remove_all path ;; mret ErrCgroupQuotaExceeded else
    fd ← sys_open path CGROUP_OPEN_FLAGS;
    if fd <? 0 then remove_all path ;; mret ErrCgroupQuotaExceeded else
    let info := {| ci_sandbox_id := sbx_id; cgroup_path := path; cgroup_id := id;
                   cgroup_fd := fd; ci_limits := limits |} in
    modify_cgroups <[sbx_id := info]> ;;
    mret Success).

Definition attach_pid (sbx_id : string) (pid : Z) : M CG Status :=
  lock_guard (
    entry ← find_cgroup sbx_id;
    match entry with
    | None => mret ErrInvalidSandboxID
    | Some info =>
        ok ← write_sysfs_file (path_append (cgroup_path info) "cgroup.procs") (format_int pid);
        if negb ok then mret ErrCgroupQuotaExceeded else mret Success
    end).

Definition destroy_cgroup (sbx_id : string) : M CG Status :=
  lock_guard (
    entry ← find_cgroup sbx_id;
    match entry with
    | None => mret ErrInvalidSandboxID
    | Some info =>
        (if 0 <=? cgroup_fd info then sys_close (cgroup_fd info) else mret tt) ;;
        remove_all (cgroup_path info) ;;
        modify_cgroups (delete sbx_id) ;;
        mret Success
    end).

Definition get_cgroup_id (sbx_id : string) : M CG Z :=
  lock_guard (
    entry ← find_cgroup sbx_id;
    match entry with Some info => mret (cgroup_id info) | None => mret 0 end).

Definition get_cgroup_fd (sbx_id : string) : M CG Z :=
  lock_guard (
    entry ← find_cgroup sbx_id;
    match entry with Some info => mret (cgroup_fd info) | None => mret (-1) end).

Definition get_cgroup_info (sbx_id : string) : M CG (option CgroupInfo) :=
  lock_guard (find_cgroup sbx_id).

(** The range-for of [destroy_all]; [info.cgroup_fd = -1] is overwritten by [clear]. *)
Definition release_cgroup (info : CgroupInfo) : M CG unit :=
  (if 0 <=? cgroup_fd info then sys_close (cgroup_fd info) else mret tt) ;;
  remove_all (cgroup_path info).

Definition destroy_all : M CG unit :=
  lock_guard (
    entries ← gets (fun s => (map_to_list (m_cgroups s.1)).*2);
    for_each entries release_cgroup ;;
    modify_cgroups (fun _ => ∅)).
End Operations.

(** ** Invariant *)
Definition info_wf (root id : string) (info : CgroupInfo) : Prop :=
  ci_sandbox_id info = id /\ cgroup_path info = path_append root id /\
  cgroup_id info <> 0 /\ is_u64 (cgroup_id info) /\ 0 <= cgroup_fd info.

Definition cg_wf (m : CgroupManager) : Prop :=
  cg_mutex m = false /\ map_Forall (info_wf (m_root_path m)) (m_cgroups m).

(** The descriptors the table owns. *)
Definition owned_fds (m : CgroupManager) : gset Z := owned cgroup_fd (m_cgroups m).

(** Every open descriptor is one of [base] or owned by exactly one entry. *)
Definition fds_balanced (base : gset Z) (s : CG) : Prop :=
  open_fds s.2 = base ∪ owned_fds s.1 /\ owned_fds s.1 ## base /\
  owned_once cgroup_fd (m_cgroups s.1).

(** The calls of a successful creation, most recent first: the directory is made, the exact
    limits are handed to the three control files, each stored or not, the inode is read and
    the directory is opened. *)
Definition limit_events (path : string) (l : CgroupLimits) (cpu mem pids : bool) : history :=
  [EvWriteFile (path_append path "pids.max") (format_int (max_pids l)) true pids;
   EvWriteFile (path_append path "memory.max") (format_int (memory_mb l * 1048576)) true mem;
   EvWriteFile (path_append path "cpu.max") (format_int (cpu_cores l * 100000) +:+ " 100000") true cpu].

Definition cgroup_events (path : string) (l : CgroupLimits) (cpu mem pids : bool) (st_ino fd : Z)
    : history :=
  [EvOpen path CGROUP_OPEN_FLAGS fd; EvStat path (Some st_ino)] ++
  limit_events path l cpu mem pids ++ [EvCreateDirectories path true].

Lemma cg_unlock_id m :
  cg_mutex m = false ->
  {| m_root_path := m_root_path m; cg_mutex := false; m_cgroups := m_cgroups m |} = m.
Proof. destruct m as [? [] ?]; [done|reflexivity]. Qed.

(** ** Arithmetic of the limits: no product wraps around *)
Lemma limit_products l :
  limits_wf l ->
  u64 (cpu_cores l * 100000) = cpu_cores l * 100000 /\
  u64 (u64 (memory_mb l * 1024) * 1024) = memory_mb l * 1048576.
Proof.
  intros (Hc & Hm & _ & _). unfold is_u32 in *.
  rewrite !u64_id by (unfold is_u64; rewrite ?u64_id by (unfold is_u64; lia); lia).
  split; [done|lia].
Qed.

(** ** Runs *)
Section Runs.
Context {host : Host}.

Ltac cg_unfold :=
  unfold create_cgroup, attach_pid, destroy_cgroup, get_cgroup_id,
    get_cgroup_fd, get_cgroup_info, find_cgroup, modify_cgroups, write_sysfs_file, sys_write_file,
    create_directories, sys_stat, sys_open, sys_close, remove_all, log, call in *;
  munfold; simpl in *.

(** [apply_limits] succeeds exactly when the three files can be opened. *)
Lemma apply_limits_run m h path l :
  exists st h', apply_limits path l (m, h) = (Ret st, (m, h')) /\ quiet h h' /\
    ((st = ErrCgroupQuotaExceeded /\
      exists p v b h1, h' = EvWriteFile p v false b :: h1) \/
     (st = Success /\
      (limits_wf l -> exists cpu mem pids, h' = limit_events path l cpu mem pids ++ h))).
Proof.
  unfold apply_limits. cg_unfold.
  destruct (os_write_file h _ _) as [[] b1] eqn:E1; simpl;
    [|do 2 eexists; split; [reflexivity|]; split; [done|]; left; by eauto 10].
  destruct (os_write_file _ (path_append path "memory.max") _) as [[] b2]; simpl;
    [|do 2 eexists; split; [reflexivity|]; split; [done|]; left; by eauto 10].
  destruct (os_write_file _ (path_append path "pids.max") _) as [[] b3]; simpl;
    [|do 2 eexists; split; [reflexivity|]; split; [done|]; left; by eauto 10].
  do 2 eexists. split; [reflexivity|]. split; [done|]. right. split; [done|].
  intros Hwf. destruct (limit_products l Hwf) as [-> ->]. by exists b1, b2, b3.
Qed.

Lemma fetch_inode_run m h path :
  exists ino, fetch_inode_id path (m, h) = (Ret ino, (m, EvStat path (os_stat h path) :: h)) /\
    is_u64 ino /\ ino = from_option u64 0 (os_stat h path).
Proof.
  unfold fetch_inode_id. cg_unfold. destruct (os_stat h path) as [i|]; eexists;
    (split; [reflexivity|]); (split; [|done]); unfold is_u64, u64; [apply Z.mod_pos_bound|]; lia.
Qed.

Lemma create_cgroup_run m h id l :
  cg_mutex m = false ->
  exists st m' h', create_cgroup id l (m, h) = (Ret st, (m', h')) /\ unkilled_pids h' = unkilled_pids h /\ same_maps h h' /\
  let path := path_append (m_root_path m) id in
  match st with
  | Success => m_cgroups m !! id = None /\
      exists h1 ino fd, m' = set_cgroups <[id := {| ci_sandbox_id := id; cgroup_path := path;
          cgroup_id := ino; cgroup_fd := fd; ci_limits := l |}]> m /\
        ino <> 0 /\ is_u64 ino /\ 0 <= fd /\
        open_fds h1 = open_fds h /\ fd = os_open h1 path CGROUP_OPEN_FLAGS /\
        h' = EvOpen path CGROUP_OPEN_FLAGS fd :: h1 /\
        (limits_wf l -> exists cpu mem pids st_ino, ino = u64 st_ino /\
           h' = cgroup_events path l cpu mem pids st_ino fd ++ h)
  | ErrInvalidSandboxID => is_Some (m_cgroups m !! id) /\ m' = m /\ h' = h
  | ErrCgroupQuotaExceeded => m_cgroups m !! id = None /\ m' = m /\ open_fds h' = open_fds h /\
      (h' = EvCreateDirectories path false :: h \/ exists h1, h' = EvRemoveAll path :: h1)
  | _ => False
  end.
Proof.
  intros Hm. cg_unfold. rewrite Hm.
  destruct (m_cgroups m !! id) as [info|] eqn:Eid; simpl.
  { do 3 eexists. split; [reflexivity|]. rewrite cg_unlock_id by done. by eauto 10. }
  set (path := path_append (m_root_path m) id).
  destruct (os_create_directories h path) eqn:Edir; simpl;
    [|do 3 eexists; split; [reflexivity|]; rewrite cg_unlock_id by done; do 2 (split; [done|]); by eauto 10].
  match goal with |- context [apply_limits path l ?s] =>
    destruct (apply_limits_run s.1 s.2 path l) as (st & h1 & Hrun & (Hfd & Hpid & Hmap) & Hst) end.
  simpl in Hrun. rewrite Hrun. destruct Hst as [[-> _]|[-> Hlim]]; simpl.
  { do 3 eexists. split; [reflexivity|]. rewrite cg_unlock_id by done. do 2 (split; [done|]). by eauto 10. }
  match goal with |- context [fetch_inode_id path ?s] =>
    destruct (fetch_inode_run s.1 s.2 path) as (ino & Hrun2 & Hu & Hino) end.
  simpl in Hrun2, Hino. rewrite Hrun2.
  destruct (Z.eqb_spec ino 0) as [Hz|Hz]; simpl.
  { do 3 eexists. split; [reflexivity|]. rewrite cg_unlock_id by done. do 2 (split; [done|]). by eauto 10. }
  destruct (os_stat h1 path) as [st_ino|] eqn:Est; [|done]. simpl in Hino.
  match goal with |- context [os_open ?h2 path ?fl] => set (h2' := h2); set (fd := os_open h2' path fl) end.
  destruct (Z.ltb_spec fd 0) as [Hfd0|Hfd0]; simpl.
  { do 3 eexists. split; [reflexivity|]. rewrite cg_unlock_id by done.
    do 4 (split; [done|]). split; [|by eauto].
    simpl. rewrite (proj2 (Z.leb_gt 0 fd)) by lia. done. }
  do 3 eexists. split; [reflexivity|]. do 3 (split; [done|]).
  exists h2', ino, fd. unfold set_cgroups. rewrite Hm.
  split; [done|]. split; [done|]. split; [done|]. split; [done|]. split; [done|].
  split; [done|]. split; [done|]. intros Hwf. destruct (Hlim Hwf) as (cpu & mem & pids & ->).
  by exists cpu, mem, pids, st_ino.
Qed.

Lemma attach_pid_run m h id pid :
  cg_mutex m = false ->
  exists st h', attach_pid id pid (m, h) = (Ret st, (m, h')) /\
    quiet h h' /\
    match m_cgroups m !! id with
    | None => st = ErrInvalidSandboxID /\ h' = h
    | Some info => exists opened stored,
        h' = EvWriteFile (path_append (cgroup_path info) "cgroup.procs") (format_int pid) opened stored :: h /\
        st = (if opened then Success else ErrCgroupQuotaExceeded)
    end.
Proof.
  intros Hm. cg_unfold. rewrite Hm.
  destruct (m_cgroups m !! id) as [info|] eqn:E; simpl.
  - destruct (os_write_file h _ _) as [[] b]; simpl; rewrite cg_unlock_id by done;
      do 2 eexists; (split; [reflexivity|]); (split; [done|]); by do 2 eexists.
  - rewrite cg_unlock_id by done. by do 2 eexists.
Qed.

Lemma destroy_cgroup_run m h id :
  cg_mutex m = false ->
  match m_cgroups m !! id with
  | None => destroy_cgroup id (m, h) = (Ret ErrInvalidSandboxID, (m, h))
  | Some info =>
      destroy_cgroup id (m, h) =
      (Ret Success, (set_cgroups (delete id) m,
         EvRemoveAll (cgroup_path info) ::
         (if 0 <=? cgroup_fd info then [EvClose (cgroup_fd info)] else []) ++ h))
  end.
Proof.
  intros Hm. cg_unfold. rewrite Hm.
  destruct (m_cgroups m !! id) as [info|] eqn:E; simpl; [|by rewrite cg_unlock_id].
  unfold set_cgroups. rewrite Hm. by destruct (0 <=? cgroup_fd info).
Qed.

Lemma get_cgroup_id_run m h id :
  cg_mutex m = false ->
  get_cgroup_id id (m, h) = (Ret (from_option cgroup_id 0 (m_cgroups m !! id)), (m, h)).
Proof.
  intros Hm. cg_unfold. rewrite Hm.
  by destruct (m_cgroups m !! id); simpl; rewrite cg_unlock_id.
Qed.

Lemma get_cgroup_fd_run m h id :
  cg_mutex m = false ->
  get_cgroup_fd id (m, h) = (Ret (from_option cgroup_fd (-1) (m_cgroups m !! id)), (m, h)).
Proof.
  intros Hm. cg_unfold. rewrite Hm.
  by destruct (m_cgroups m !! id); simpl; rewrite cg_unlock_id.
Qed.

Lemma get_cgroup_info_run m h id :
  cg_mutex m = false -> get_cgroup_info id (m, h) = (Ret (m_cgroups m !! id), (m, h)).
Proof. intros Hm. cg_unfold. rewrite Hm. by rewrite cg_unlock_id. Qed.

Lemma release_cgroup_run m h info :
  release_cgroup info (m, h) =
  (Ret tt, (m, EvRemoveAll (cgroup_path info) ::
     (if 0 <=? cgroup_fd info then [EvClose (cgroup_fd info)] else []) ++ h)).
Proof. unfold release_cgroup. cg_unfold. by destruct (0 <=? cgroup_fd info). Qed.

Lemma release_all_run entries m h :
  exists h', for_each entries release_cgroup (m, h) = (Ret tt, (m, h')) /\
    unkilled_pids h' = unkilled_pids h /\ same_maps h h' /\
    (Forall (fun info => 0 <= cgroup_fd info) entries ->
     open_fds h' = open_fds h ∖ list_to_set (cgroup_fd <$> entries)).
Proof.
  revert h. induction entries as [|info entries IH]; intros h; cbn [for_each].
  { exists h. split; [done|]. split; [done|]. split; [done|]. set_solver. }
  erewrite bind_Ret by apply release_cgroup_run.
  match goal with |- context [for_each _ _ (_, ?h1)] => destruct (IH h1) as (h' & -> & Hp & Hmap & Hfd) end.
  exists h'. split; [done|]. destruct (Z.leb_spec 0 (cgroup_fd info)) as [H|H]; simpl in *.
  - do 2 (split; [done|]). intros [_ Hall]%Forall_cons. rewrite Hfd by done. set_solver.
  - do 2 (split; [done|]). intros [H0 _]%Forall_cons. lia.
Qed.

Lemma destroy_all_run m h :
  cg_mutex m = false ->
  exists h', destroy_all (m, h) = (Ret tt, (set_cgroups (fun _ => ∅) m, h')) /\
    unkilled_pids h' = unkilled_pids h /\ same_maps h h' /\
    (map_Forall (fun _ info => 0 <= cgroup_fd info) (m_cgroups m) ->
     open_fds h' = open_fds h ∖ owned_fds m).
Proof.
  intros Hm. unfold destroy_all, lock_guard. simpl. rewrite Hm.
  destruct (release_all_run (map_to_list (m_cgroups m)).*2 (set_mutex true m) h) as (h' & Hrun & Hp & Hmap & Hfd).
  munfold. simpl in *. rewrite Hrun. cg_unfold. exists h'. unfold set_cgroups. rewrite Hm.
  do 3 (split; [done|]). intros Hall. apply Hfd.
  apply Forall_fmap, Forall_forall. intros [id info] Hin%elem_of_map_to_list. exact (Hall id info Hin).
Qed.
End Runs.

(** ** Properties *)
Section Properties.
Context {host : Host}.

(** C25: [create_cgroup] reports success exactly when the identifier is new, the directory is
    made, the three control files open, the inode is not zero and the directory opens.  Then the
    exact limits have been handed to the files, cores * 100000 for [cpu.max] and megabytes * 2^20
    for [memory.max] (the 64-bit products of 32-bit limits do not wrap), and the entry records
    the directory's inode and the descriptor opened on it.  Whether the kernel took the values
    ([cpu], [mem], [pids]) is not looked at. *)
Theorem create_cgroup_spec (m : CgroupManager) (h : history) (id : string) (l : CgroupLimits) :
  cg_mutex m = false -> limits_wf l ->
  let path := path_append (m_root_path m) id in
  exists st m' h', create_cgroup id l (m, h) = (Ret st, (m', h')) /\
  (st = Success <-> exists cpu mem pids st_ino fd,
     h' = cgroup_events path l cpu mem pids st_ino fd ++ h /\ 0 <= fd) /\
  (forall cpu mem pids st_ino fd, h' = cgroup_events path l cpu mem pids st_ino fd ++ h -> 0 <= fd ->
     m_cgroups m !! id = None /\ u64 st_ino <> 0 /\
     m' = set_cgroups <[id := {| ci_sandbox_id := id; cgroup_path := path; cgroup_id := u64 st_ino;
                                 cgroup_fd := fd; ci_limits := l |}]> m).
Proof.
  intros Hm Hl path. destruct (create_cgroup_run m h id l Hm) as (st & m' & h' & Hrun & _ & _ & Hst).
  exists st, m', h'. split; [done|]. fold path in Hst. destruct st; try done; simpl in Hst.
  - destruct Hst as (Hnone & h1 & ino & fd & -> & Hino & _ & Hfd & _ & _ & _ & Hw).
    destruct (Hw Hl) as (cpu & mem & pids & st_ino & -> & ->).
    split; [split; [|done]; by eauto 10|]. intros cpu' mem' pids' st_ino' fd' Heq _.
    unfold cgroup_events in Heq. simpl in Heq. by simplify_eq.
  - destruct Hst as (_ & _ & _ & Hh').
    assert (Hno : forall cpu mem pids st_ino fd, h' <> cgroup_events path l cpu mem pids st_ino fd ++ h)
      by (intros; destruct Hh' as [-> |[h1 ->]]; discriminate).
    split; [|by intros ? ? ? ? ? ?%Hno]. split; [done|]. by intros (? & ? & ? & ? & ? & ?%Hno & _).
  - destruct Hst as (Hsome & _ & ->).
    assert (Hno : forall cpu mem pids st_ino fd, h <> cgroup_events path l cpu mem pids st_ino fd ++ h)
      by (intros ? ? ? ? ? Heq%(f_equal length); rewrite length_app in Heq; simpl in Heq; lia).
    split; [|by intros ? ? ? ? ? ?%Hno]. split; [done|]. by intros (? & ? & ? & ? & ? & ?%Hno & _).
Qed.

(** C27: creation fails without a trace: whenever [create_cgroup] does not return
    Success the table is unchanged, no descriptor stays open, the duplicate identifier is
    reported exactly when it is in the table, and a directory that was made is removed. *)
Theorem create_cgroup_failure_atomic (m : CgroupManager) (h : history) (id : string)
    (l : CgroupLimits) :
  cg_mutex m = false ->
  exists st m' h', create_cgroup id l (m, h) = (Ret st, (m', h')) /\
    (st = ErrInvalidSandboxID <-> is_Some (m_cgroups m !! id)) /\
    (st <> Success -> m' = m /\ open_fds h' = open_fds h /\
       (st = ErrInvalidSandboxID \/
        st = ErrCgroupQuotaExceeded /\
          let path := path_append (m_root_path m) id in
          (h' = EvCreateDirectories path false :: h \/ exists h1, h' = EvRemoveAll path :: h1))).
Proof.
  intros Hm. destruct (create_cgroup_run m h id l Hm) as (st & m' & h' & Hrun & _ & _ & Hst).
  exists st, m', h'. split; [done|]. destruct st; try done; simpl in Hst.
  - destruct Hst as (Hnone & _). split; [|done]. rewrite Hnone. split; [done|by intros [? ?]].
  - destruct Hst as (Hnone & -> & Hfd & Hd). rewrite Hnone. split; [split; [done|by intros [? ?]]|].
    intros _. eauto.
  - destruct Hst as (Hsome & -> & ->). split; [done|]. intros _. eauto.
Qed.

(** ** All sequences of operations *)
Inductive cg_op : Type :=
| CgCreate (id : string) (l : CgroupLimits)
| CgAttach (id : string) (pid : Z)
| CgDestroy (id : string)
| CgGetId (id : string)
| CgGetFd (id : string)
| CgGetInfo (id : string)
| CgDestroyAll.

Definition run_cg_op (op : cg_op) : M CG unit :=
  match op with
  | CgCreate id l => create_cgroup id l ;; mret tt
  | CgAttach id pid => attach_pid id pid ;; mret tt
  | CgDestroy id => destroy_cgroup id ;; mret tt
  | CgGetId id => get_cgroup_id id ;; mret tt
  | CgGetFd id => get_cgroup_fd id ;; mret tt
  | CgGetInfo id => get_cgroup_info id ;; mret tt
  | CgDestroyAll => destroy_all
  end.

Definition cg_good (base : gset Z) (s : CG) : Prop := cg_wf s.1 /\ fds_balanced base s.

Lemma cg_good_same base m h h' :
  open_fds h' = open_fds h -> cg_good base (m, h) -> cg_good base (m, h').
Proof. unfold cg_good, fds_balanced. simpl. by intros ->. Qed.

Lemma destroy_all_good base m h :
  cg_good base (m, h) ->
  exists h', destroy_all (m, h) = (Ret tt, (set_cgroups (fun _ => ∅) m, h')) /\
    cg_good base (set_cgroups (fun _ => ∅) m, h') /\ open_fds h' = base.
Proof.
  intros [[Hm Hwf] (Hfd & Hdisj & Hinj)].
  destruct (destroy_all_run m h Hm) as (h' & -> & _ & _ & Hfd').
  simpl in *. rewrite Hfd in Hfd'.
  assert (Hbase : open_fds h' = base).
  { rewrite Hfd' by (intros i a Ha; by destruct (Hwf i a Ha) as (_ & _ & _ & _ & ?)). set_solver. }
  exists h'. split; [done|]. split; [|done]. split.
  - split; [done|]. simpl. apply map_Forall_empty.
  - unfold fds_balanced, owned_fds. simpl. rewrite owned_empty.
    split; [set_solver|]. split; [set_solver|]. apply owned_once_empty.
Qed.

(** Removing an entry and closing its descriptor. *)
Lemma destroy_good base m h id info :
  cg_good base (m, h) -> m_cgroups m !! id = Some info ->
  cg_good base (set_cgroups (delete id) m, EvClose (cgroup_fd info) :: h).
Proof.
  intros [[Hm Hwf] (Hfd & Hdisj & Hinj)] Eid. simpl in *. split.
  { split; [done|]. simpl. by apply map_Forall_delete. }
  unfold fds_balanced, owned_fds in *. simpl. erewrite owned_delete by done. rewrite Hfd.
  assert (Hown : cgroup_fd info ∈ owned cgroup_fd (m_cgroups m)) by (apply elem_of_owned; eauto).
  assert (Hnb : cgroup_fd info ∉ base) by (intros ?; by apply (Hdisj (cgroup_fd info))).
  split; [|split; [clear - Hdisj; set_solver|by apply owned_once_delete]].
  clear - Hnb. revert Hnb. generalize (cgroup_fd info) as fd. intros fd Hnb.
  apply set_eq; intros x; destruct (decide (x = fd)); set_solver.
Qed.

(** Descriptors that are not in the table may be opened and closed. *)
Lemma cg_good_opened base m h h' fd :
  cg_good base (m, h) -> fd ∉ open_fds h -> open_fds h' = {[fd]} ∪ open_fds h ->
  cg_good ({[fd]} ∪ base) (m, h').
Proof.
  intros [Hwf (Hfd & Hdisj & Hinj)] Hnew Hh'. simpl in *. split; [done|].
  unfold fds_balanced. simpl. rewrite Hfd in Hnew. rewrite Hh', Hfd.
  split; [|split; [|done]]; clear Hwf Hinj Hh' Hfd; set_solver.
Qed.

Lemma cg_good_closed base m h h' fd :
  cg_good base (m, h) -> fd ∈ base -> open_fds h' = open_fds h ∖ {[fd]} ->
  cg_good (base ∖ {[fd]}) (m, h').
Proof.
  intros [Hwf (Hfd & Hdisj & Hinj)] Hin Hh'. simpl in *. split; [done|].
  unfold fds_balanced. simpl. rewrite Hh', Hfd. split; [|split; [|done]];
    clear Hwf Hinj Hh' Hfd; set_solver.
Qed.

Lemma cg_op_good `{!FreshDescriptors} base op s :
  cg_good base s -> exists s', run_cg_op op s = (Ret tt, s') /\ cg_good base s'.
Proof.
  destruct s as [m h]. intros Hgood. pose proof Hgood as [[Hm Hwf] (Hfd & Hdisj & Hinj)].
  simpl in *. destruct op as [id l|id pid|id|id|id|id|]; unfold run_cg_op.
  - destruct (create_cgroup_run m h id l Hm) as (st & m' & h' & Hrun & _ & _ & Hst).
    erewrite bind_Ret by exact Hrun. eexists. split; [reflexivity|].
    destruct st; try done; simpl in Hst;
      [|destruct Hst as (_ & -> & Hfd' & _); by eapply cg_good_same
       |destruct Hst as (_ & -> & ->); done].
    destruct Hst as (Hnone & h1 & ino & fd & -> & Hino & Hu & Hfd0 & Hh1 & Hfresh & -> & _).
    assert (Hnew : fd ∉ open_fds h) by (rewrite <- Hh1; subst fd; by apply open_fresh).
    split.
    + split; [done|]. simpl. apply map_Forall_insert_2; [|done]. by split.
    + unfold fds_balanced, owned_fds in *. simpl. rewrite owned_insert by done. simpl.
      rewrite (proj2 (Z.leb_le 0 fd) Hfd0), Hh1, Hfd.
      split; [set_solver|]. split; [set_solver|]. apply owned_once_insert; [done|]. set_solver.
  - destruct (attach_pid_run m h id pid Hm) as (st & h' & Hrun & (Hfd' & _) & _).
    erewrite bind_Ret by exact Hrun. eexists. split; [reflexivity|]. by eapply cg_good_same.
  - pose proof (destroy_cgroup_run m h id Hm) as Hrun.
    destruct (m_cgroups m !! id) as [info|] eqn:Eid;
      (erewrite bind_Ret by exact Hrun); eexists; (split; [reflexivity|]); [|done].
    destruct (Hwf id info Eid) as (_ & _ & _ & _ & Hfd0).
    rewrite (proj2 (Z.leb_le 0 _) Hfd0). simpl.
    eapply (cg_good_same _ _ (EvClose (cgroup_fd info) :: h)); [done|]. by apply destroy_good.
  - erewrite bind_Ret by by apply get_cgroup_id_run. by eauto.
  - erewrite bind_Ret by by apply get_cgroup_fd_run. by eauto.
  - erewrite bind_Ret by by apply get_cgroup_info_run. by eauto.
  - destruct (destroy_all_good base m h Hgood) as (h' & -> & Hg & _). by eauto.
Qed.

(** C26: over every sequence of operations on a new manager, on any host that hands out
    fresh descriptors: no operation throws or blocks, every entry of the table stays
    well formed, and the open descriptors are those open before plus one per entry, so
    that the final [destroy_all] of the destructor returns to the initial ones. *)
Theorem cg_descriptor_balance `{!FreshDescriptors} (ops : list cg_op) (root : string) (h : history) :
  exists s, for_each ops run_cg_op (CgroupManager_init root, h) = (Ret tt, s) /\
    cg_wf s.1 /\ fds_balanced (open_fds h) s /\
    exists m' h', destroy_all s = (Ret tt, (m', h')) /\ m_cgroups m' = ∅ /\ open_fds h' = open_fds h.
Proof.
  assert (Hinit : cg_good (open_fds h) (CgroupManager_init root, h)).
  { split; [split; [done|apply map_Forall_empty]|]. unfold fds_balanced, owned_fds. simpl.
    rewrite owned_empty. split; [set_solver|]. split; [set_solver|]. apply owned_once_empty. }
  cut (exists s, for_each ops run_cg_op (CgroupManager_init root, h) = (Ret tt, s) /\
                 cg_good (open_fds h) s).
  { intros ([m1 h1] & Hrun & Hgood). exists (m1, h1). split; [done|].
    destruct (destroy_all_good _ _ _ Hgood) as (h' & Hd & _ & Hb).
    destruct Hgood as [Hwf Hbal]. split; [done|]. split; [done|]. by eauto. }
  revert Hinit. generalize (CgroupManager_init root, h) as s. generalize (open_fds h) as base.
  induction ops as [|op ops IH]; intros base s Hgood; cbn [for_each]; [by eauto|].
  destruct (cg_op_good base op s Hgood) as (s1 & Hop & Hgood1).
  erewrite bind_Ret by exact Hop. by apply IH.
Qed.
End Properties.

(** ** Witnesses *)
Definition cg_host : Host := sample_host (fun _ => None) [].
#[global] Instance cg_host_fresh : FreshDescriptors (H := cg_host).
Proof. apply sample_host_fresh. Qed.

(** The state after creating one cgroup on the sample machine. *)
Definition cg_sample : CG :=
  (create_cgroup (host := cg_host) "sbx-1" default_limits
     (CgroupManager_init "/sys/fs/cgroup/aegis", [])).2.

(** A machine on which the control files open but no value is ever stored. *)
Definition unstored_host : Host := {|
  os_exists h p := Some true;
  os_create_directories h p := true;
  os_remove h p := true;
  os_write_file h p v := (true, false);
  os_read_file h p := None;
  os_stat h p := Some 4242;
  os_open h p fl := next_above (open_fds h);
  os_ioctl h fd name := 0;
  os_fork h := next_above (unkilled_pids h);
  os_socket h := next_above (open_fds h);
  os_connect h fd p := 0;
  os_write h fd data := 0;
  os_read h fd n := None;
  os_clock h := 0;
  bpf_open_file h p := None;
  bpf_load h o := -1;
  bpf_programs o := [];
  bpf_program_name p := None;
  bpf_find_program o n := None;
  bpf_attach h p t := None;
  bpf_find_map o n := None;
  bpf_map_fd m := -1;
  bpf_map_update h fd k v := -1;
  bpf_ring_new h fd := None
|}.

Definition cg_root : CgroupManager := CgroupManager_init "/sys/fs/cgroup/aegis".
Definition cg_unstored : outcome Status * CG :=
  create_cgroup (host := unstored_host) "sbx-1" default_limits (cg_root, []).

(** There the cgroup is still reported as created. *)
Lemma create_cgroup_spec_witness :
  cg_unstored.1 = Ret Success /\
  cg_unstored.2.2 =
    cgroup_events "/sys/fs/cgroup/aegis/sbx-1" default_limits false false false 4242 3 ++ [].
Proof.
  destruct (create_cgroup_spec (host := unstored_host) cg_root [] "sbx-1" default_limits eq_refl
    ltac:(unfold limits_wf, is_u32; simpl; lia)) as (st & m' & h' & Hrun & Hst & _).
  unfold cg_unstored. rewrite Hrun. cbn [fst snd].
  assert (Hh : h' = cgroup_events "/sys/fs/cgroup/aegis/sbx-1" default_limits false false false 4242 3 ++ [])
    by (vm_compute in Hrun; injection Hrun as _ _ <-; vm_compute; reflexivity).
  split; [f_equal; apply (proj2 Hst); exists false, false, false, 4242, 3; split; [exact Hh|lia]|exact Hh].
Defined.

Lemma create_cgroup_failure_atomic_witness :
  exists st m' h', create_cgroup (host := cg_host) "sbx-1" default_limits cg_sample = (Ret st, (m', h')) /\
    (st = ErrInvalidSandboxID <-> is_Some (m_cgroups cg_sample.1 !! "sbx-1")) /\
    (st <> Success -> m' = cg_sample.1 /\ open_fds h' = open_fds cg_sample.2 /\
       (st = ErrInvalidSandboxID \/
        st = ErrCgroupQuotaExceeded /\
          let path := path_append (m_root_path cg_sample.1) "sbx-1" in
          (h' = EvCreateDirectories path false :: cg_sample.2 \/
           exists h1, h' = EvRemoveAll path :: h1))).
Proof.
  apply (create_cgroup_failure_atomic (host := cg_host) cg_sample.1 cg_sample.2 "sbx-1" default_limits).
  vm_compute. reflexivity.
Defined.

Lemma cg_descriptor_balance_witness :
  let ops := [CgCreate "sbx-1" default_limits; CgAttach "sbx-1" 77; CgCreate "sbx-2" default_limits;
              CgDestroy "sbx-1"] in
  exists s, for_each ops (run_cg_op (host := cg_host))
      (CgroupManager_init "/sys/fs/cgroup/aegis", [EvOpen "/dev/null" 0 3]) = (Ret tt, s) /\
    cg_wf s.1 /\ fds_balanced (open_fds [EvOpen "/dev/null" 0 3]) s /\
    exists m' h', destroy_all s = (Ret tt, (m', h')) /\ m_cgroups m' = ∅ /\
      open_fds h' = open_fds [EvOpen "/dev/null" 0 3].
Proof.
  intros ops.
  apply (cg_descriptor_balance (host := cg_host) ops "/sys/fs/cgroup/aegis" [EvOpen "/dev/null" 0 3]).
Defined.
