(* ===== verification/EBPFLoader.v ===== *)
(** * EBPFLoader: src/ebpf/ebpf_loader.cpp, include/aegis/ebpf/ebpf_loader.hpp

    The owner of the libbpf object, its links and its program table, and the
    writer of the kernel maps.  libbpf itself is part of [Host]; a null
    [bpf_object*] is [None].  Diagnostics on [std::cerr] are not modelled. *)
From S2P Require Import Prelude Text Host Aegis.

(** ** Data *)
Record EBPFProgramMetadata := {
  program_name : string;
  object_file_path : string;
  is_loaded : bool;
  is_attached : bool
}.

Record EBPFLoader := {
  el_mutex : bool;
  m_bpf_obj : option Z;
  m_bpf_links : list Z;
  m_programs : gmap string EBPFProgramMetadata;
  m_is_loaded : bool
}.

Definition EBPFLoader_init : EBPFLoader :=
  {| el_mutex := false; m_bpf_obj := None; m_bpf_links := []; m_programs := ∅;
     m_is_loaded := false |}.

#[global] Instance EBPFLoader_mutex : HasMutex EBPFLoader :=
  {| mutex_held := el_mutex;
     set_mutex := fun b l => {| el_mutex := b; m_bpf_obj := m_bpf_obj l;
       m_bpf_links := m_bpf_links l; m_programs := m_programs l; m_is_loaded := m_is_loaded l |} |}.

Abbreviation EL := (EBPFLoader * history)%type.

Definition set_obj (o : option Z) : M EL unit :=
  modify (fun s => ({| el_mutex := el_mutex s.1; m_bpf_obj := o; m_bpf_links := m_bpf_links s.1;
    m_programs := m_programs s.1; m_is_loaded := m_is_loaded s.1 |}, s.2)).
Definition set_links (f : list Z -> list Z) : M EL unit :=
  modify (fun s => ({| el_mutex := el_mutex s.1; m_bpf_obj := m_bpf_obj s.1;
    m_bpf_links := f (m_bpf_links s.1); m_programs := m_programs s.1;
    m_is_loaded := m_is_loaded s.1 |}, s.2)).
Definition set_programs (f : gmap string EBPFProgramMetadata -> gmap string EBPFProgramMetadata) : M EL unit :=
  modify (fun s => ({| el_mutex := el_mutex s.1; m_bpf_obj := m_bpf_obj s.1;
    m_bpf_links := m_bpf_links s.1; m_programs := f (m_programs s.1);
    m_is_loaded := m_is_loaded s.1 |}, s.2)).
Definition set_loaded (b : bool) : M EL unit :=
  modify (fun s => ({| el_mutex := el_mutex s.1; m_bpf_obj := m_bpf_obj s.1;
    m_bpf_links := m_bpf_links s.1; m_programs := m_programs s.1; m_is_loaded := b |}, s.2)).

Definition mark_attached (meta : EBPFProgramMetadata) : EBPFProgramMetadata :=
  {| program_name := program_name meta; object_file_path := object_file_path meta;
     is_loaded := is_loaded meta; is_attached := true |}.
Definition mark_unloaded (meta : EBPFProgramMetadata) : EBPFProgramMetadata :=
  {| program_name := program_name meta; object_file_path := object_file_path meta;
     is_loaded := false; is_attached := false |}.

Section Operations.
Context {host : Host}.

(** ** Operations *)

(** One iteration of [bpf_object__for_each_program]. *)
Definition record_program (object_path : string) (prog : Z)
    (progs : gmap string EBPFProgramMetadata) : gmap string EBPFProgramMetadata :=
  match bpf_program_name prog with
  | Some prog_name =>
      <[prog_name := {| program_name := prog_name; object_file_path := object_path;
                        is_loaded := true; is_attached := false |}]> progs
  | None => progs
  end.

Definition load_bpf_object (object_path : string) : M EL Status :=
  lock_guard (
    ex ← fs_exists object_path;
    if negb ex then mret ErrEBPFProbeLoadFailed else
    obj ← call (fun h => bpf_open_file h object_path) (EvObjectOpen object_path);
    set_obj obj ;;
    match obj with
    | None => mret ErrEBPFProbeLoadFailed
    | Some o =>
        err ← call (fun h => bpf_load h o) (EvObjectLoad o);
        if err <? 0 then
          log (EvObjectClose o) ;;
          set_obj None ;;
          mret ErrEBPFProbeLoadFailed
        else
          set_programs (fun progs =>
            fold_left (fun ps prog => record_program object_path prog ps) (bpf_programs o) progs) ;;
          set_loaded true ;;
          mret Success
    end).

(** The part the two attach functions share: find the program, attach it to
    [target], keep the link, mark the program. *)
Definition attach_program (o : Z) (prog_name target : string) : M EL Status :=
  match bpf_find_program o (c_string prog_name) with
  | None => mret ErrEBPFProbeLoadFailed
  | Some prog =>
      link ← call (fun h => bpf_attach h prog target) (EvAttach prog target);
      match link with
      | None => mret ErrEBPFProbeLoadFailed
      | Some ln =>
          set_links (fun ls => ls ++ [ln]) ;;
          set_programs (alter mark_attached prog_name) ;;
          mret Success
      end
  end.

Definition attach_tracepoint (prog_name tp_category tp_name : string) : M EL Status :=
  lock_guard (
    s ← gets (fun s => (m_bpf_obj s.1, m_is_loaded s.1));
    match s with
    | (Some o, true) =>
        attach_program o prog_name ("tracepoint:" +:+ c_string tp_category +:+ "/" +:+ c_string tp_name)
    | _ => mret ErrEBPFProbeLoadFailed
    end).

Definition attach_cgroup_connect4 (prog_name : string) (cgroup_fd : Z) : M EL Status :=
  lock_guard (
    s ← gets (fun s => (m_bpf_obj s.1, m_is_loaded s.1));
    match s with
    | (Some o, true) =>
        if cgroup_fd <? 0 then mret ErrEBPFProbeLoadFailed
        else attach_program o prog_name ("cgroup:" +:+ format_int cgroup_fd)
    | _ => mret ErrEBPFProbeLoadFailed
    end).

Definition map_fd_of (obj : option Z) (map_name : string) : Z :=
  match obj with
  | None => -1
  | Some o =>
      match bpf_find_map o (c_string map_name) with
      | None => -1
      | Some map => bpf_map_fd map
      end
  end.

Definition get_map_fd (map_name : string) : M EL Z :=
  gets (fun s => map_fd_of (m_bpf_obj s.1) map_name).

(** [bpf_map_update_elem(map_fd, &key, &value, BPF_ANY)] and its error check. *)
Definition update_elem (map_fd key value : Z) : M EL Status :=
  err ← call (fun h => bpf_map_update h map_fd key value) (EvMapUpdate map_fd key value);
  if negb (err =? 0) then mret ErrEBPFProbeLoadFailed else mret Success.

Definition set_cgroup_monitored (cgroup_id : Z) (is_monitored : bool) : M EL Status :=
  lock_guard (
    fd1 ← get_map_fd "aegis_monitored_cgroups";
    fd ← (if fd1 <? 0 then get_map_fd "aegis_monitored_cgroups_proc" else mret fd1);
    if fd <? 0 then mret ErrEBPFProbeLoadFailed
    else update_elem fd cgroup_id (if is_monitored then 1 else 0)).

Definition set_syscall_policy (syscall_nr is_blocked : Z) : M EL Status :=
  lock_guard (
    fd ← get_map_fd "aegis_syscall_policy";
    if fd <? 0 then mret ErrEBPFProbeLoadFailed
    else update_elem fd syscall_nr is_blocked).

Definition set_blocked_ip (ipv4_network_order : Z) (is_blocked : bool) : M EL Status :=
  lock_guard (
    fd ← get_map_fd "aegis_blocked_ips";
    if fd <? 0 then mret ErrEBPFProbeLoadFailed
    else update_elem fd ipv4_network_order (if is_blocked then 1 else 0)).

(** The links hold no null pointer: only non-null links are pushed. *)
Definition detach_all : M EL unit :=
  lock_guard (
    links ← gets (fun s => m_bpf_links s.1);
    for_each links (fun link => log (EvLinkDestroy link)) ;;
    set_links (fun _ => []) ;;
    obj ← gets (fun s => m_bpf_obj s.1);
    match obj with
    | Some o => log (EvObjectClose o) ;; set_obj None
    | None => mret tt
    end ;;
    set_programs (fmap mark_unloaded) ;;
    set_loaded false).
End Operations.
#[global] Arguments map_fd_of : simpl never.
#[global] Arguments update_elem : simpl never.

(** ** Runs *)
Section Runs.
Context {host : Host}.

Lemma el_unlock_id l :
  el_mutex l = false ->
  {| el_mutex := false; m_bpf_obj := m_bpf_obj l; m_bpf_links := m_bpf_links l;
     m_programs := m_programs l; m_is_loaded := m_is_loaded l |} = l.
Proof. destruct l as [[] ? ? ? ?]; [done|reflexivity]. Qed.

(** The descriptor of the map [set_cgroup_monitored] writes to. *)
Definition monitored_fd (obj : option Z) : Z :=
  let fd := map_fd_of obj "aegis_monitored_cgroups" in
  if fd <? 0 then map_fd_of obj "aegis_monitored_cgroups_proc" else fd.

(** What a setter does once the descriptor of its map is known. *)
Definition setter_result (fd key value : Z) (l : EBPFLoader) (h : history) : outcome Status * EL :=
  if fd <? 0 then (Ret ErrEBPFProbeLoadFailed, (l, h))
  else let err := bpf_map_update h fd key value in
       (Ret (if err =? 0 then Success else ErrEBPFProbeLoadFailed),
        (l, EvMapUpdate fd key value err :: h)).

Lemma update_elem_run l h fd key value :
  update_elem fd key value (l, h) =
  (Ret (if bpf_map_update h fd key value =? 0 then Success else ErrEBPFProbeLoadFailed),
   (l, EvMapUpdate fd key value (bpf_map_update h fd key value) :: h)).
Proof. unfold update_elem, call. munfold. simpl. by destruct (_ =? 0). Qed.

Ltac setter_run Hm :=
  unfold set_cgroup_monitored, set_syscall_policy, set_blocked_ip, get_map_fd,
    setter_result, monitored_fd;
  munfold; simpl; rewrite Hm;
  repeat match goal with |- context [?fd <? 0] => destruct (fd <? 0) eqn:?; simpl end;
  rewrite ?update_elem_run; simpl; by rewrite el_unlock_id.

Lemma set_cgroup_monitored_run l h id b :
  el_mutex l = false ->
  set_cgroup_monitored id b (l, h) =
  setter_result (monitored_fd (m_bpf_obj l)) id (if b then 1 else 0) l h.
Proof. intros Hm. setter_run Hm. Qed.

Lemma set_syscall_policy_run l h nr v :
  el_mutex l = false ->
  set_syscall_policy nr v (l, h) =
  setter_result (map_fd_of (m_bpf_obj l) "aegis_syscall_policy") nr v l h.
Proof. intros Hm. setter_run Hm. Qed.

Lemma set_blocked_ip_run l h ip b :
  el_mutex l = false ->
  set_blocked_ip ip b (l, h) =
  setter_result (map_fd_of (m_bpf_obj l) "aegis_blocked_ips") ip (if b then 1 else 0) l h.
Proof. intros Hm. setter_run Hm. Qed.

Lemma setter_result_effect fd key value l h :
  exists st h', setter_result fd key value l h = (Ret st, (l, h')) /\
    (st = Success -> 0 <= fd /\ map_value h' fd key = Some value /\
       forall fd' k, (fd', k) <> (fd, key) -> map_value h' fd' k = map_value h fd' k) /\
    (st <> Success -> st = ErrEBPFProbeLoadFailed /\
       forall fd' k, map_value h' fd' k = map_value h fd' k).
Proof.
  unfold setter_result. destruct (Z.ltb_spec fd 0);
    [do 2 eexists; split; [reflexivity|]; split; done|].
  do 2 eexists. split; [reflexivity|]. cbn [map_value].
  destruct (Z.eqb_spec (bpf_map_update h fd key value) 0) as [E|E].
  - split; [|done]. intros _. rewrite !Z.eqb_refl. split; [lia|]. split; [done|].
    intros fd' k Hne. destruct (Z.eqb_spec fd fd') as [->|]; [|done].
    destruct (Z.eqb_spec key k) as [->|]; [congruence|done].
  - split; [done|]. intros _. split; [done|]. intros fd' k. by rewrite andb_false_r.
Qed.

Lemma detach_links_run links (l : EBPFLoader) h :
  for_each links (fun link => log (EvLinkDestroy link)) (l, h) =
  (Ret tt, (l, (EvLinkDestroy <$> reverse links) ++ h)).
Proof.
  revert h. induction links as [|ln links IH]; intros h; cbn [for_each]; [done|].
  unfold mbind, M_bind, log, call. simpl. rewrite IH.
  rewrite reverse_cons, fmap_app, <- app_assoc. done.
Qed.

Lemma detach_all_run l h :
  el_mutex l = false ->
  detach_all (l, h) =
  (Ret tt,
   ({| el_mutex := false; m_bpf_obj := None; m_bpf_links := [];
       m_programs := mark_unloaded <$> m_programs l; m_is_loaded := false |},
    (from_option (fun o => [EvObjectClose o]) [] (m_bpf_obj l)) ++
    (EvLinkDestroy <$> reverse (m_bpf_links l)) ++ h)).
Proof.
  intros Hm. unfold detach_all, set_links, set_programs, set_loaded, set_obj. munfold. simpl.
  rewrite Hm. rewrite detach_links_run. simpl. unfold log, call. simpl.
  by destruct (m_bpf_obj l).
Qed.

Definition with_link (name : string) (ln : Z) (l : EBPFLoader) : EBPFLoader :=
  {| el_mutex := el_mutex l; m_bpf_obj := m_bpf_obj l; m_bpf_links := m_bpf_links l ++ [ln];
     m_programs := alter mark_attached name (m_programs l); m_is_loaded := m_is_loaded l |}.

Lemma attach_program_run l h o name target :
  (exists prog ln, attach_program o name target (l, h) =
     (Ret Success, (with_link name ln l, EvAttach prog target (Some ln) :: h))) \/
  (exists h', attach_program o name target (l, h) = (Ret ErrEBPFProbeLoadFailed, (l, h')) /\
     (h' = h \/ exists prog, h' = EvAttach prog target None :: h)).
Proof.
  unfold attach_program, set_links, set_programs, call. munfold. simpl.
  destruct (bpf_find_program o (c_string name)) as [prog|]; simpl; [|by eauto 10].
  destruct (bpf_attach h prog target) as [ln|] eqn:E; simpl; by eauto 10.
Qed.

(** The two attach functions share their outcomes: a link is kept only when an
    object is present and loaded; otherwise nothing changes but the history. *)
Definition attach_outcome (l : EBPFLoader) (h : history) (name : string)
    (r : outcome Status * EL) : Prop :=
  (exists o prog ln target, m_bpf_obj l = Some o /\ m_is_loaded l = true /\
     r = (Ret Success, (with_link name ln l, EvAttach prog target (Some ln) :: h))) \/
  (exists h', r = (Ret ErrEBPFProbeLoadFailed, (l, h')) /\
     (h' = h \/ exists prog target, h' = EvAttach prog target None :: h)).

Lemma attach_locked_outcome l h o name target :
  el_mutex l = false -> m_bpf_obj l = Some o -> m_is_loaded l = true ->
  attach_outcome l h name
    (match attach_program o name target (set_mutex true l, h) with
     | (Deadlock, s') => (Deadlock, s')
     | (Exited, s') => (Exited, s')
     | (r, s') => (r, set_mutex false s')
     end).
Proof.
  intros Hm Ho Hl.
  destruct (attach_program_run (set_mutex true l) h o name target) as [(prog & ln & ->)|(h' & -> & Hh)].
  - left. exists o, prog, ln, target. split; [done|]. split; [done|].
    unfold with_link. simpl. by rewrite Hm.
  - right. exists h'. simpl. rewrite el_unlock_id by done. naive_solver.
Qed.

Lemma attach_refused l h name :
  attach_outcome l h name (Ret ErrEBPFProbeLoadFailed, (l, h)).
Proof. right. eauto. Qed.

Ltac attach_run :=
  match goal with l : EBPFLoader |- _ =>
    destruct l as [mu [o|] links progs []]; simpl; intros ->; try apply attach_refused end.

Lemma attach_tracepoint_run l h name cat tp :
  el_mutex l = false -> attach_outcome l h name (attach_tracepoint name cat tp (l, h)).
Proof. attach_run. by apply (attach_locked_outcome {| el_mutex := false |}). Qed.

Lemma attach_cgroup_connect4_run l h name fd :
  el_mutex l = false -> attach_outcome l h name (attach_cgroup_connect4 name fd (l, h)).
Proof.
  attach_run. unfold attach_cgroup_connect4, lock_guard, mbind, M_bind, gets. simpl.
  destruct (fd <? 0); [apply attach_refused|].
  by apply (attach_locked_outcome {| el_mutex := false |}).
Qed.

(** The branches of [load_bpf_object]. *)
Lemma load_bpf_object_run l h path :
  el_mutex l = false ->
  let r := load_bpf_object path (l, h) in
  (exists h', (r = (Ret ErrEBPFProbeLoadFailed, (l, h')) \/
               r = (Throw (filesystem_error path), (l, h'))) /\
     (exists b, h' = EvExists path b :: h)) \/
  (exists o h1, r = (Ret Success,
     ({| el_mutex := false; m_bpf_obj := Some o; m_bpf_links := m_bpf_links l;
         m_programs := fold_left (fun ps prog => record_program path prog ps) (bpf_programs o)
                         (m_programs l);
         m_is_loaded := true |}, EvObjectLoad o (bpf_load h1 o) :: h1)) /\
     0 <= bpf_load h1 o /\ h1 = EvObjectOpen path (Some o) :: EvExists path (Some true) :: h) \/
  (exists h', r = (Ret ErrEBPFProbeLoadFailed,
     ({| el_mutex := false; m_bpf_obj := None; m_bpf_links := m_bpf_links l;
         m_programs := m_programs l; m_is_loaded := m_is_loaded l |}, h')) /\
     (h' = EvObjectOpen path None :: EvExists path (Some true) :: h \/
      exists o e, h' = EvObjectClose o :: EvObjectLoad o e :: EvObjectOpen path (Some o) ::
                       EvExists path (Some true) :: h)).
Proof.
  intros Hm. unfold load_bpf_object, fs_exists, set_obj, set_programs, set_loaded, call, log.
  munfold. simpl. rewrite Hm.
  destruct (os_exists h path) as [[]|] eqn:Eex; simpl;
    [|left; eexists; rewrite el_unlock_id by done; by eauto..].
  destruct (bpf_open_file _ path) as [o|] eqn:Eo; simpl;
    [|right; right; eexists; split; [reflexivity|]; by eauto].
  destruct (Z.ltb_spec (bpf_load (EvObjectOpen path (Some o) :: EvExists path (Some true) :: h) o) 0)
    as [Hlt|Hge]; simpl.
  - right; right. eexists. split; [reflexivity|]. by eauto.
  - right; left. exists o. eexists. split; [reflexivity|]. split; [lia|done].
Qed.
End Runs.

(** ** Properties *)
Section Properties.
Context {host : Host}.

Definition loader_inv (l : EBPFLoader) : Prop :=
  el_mutex l = false /\
  (is_Some (m_bpf_obj l) -> m_is_loaded l = true) /\
  (forall n meta, m_programs l !! n = Some meta -> is_attached meta = true -> m_bpf_links l <> []).

Inductive el_op : Type :=
| ElLoad (path : string)
| ElAttachTracepoint (name category tp : string)
| ElAttachConnect4 (name : string) (fd : Z)
| ElSetMonitored (id : Z) (b : bool)
| ElSetSyscall (nr v : Z)
| ElSetIp (ip : Z) (b : bool)
| ElDetachAll.

Definition run_el_op (op : el_op) : M EL Status :=
  match op with
  | ElLoad path => load_bpf_object path
  | ElAttachTracepoint name category tp => attach_tracepoint name category tp
  | ElAttachConnect4 name fd => attach_cgroup_connect4 name fd
  | ElSetMonitored id b => set_cgroup_monitored id b
  | ElSetSyscall nr v => set_syscall_policy nr v
  | ElSetIp ip b => set_blocked_ip ip b
  | ElDetachAll => detach_all ;; mret Success
  end.

(** Sequences of operations; a caller goes on after an exception. *)
Inductive el_reach : EL -> EL -> Prop :=
| el_reach_refl s : el_reach s s
| el_reach_step s op r s1 s2 :
    run_el_op op s = (r, s1) -> el_reach s1 s2 -> el_reach s s2.

Lemma record_programs_unattached path progs ps n meta :
  fold_left (fun ps prog => record_program path prog ps) progs ps !! n = Some meta ->
  is_attached meta = true -> ps !! n = Some meta.
Proof.
  revert ps. induction progs as [|prog progs IH]; intros ps; simpl; [done|].
  intros H Ha. specialize (IH _ H Ha). unfold record_program in IH.
  destruct (bpf_program_name prog) as [pn|]; [|done].
  apply lookup_insert_Some in IH as [[-> <-]|[_ ?]]; done.
Qed.

Lemma attach_outcome_inv l h name r s' :
  loader_inv l -> attach_outcome l h name (r, s') -> r <> Deadlock /\ loader_inv s'.1.
Proof.
  intros (Hm & Ho & Ha) [(o & prog & ln & t & Eo & El & [= -> ->])|(h' & [= -> ->] & _)];
    (split; [done|]); [|done].
  split; [done|]. split; [by intros _|]. simpl. intros n meta _ _. by destruct (m_bpf_links l).
Qed.

Lemma setter_result_inv fd k v l h r s' :
  loader_inv l -> setter_result fd k v l h = (r, s') -> r <> Deadlock /\ loader_inv s'.1.
Proof. unfold setter_result. intros Hi H. by destruct (fd <? 0); simplify_eq/=. Qed.

Lemma el_op_inv op l h r s' :
  loader_inv l -> run_el_op op (l, h) = (r, s') -> r <> Deadlock /\ loader_inv s'.1.
Proof.
  intros Hinv. pose proof Hinv as (Hm & Ho & Ha).
  destruct op as [path|name cat tp|name fd|id b|nr v|ip b|]; unfold run_el_op.
  - destruct (load_bpf_object_run l h path Hm)
      as [(h' & [->| ->] & _)|[(o & h1 & -> & _)|(h' & -> & _)]]; intros [= <- <-]; (split; [done|]);
      try done.
    + split; [done|]. split; [done|]. simpl. intros n meta Hn Hat.
      by eapply Ha, Hat; eapply record_programs_unattached.
    + split; [done|]. split; [by intros [? ?]|done].
  - intros Hr. eapply attach_outcome_inv; [done|]. rewrite <- Hr. by apply attach_tracepoint_run.
  - intros Hr. eapply attach_outcome_inv; [done|]. rewrite <- Hr. by apply attach_cgroup_connect4_run.
  - rewrite set_cgroup_monitored_run by done. by apply setter_result_inv.
  - rewrite set_syscall_policy_run by done. by apply setter_result_inv.
  - rewrite set_blocked_ip_run by done. by apply setter_result_inv.
  - erewrite bind_Ret by by apply detach_all_run. intros [= <- <-]. split; [done|].
    split; [done|]. split; [by intros [? ?]|]. simpl. intros n meta Hn Hat.
    rewrite lookup_fmap in Hn. destruct (m_programs l !! n); by simplify_eq/=.
Qed.

(** C28: whatever sequence of operations a client runs on a new loader, on any libbpf, no
    call deadlocks, an object that is held is a loaded one, and a program is marked
    attached only while links exist. *)
Theorem loader_invariant (h : history) (s : EL) :
  el_reach (EBPFLoader_init, h) s -> loader_inv s.1 /\
  forall op, (run_el_op op s).1 <> Deadlock.
Proof.
  assert (Hinit : loader_inv (EBPFLoader_init, h).1).
  { split; [done|]. split; [by intros [? ?]|]. intros n meta Hn. simpl in Hn. by rewrite lookup_empty in Hn. }
  intros Hreach. assert (Hs : loader_inv s.1).
  { revert Hinit. induction Hreach as [s|[l1 h1] op r s1 s2 Hop _ IH]; intros Hinv; [done|].
    apply IH. by eapply el_op_inv. }
  split; [done|]. intros op. destruct s as [l1 h1].
  destruct (run_el_op op (l1, h1)) as [r s'] eqn:E. by eapply el_op_inv in E as [? _].
Qed.

(** C29: a map setter that returns Success has written exactly its entry: the map then
    holds the value at the key and every other entry of every map is as before; a setter
    that fails has changed no map.  Stated for all three setters. *)
Theorem map_setters_effect (l : EBPFLoader) (h : history) (op : el_op) (st : Status) (s' : EL) :
  el_mutex l = false -> run_el_op op (l, h) = (Ret st, s') ->
  match (match op with
         | ElSetMonitored id b => Some (monitored_fd (m_bpf_obj l), id, if b then 1 else 0)
         | ElSetSyscall nr v => Some (map_fd_of (m_bpf_obj l) "aegis_syscall_policy", nr, v)
         | ElSetIp ip b => Some (map_fd_of (m_bpf_obj l) "aegis_blocked_ips", ip, if b then 1 else 0)
         | _ => None
         end) with
  | Some (fd, key, value) =>
      (st = Success -> 0 <= fd /\ map_value s'.2 fd key = Some value /\
         forall fd' k, (fd', k) <> (fd, key) -> map_value s'.2 fd' k = map_value h fd' k) /\
      (st <> Success -> forall fd' k, map_value s'.2 fd' k = map_value h fd' k)
  | None => True
  end.
Proof.
  intros Hm Hrun.
  assert (Heff : forall fd k v, setter_result fd k v l h = (Ret st, s') ->
    (st = Success -> 0 <= fd /\ map_value s'.2 fd k = Some v /\
         forall fd' k', (fd', k') <> (fd, k) -> map_value s'.2 fd' k' = map_value h fd' k') /\
    (st <> Success -> forall fd' k', map_value s'.2 fd' k' = map_value h fd' k')).
  { intros fd k v Hr. destruct (setter_result_effect fd k v l h) as (st' & h' & Heq & H1 & H2).
    rewrite Hr in Heq. simplify_eq. split; [done|]. intros Hne. by apply H2. }
  destruct op; try done; simpl in Hrun.
  - rewrite set_cgroup_monitored_run in Hrun by done. by apply Heff.
  - rewrite set_syscall_policy_run in Hrun by done. by apply Heff.
  - rewrite set_blocked_ip_run in Hrun by done. by apply Heff.
Qed.

(** without a BPF object (a loader that never loaded one, or after detach_all) every
    setter and attach function fails and makes no call at all. *)
Theorem no_object_no_effect (l : EBPFLoader) (h : history) (op : el_op) :
  el_mutex l = false -> m_bpf_obj l = None ->
  match op with
  | ElLoad _ | ElDetachAll => True
  | _ => run_el_op op (l, h) = (Ret ErrEBPFProbeLoadFailed, (l, h))
  end.
Proof.
  intros Hm Ho. destruct op; try done; simpl.
  - destruct l as [mu obj links progs loaded]; simpl in *. by subst.
  - destruct l as [mu obj links progs loaded]; simpl in *. by subst.
  - rewrite set_cgroup_monitored_run by done. unfold setter_result, monitored_fd. by rewrite Ho.
  - rewrite set_syscall_policy_run by done. unfold setter_result. by rewrite Ho.
  - rewrite set_blocked_ip_run by done. unfold setter_result. by rewrite Ho.
Qed.

Lemma open_objects_links ls h : open_objects ((EvLinkDestroy <$> ls) ++ h) = open_objects h.
Proof. induction ls as [|x ls IH]; [done|apply IH]. Qed.

(** a loader that loads a second object over the first drops its only handle to it:
    the first object is still open in the kernel after detach_all. *)
Theorem reload_leaks_object (l l1 : EBPFLoader) (h h1 : history) (path : string) (o1 o2 : Z) :
  el_mutex l = false -> m_bpf_obj l = Some o1 -> o1 ∈ open_objects h ->
  load_bpf_object path (l, h) = (Ret Success, (l1, h1)) -> m_bpf_obj l1 = Some o2 -> o1 <> o2 ->
  o1 ∈ open_objects (detach_all (l1, h1)).2.2 /\ m_bpf_obj (detach_all (l1, h1)).2.1 = None.
Proof.
  intros Hm Ho Hin Hload Ho2 Hne.
  destruct (load_bpf_object_run l h path Hm)
    as [(h' & [Hr|Hr] & _)|[(o & h2 & Hr & _ & Hh)|(h' & Hr & _)]];
    rewrite Hr in Hload; simplify_eq/=.
  rewrite detach_all_run by done. simpl. split; [|done].
  rewrite open_objects_links. simpl. set_solver.
Qed.

(** a single load followed by detach_all leaves the same BPF objects open as before. *)
Theorem load_detach_balanced (l l1 : EBPFLoader) (h h1 : history) (path : string) :
  el_mutex l = false -> m_bpf_obj l = None ->
  load_bpf_object path (l, h) = (Ret Success, (l1, h1)) ->
  (forall o, m_bpf_obj l1 = Some o -> o ∉ open_objects h) ->
  open_objects (detach_all (l1, h1)).2.2 = open_objects h.
Proof.
  intros Hm Ho Hload Hfresh.
  destruct (load_bpf_object_run l h path Hm)
    as [(h' & [Hr|Hr] & _)|[(o & h2 & Hr & _ & Hh)|(h' & Hr & _)]];
    rewrite Hr in Hload; simplify_eq/=.
  rewrite detach_all_run by done. simpl.
  rewrite open_objects_links. simpl. specialize (Hfresh o eq_refl). set_solver.
Qed.

(** a load that fails on the file of a second object also gives up the first: the
    loader still says it is loaded, holds no object, and every later map update fails. *)
Theorem failed_reload_drops_object (l : EBPFLoader) (h : history) (path : string) :
  el_mutex l = false -> m_is_loaded l = true ->
  os_exists h path = Some true -> bpf_open_file (EvExists path (Some true) :: h) path = None ->
  exists l' h', load_bpf_object path (l, h) = (Ret ErrEBPFProbeLoadFailed, (l', h')) /\
    m_bpf_obj l' = None /\ m_is_loaded l' = true /\
    forall nr, set_syscall_policy nr 1 (l', h') = (Ret ErrEBPFProbeLoadFailed, (l', h')).
Proof.
  intros Hm Hl Hex Hop. unfold load_bpf_object, fs_exists, set_obj, call. munfold. simpl.
  rewrite Hm, Hex. simpl. rewrite Hop. do 2 eexists. split; [reflexivity|].
  split; [done|]. split; [done|]. intros nr.
  by rewrite set_syscall_policy_run.
Qed.
End Properties.

(** ** Witnesses *)
Definition el_host : Host :=
  sample_host (fun _ => None)
    ["aegis_monitored_cgroups"; "aegis_syscall_policy"; "aegis_security_events"].

Definition el_loaded : EL :=
  (load_bpf_object (host := el_host) "sys_filter.bpf.o" (EBPFLoader_init, [])).2.
Definition el_reloaded : EL :=
  (load_bpf_object (host := el_host) "net_filter.bpf.o" el_loaded).2.

Lemma loader_invariant_witness :
  loader_inv el_loaded.1 /\ forall op, (run_el_op (host := el_host) op el_loaded).1 <> Deadlock.
Proof.
  apply (loader_invariant (host := el_host) [] el_loaded).
  apply (el_reach_step _ (ElLoad "sys_filter.bpf.o") (Ret Success) el_loaded).
  - vm_compute. reflexivity.
  - constructor.
Defined.

Lemma map_setters_effect_witness :
  let h' := EvMapUpdate 101 59 1 0 :: el_loaded.2 in
  (Success = Success -> 0 <= 101 /\ map_value h' 101 59 = Some 1 /\
     forall fd' k, (fd', k) <> (101, 59) -> map_value h' fd' k = map_value el_loaded.2 fd' k) /\
  (Success <> Success -> forall fd' k, map_value h' fd' k = map_value el_loaded.2 fd' k).
Proof.
  intros h'.
  apply (map_setters_effect (host := el_host) el_loaded.1 el_loaded.2 (ElSetSyscall 59 1) Success
           (el_loaded.1, h')).
  - vm_compute. reflexivity.
  - vm_compute. reflexivity.
Defined.

Lemma no_object_no_effect_witness :
  run_el_op (host := el_host) (ElSetMonitored 4242 true) (EBPFLoader_init, []) =
  (Ret ErrEBPFProbeLoadFailed, (EBPFLoader_init, [])).
Proof.
  apply (no_object_no_effect (host := el_host) EBPFLoader_init [] (ElSetMonitored 4242 true));
    reflexivity.
Defined.

Lemma reload_leaks_object_witness :
  2 ∈ open_objects (detach_all el_reloaded).2.2 /\ m_bpf_obj (detach_all el_reloaded).2.1 = None.
Proof.
  apply (reload_leaks_object (host := el_host) el_loaded.1 el_reloaded.1 el_loaded.2 el_reloaded.2
           "net_filter.bpf.o" 2 5).
  - vm_compute. reflexivity.
  - vm_compute. reflexivity.
  - apply (bool_decide_eq_true_1 (2 ∈ open_objects el_loaded.2)). vm_compute. reflexivity.
  - vm_compute. reflexivity.
  - vm_compute. reflexivity.
  - discriminate.
Defined.

Lemma load_detach_balanced_witness :
  open_objects (detach_all el_loaded).2.2 = open_objects [].
Proof.
  apply (load_detach_balanced (host := el_host) EBPFLoader_init el_loaded.1 [] el_loaded.2
           "sys_filter.bpf.o").
  - reflexivity.
  - reflexivity.
  - vm_compute. reflexivity.
  - intros o _. apply not_elem_of_empty.
Defined.

(** A machine that has no second object file. *)
Definition el_host_broken : Host := {|
  os_exists := os_exists (Host := el_host);
  os_create_directories := os_create_directories (Host := el_host);
  os_remove := os_remove (Host := el_host);
  os_write_file := os_write_file (Host := el_host);
  os_read_file := os_read_file (Host := el_host);
  os_stat := os_stat (Host := el_host);
  os_open := os_open (Host := el_host);
  os_ioctl := os_ioctl (Host := el_host);
  os_fork := os_fork (Host := el_host);
  os_socket := os_socket (Host := el_host);
  os_connect := os_connect (Host := el_host);
  os_write := os_write (Host := el_host);
  os_read := os_read (Host := el_host);
  os_clock := os_clock (Host := el_host);
  bpf_open_file h p := None;
  bpf_load := bpf_load (Host := el_host);
  bpf_programs := bpf_programs (Host := el_host);
  bpf_program_name := bpf_program_name (Host := el_host);
  bpf_find_program := bpf_find_program (Host := el_host);
  bpf_attach := bpf_attach (Host := el_host);
  bpf_find_map := bpf_find_map (Host := el_host);
  bpf_map_fd := bpf_map_fd (Host := el_host);
  bpf_map_update := bpf_map_update (Host := el_host);
  bpf_ring_new := bpf_ring_new (Host := el_host)
|}.

Lemma failed_reload_drops_object_witness :
  exists l' h', load_bpf_object (host := el_host_broken) "missing.bpf.o" el_loaded =
      (Ret ErrEBPFProbeLoadFailed, (l', h')) /\
    m_bpf_obj l' = None /\ m_is_loaded l' = true /\
    forall nr, set_syscall_policy (host := el_host_broken) nr 1 (l', h') =
      (Ret ErrEBPFProbeLoadFailed, (l', h')).
Proof.
  apply (failed_reload_drops_object (host := el_host_broken) el_loaded.1 el_loaded.2 "missing.bpf.o").
  - vm_compute. reflexivity.
  - vm_compute. reflexivity.
  - reflexivity.
  - reflexivity.
Defined.
