(* ===== verification/Layout.v ===== *)
(** * Layout: C structures as byte strings

    Little-endian integers and the natural-alignment layout of the System V
    x86_64 ABI, which the eBPF programs and the user-space reader share.  A
    byte string is a [string]; padding bytes are arbitrary. *)
From S2P Require Import Prelude Text.
From Stdlib Require Import Ascii.

(** ** Little-endian integers *)
Fixpoint le_bytes (n : nat) (z : Z) : string :=
  match n with
  | O => EmptyString
  | S n' => String (ascii_of_N (Z.to_N (z mod 256))) (le_bytes n' (z / 256))
  end.

Fixpoint le_val (s : string) : Z :=
  match s with
  | EmptyString => 0
  | String c s' => Z.of_N (N_of_ascii c) + 256 * le_val s'
  end.

Fixpoint str_drop (n : nat) (s : string) : string :=
  match n, s with
  | S n', String _ s' => str_drop n' s'
  | _, _ => s
  end.

(** ** Structures *)
Record cfield := { f_size : nat; f_align : nat }.

Definition u64_field : cfield := {| f_size := 8; f_align := 8 |}.
Definition u32_field : cfield := {| f_size := 4; f_align := 4 |}.
Definition u16_field : cfield := {| f_size := 2; f_align := 2 |}.
Definition u8_field : cfield := {| f_size := 1; f_align := 1 |}.
Definition char_array (n : nat) : cfield := {| f_size := n; f_align := 1 |}.

Definition align_up (off al : nat) : nat := ((off + al - 1) / al * al)%nat.

(** The offset of each field of a structure whose layout has reached [off]. *)
Fixpoint offsets_from (off : nat) (fs : list cfield) : list nat :=
  match fs with
  | [] => []
  | f :: fs' =>
      let o := align_up off (f_align f) in
      o :: offsets_from (o + f_size f) fs'
  end.

Fixpoint end_from (off : nat) (fs : list cfield) : nat :=
  match fs with
  | [] => off
  | f :: fs' => end_from (align_up off (f_align f) + f_size f) fs'
  end.

Definition struct_align (fs : list cfield) : nat := foldr (fun f a => Nat.max (f_align f) a) 1%nat fs.
Definition sizeof (fs : list cfield) : nat := align_up (end_from 0 fs) (struct_align fs).

(** The bytes of each field of the structure at [data]. *)
Definition read_fields (fs : list cfield) (data : string) : list string :=
  zip_with (fun f o => str_take (f_size f) (str_drop o data)) fs (offsets_from 0 fs).

(** [pad k]: the byte that happens to be at offset [k]. *)
Fixpoint padding (pad : nat -> ascii) (off n : nat) : string :=
  match n with
  | O => EmptyString
  | S n' => String (pad off) (padding pad (S off) n')
  end.

Fixpoint encode_from (pad : nat -> ascii) (off : nat) (fs : list cfield) (vals : list string) : string :=
  match fs, vals with
  | f :: fs', v :: vals' =>
      let o := align_up off (f_align f) in
      padding pad off (o - off) +:+ v +:+ encode_from pad (o + f_size f) fs' vals'
  | _, _ => EmptyString
  end.

(** A structure holding the field values [vals] (each of its field's size). *)
Definition encode (pad : nat -> ascii) (fs : list cfield) (vals : list string) : string :=
  encode_from pad 0 fs vals +:+ padding pad (end_from 0 fs) (sizeof fs - end_from 0 fs).

Definition fits (f : cfield) (v : string) : Prop := String.length v = f_size f.

(** ** Lemmas *)
Lemma le_bytes_length n z : String.length (le_bytes n z) = n.
Proof. revert z. induction n as [|n IH]; intros z; simpl; [done|]. by rewrite IH. Qed.

Lemma le_val_bytes n z : le_val (le_bytes n z) = z mod 256 ^ Z.of_nat n.
Proof.
  revert z. induction n as [|n IH]; intros z; cbn [le_bytes le_val]; [by rewrite Z.mod_1_r|].
  rewrite IH, N_ascii_embedding by (pose proof (Z.mod_pos_bound z 256); lia).
  rewrite Z2N.id by (apply Z.mod_pos_bound; lia).
  rewrite Nat2Z.inj_succ, Z.pow_succ_r by lia.
  by rewrite Z.rem_mul_r by lia.
Qed.

Lemma str_drop_app a b : str_drop (String.length a) (a +:+ b) = b.
Proof. induction a as [|c a IH]; simpl; [by destruct b|done]. Qed.

Lemma str_take_app a b : str_take (String.length a) (a +:+ b) = a.
Proof. induction a as [|c a IH]; simpl; [done|]. by rewrite IH. Qed.

Lemma padding_length pad off n : String.length (padding pad off n) = n.
Proof. revert off. induction n as [|n IH]; intros off; simpl; [done|]. by rewrite IH. Qed.

Lemma align_up_ge off al : (0 < al)%nat -> (off <= align_up off al)%nat.
Proof.
  intros H. unfold align_up. pose proof (Nat.div_mod (off + al - 1) al ltac:(lia)) as Hd.
  pose proof (Nat.mod_upper_bound (off + al - 1) al ltac:(lia)). lia.
Qed.

Definition aligned (f : cfield) : Prop := (0 < f_align f)%nat.

Lemma encode_from_length pad off fs vals :
  Forall aligned fs -> Forall2 fits fs vals ->
  (off + String.length (encode_from pad off fs vals) = end_from off fs)%nat.
Proof.
  intros Hal Hf. revert off. induction Hf as [|f v fs vals Hv _ IH]; intros off; simpl; [lia|].
  apply Forall_cons in Hal as [Ha Hal]. rewrite !str_length_app, padding_length, Hv.
  pose proof (align_up_ge off (f_align f) Ha). specialize (IH Hal (align_up off (f_align f) + f_size f)%nat).
  lia.
Qed.

(** A structure is as long as [sizeof] says. *)
Lemma encode_length pad fs vals :
  Forall aligned fs -> (0 < struct_align fs)%nat -> Forall2 fits fs vals ->
  String.length (encode pad fs vals) = sizeof fs.
Proof.
  intros Hal Hsa Hf. unfold encode. rewrite str_length_app, padding_length.
  pose proof (encode_from_length pad 0 fs vals Hal Hf).
  pose proof (align_up_ge (end_from 0 fs) _ Hsa). unfold sizeof in *. lia.
Qed.

Lemma read_encode_from pad off fs vals pre post :
  Forall aligned fs -> Forall2 fits fs vals -> String.length pre = off ->
  zip_with (fun f o => str_take (f_size f) (str_drop o (pre +:+ encode_from pad off fs vals +:+ post)))
    fs (offsets_from off fs) = vals.
Proof.
  intros Hal Hf. revert off pre. induction Hf as [|f v fs vals Hv _ IH]; intros off pre Hpre; [done|].
  apply Forall_cons in Hal as [Ha Hal]. cbn [offsets_from zip_with encode_from].
  pose proof (align_up_ge off (f_align f) Ha) as Hge.
  set (o := align_up off (f_align f)) in *. set (p := padding pad off (o - off)).
  assert (Hlen : String.length (pre +:+ p) = o).
  { rewrite str_length_app. subst p. rewrite padding_length. lia. }
  rewrite !str_app_assoc. f_equal.
  - rewrite <- (str_app_assoc pre p), <- Hlen, str_drop_app. unfold fits in Hv. rewrite <- Hv.
    apply str_take_app.
  - specialize (IH Hal (o + f_size f)%nat ((pre +:+ p) +:+ v)).
    rewrite !str_app_assoc in IH. apply IH.
    unfold fits in Hv. rewrite <- str_app_assoc, str_length_app, Hlen, Hv. lia.
Qed.

(** Reading back the fields of an encoded structure gives their values. *)
Lemma read_encode pad fs vals :
  Forall aligned fs -> Forall2 fits fs vals -> read_fields fs (encode pad fs vals) = vals.
Proof. intros Hal Hf. by apply (read_encode_from pad 0 fs vals "" _). Qed.

#[export] Hint Resolve le_bytes_length : aegis.
