(* ===== verification/Probes.v ===== *)
(** * Probes: the eBPF programs (ebpf/*.bpf.c)

    Each program is a function of the task and hook context, of the map
    lookups and of whether the ring buffer has room, to its return value and
    the actions it takes: events submitted, signals sent. *)
From S2P Require Import Prelude Text Layout PolicyEngine.
From Stdlib Require Import Ascii.

(** ** Context and actions *)
Record task := {
  t_cgroup_id : Z;      (* bpf_get_current_cgroup_id(): u64 *)
  t_pid_tgid : Z;       (* bpf_get_current_pid_tgid(): u64 *)
  t_uid_gid : Z;        (* bpf_get_current_uid_gid(): u64 *)
  t_ktime : Z;          (* bpf_ktime_get_ns(): u64 *)
  t_comm : string;      (* bpf_get_current_comm: 16 bytes *)
  t_parent_tgid : Z     (* current->real_parent->tgid *)
}.

Record security_event := {
  se_timestamp_ns : Z; se_pid : Z; se_tgid : Z; se_cgroup_id : Z; se_syscall_nr : Z;
  se_comm : string; se_action_taken : Z
}.

Record net_security_event := {
  ne_timestamp_ns : Z; ne_pid : Z; ne_tgid : Z; ne_cgroup_id : Z; ne_dst_ip : Z;
  ne_dst_port : Z; ne_proto : Z; ne_action_taken : Z; ne_comm : string
}.

Record process_exec_event := {
  xe_timestamp_ns : Z; xe_pid : Z; xe_tgid : Z; xe_ppid : Z; xe_cgroup_id : Z;
  xe_uid : Z; xe_gid : Z; xe_is_privilege_escalation : Z; xe_action_taken : Z;
  xe_comm : string; xe_filename : string
}.

Inductive kaction : Type :=
| SubmitSyscall (ev : security_event)
| SubmitNet (ev : net_security_event)
| SubmitProcess (ev : process_exec_event)
| SendSignal (sig : Z).

Definition SIGKILL : Z := 9.
Definition AF_INET : Z := 2.

(** The maps each object file defines. *)
Definition sys_filter_maps : list string :=
  ["aegis_monitored_cgroups"; "aegis_syscall_policy"; "aegis_security_events"].
Definition net_filter_maps : list string := ["aegis_blocked_ips"; "aegis_net_events"].
Definition process_monitor_maps : list string :=
  ["aegis_monitored_cgroups_proc"; "aegis_process_events"].

(** [!p || *p == 0] on a looked-up value. *)
Definition unmonitored (v : option Z) : bool :=
  match v with None => true | Some x => x =? 0 end.

(** [p && *p == 1]. *)
Definition is_one (v : option Z) : bool :=
  match v with None => false | Some x => x =? 1 end.

(** ** sys_filter.bpf.c *)
Definition handle_sys_enter (monitored_cgroups syscall_policy : Z -> option Z) (reserve : bool)
    (t : task) (ctx_id : Z) : Z * list kaction :=
  let cgroup_id := t_cgroup_id t in
  if unmonitored (monitored_cgroups cgroup_id) then (0, []) else
  let syscall_nr := u32 ctx_id in
  if is_one (syscall_policy syscall_nr) then
    let event := {| se_timestamp_ns := t_ktime t;
                    se_pid := u32 (Z.shiftr (t_pid_tgid t) 32);
                    se_tgid := u32 (t_pid_tgid t);
                    se_cgroup_id := u32 cgroup_id;
                    se_syscall_nr := syscall_nr;
                    se_comm := t_comm t;
                    se_action_taken := 1 |} in
    (0, (if reserve then [SubmitSyscall event] else []) ++ [SendSignal SIGKILL])
  else (0, []).

(** ** net_filter.bpf.c *)
Record sock_addr := { sa_family : Z; sa_user_ip4 : Z; sa_user_port : Z; sa_protocol : Z }.

(** [bpf_ntohs] of a little-endian kernel. *)
Definition bpf_ntohs (x : Z) : Z := Z.lor (Z.shiftl (Z.land x 255) 8) (Z.shiftr x 8).

(** The source calls [bpf_hltonl], which no header defines; it is a parameter. *)
Definition aegis_cgroup_connect4 (bpf_hltonl : Z -> Z) (blocked_ips : Z -> option Z) (reserve : bool)
    (t : task) (ctx : sock_addr) : Z * list kaction :=
  if negb (sa_family ctx =? AF_INET) then (1, []) else
  let dst_ip := u32 (sa_user_ip4 ctx) in
  let dst_port := bpf_ntohs (u16 (sa_user_port ctx)) in
  let metadata := bpf_hltonl 0xA9FEA9FE in
  let is_blocked := if dst_ip =? metadata then true else is_one (blocked_ips dst_ip) in
  if is_blocked then
    let event := {| ne_timestamp_ns := t_ktime t;
                    ne_pid := u32 (Z.shiftr (t_pid_tgid t) 32);
                    ne_tgid := u32 (t_pid_tgid t);
                    ne_cgroup_id := u32 (t_cgroup_id t);
                    ne_dst_ip := dst_ip;
                    ne_dst_port := dst_port;
                    ne_proto := u8 (sa_protocol ctx);
                    ne_action_taken := 1;
                    ne_comm := t_comm t |} in
    (0, if reserve then [SubmitNet event] else [])
  else (1, []).

(** ** process_monitor.bpf.c *)



(** ** Records in the ring buffer *)
Definition security_event_fields : list cfield :=
  [u64_field; u32_field; u32_field; u32_field; u32_field; char_array 16; u8_field].
Definition net_security_event_fields : list cfield :=
  [u64_field; u32_field; u32_field; u32_field; u32_field; u16_field; u8_field; u8_field; char_array 16].
Definition process_exec_event_fields : list cfield :=
  [u64_field; u32_field; u32_field; u32_field; u32_field; u32_field; u32_field; u8_field; u8_field;
   char_array 16; char_array 256].

Definition security_event_bytes (ev : security_event) : list string :=
  [le_bytes 8 (se_timestamp_ns ev); le_bytes 4 (se_pid ev); le_bytes 4 (se_tgid ev);
   le_bytes 4 (se_cgroup_id ev); le_bytes 4 (se_syscall_nr ev); se_comm ev;
   le_bytes 1 (se_action_taken ev)].
Definition net_security_event_bytes (ev : net_security_event) : list string :=
  [le_bytes 8 (ne_timestamp_ns ev); le_bytes 4 (ne_pid ev); le_bytes 4 (ne_tgid ev);
   le_bytes 4 (ne_cgroup_id ev); le_bytes 4 (ne_dst_ip ev); le_bytes 2 (ne_dst_port ev);
   le_bytes 1 (ne_proto ev); le_bytes 1 (ne_action_taken ev); ne_comm ev].
Definition process_exec_event_bytes (ev : process_exec_event) : list string :=
  [le_bytes 8 (xe_timestamp_ns ev); le_bytes 4 (xe_pid ev); le_bytes 4 (xe_tgid ev);
   le_bytes 4 (xe_ppid ev); le_bytes 4 (xe_cgroup_id ev); le_bytes 4 (xe_uid ev);
   le_bytes 4 (xe_gid ev); le_bytes 1 (xe_is_privilege_escalation ev);
   le_bytes 1 (xe_action_taken ev); xe_comm ev; xe_filename ev].

(** ** Lemmas *)
Lemma monitored_iff v : unmonitored v = false <-> exists x, v = Some x /\ x <> 0.
Proof. destruct v as [x|]; simpl; [rewrite Z.eqb_neq|]; naive_solver. Qed.

Lemma is_one_iff v : is_one v = true <-> v = Some 1.
Proof. destruct v as [x|]; simpl; [rewrite Z.eqb_eq|]; naive_solver. Qed.

(** Whether the system-call filter enforces on this call. *)
Lemma handle_sys_enter_idle mon pol reserve t id :
  unmonitored (mon (t_cgroup_id t)) = true \/ is_one (pol (u32 id)) = false ->
  handle_sys_enter mon pol reserve t id = (0, []).
Proof. unfold handle_sys_enter. intros [-> | ->]; [done|]. by destruct (unmonitored _). Qed.

Lemma elem_of_optional {A} (b : bool) (x y z : A) :
  x ∈ (if b then [y] else []) ++ [z] <-> (b = true /\ x = y) \/ x = z.
Proof. destruct b; simpl; set_solver. Qed.

Lemma sys_enter_kills_iff mon pol reserve t id :
  SendSignal SIGKILL ∈ (handle_sys_enter mon pol reserve t id).2 <->
  (exists v, mon (t_cgroup_id t) = Some v /\ v <> 0) /\ pol (u32 id) = Some 1.
Proof.
  rewrite <- monitored_iff, <- is_one_iff.
  destruct (unmonitored (mon (t_cgroup_id t))) eqn:Em;
    [rewrite handle_sys_enter_idle by auto; set_solver|].
  destruct (is_one (pol (u32 id))) eqn:Ep;
    [|rewrite handle_sys_enter_idle by auto; set_solver].
  unfold handle_sys_enter. rewrite Em, Ep. cbn [snd].
  rewrite elem_of_optional. naive_solver.
Qed.

(** ** Properties *)

(** C13: the system-call filter sends SIGKILL exactly to the calls a monitored cgroup makes
    with a number whose policy entry is 1; the kill does not depend on room in the ring
    buffer, and an event naming the call and the cgroup goes with it exactly when there is
    room. *)
Theorem sys_enter_kills_exactly (mon pol : Z -> option Z) (reserve : bool) (t : task) (id : Z) :
  let acts := (handle_sys_enter mon pol reserve t id).2 in
  (SendSignal SIGKILL ∈ acts <->
     (exists v, mon (t_cgroup_id t) = Some v /\ v <> 0) /\ pol (u32 id) = Some 1) /\
  ((exists ev, SubmitSyscall ev ∈ acts /\ se_syscall_nr ev = u32 id /\
      se_action_taken ev = 1 /\ se_cgroup_id ev = u32 (t_cgroup_id t)) <->
     SendSignal SIGKILL ∈ acts /\ reserve = true).
Proof.
  cbn zeta. split; [apply sys_enter_kills_iff|].
  rewrite sys_enter_kills_iff, <- monitored_iff, <- is_one_iff.
  destruct (unmonitored (mon (t_cgroup_id t))) eqn:Em;
    [rewrite handle_sys_enter_idle by auto; set_solver|].
  destruct (is_one (pol (u32 id))) eqn:Ep;
    [|rewrite handle_sys_enter_idle by auto; set_solver].
  unfold handle_sys_enter. rewrite Em, Ep. cbn [snd]. setoid_rewrite elem_of_optional.
  split; [naive_solver|]. intros [_ Hr]. eexists. split; [by left|]. done.
Qed.

(** [169.254.169.254] in network byte order, as the comment of net_filter.bpf.c gives it. *)
Definition metadata_service : Z := 0xFEA9FEA9.

(** C14: if [bpf_hltonl] swaps the bytes of the constant (what [bpf_htonl] documents on a
    little-endian machine), the connect hook refuses exactly the IPv4 connections to the cloud
    metadata address and to the addresses marked 1 in [aegis_blocked_ips], whatever the map
    says about the metadata address and whether or not the ring buffer has room; every other
    address family, and every unmarked address, private ones included, is let through. *)
Theorem connect4_rejects_exactly (bpf_hltonl : Z -> Z) (ips : Z -> option Z) (reserve : bool)
    (t : task) (ctx : sock_addr) :
  bpf_hltonl 0xA9FEA9FE = metadata_service -> is_u32 (sa_user_ip4 ctx) ->
  let '(ret, acts) := aegis_cgroup_connect4 bpf_hltonl ips reserve t ctx in
  (ret = 0 <-> sa_family ctx = AF_INET /\
     (sa_user_ip4 ctx = metadata_service \/ ips (sa_user_ip4 ctx) = Some 1)) /\
  (ret = 0 \/ ret = 1) /\
  (acts <> [] <-> ret = 0 /\ reserve = true).
Proof.
  intros Hh Hip. unfold aegis_cgroup_connect4. rewrite Hh, u32_id by done.
  destruct (Z.eqb_spec (sa_family ctx) AF_INET) as [Hf|Hf]; cbn [negb]; [|naive_solver].
  destruct (Z.eqb_spec (sa_user_ip4 ctx) metadata_service) as [Hm|Hm];
    [destruct reserve; naive_solver|].
  destruct (is_one (ips (sa_user_ip4 ctx))) eqn:E.
  - apply is_one_iff in E. destruct reserve; naive_solver.
  - assert (ips (sa_user_ip4 ctx) <> Some 1) by (rewrite <- is_one_iff; congruence). naive_solver.
Qed.

Definition sample_task : task :=
  {| t_cgroup_id := 4242; t_pid_tgid := 77 * 2 ^ 32 + 77; t_uid_gid := 0; t_ktime := 1000;
     t_comm := "curl"; t_parent_tgid := 1 |}.
Definition metadata_connect : sock_addr :=
  {| sa_family := AF_INET; sa_user_ip4 := metadata_service; sa_user_port := 0x5000;
     sa_protocol := 6 |}.

(** [__builtin_bswap32], which [bpf_htonl] is on a little-endian machine. *)
Definition bswap32 (x : Z) : Z :=
  Z.lor (Z.lor (Z.shiftl (Z.land x 0xFF) 24) (Z.shiftl (Z.land x 0xFF00) 8))
        (Z.lor (Z.land (Z.shiftr x 8) 0xFF00) (Z.shiftr x 24)).

(** The hypotheses hold for [bswap32] and a connection to port 80 of the metadata service. *)
Lemma connect4_rejects_exactly_witness :
  (aegis_cgroup_connect4 bswap32 (fun _ => None) true sample_task metadata_connect).1 = 0.
Proof.
  refine (proj2 (proj1 (connect4_rejects_exactly bswap32 (fun _ => None) true sample_task
    metadata_connect _ _)) _).
  - vm_compute. reflexivity.
  - unfold is_u32. simpl. unfold metadata_service. lia.
  - split; [reflexivity|left; reflexivity].
Defined.



