(* ===== verification/RingBuffer.v ===== *)
(** * RingBuffer: the decoding half of src/ebpf/ring_buffer_reader.cpp

    The three raw records and their layouts, the events handed to the user
    callback, and [dispatch_event], which tells the records apart by size
    only.  The theorems relate it to the records the eBPF programs write. *)
From S2P Require Import Prelude Text Layout Probes.
From Stdlib Require Import Ascii.

(** ** Events (include/aegis/ebpf/ring_buffer_reader.hpp) *)
Record SecuritySyscallEvent := {
  sse_timestamp_ns : Z; sse_pid : Z; sse_tgid : Z; sse_cgroup_id : Z; sse_syscall_nr : Z;
  sse_comm : string; sse_action_taken : Z
}.

Record SecurityNetworkEvent := {
  sne_timestamp_ns : Z; sne_pid : Z; sne_tgid : Z; sne_cgroup_id : Z;
  sne_dst_ip_network_order : Z; sne_dst_port : Z; sne_protocol : Z; sne_action_taken : Z;
  sne_comm : string
}.

Record SecurityProcessEvent := {
  spe_timestamp_ns : Z; spe_pid : Z; spe_tgid : Z; spe_ppid : Z; spe_cgroup_id : Z;
  spe_uid : Z; spe_gid : Z; spe_is_privilege_escalation : bool; spe_action_taken : Z;
  spe_comm : string; spe_filename : string
}.

Inductive SecurityEventVariant : Type :=
| VSyscall (ev : SecuritySyscallEvent)
| VNetwork (ev : SecurityNetworkEvent)
| VProcess (ev : SecurityProcessEvent).

(** ** Raw records *)
Definition RawSyscallEvent : list cfield :=
  [u64_field; u32_field; u32_field; u32_field; u32_field; char_array 16; u8_field].
Definition RawNetworkEvent : list cfield :=
  [u64_field; u32_field; u32_field; u32_field; u32_field; u16_field; u8_field; u8_field;
   char_array 16].
Definition RawProcessEvent : list cfield :=
  [u64_field; u32_field; u32_field; u32_field; u32_field; u32_field; u32_field; u8_field;
   u8_field; char_array 16; char_array 256].

(** The integer and the text (up to the first NUL, [strnlen]) of the [i]-th field. *)
Definition int_at (fs : list cfield) (data : string) (i : nat) : Z :=
  le_val (nth i (read_fields fs data) "").
Definition text_at (fs : list cfield) (data : string) (i : nat) : string :=
  c_string (nth i (read_fields fs data) "").

(** ** dispatch_event

    The result is the argument of the one call of [m_user_callback], if there
    is one; [callback] says whether the callback is set. *)
Definition dispatch_event (callback : bool) (data : string) : option SecurityEventVariant :=
  if negb callback then None else
  let size := String.length data in
  if Nat.eqb size (sizeof RawSyscallEvent) then
    let raw := int_at RawSyscallEvent data in
    Some (VSyscall {| sse_timestamp_ns := raw 0%nat; sse_pid := raw 1%nat; sse_tgid := raw 2%nat;
                      sse_cgroup_id := raw 3%nat; sse_syscall_nr := raw 4%nat;
                      sse_comm := text_at RawSyscallEvent data 5;
                      sse_action_taken := raw 6%nat |})
  else if Nat.eqb size (sizeof RawNetworkEvent) then
    let raw := int_at RawNetworkEvent data in
    Some (VNetwork {| sne_timestamp_ns := raw 0%nat; sne_pid := raw 1%nat; sne_tgid := raw 2%nat;
                      sne_cgroup_id := raw 3%nat; sne_dst_ip_network_order := raw 4%nat;
                      sne_dst_port := raw 5%nat; sne_protocol := raw 6%nat;
                      sne_action_taken := raw 7%nat;
                      sne_comm := text_at RawNetworkEvent data 8 |})
  else if Nat.eqb size (sizeof RawProcessEvent) then
    let raw := int_at RawProcessEvent data in
    Some (VProcess {| spe_timestamp_ns := raw 0%nat; spe_pid := raw 1%nat; spe_tgid := raw 2%nat;
                      spe_ppid := raw 3%nat; spe_cgroup_id := raw 4%nat; spe_uid := raw 5%nat;
                      spe_gid := raw 6%nat;
                      spe_is_privilege_escalation := negb (raw 7%nat =? 0);
                      spe_action_taken := raw 8%nat;
                      spe_comm := text_at RawProcessEvent data 9;
                      spe_filename := text_at RawProcessEvent data 10 |})
  else None.

(** The libbpf callback: [ctx] is the reader, with its callback, or null. *)
Definition raw_sample_callback (ctx : option bool) (data : option string)
    : Z * option SecurityEventVariant :=
  match ctx, data with
  | Some callback, Some d =>
      if Nat.eqb (String.length d) 0 then (0, None) else (0, dispatch_event callback d)
  | _, _ => (0, None)
  end.

(** ** What the kernel side can write *)
Record security_event_wf (ev : security_event) : Prop := {
  se_ts_ok : is_u64 (se_timestamp_ns ev);
  se_pid_ok : is_u32 (se_pid ev);
  se_tgid_ok : is_u32 (se_tgid ev);
  se_cg_ok : is_u32 (se_cgroup_id ev);
  se_nr_ok : is_u32 (se_syscall_nr ev);
  se_comm_ok : String.length (se_comm ev) = 16%nat;
  se_act_ok : is_u8 (se_action_taken ev)
}.


(** The bytes between fields are whatever the ring buffer held. *)
Definition security_event_record (pad : nat -> ascii) (ev : security_event) : string :=
  encode pad security_event_fields (security_event_bytes ev).
Definition net_security_event_record (pad : nat -> ascii) (ev : net_security_event) : string :=
  encode pad net_security_event_fields (net_security_event_bytes ev).

(** ** Lemmas *)
Lemma le_roundtrip (n : nat) z : 0 <= z < 256 ^ Z.of_nat n -> le_val (le_bytes n z) = z.
Proof. intros H. rewrite le_val_bytes. by apply Z.mod_small. Qed.

Lemma fields_aligned (fs : list cfield) :
  forallb (fun f => Nat.ltb 0 (f_align f)) fs = true -> Forall aligned fs.
Proof.
  induction fs as [|f fs IH]; simpl; [constructor|].
  intros [Hf Hfs]%andb_prop. constructor; [by apply Nat.ltb_lt|auto].
Qed.

(** The user-space records have the layout of the kernel ones. *)
Lemma layouts_agree :
  RawSyscallEvent = security_event_fields /\ RawNetworkEvent = net_security_event_fields /\
  RawProcessEvent = process_exec_event_fields.
Proof. done. Qed.

Lemma security_bytes_fit ev :
  security_event_wf ev -> Forall2 fits security_event_fields (security_event_bytes ev).
Proof. intros []. repeat constructor; unfold fits; simpl f_size; auto with aegis. Qed.


Lemma net_bytes_fit ev :
  String.length (ne_comm ev) = 16%nat ->
  Forall2 fits net_security_event_fields (net_security_event_bytes ev).
Proof. intros H. repeat constructor; unfold fits; simpl f_size; auto with aegis. Qed.

Lemma record_length pad fs vals n :
  forallb (fun f => Nat.ltb 0 (f_align f)) fs = true -> sizeof fs = n ->
  Nat.ltb 0 (struct_align fs) = true -> Forall2 fits fs vals ->
  String.length (encode pad fs vals) = n.
Proof.
  intros Ha <- Hs Hf. apply encode_length; [by apply fields_aligned|by apply Nat.ltb_lt|done].
Qed.

Lemma dispatch_syscall pad ev :
  security_event_wf ev ->
  dispatch_event true (security_event_record pad ev) =
  Some (VSyscall {| sse_timestamp_ns := se_timestamp_ns ev; sse_pid := se_pid ev;
                    sse_tgid := se_tgid ev; sse_cgroup_id := se_cgroup_id ev;
                    sse_syscall_nr := se_syscall_nr ev; sse_comm := c_string (se_comm ev);
                    sse_action_taken := se_action_taken ev |}).
Proof.
  intros Hwf. pose proof (security_bytes_fit ev Hwf) as Hfit. destruct Hwf.
  unfold dispatch_event, security_event_record, int_at, text_at.
  rewrite (record_length _ _ _ 48) by done. cbn [negb].
  change (RawSyscallEvent) with security_event_fields.
  change (Nat.eqb 48 (sizeof security_event_fields)) with true. cbv iota.
  rewrite read_encode by (done || by apply fields_aligned).
  unfold security_event_bytes. cbn [nth]. by rewrite !le_roundtrip.
Qed.


(** A network record is a syscall record whose [comm] starts at the port and whose
    [action_taken] is the thirteenth byte of the network record's [comm]. *)
Lemma net_record_as_syscall pad v0 v1 v2 v3 v4 port proto act a c b :
  encode pad net_security_event_fields
    [v0; v1; v2; v3; v4; port; proto; act; a +:+ String c b] =
  encode_from pad 0 security_event_fields
    [v0; v1; v2; v3; v4; port +:+ proto +:+ act +:+ a; String c ""] +:+
  b +:+ padding pad 44 4.
Proof.
  unfold encode, net_security_event_fields, security_event_fields.
  cbn [encode_from f_align f_size u64_field u32_field u16_field u8_field char_array].
  cbn -[String.append]. rewrite !str_app_assoc. cbn [String.append]. reflexivity.
Qed.

Lemma split_comm s : String.length s = 16%nat ->
  exists a c b, s = a +:+ String c b /\ String.length a = 12%nat /\ String.length b = 3%nat.
Proof.
  intros H. do 16 (destruct s as [|? s]; [discriminate H|]). destruct s; [|discriminate H].
  match goal with
  | |- exists a c b, String ?c0 (String ?c1 (String ?c2 (String ?c3 (String ?c4 (String ?c5
      (String ?c6 (String ?c7 (String ?c8 (String ?c9 (String ?c10 (String ?c11
      (String ?c12 ?r)))))))))))) = _ /\ _ /\ _ =>
      exists (String c0 (String c1 (String c2 (String c3 (String c4 (String c5
      (String c6 (String c7 (String c8 (String c9 (String c10 (String c11 "")))))))))))), c12, r
  end.
  done.
Qed.

(** The network branch tests a size the syscall branch has already taken. *)
Lemma dispatch_no_network cb data nev : dispatch_event cb data <> Some (VNetwork nev).
Proof.
  unfold dispatch_event. change (sizeof RawNetworkEvent) with (sizeof RawSyscallEvent).
  destruct cb; [|done]. cbn [negb]. destruct (Nat.eqb _ (sizeof RawSyscallEvent)); [done|].
  by destruct (Nat.eqb _ _).
Qed.

Lemma read_net_record pad ev a c b :
  ne_comm ev = a +:+ String c b -> String.length a = 12%nat ->
  read_fields RawSyscallEvent
    (encode pad net_security_event_fields (net_security_event_bytes ev)) =
  [le_bytes 8 (ne_timestamp_ns ev); le_bytes 4 (ne_pid ev); le_bytes 4 (ne_tgid ev);
   le_bytes 4 (ne_cgroup_id ev); le_bytes 4 (ne_dst_ip ev);
   le_bytes 2 (ne_dst_port ev) +:+ le_bytes 1 (ne_proto ev) +:+ le_bytes 1 (ne_action_taken ev) +:+ a;
   String c ""].
Proof.
  intros Hc Ha. unfold net_security_event_bytes. rewrite Hc, net_record_as_syscall.
  apply (read_encode_from pad 0 security_event_fields _ "" _); [by apply fields_aligned| |done].
  repeat constructor; unfold fits; simpl f_size; auto with aegis.
  rewrite !str_length_app, !le_bytes_length, Ha. done.
Qed.

(** A task as the kernel presents it: 64-bit identifiers and a 16-byte [comm]. *)
Record task_wf (t : task) : Prop := {
  t_ktime_ok : is_u64 (t_ktime t);
  t_comm_ok : String.length (t_comm t) = 16%nat
}.






(** ** Properties *)

(** C16: what the system-call filter submits is what the user callback receives: for every
    call of a task, each submitted record is decoded to a syscall event with the time,
    process, cgroup and call number the program saw and action 1. *)
Theorem syscall_event_delivered (mon pol : Z -> option Z) (reserve : bool) (t : task) (id : Z)
    (pad : nat -> ascii) (ev : security_event) :
  task_wf t -> SubmitSyscall ev ∈ (handle_sys_enter mon pol reserve t id).2 ->
  dispatch_event true (security_event_record pad ev) =
  Some (VSyscall {| sse_timestamp_ns := t_ktime t;
                    sse_pid := u32 (Z.shiftr (t_pid_tgid t) 32);
                    sse_tgid := u32 (t_pid_tgid t); sse_cgroup_id := u32 (t_cgroup_id t);
                    sse_syscall_nr := u32 id; sse_comm := c_string (t_comm t);
                    sse_action_taken := 1 |}).
Proof.
  intros [Hk Hc] Hin. unfold handle_sys_enter in Hin.
  destruct (unmonitored _); [by apply not_elem_of_nil in Hin|].
  destruct (is_one _); [|by apply not_elem_of_nil in Hin].
  apply elem_of_optional in Hin as [[_ Heq]|?]; [|done]. injection Heq as ->.
  rewrite dispatch_syscall; [done|]. by split; simpl; auto with aegis.
Qed.

Definition sample_comm : string := "python3" +:+ padding (fun _ => NUL) 0 9.
Definition traced_task : task :=
  {| t_cgroup_id := 4242; t_pid_tgid := 77 * 2 ^ 32 + 77; t_uid_gid := 0; t_ktime := 1000;
     t_comm := sample_comm; t_parent_tgid := 1 |}.
Definition ptrace_event : security_event :=
  {| se_timestamp_ns := 1000; se_pid := 77; se_tgid := 77; se_cgroup_id := 4242;
     se_syscall_nr := 101; se_comm := sample_comm; se_action_taken := 1 |}.

(** A blocked [ptrace] in the monitored cgroup 4242. *)
Lemma syscall_event_delivered_witness :
  dispatch_event true (security_event_record (fun _ => NUL) ptrace_event) =
  Some (VSyscall {| sse_timestamp_ns := 1000; sse_pid := 77; sse_tgid := 77;
                    sse_cgroup_id := 4242; sse_syscall_nr := 101; sse_comm := "python3";
                    sse_action_taken := 1 |}).
Proof.
  refine (syscall_event_delivered (fun c => if c =? 4242 then Some 1 else None)
    (fun n => if n =? 101 then Some 1 else None) true traced_task 101 _ ptrace_event _ _).
  - split; [unfold is_u64; simpl; lia|reflexivity].
  - left.
Defined.




(** C18: no network event is ever delivered: [dispatch_event] never calls the callback with
    the network variant, and the record of a refused connection, which has the same size as a
    syscall record, is delivered as a syscall event whose call number is the destination
    address and whose name starts with the bytes of port, protocol and action. *)
Theorem network_event_misread (pad : nat -> ascii) (ev : net_security_event) :
  is_u64 (ne_timestamp_ns ev) -> is_u32 (ne_pid ev) -> is_u32 (ne_tgid ev) ->
  is_u32 (ne_cgroup_id ev) -> is_u32 (ne_dst_ip ev) -> String.length (ne_comm ev) = 16%nat ->
  (forall cb data nev, dispatch_event cb data <> Some (VNetwork nev)) /\
  exists sev, dispatch_event true (net_security_event_record pad ev) = Some (VSyscall sev) /\
    sse_timestamp_ns sev = ne_timestamp_ns ev /\ sse_pid sev = ne_pid ev /\
    sse_cgroup_id sev = ne_cgroup_id ev /\ sse_syscall_nr sev = ne_dst_ip ev /\
    sse_comm sev = c_string (le_bytes 2 (ne_dst_port ev) +:+ le_bytes 1 (ne_proto ev) +:+
                             le_bytes 1 (ne_action_taken ev) +:+ str_take 12 (ne_comm ev)).
Proof.
  intros Hts Hpid Htg Hcg Hip Hcomm. split; [apply dispatch_no_network|].
  destruct (split_comm _ Hcomm) as (a & c & b & Hc & Ha & Hb).
  unfold dispatch_event, int_at, text_at, net_security_event_record.
  rewrite (record_length _ _ _ 48) by (done || by apply net_bytes_fit). cbn [negb].
  change (Nat.eqb 48 (sizeof RawSyscallEvent)) with true. cbv iota.
  eexists. split; [reflexivity|]. rewrite read_net_record with (a := a) (c := c) (b := b) by done.
  cbn [nth sse_timestamp_ns sse_pid sse_cgroup_id sse_syscall_nr sse_comm].
  rewrite !le_roundtrip by done. rewrite Hc, <- Ha, str_take_app. done.
Qed.

Definition metadata_event : net_security_event :=
  {| ne_timestamp_ns := 1000; ne_pid := 77; ne_tgid := 77; ne_cgroup_id := 4242;
     ne_dst_ip := metadata_service; ne_dst_port := 80; ne_proto := 6; ne_action_taken := 1;
     ne_comm := sample_comm |}.

(** A refused connection to the metadata service is reported as system call 4272553641. *)
Lemma network_event_misread_witness :
  exists sev, dispatch_event true (net_security_event_record (fun _ => NUL) metadata_event) =
    Some (VSyscall sev) /\ sse_syscall_nr sev = 4272553641 /\ sse_comm sev = "P".
Proof.
  destruct (proj2 (network_event_misread (fun _ => NUL) metadata_event
    ltac:(by split) ltac:(by split) ltac:(by split) ltac:(by split) ltac:(by split) eq_refl))
    as (sev & He & _ & _ & _ & Hnr & Hcomm).
  exists sev. split; [exact He|]. split; [exact Hnr|exact Hcomm].
Defined.
