(* ===== verification/Polling.v ===== *)
(** * Polling: the threads of src/ebpf/ring_buffer_reader.cpp

    The reader is shared by the threads that call its methods and by the
    background thread [start_polling] creates.  Its state is a record, each
    access to a shared member is one step of one thread, and an execution is a
    sequence of labels.  libbpf answers through the labels: the ring buffer
    [ring_buffer__new] returns, and the result and the records of one
    [ring_buffer__poll].  Locks taken by a caller are the member [r_lock].  Every
    access is one atomic step; the callback object is represented by whether it
    is set, so the data race on its assignment is not. *)
From S2P Require Import Prelude Layout RingBuffer.

(** ** Program counters *)

(** The lambda of [start_polling]. *)
Inductive worker_pc : Type :=
| WLoop                 (* while (m_is_polling.load()) *)
| WPoll                 (* poll: if (!m_ring_buf) *)
| WUse (rb : Z)         (* poll: inside ring_buffer__poll(rb) *)
| WErr (err : Z)        (* if (err < 0 && m_is_polling.load()) *)
| WSleep
| WDone.

(** A caller's position in a method. *)
Inductive user_pc : Type :=
| UIdle
| UInit0 (fd : Z) (cb : bool)      (* init: lock *)
| UInit1 (fd : Z) (cb : bool)      (* init: argument check, m_user_callback = callback *)
| UInit2                           (* init: m_ring_buf = ring_buffer__new(...) *)
| UStart0                          (* start_polling: lock *)
| UStart1                          (* start_polling: check *)
| UStart2                          (* start_polling: m_is_polling.store(true) *)
| UStart3                          (* start_polling: m_polling_thread = std::thread(...) *)
| UUnlock                          (* end of the scope of a lock_guard *)
| UStop0 (dtor : bool)             (* stop_polling: m_is_polling.exchange(false) *)
| UStop1 (dtor : bool)             (* stop_polling: joinable() *)
| UStop2 (dtor : bool) (w : nat)   (* stop_polling: join() *)
| UFree                            (* ~RingBufferReader: ring_buffer__free *)
| UGone
| UPoll                            (* poll called directly *)
| UUse (rb : Z).

#[global] Instance worker_pc_eq_dec : EqDecision worker_pc.
Proof. solve_decision. Defined.
#[global] Instance user_pc_eq_dec : EqDecision user_pc.
Proof. solve_decision. Defined.

(** ** State *)
Record reader := {
  m_ring_buf : option Z;
  m_user_callback : bool;
  m_polling_thread : option nat;   (* the joinable thread, by its index in [r_workers] *)
  m_is_polling : bool;
  r_lock : option nat;             (* the caller that holds m_mutex *)
  r_live : gset Z;                 (* ring buffers created and not freed *)
  r_workers : list worker_pc;
  r_users : list user_pc;
  r_aborted : bool;                (* std::terminate was called *)
  r_delivered : list SecurityEventVariant
}.

Definition initial (n : nat) : reader :=
  {| m_ring_buf := None; m_user_callback := false; m_polling_thread := None;
     m_is_polling := false; r_lock := None; r_live := ∅; r_workers := [];
     r_users := replicate n UIdle; r_aborted := false; r_delivered := [] |}.

Definition with_user (i : nat) (pc : user_pc) (s : reader) : reader :=
  {| m_ring_buf := m_ring_buf s; m_user_callback := m_user_callback s;
     m_polling_thread := m_polling_thread s; m_is_polling := m_is_polling s; r_lock := r_lock s;
     r_live := r_live s; r_workers := r_workers s; r_users := <[i := pc]> (r_users s);
     r_aborted := r_aborted s; r_delivered := r_delivered s |}.
Definition with_worker (w : nat) (pc : worker_pc) (s : reader) : reader :=
  {| m_ring_buf := m_ring_buf s; m_user_callback := m_user_callback s;
     m_polling_thread := m_polling_thread s; m_is_polling := m_is_polling s; r_lock := r_lock s;
     r_live := r_live s; r_workers := <[w := pc]> (r_workers s); r_users := r_users s;
     r_aborted := r_aborted s; r_delivered := r_delivered s |}.
Definition with_polling (b : bool) (s : reader) : reader :=
  {| m_ring_buf := m_ring_buf s; m_user_callback := m_user_callback s;
     m_polling_thread := m_polling_thread s; m_is_polling := b; r_lock := r_lock s;
     r_live := r_live s; r_workers := r_workers s; r_users := r_users s;
     r_aborted := r_aborted s; r_delivered := r_delivered s |}.
Definition with_lock (o : option nat) (s : reader) : reader :=
  {| m_ring_buf := m_ring_buf s; m_user_callback := m_user_callback s;
     m_polling_thread := m_polling_thread s; m_is_polling := m_is_polling s; r_lock := o;
     r_live := r_live s; r_workers := r_workers s; r_users := r_users s;
     r_aborted := r_aborted s; r_delivered := r_delivered s |}.
Definition with_ring (rb : option Z) (live : gset Z) (s : reader) : reader :=
  {| m_ring_buf := rb; m_user_callback := m_user_callback s;
     m_polling_thread := m_polling_thread s; m_is_polling := m_is_polling s; r_lock := r_lock s;
     r_live := live; r_workers := r_workers s; r_users := r_users s;
     r_aborted := r_aborted s; r_delivered := r_delivered s |}.
Definition with_callback (s : reader) : reader :=
  {| m_ring_buf := m_ring_buf s; m_user_callback := true;
     m_polling_thread := m_polling_thread s; m_is_polling := m_is_polling s; r_lock := r_lock s;
     r_live := r_live s; r_workers := r_workers s; r_users := r_users s;
     r_aborted := r_aborted s; r_delivered := r_delivered s |}.
Definition with_thread (t : option nat) (s : reader) : reader :=
  {| m_ring_buf := m_ring_buf s; m_user_callback := m_user_callback s;
     m_polling_thread := t; m_is_polling := m_is_polling s; r_lock := r_lock s;
     r_live := r_live s; r_workers := r_workers s; r_users := r_users s;
     r_aborted := r_aborted s; r_delivered := r_delivered s |}.

(** [std::thread(lambda)]: a new thread at the head of its loop. *)
Definition spawn_worker (s : reader) : reader :=
  {| m_ring_buf := m_ring_buf s; m_user_callback := m_user_callback s;
     m_polling_thread := m_polling_thread s; m_is_polling := m_is_polling s; r_lock := r_lock s;
     r_live := r_live s; r_workers := r_workers s ++ [WLoop]; r_users := r_users s;
     r_aborted := r_aborted s; r_delivered := r_delivered s |}.
Definition terminate_program (s : reader) : reader :=
  {| m_ring_buf := m_ring_buf s; m_user_callback := m_user_callback s;
     m_polling_thread := m_polling_thread s; m_is_polling := m_is_polling s; r_lock := r_lock s;
     r_live := r_live s; r_workers := r_workers s; r_users := r_users s;
     r_aborted := true; r_delivered := r_delivered s |}.

(** The callbacks [ring_buffer__poll] makes for the records it consumes. *)
Definition deliver (recs : list string) (s : reader) : reader :=
  {| m_ring_buf := m_ring_buf s; m_user_callback := m_user_callback s;
     m_polling_thread := m_polling_thread s; m_is_polling := m_is_polling s; r_lock := r_lock s;
     r_live := r_live s; r_workers := r_workers s; r_users := r_users s;
     r_aborted := r_aborted s;
     r_delivered := r_delivered s ++
       omap (fun d => (raw_sample_callback (Some (m_user_callback s)) (Some d)).2) recs |}.

(** ** Steps *)
Inductive method : Type := MInit (fd : Z) (cb : bool) | MStart | MStop | MPoll | MDestroy.

Inductive label : Type :=
| LCall (i : nat) (m : method)
| LUser (i : nat) (rb : option Z)                   (* the answer of ring_buffer__new *)
| LThrow (i : nat)                                  (* the std::thread constructor throws *)
| LUserPoll (i : nat) (recs : list string)          (* the records ring_buffer__poll consumes *)
| LWorker (w : nat) (err : Z) (recs : list string). (* its result and records *)

Definition enter (m : method) : user_pc :=
  match m with
  | MInit fd cb => UInit0 fd cb
  | MStart => UStart0
  | MStop => UStop0 false
  | MPoll => UPoll
  | MDestroy => UStop0 true
  end.

(** What follows [stop_polling] in the caller. *)
Definition after_stop (dtor : bool) : user_pc := if dtor then UFree else UIdle.

Definition acquire (i : nat) (next : user_pc) (s : reader) : option reader :=
  match r_lock s with
  | None => Some (with_lock (Some i) (with_user i next s))
  | Some _ => None
  end.

Definition user_step (i : nat) (pc : user_pc) (rb : option Z) (s : reader) : option reader :=
  match pc with
  | UIdle | UGone => None
  | UInit0 fd cb => acquire i (UInit1 fd cb) s
  | UInit1 fd cb =>
      if (fd <? 0) || negb cb then Some (with_user i UUnlock s)
      else Some (with_callback (with_user i UInit2 s))
  | UInit2 =>
      match rb with
      | Some r =>
          if decide (r ∈ r_live s) then None
          else Some (with_ring (Some r) ({[r]} ∪ r_live s) (with_user i UUnlock s))
      | None => Some (with_ring None (r_live s) (with_user i UUnlock s))
      end
  | UStart0 => acquire i UStart1 s
  | UStart1 =>
      if m_is_polling s || negb (bool_decide (is_Some (m_ring_buf s)))
      then Some (with_user i UUnlock s)
      else Some (with_user i UStart2 s)
  | UStart2 => Some (with_polling true (with_user i UStart3 s))
  | UStart3 =>
      let s' := spawn_worker s in
      match m_polling_thread s with
      | Some _ => Some (terminate_program s')
      | None => Some (with_thread (Some (length (r_workers s))) (with_user i UUnlock s'))
      end
  | UUnlock => Some (with_lock None (with_user i UIdle s))
  | UStop0 d =>
      Some (with_polling false (with_user i (if m_is_polling s then UStop1 d else after_stop d) s))
  | UStop1 d =>
      Some (with_user i (match m_polling_thread s with
                         | Some w => UStop2 d w
                         | None => after_stop d
                         end) s)
  | UStop2 d w =>
      match r_workers s !! w with
      | Some WDone => Some (with_thread None (with_user i (after_stop d) s))
      | _ => None
      end
  | UFree =>
      Some (with_ring None (match m_ring_buf s with
                            | Some r => r_live s ∖ {[r]}
                            | None => r_live s
                            end) (with_user i UGone s))
  | UPoll => Some (with_user i (match m_ring_buf s with Some r => UUse r | None => UIdle end) s)
  | UUse _ => None
  end.

Definition worker_step (w : nat) (pc : worker_pc) (err : Z) (recs : list string) (s : reader)
    : option reader :=
  match pc with
  | WLoop => Some (with_worker w (if m_is_polling s then WPoll else WDone) s)
  | WPoll => Some (with_worker w (match m_ring_buf s with Some r => WUse r | None => WErr (-1) end) s)
  | WUse _ => Some (with_worker w (WErr err) (deliver recs s))
  | WErr e => Some (with_worker w (if (e <? 0) && m_is_polling s then WSleep else WLoop) s)
  | WSleep => Some (with_worker w WLoop s)
  | WDone => None
  end.

(** One step; [None] when the label is not enabled. *)
Definition step (l : label) (s : reader) : option reader :=
  if r_aborted s then None else
  match l with
  | LCall i m =>
      match r_users s !! i with
      | Some UIdle => Some (with_user i (enter m) s)
      | _ => None
      end
  | LUser i rb =>
      match r_users s !! i with
      | Some pc => user_step i pc rb s
      | None => None
      end
  | LThrow i =>
      match r_users s !! i with
      | Some UStart3 => Some (with_user i UUnlock s)
      | _ => None
      end
  | LUserPoll i recs =>
      match r_users s !! i with
      | Some (UUse _) => Some (with_user i UIdle (deliver recs s))
      | _ => None
      end
  | LWorker w err recs =>
      match r_workers s !! w with
      | Some pc => worker_step w pc err recs s
      | None => None
      end
  end.

Fixpoint run (ls : list label) (s : reader) : option reader :=
  match ls with
  | [] => Some s
  | l :: ls' => match step l s with Some s' => run ls' s' | None => None end
  end.

(** The states an execution with [n] callers can reach. *)
Inductive reachable (n : nat) : reader -> Prop :=
| reach_init : reachable n (initial n)
| reach_step s l s' : reachable n s -> step l s = Some s' -> reachable n s'.

(** ** The invariant of an execution with one caller *)
Definition holds_lock (u : user_pc) : bool :=
  match u with
  | UInit1 _ _ | UInit2 | UStart1 | UStart2 | UStart3 | UUnlock => true
  | _ => false
  end.

(** Positions the caller can be in while a background thread is attached and polling. *)
Definition while_polling (u : user_pc) : bool :=
  match u with
  | UStart2 | UStart3 | UStop1 _ | UStop2 _ _ | UFree | UGone => false
  | _ => true
  end.

(** Positions the caller can be in with no background thread and the flag down, and with the
    flag up: before the thread is created, or after its creation threw. *)
Definition while_quiet (u : user_pc) : bool :=
  match u with UStart3 | UStop2 _ _ => false | _ => true end.
Definition while_flagged (u : user_pc) : bool :=
  match u with UStart3 => true | _ => while_polling u end.

Definition idle_workers (ws : list worker_pc) : Prop := Forall (eq WDone) ws.

Definition thread_state (u : user_pc) (s : reader) : Prop :=
  match m_polling_thread s with
  | None => idle_workers (r_workers s) /\
      ((m_is_polling s = true /\ while_flagged u = true) \/ (m_is_polling s = false /\ while_quiet u = true))
  | Some w =>
      (exists pc, r_workers s !! w = Some pc) /\
      (forall v pc, r_workers s !! v = Some pc -> v <> w -> pc = WDone) /\
      ((m_is_polling s = true /\ while_polling u = true) \/
       (m_is_polling s = false /\ exists d, u = UStop1 d \/ u = UStop2 d w))
  end.

Record one_caller_inv (u : user_pc) (s : reader) : Prop := {
  inv_users : r_users s = [u];
  inv_running : r_aborted s = false;
  inv_lock : r_lock s = if holds_lock u then Some 0%nat else None;
  inv_ring : forall rb, m_ring_buf s = Some rb -> rb ∈ r_live s;
  inv_wuse : forall w rb, r_workers s !! w = Some (WUse rb) -> rb ∈ r_live s;
  inv_uuse : forall rb, u = UUse rb -> rb ∈ r_live s;
  inv_thread : thread_state u s
}.

Lemma one_caller_init : one_caller_inv UIdle (initial 1).
Proof. split; try done. split; [constructor|by right]. Qed.

Lemma deliver_nil s : deliver [] s = s.
Proof. destruct s. unfold deliver. simpl. by rewrite app_nil_r. Qed.

(** A worker's step changes its program counter and the deliveries only, and it enters
    libbpf with the current ring buffer. *)
Lemma worker_step_shape w pc err recs s s' :
  worker_step w pc err recs s = Some s' ->
  pc <> WDone /\ exists pc' recs', s' = with_worker w pc' (deliver recs' s) /\
    (forall rb, pc' = WUse rb -> m_ring_buf s = Some rb).
Proof.
  intros H. split; [by intros ->|].
  destruct pc; simplify_eq/=;
    first [by exists (WErr err), recs | eexists _, []; rewrite deliver_nil; split; [done|]];
    intros rb; repeat case_match; naive_solver.
Qed.

Lemma worker_step_inv u s w pc err recs s' :
  one_caller_inv u s -> r_workers s !! w = Some pc -> worker_step w pc err recs s = Some s' ->
  one_caller_inv u s'.
Proof.
  intros [Hu Ha Hl Hr Hw Huu Ht] Hpc Hs. unfold thread_state in Ht.
  destruct (worker_step_shape _ _ _ _ _ _ Hs) as (Hnd & pc' & recs' & -> & Hring).
  destruct (m_polling_thread s) as [v|] eqn:Ev; cycle 1.
  { destruct Ht as [Hid _]. destruct Hnd. symmetry. by eapply Forall_lookup_1 in Hid. }
  destruct Ht as ((pcv & Hv) & Hothers & Hpol).
  assert (w = v) as -> by (destruct (decide (w = v)); [done|destruct Hnd; eauto]).
  split; try done; simpl.
  - intros w rb. destruct (decide (v = w)) as [->|Hne].
    + rewrite list_lookup_insert_eq by (by eapply lookup_lt_Some). intros [= Hx]. eauto.
    + rewrite list_lookup_insert_ne by done. eauto.
  - unfold thread_state. simpl. rewrite Ev. split.
    + eexists. apply list_lookup_insert_eq. by eapply lookup_lt_Some.
    + split; [|done]. intros w pc0 Hw0 Hne. rewrite list_lookup_insert_ne in Hw0 by done. eauto.
Qed.

Lemma idle_not_using ws w rb : idle_workers ws -> ws !! w = Some (WUse rb) -> False.
Proof. intros Hi Hw. eapply Forall_lookup_1 in Hi; [|exact Hw]. done. Qed.

Lemma idle_app_lookup ws v pc :
  idle_workers ws -> (ws ++ [WLoop]) !! v = Some pc -> v <> length ws -> pc = WDone.
Proof.
  intros Hi Hv Hne. apply lookup_app_Some in Hv as [Hv|[Hlt Hv]].
  - symmetry. by eapply Forall_lookup_1 in Hi.
  - apply list_lookup_singleton_Some in Hv as [Hz _]. lia.
Qed.

(** Rebuilding the invariant after a step of the caller that leaves the workers alone. *)
Lemma caller_moves u u' s s' :
  one_caller_inv u s -> r_users s' = [u'] -> r_aborted s' = false ->
  r_lock s' = (if holds_lock u' then Some 0%nat else None) ->
  r_workers s' = r_workers s -> r_live s ⊆ r_live s' ->
  (forall rb, m_ring_buf s' = Some rb -> rb ∈ r_live s') ->
  (forall rb, u' = UUse rb -> rb ∈ r_live s') -> thread_state u' s' ->
  one_caller_inv u' s'.
Proof.
  intros [] Hu Ha Hl Hws Hlive Hr Huu Ht. split; try done.
  intros w rb. rewrite Hws. eauto.
Qed.

(** A step of the caller that changes its position and maybe the lock or the callback. *)
Ltac caller_step Hinv :=
  eexists; eapply (caller_moves _ _ _ _ Hinv); simpl;
  first [done | rewrite (inv_users _ _ Hinv); done | exact (inv_running _ _ Hinv)
        | rewrite (inv_lock _ _ Hinv); done | exact (inv_ring _ _ Hinv)
        | by eauto using inv_ring | idtac].

Ltac thread_cases :=
  unfold thread_state in *; simpl in *;
  repeat match goal with
  | |- context [match m_polling_thread ?s with _ => _ end] => destruct (m_polling_thread s) eqn:?
  | H : context [match m_polling_thread ?s with _ => _ end] |- _ => destruct (m_polling_thread s) eqn:?
  end; naive_solver.

Lemma user_step_inv u s rb s' :
  one_caller_inv u s -> user_step 0 u rb s = Some s' -> exists u', one_caller_inv u' s'.
Proof.
  intros Hinv Hs. pose proof (inv_thread _ _ Hinv) as Ht. pose proof (inv_lock _ _ Hinv) as Hl.
  destruct u; simpl in Hs; unfold acquire in Hs; rewrite ?Hl in Hs; simplify_eq/=.
  all: try (caller_step Hinv; thread_cases).
  - case_match; simplify_eq/=; caller_step Hinv; thread_cases.
  - destruct rb as [r|]; [case_decide; [done|]|]; simplify_eq/=.
    + caller_step Hinv; [set_solver|set_solver|thread_cases].
    + caller_step Hinv; thread_cases.
  - destruct (m_is_polling s) eqn:Ep; [|destruct (m_ring_buf s) eqn:Er];
      rewrite ?bool_decide_true in Hs by eauto; simplify_eq/=;
      caller_step Hinv; thread_cases.
  - destruct (m_polling_thread s) as [w|] eqn:Ew; simplify_eq/=;
      [by (unfold thread_state in Ht; rewrite Ew in Ht; naive_solver)|].
    unfold thread_state in Ht. rewrite Ew in Ht. destruct Ht as [Hid Hpol].
    exists UUnlock. destruct Hinv as [Hu Ha _ Hr Hw _ _]. split; simpl; try done.
    + by rewrite Hu.
    + intros w rb' Hw'. exfalso. destruct (decide (w = length (r_workers s))) as [->|Hne].
      * by rewrite lookup_app_r, Nat.sub_diag in Hw' by lia.
      * by eapply idle_app_lookup in Hw'.
    + unfold thread_state. simpl. split; [|split].
      * exists WLoop. by rewrite lookup_app_r, Nat.sub_diag by lia.
      * intros v pc Hv Hne. by eapply idle_app_lookup in Hv.
      * left. naive_solver.
  - destruct (m_is_polling s) eqn:Ep; destruct dtor; caller_step Hinv; thread_cases.
  - destruct (m_polling_thread s) as [v|] eqn:Ev; destruct dtor; caller_step Hinv;
      unfold thread_state in *; simpl in *; rewrite Ev in *; naive_solver.
  - destruct (r_workers s !! w) as [[]|] eqn:Ew; simplify_eq/=.
    unfold thread_state in Ht. destruct (m_polling_thread s) as [v|] eqn:Ev; [|naive_solver].
    destruct Ht as (_ & Hothers & [[_ ?]|[Hp [d Hd]]]); [done|].
    assert (w = v) as -> by naive_solver.
    destruct dtor; caller_step Hinv; unfold thread_state; simpl;
      (split; [|by right]); apply Forall_lookup_2; intros i pc Hi;
      destruct (decide (i = v)); naive_solver.
  - unfold thread_state in Ht. destruct (m_polling_thread s) as [v|] eqn:Ev; [naive_solver|].
    exists UGone. destruct Ht as [Hid Hpol], Hinv as [Hu Ha _ _ _ _ _]. split; simpl; try done.
    + by rewrite Hu.
    + intros w rb' Hw'. exfalso. by eapply idle_not_using.
    + unfold thread_state. simpl. rewrite Ev. split; [done|]. naive_solver.
  - destruct (m_ring_buf s) as [r|] eqn:Er; caller_step Hinv.
    + intros ? [= <-]. by apply (inv_ring _ _ Hinv).
    + thread_cases.
    + thread_cases.
Qed.

Lemma step_inv u s l s' :
  one_caller_inv u s -> step l s = Some s' -> exists u', one_caller_inv u' s'.
Proof.
  intros Hinv. pose proof (inv_thread _ _ Hinv) as Ht. unfold step.
  rewrite (inv_running _ _ Hinv), (inv_users _ _ Hinv).
  destruct l as [[|i] m|[|i] rb|[|i]|[|i] recs|w err recs]; simpl; try done.
  - destruct u; try done. intros [= <-]. destruct m as [fd cb| | | |]; caller_step Hinv; thread_cases.
  - by apply user_step_inv.
  - destruct u; try done. intros [= <-]. caller_step Hinv; thread_cases.
  - destruct u; try done. intros [= <-]. caller_step Hinv; thread_cases.
  - destruct (r_workers s !! w) as [pc|] eqn:Ew; [|done]. intros Hs.
    exists u. by eapply worker_step_inv.
Qed.

Lemma one_caller_reachable s : reachable 1 s -> exists u, one_caller_inv u s.
Proof.
  induction 1 as [|s l s' _ [u IH] Hs]; [exists UIdle; apply one_caller_init|].
  by eapply step_inv.
Qed.

(** ** Termination of join *)

(** Steps a worker still makes once [m_is_polling] is false. *)
Definition distance (pc : worker_pc) : nat :=
  match pc with WPoll => 4 | WUse _ => 3 | WErr _ => 2 | WSleep => 2 | WLoop => 1 | WDone => 0 end.

Definition worker_distance (w : nat) (s : reader) : nat := from_option distance 0%nat (r_workers s !! w).

Lemma join_thread d w s :
  one_caller_inv (UStop2 d w) s ->
  m_is_polling s = false /\ (exists pc, r_workers s !! w = Some pc) /\
  (forall v pc, r_workers s !! v = Some pc -> v <> w -> pc = WDone).
Proof.
  intros Hinv. pose proof (inv_thread _ _ Hinv) as Ht. unfold thread_state in Ht.
  destruct (m_polling_thread s) as [v|]; [|naive_solver].
  destruct Ht as (Hv & Ho & [[_ ?]|[Hp [d' Hd]]]); [done|]. naive_solver.
Qed.

(** While the caller waits in [join], a step either returns from it or brings the background
    thread closer to its end. *)
Lemma join_step d w s l s' :
  one_caller_inv (UStop2 d w) s -> step l s = Some s' ->
  r_users s' = [after_stop d] \/
  (one_caller_inv (UStop2 d w) s' /\ (worker_distance w s' < worker_distance w s)%nat).
Proof.
  intros Hinv. destruct (join_thread _ _ _ Hinv) as (Hp & _ & Ho). unfold step.
  rewrite (inv_running _ _ Hinv), (inv_users _ _ Hinv).
  destruct l as [[|i] m|[|i] rb|[|i]|[|i] recs|v err recs]; simpl; try done.
  - destruct (r_workers s !! w) as [[]|]; try done. intros [= <-]. left.
    simpl. by rewrite (inv_users _ _ Hinv).
  - destruct (r_workers s !! v) as [pc|] eqn:Ev; [|done]. intros Hs. right.
    split; [by eapply worker_step_inv|].
    destruct (worker_step_shape _ _ _ _ _ _ Hs) as [Hnd _].
    assert (v = w) as -> by (destruct (decide (v = w)); [done|destruct Hnd; eauto]).
    pose proof (lookup_lt_Some _ _ _ Ev) as Hlt. unfold worker_distance. rewrite Ev.
    destruct pc; simplify_eq/=; rewrite ?list_lookup_insert_eq by done; simpl;
      rewrite ?Hp, ?andb_false_r; simpl; try lia.
    case_match; simpl; lia.
Qed.

Lemma join_progress d w s :
  one_caller_inv (UStop2 d w) s -> exists l s', step l s = Some s'.
Proof.
  intros Hinv. destruct (join_thread _ _ _ Hinv) as (_ & (pc & Hpc) & _).
  destruct (decide (pc = WDone)) as [->|Hne].
  - exists (LUser 0 None). unfold step.
    rewrite (inv_running _ _ Hinv), (inv_users _ _ Hinv). simpl. rewrite Hpc. eauto.
  - exists (LWorker w 0 []). unfold step. rewrite (inv_running _ _ Hinv), Hpc.
    destruct pc; simpl; eauto. done.
Qed.

Lemma join_bounded ls d w s s' :
  one_caller_inv (UStop2 d w) s -> run ls s = Some s' -> (worker_distance w s < length ls)%nat ->
  exists k s1, run (take k ls) s = Some s1 /\ r_users s1 = [after_stop d].
Proof.
  revert s. induction ls as [|l ls IH]; simpl; intros s Hinv Hrun Hlen; [lia|].
  destruct (step l s) as [s0|] eqn:E; [|done].
  destruct (join_step _ _ _ _ _ Hinv E) as [Hret|[Hinv' Hlt]].
  - exists 1%nat, s0. simpl. by rewrite E.
  - destruct (IH s0 Hinv' Hrun ltac:(lia)) as (k & s1 & Hk & Hu).
    exists (S k), s1. simpl. by rewrite E.
Qed.

(** ** Properties *)

(** C19: while one thread calls the reader's methods, in any order and any number of times,
    the program is never terminated by a joinable thread handle, no thread is inside
    [ring_buffer__poll] on a freed ring buffer, at most one background thread is
    unfinished, and none is when the caller is outside all methods with the flag down. *)
Theorem one_caller_safe (s : reader) :
  reachable 1 s ->
  r_aborted s = false /\
  (forall w rb, r_workers s !! w = Some (WUse rb) -> rb ∈ r_live s) /\
  (forall rb, UUse rb ∈ r_users s -> rb ∈ r_live s) /\
  (forall v w a b, r_workers s !! v = Some a -> r_workers s !! w = Some b ->
     a <> WDone -> b <> WDone -> v = w) /\
  (r_users s = [UIdle] -> m_is_polling s = false -> Forall (eq WDone) (r_workers s)).
Proof.
  intros [u Hinv]%one_caller_reachable. pose proof (inv_thread _ _ Hinv) as Ht.
  unfold thread_state in Ht. split; [apply (inv_running _ _ Hinv)|].
  split; [apply (inv_wuse _ _ Hinv)|]. split.
  { intros rb. rewrite (inv_users _ _ Hinv), list_elem_of_singleton. intros Hx.
    by apply (inv_uuse _ _ Hinv). }
  destruct (m_polling_thread s) as [t|].
  - destruct Ht as (_ & Ho & Hpol). split.
    + intros v w a b Hv Hw Ha Hb.
      destruct (decide (v = t)) as [->|], (decide (w = t)) as [->|]; naive_solver.
    + rewrite (inv_users _ _ Hinv). intros [= ->] Hp.
      destruct Hpol as [[? _]|[_ (d & [Hd|Hd])]]; [congruence|discriminate Hd|discriminate Hd].
  - destruct Ht as [Hid _]. split; [|done]. intros v w a b Hv _ Ha. destruct Ha.
    symmetry. by eapply Forall_lookup_1 in Hid.
Qed.

Definition start_labels : list label :=
  [LCall 0 (MInit 5 true); LUser 0 None; LUser 0 None; LUser 0 (Some 100); LUser 0 None;
   LCall 0 MStart; LUser 0 None; LUser 0 None; LUser 0 None; LUser 0 None; LUser 0 None].

Lemma reachable_run n ls s s' : reachable n s -> run ls s = Some s' -> reachable n s'.
Proof.
  revert s. induction ls as [|l ls IH]; simpl; intros s Hr H; [congruence|].
  destruct (step l s) eqn:E; [|done]. by eapply IH, H; econstructor.
Qed.

(** [init], [start_polling], then the background thread enters libbpf. *)
Definition polling_state : reader :=
  default (initial 1) (run (start_labels ++ [LWorker 0 0 []; LWorker 0 0 []]) (initial 1)).

Lemma one_caller_safe_witness :
  r_workers polling_state !! 0%nat = Some (WUse 100) /\ 100 ∈ r_live polling_state.
Proof.
  split; [vm_compute; reflexivity|].
  refine (proj1 (proj2 (one_caller_safe polling_state _)) 0%nat 100 _).
  - apply (reachable_run 1 (start_labels ++ [LWorker 0 0 []; LWorker 0 0 []]) (initial 1));
      [constructor|vm_compute; reflexivity].
  - vm_compute. reflexivity.
Defined.

(** C20: with one caller [stop_polling] returns: once it waits in [join] some step is
    always possible, and every execution of at least five steps passes through its return. *)
Theorem stop_polling_returns (s : reader) (d : bool) (w : nat) :
  reachable 1 s -> r_users s = [UStop2 d w] ->
  (exists l s', step l s = Some s') /\
  (forall ls s', run ls s = Some s' -> (5 <= length ls)%nat ->
     exists k s1, run (take k ls) s = Some s1 /\ r_users s1 = [after_stop d]).
Proof.
  intros [u Hinv]%one_caller_reachable Hu.
  assert (u = UStop2 d w) as -> by (rewrite (inv_users _ _ Hinv) in Hu; congruence).
  split; [by eapply join_progress|]. intros ls s' Hrun Hlen.
  eapply (join_bounded ls d w s s'); [done|done|].
  unfold worker_distance. destruct (r_workers s !! w) as [[]|]; simpl; lia.
Qed.

Definition stop_labels : list label := [LCall 0 MStop; LUser 0 None; LUser 0 None].
Definition joining_state : reader := default (initial 1) (run stop_labels polling_state).

Lemma stop_polling_returns_witness :
  exists l s', step l joining_state = Some s'.
Proof.
  refine (proj1 (stop_polling_returns joining_state false 0 _ _)).
  - apply (reachable_run 1 (start_labels ++ [LWorker 0 0 []; LWorker 0 0 []] ++ stop_labels)
      (initial 1)); [constructor|vm_compute; reflexivity].
  - vm_compute. reflexivity.
Defined.

(** ** Several callers *)















