(* ===== verification/MicroVM.v ===== *)
(** * MicroVM: the sandbox data and the boot steps of src/runtime/sandbox_manager.cpp

    The structures of include/aegis/runtime/sandbox_manager.hpp, the HTTP
    client for the Firecracker API socket, and the private methods that spawn
    and configure a microVM.  These use the host only, not the manager, so they
    are operations of any state that carries the history.  A [SandboxInstance&]
    that a method fills in is returned next to its status.  Messages on
    [std::cerr] are not modelled. *)
From S2P Require Import Prelude Text Host Aegis CgroupManager.
From Stdlib Require Import Ascii.

(** ** Data *)
Record SandboxConfig := {
  sc_sandbox_id : string;
  sc_environment : RuntimeEnvironment;
  resource_limits : CgroupLimits;
  security_policy_name : string;
  use_snapshot_restore : bool;
  firecracker_bin_path : string;
  rootfs_image_path : string;
  kernel_image_path : string;
  snapshot_dir_path : string
}.

(** [SandboxConfig{}] with an identifier. *)
Definition default_config (id : string) : SandboxConfig :=
  {| sc_sandbox_id := id; sc_environment := Python311; resource_limits := default_limits;
     security_policy_name := "strict_python"; use_snapshot_restore := true;
     firecracker_bin_path := "/usr/local/bin/firecracker";
     rootfs_image_path := "/var/lib/aegis/rootfs/alpine-python311.ext4";
     kernel_image_path := "/var/lib/aegis/kernel/vmlinux-6.6.x";
     snapshot_dir_path := "/var/lib/aegis/snapshots" |}.

Record ExecutionResult := {
  er_sandbox_id : string;
  er_exit_code : Z;
  er_stdout_output : string;
  er_stderr_output : string;
  er_boot_time_ms : Z;
  er_execution_time_ms : Z;
  er_security_violation_triggered : bool;
  er_security_rule_violated : string
}.

Record SandboxInstance := {
  si_config : SandboxConfig;
  si_metadata : SandboxMetadata;
  firecracker_pid : Z;
  socket_path : string;
  guest_vsock_path : string;
  tap_fd : Z;
  is_active : bool
}.

(** ** Text of the requests *)
Definition json_quoted (s : string) : string := String dquote (s +:+ String dquote "").
Definition CRLF : string := String (ascii_of_nat 13) (String (ascii_of_nat 10) "").

Definition http_request (endpoint json_payload : string) : string :=
  "PUT " +:+ endpoint +:+ " HTTP/1.1" +:+ CRLF +:+
  "Host: localhost" +:+ CRLF +:+
  "Content-Type: application/json" +:+ CRLF +:+
  "Content-Length: " +:+ format_int (Z.of_nat (String.length json_payload)) +:+ CRLF +:+
  "Connection: close" +:+ CRLF +:+ CRLF +:+
  json_payload.

Definition boot_payload (c : SandboxConfig) : string :=
  "{" +:+ json_quoted "kernel_image_path" +:+ ":" +:+ json_quoted (kernel_image_path c) +:+ "," +:+
  json_quoted "boot_args" +:+ ":" +:+
  json_quoted "console=ttyS0 reboot=k panic=1 pci=off ip=172.16.0.2::172.16.0.1:255.255.255.0::eth0:off"
  +:+ "}".
Definition drive_payload (c : SandboxConfig) : string :=
  "{" +:+ json_quoted "drive_id" +:+ ":" +:+ json_quoted "rootfs" +:+ "," +:+
  json_quoted "path_on_host" +:+ ":" +:+ json_quoted (rootfs_image_path c) +:+ "," +:+
  json_quoted "is_root_device" +:+ ":true," +:+ json_quoted "is_read_only" +:+ ":false}".
Definition machine_payload (c : SandboxConfig) : string :=
  "{" +:+ json_quoted "vcpu_count" +:+ ":" +:+ format_int (cpu_cores (resource_limits c)) +:+ "," +:+
  json_quoted "mem_size_mib" +:+ ":" +:+ format_int (memory_mb (resource_limits c)) +:+ "}".
Definition action_payload : string :=
  "{" +:+ json_quoted "action_type" +:+ ":" +:+ json_quoted "InstanceStart" +:+ "}".
Definition snapshot_payload (c : SandboxConfig) : string :=
  "{" +:+ json_quoted "snapshot_path" +:+ ":" +:+ json_quoted (path_append (snapshot_dir_path c) "state.snap")
  +:+ "," +:+ json_quoted "mem_file_path" +:+ ":" +:+
  json_quoted (path_append (snapshot_dir_path c) "mem.snap") +:+ "," +:+
  json_quoted "resume_vm" +:+ ":true}".

(** [sizeof(sockaddr_un::sun_path)] and [IFNAMSIZ]. *)
Definition SUN_PATH_SIZE : nat := 108.
Definition IFNAMSIZ : nat := 16.
Definition O_RDWR : Z := 2.

Section Operations.
Context {host : Host} {S : Type} `{HasHistory S}.

(** ** The Firecracker API client *)
Definition send_unix_http_put (sock_path endpoint json_payload : string) : M S bool :=
  sock_fd ← sys_socket;
  if sock_fd <? 0 then mret false else
  r ← sys_connect sock_fd (strncpy_field SUN_PATH_SIZE sock_path);
  if r <? 0 then sys_close sock_fd ;; mret false else
  bytes_sent ← sys_write sock_fd (http_request endpoint json_payload);
  response ← sys_read sock_fd 1023;
  sys_close sock_fd ;;
  match response with
  | None => mret false
  | Some buf =>
      if (bytes_sent <=? 0) || Nat.eqb (String.length buf) 0 then mret false
      else mret (str_contains "HTTP/1.1 2" (c_string buf))
  end.

Definition configure_firecracker_api (inst : SandboxInstance) : M S Status :=
  let c := si_config inst in
  ok1 ← send_unix_http_put (socket_path inst) "/boot-source" (boot_payload c);
  if negb ok1 then mret ErrMicroVMBootFailed else
  ok2 ← send_unix_http_put (socket_path inst) "/drives/rootfs" (drive_payload c);
  if negb ok2 then mret ErrMicroVMBootFailed else
  ok3 ← send_unix_http_put (socket_path inst) "/machine-config" (machine_payload c);
  if negb ok3 then mret ErrMicroVMBootFailed else
  ok4 ← send_unix_http_put (socket_path inst) "/actions" action_payload;
  if negb ok4 then mret ErrMicroVMBootFailed else
  mret Success.

Definition restore_firecracker_snapshot (inst : SandboxInstance) : M S Status :=
  ok ← send_unix_http_put (socket_path inst) "/snapshot/load" (snapshot_payload (si_config inst));
  if negb ok then mret ErrSnapshotRestoreFailed else mret Success.

(** ** The network interface *)
Definition tap_name (sandbox_id : string) : string := "tap_" +:+ str_take 8 sandbox_id.

Definition set_tap (fd : Z) (name : string) (inst : SandboxInstance) : SandboxInstance :=
  let md := si_metadata inst in
  {| si_config := si_config inst;
     si_metadata := {| md_sandbox_id := md_sandbox_id md; md_environment := md_environment md;
       md_state := md_state md; md_vcpus := md_vcpus md; md_memory_mb := md_memory_mb md;
       md_vram_mb := md_vram_mb md; md_boot_time_ms := md_boot_time_ms md;
       md_guest_ip := "172.16.0.2"; md_tap_device_name := name;
       md_created_at := md_created_at md |};
     firecracker_pid := firecracker_pid inst; socket_path := socket_path inst;
     guest_vsock_path := guest_vsock_path inst; tap_fd := fd; is_active := is_active inst |}.

Definition setup_tap_interface (inst : SandboxInstance) : M S (Status * SandboxInstance) :=
  fd ← sys_open "/dev/net/tun" O_RDWR;
  if fd <? 0 then mret (ErrTAPInterfaceCreationFailed, inst) else
  let name := tap_name (sc_sandbox_id (si_config inst)) in
  r ← sys_ioctl_tap fd (strncpy_field IFNAMSIZ name);
  if r <? 0 then sys_close fd ;; mret (ErrTAPInterfaceCreationFailed, inst) else
  mret (Success, set_tap fd name inst).

(** ** The Firecracker process *)
Definition set_pid (pid : Z) (inst : SandboxInstance) : SandboxInstance :=
  {| si_config := si_config inst; si_metadata := si_metadata inst; firecracker_pid := pid;
     socket_path := socket_path inst; guest_vsock_path := guest_vsock_path inst;
     tap_fd := tap_fd inst; is_active := is_active inst |}.

(** What the child does: [execv] replaces its image or, if it fails, [_exit] ends it. *)
Definition child_process {A} (inst : SandboxInstance) : M S A :=
  dev_null ← sys_open "/dev/null" O_RDWR;
  (if 0 <=? dev_null then
     log (EvDup2 dev_null 0) ;; log (EvDup2 dev_null 1) ;; log (EvDup2 dev_null 2) ;;
     sys_close dev_null
   else mret tt) ;;
  log (EvExecv (firecracker_bin_path (si_config inst))
        [firecracker_bin_path (si_config inst); "--api-sock"; socket_path inst]) ;;
  exited.

(** [for (int i = 0; i < n; ++i)] around the test for the API socket. *)
Fixpoint wait_for_socket (n : nat) (path : string) : M S Status :=
  match n with
  | O => mret ErrMicroVMBootFailed
  | Datatypes.S n' =>
      ex ← fs_exists path;
      if (ex : bool) then mret Success else
      sleep_ms 10 ;;
      wait_for_socket n' path
  end.

Definition spawn_firecracker_process (inst : SandboxInstance) : M S (Status * SandboxInstance) :=
  ex ← fs_exists (socket_path inst);
  (if (ex : bool) then fs_remove (socket_path inst) else mret tt) ;;
  pid ← sys_fork;
  if pid <? 0 then mret (ErrMicroVMBootFailed, inst) else
  if pid =? 0 then child_process inst else
  st ← wait_for_socket 50 (socket_path inst);
  mret (st, set_pid pid inst).
End Operations.

#[global] Arguments http_request : simpl never.

(** ** A reference reader of the requests *)

(** The text before the first CR LF, and what follows it. *)
Fixpoint split_line (s : string) : option (string * string) :=
  match s with
  | EmptyString => None
  | String c s' =>
      match (if Ascii.eqb c (ascii_of_nat 13) then String.prefix (String (ascii_of_nat 10) "") s'
             else false), s' with
      | true, String _ rest => Some ("", rest)
      | _, _ => match split_line s' with
                | Some (l, rest) => Some (String c l, rest)
                | None => None
                end
      end
  end.

(** The lines up to the first empty one, and the body after it. *)
Fixpoint http_parse (fuel : nat) (s : string) : option (list string * string) :=
  match fuel with
  | O => None
  | S fuel' =>
      match split_line s with
      | None => None
      | Some (EmptyString, body) => Some ([], body)
      | Some (line, rest) =>
          match http_parse fuel' rest with
          | Some (lines, body) => Some (line :: lines, body)
          | None => None
          end
      end
  end.

Lemma split_line_app l r :
  str_mem (ascii_of_nat 13) l = false -> split_line (l +:+ CRLF +:+ r) = Some (l, r).
Proof.
  induction l as [|c l IH]; [by destruct r|].
  cbn [str_mem String.append split_line]. rewrite orb_false_iff. intros [Hc Hl].
  rewrite (IH Hl). destruct (Ascii.eqb_spec c (ascii_of_nat 13)) as [->|Hne]; [done|].
  by destruct (l +:+ CRLF +:+ r).
Qed.

Lemma http_parse_line fuel l r lines body :
  str_mem (ascii_of_nat 13) l = false -> l <> "" ->
  http_parse fuel r = Some (lines, body) ->
  http_parse (S fuel) (l +:+ CRLF +:+ r) = Some (l :: lines, body).
Proof.
  intros Hl Hne Hr. cbn [http_parse]. rewrite split_line_app by done.
  destruct l; [done|]. by rewrite Hr.
Qed.

Lemma http_parse_end fuel body : http_parse (S fuel) (CRLF +:+ body) = Some ([], body).
Proof. by destruct body. Qed.

Lemma digits_no_cr s : str_all is_digit s = true -> str_mem (ascii_of_nat 13) s = false.
Proof.
  induction s as [|c s IH]; cbn [str_all str_mem]; [done|]. intros [Hc Hs]%andb_prop.
  rewrite (IH Hs), orb_false_r. destruct (Ascii.eqb_spec (ascii_of_nat 13) c) as [<-|]; done.
Qed.

(** ** Properties of the requests *)

(** C32: an API request is well framed: a reader that splits the request at its line ends
    gets the five header lines, then exactly the payload, whatever bytes it contains, and
    the declared Content-Length is the length of the payload.  The endpoint must not contain
    a carriage return; all those the code uses are literals without one. *)
Theorem http_request_framing (endpoint json_payload : string) :
  str_mem (ascii_of_nat 13) endpoint = false ->
  exists len,
    http_parse 6 (http_request endpoint json_payload) =
    Some (["PUT " +:+ endpoint +:+ " HTTP/1.1"; "Host: localhost"; "Content-Type: application/json";
           "Content-Length: " +:+ len; "Connection: close"], json_payload) /\
    stoul len = (if Z.of_nat (String.length json_payload) <? 2 ^ 64
                 then inr (Z.of_nat (String.length json_payload)) else inl out_of_range).
Proof.
  intros He. set (n := Z.of_nat (String.length json_payload)).
  assert (Hn : 0 <= n) by lia. exists (format_int n). split.
  - unfold http_request. fold n.
    rewrite <- (str_app_assoc endpoint), <- (str_app_assoc "PUT "), <- (str_app_assoc "Content-Length: ").
    repeat (apply http_parse_line; [|done|]); [| | | | |apply http_parse_end]; try reflexivity.
    + rewrite !str_mem_app, He. reflexivity.
    + rewrite str_mem_app, (digits_no_cr (format_int n)) by (by apply format_int_digits). reflexivity.
  - unfold stoul. by rewrite digits_val_format.
Qed.

(** The request that starts the microVM. *)
Lemma http_request_framing_witness :
  exists len, http_parse 6 (http_request "/actions" action_payload) =
    Some (["PUT /actions HTTP/1.1"; "Host: localhost"; "Content-Type: application/json";
           "Content-Length: " +:+ len; "Connection: close"], action_payload) /\ stoul len = inr 31.
Proof. exact (http_request_framing "/actions" action_payload eq_refl). Defined.

Lemma tap_name_length id : (String.length (tap_name id) <= 12)%nat.
Proof.
  unfold tap_name. cbn [String.append String.length]. pose proof (str_take_length 8 id). lia.
Qed.

Lemma str_mem_take c n s : str_mem c s = false -> str_mem c (str_take n s) = false.
Proof.
  revert n. induction s as [|d s IH]; intros n; [by destruct n|].
  cbn [str_mem]. rewrite orb_false_iff. intros [Hd Hs].
  destruct n as [|n]; [done|]. cbn [str_take str_mem]. by rewrite Hd, IH.
Qed.

(** the TAP device name always fits the kernel's 16-byte field, so the name given to
    the kernel is the one recorded in the metadata; but only the first eight characters of
    the identifier count: two sandboxes ask for the same device exactly when they agree on
    those. *)
Theorem tap_name_spec (a b : string) :
  str_mem NUL a = false ->
  strncpy_field IFNAMSIZ (tap_name a) = tap_name a /\
  (String.length (tap_name a) < IFNAMSIZ)%nat /\
  (tap_name a = tap_name b <-> str_take 8 a = str_take 8 b).
Proof.
  intros Ha. pose proof (tap_name_length a) as Hl. split; [|split; [unfold IFNAMSIZ; lia|]].
  - apply strncpy_field_id; [|unfold IFNAMSIZ; lia].
    unfold tap_name. rewrite str_mem_app, str_mem_take by done. reflexivity.
  - unfold tap_name. split; [apply str_app_inj_l|by intros ->].
Qed.

(** The identifiers [sandbox-1] and [sandbox-2] share the device tap_sandbox-. *)
Lemma tap_name_spec_witness : tap_name "sandbox-1" = tap_name "sandbox-2".
Proof. apply (tap_name_spec "sandbox-1" "sandbox-2" eq_refl). reflexivity. Defined.

Lemma strncpy_field_exact size p :
  str_mem NUL p = false -> (0 < size)%nat ->
  (strncpy_field size p = p <-> (String.length p < size)%nat).
Proof.
  intros Hp Hs. split; [|by apply strncpy_field_id].
  intros <-. by apply strncpy_field_length.
Qed.

(** for a relative identifier under the default runtime directory, the guest agent is
    contacted at the sandbox's own socket exactly when the identifier has at most 73
    characters; a longer one is silently cut off at 107 bytes. *)
Theorem guest_socket_exact (id : string) :
  is_absolute id = false -> str_mem NUL id = false -> ends_with_slash (path_append "/var/run/aegis" id) = false ->
  let p := path_append (path_append "/var/run/aegis" id) "guest_agent.socket" in
  strncpy_field SUN_PATH_SIZE p = p <-> (String.length id <= 73)%nat.
Proof.
  intros Ha Hn Hs. cbn zeta.
  assert (Hd : path_append "/var/run/aegis" id = "/var/run/aegis/" +:+ id)
    by (unfold path_append; by rewrite Ha).
  rewrite Hd in *. unfold path_append. rewrite Hs. simpl is_absolute. cbv iota.
  change (String.eqb ("/var/run/aegis/" +:+ id) "") with false. cbn [orb].
  rewrite strncpy_field_exact; [|rewrite !str_mem_app, Hn; reflexivity|unfold SUN_PATH_SIZE; lia].
  rewrite !str_length_app. unfold SUN_PATH_SIZE. cbn [String.length]. lia.
Qed.

Lemma guest_socket_exact_witness :
  strncpy_field SUN_PATH_SIZE "/var/run/aegis/sbx-1/guest_agent.socket" =
  "/var/run/aegis/sbx-1/guest_agent.socket".
Proof.
  apply (proj2 (guest_socket_exact "sbx-1" eq_refl eq_refl eq_refl)).
  apply (Nat.leb_le 5 73). reflexivity.
Defined.

(** ** Runs *)

(** The texts written to sockets, the latest first. *)
Fixpoint writes (h : history) : list string :=
  match h with
  | [] => []
  | EvWrite _ data _ :: h' => data :: writes h'
  | _ :: h' => writes h'
  end.

(** The time spent in [sleep_for], in milliseconds. *)
Fixpoint slept (h : history) : Z :=
  match h with
  | [] => 0
  | EvSleep ms :: h' => ms + slept h'
  | _ :: h' => slept h'
  end.

Section Runs.
Context {host : Host} {C : Type}.
Implicit Types (c : C) (h : history).

Ltac vm_unfold :=
  unfold send_unix_http_put, setup_tap_interface, fs_exists, fs_remove, sys_socket, sys_connect,
    sys_write, sys_read, sys_close, sys_open, sys_ioctl_tap, sys_fork, sleep_ms, log, call in *;
  munfold; simpl in *.

(** The answers one request gets, in order. *)
Definition put_accepted (h : history) (sock_path endpoint payload : string) : Prop :=
  let fd := os_socket h in
  let h1 := EvSocket fd :: h in
  let addr := strncpy_field SUN_PATH_SIZE sock_path in
  let r := os_connect h1 fd addr in
  let h2 := EvConnect fd addr r :: h1 in
  let req := http_request endpoint payload in
  let sent := os_write h2 fd req in
  let h3 := EvWrite fd req sent :: h2 in
  0 <= fd /\ 0 <= r /\ 0 < sent /\
  exists buf, os_read h3 fd 1023 = Some buf /\ buf <> "" /\
    str_contains "HTTP/1.1 2" (c_string buf) = true.

Lemma send_run `{!FreshDescriptors} c h p e j :
  exists b h', send_unix_http_put p e j (c, h) = (Ret b, (c, h')) /\ quiet h h' /\
    (b = true <-> put_accepted h p e j) /\
    (writes h' = http_request e j :: writes h \/ (b = false /\ writes h' = writes h)).
Proof.
  pose proof (socket_fresh h) as Hfresh. unfold put_accepted. vm_unfold.
  destruct (Z.ltb_spec (os_socket h) 0) as [Hs|Hs]; simpl.
  { do 2 eexists. split; [reflexivity|]. split; [|split; [split; [done|intros (? & _); lia]|by right]].
    unfold quiet. simpl. by rewrite (proj2 (Z.leb_gt 0 _) Hs). }
  assert (Hq : forall evs : list event -> list event,
    open_fds (evs (EvSocket (os_socket h) :: h)) = open_fds (EvSocket (os_socket h) :: h) ->
    open_fds (EvClose (os_socket h) :: evs (EvSocket (os_socket h) :: h)) = open_fds h).
  { intros evs He. cbn [open_fds] in *. rewrite He, (proj2 (Z.leb_le 0 _) Hs).
    specialize (Hfresh Hs). set_solver. }
  destruct (os_connect _ _ _ <? 0) eqn:Ec; simpl.
  { do 2 eexists. split; [reflexivity|]. split; [|split; [split; [done|intros (_ & ? & _); lia]|by right]].
    split; [|done]. by apply (Hq (fun x => EvConnect _ _ _ :: x)). }
  destruct (os_read _ _ _) as [buf|] eqn:Er; simpl.
  2: { do 2 eexists. split; [reflexivity|]. split; [|split; [split; [done|naive_solver]|by left]].
       split; [|done]. by apply (Hq (fun x => EvRead _ _ _ :: EvWrite _ _ _ :: EvConnect _ _ _ :: x)). }
  match goal with |- context [if ?b then _ else _] => destruct b eqn:Eb end; simpl;
    (do 2 eexists; split; [reflexivity|]); (split;
      [split; [|done]; by apply (Hq (fun x => EvRead _ _ _ :: EvWrite _ _ _ :: EvConnect _ _ _ :: x))|]); (split; [|by left]).
  - split; [done|]. intros (_ & _ & Hw & buf' & [= <-] & Hne & _).
    apply orb_prop in Eb as [?%Z.leb_le|?%Nat.eqb_eq]; [lia|]. by destruct buf.
  - apply orb_false_elim in Eb as [?%Z.leb_gt ?%Nat.eqb_neq].
    split; [|by intros (_ & _ & _ & buf' & [= <-] & _ & ?)].
    intros Hc. split; [lia|]. split; [lia|]. split; [lia|]. exists buf.
    split; [done|]. split; [by intros ->|done].
Qed.

#[global] Instance tidy_send `{!FreshDescriptors} p e j :
  Tidy (S := C * history) (send_unix_http_put p e j).
Proof.
  intros [c h] r s' Hrun. pose proof (socket_fresh h) as Hfresh. vm_unfold.
  destruct (Z.ltb_spec (os_socket h) 0) as [Hs|Hs]; simpl in Hrun.
  { simplify_eq. by apply keeps_cons. }
  specialize (Hfresh Hs).
  assert (Hk : forall evs, (forall fd, EvClose fd ∉ evs) ->
    keeps h (EvClose (os_socket h) :: evs ++ EvSocket (os_socket h) :: h)).
  { intros evs Hevs. exists (EvClose (os_socket h) :: evs ++ [EvSocket (os_socket h)]).
    split; [simpl; by rewrite <- app_assoc|]. intros fd. rewrite elem_of_cons, elem_of_app, list_elem_of_singleton.
    intros [[= ->]|[?%Hevs|?]]; done. }
  repeat case_match; simplify_eq/=;
    first [apply (Hk [EvRead _ _ _; EvWrite _ _ _; EvConnect _ _ _]) | apply (Hk [EvConnect _ _ _])];
    intros fd; rewrite !not_elem_of_cons; (repeat split; try discriminate); apply not_elem_of_nil.
Qed.

#[global] Instance tidy_configure `{!FreshDescriptors} inst :
  Tidy (S := C * history) (configure_firecracker_api inst).
Proof. unfold configure_firecracker_api. tidy_body. Qed.
#[global] Instance tidy_restore `{!FreshDescriptors} inst :
  Tidy (S := C * history) (restore_firecracker_snapshot inst).
Proof. unfold restore_firecracker_snapshot. tidy_body. Qed.
#[global] Instance tidy_wait n path : Tidy (S := C * history) (wait_for_socket n path).
Proof. induction n as [|n IH]; cbn [wait_for_socket]; tidy_body. Qed.

(** Requests sent one after the other until one is refused. *)
Fixpoint send_all (p : string) (reqs : list (string * string)) : M (C * history) bool :=
  match reqs with
  | [] => mret true
  | (e, j) :: reqs' =>
      ok ← send_unix_http_put p e j;
      if negb ok then mret false else send_all p reqs'
  end.

Definition boot_requests (cf : SandboxConfig) : list (string * string) :=
  [("/boot-source", boot_payload cf); ("/drives/rootfs", drive_payload cf);
   ("/machine-config", machine_payload cf); ("/actions", action_payload)].

Lemma configure_as_send_all inst s :
  configure_firecracker_api inst s =
  (ok ← send_all (socket_path inst) (boot_requests (si_config inst));
   mret (if (ok : bool) then Success else ErrMicroVMBootFailed)) s.
Proof.
  unfold configure_firecracker_api, boot_requests. cbn [send_all]. unfold mbind, M_bind, mret, M_ret.
  repeat (match goal with
          | |- context [send_unix_http_put ?p ?e ?j ?st] =>
              destruct (send_unix_http_put p e j st) as [[[]|?| |] ?]
          end; simpl; try done).
Qed.

Lemma send_all_run `{!FreshDescriptors} reqs p c h :
  exists b h', send_all p reqs (c, h) = (Ret b, (c, h')) /\ quiet h h' /\
    exists k, writes h' = reverse (take k (uncurry http_request <$> reqs)) ++ writes h /\
      (b = true -> (k = length reqs)%nat).
Proof.
  revert h. induction reqs as [|[e j] reqs IH]; intros h; cbn [send_all].
  { do 2 eexists. split; [reflexivity|]. split; [done|]. by exists 0%nat. }
  destruct (send_run c h p e j) as (b & h1 & Hs & Hq & _ & Hw).
  rewrite (bind_Ret _ _ _ _ _ Hs). destruct b; cbn [negb].
  - destruct (IH h1) as (b & h2 & -> & Hq2 & k & Hk & Hb).
    do 2 eexists. split; [reflexivity|]. split; [by etrans|]. exists (S k).
    destruct Hw as [Hw|[? _]]; [|done].
    cbn [fmap list_fmap take]. rewrite reverse_cons, <- app_assoc, Hk, Hw.
    split; [done|]. intros Ht. by rewrite Hb.
  - do 2 eexists. split; [reflexivity|]. split; [done|]. destruct Hw as [Hw|[_ Hw]].
    + by exists 1%nat.
    + by exists 0%nat.
Qed.

Lemma configure_run `{!FreshDescriptors} inst c h :
  exists st h', configure_firecracker_api inst (c, h) = (Ret st, (c, h')) /\ quiet h h' /\
    (st = Success \/ st = ErrMicroVMBootFailed) /\
    exists k, writes h' =
      reverse (take k (uncurry http_request <$> boot_requests (si_config inst))) ++ writes h /\
      (st = Success -> k = 4%nat).
Proof.
  rewrite configure_as_send_all.
  destruct (send_all_run (boot_requests (si_config inst)) (socket_path inst) c h)
    as (b & h' & Hs & Hq & k & Hw & Hb).
  rewrite (bind_Ret _ _ _ _ _ Hs). do 2 eexists. split; [reflexivity|]. split; [done|].
  split; [destruct b; auto|]. exists k. split; [done|]. destruct b; [auto|done].
Qed.

Lemma restore_run `{!FreshDescriptors} inst c h :
  exists st h', restore_firecracker_snapshot inst (c, h) = (Ret st, (c, h')) /\ quiet h h' /\
    (st = Success \/ st = ErrSnapshotRestoreFailed).
Proof.
  unfold restore_firecracker_snapshot.
  destruct (send_run c h (socket_path inst) "/snapshot/load" (snapshot_payload (si_config inst)))
    as (b & h' & Hs & Hq & _).
  rewrite (bind_Ret _ _ _ _ _ Hs). destruct b; do 2 eexists; (split; [reflexivity|]); auto.
Qed.

(** A TAP device named after the sandbox: the descriptor is opened on the TUN driver and bound
    to the name by TUNSETIFF. *)
Definition tap_events (id : string) (fd r : Z) : history :=
  [EvIoctl fd (strncpy_field IFNAMSIZ (tap_name id)) r; EvOpen "/dev/net/tun" O_RDWR fd].

Lemma tap_run `{!FreshDescriptors} inst c h :
  (exists h', setup_tap_interface inst (c, h) = (Ret (ErrTAPInterfaceCreationFailed, inst), (c, h')) /\
     quiet h h') \/
  (exists fd r h', setup_tap_interface inst (c, h) =
     (Ret (Success, set_tap fd (tap_name (sc_sandbox_id (si_config inst))) inst), (c, h')) /\
     0 <= fd /\ (fd ∉ open_fds h) /\ open_fds h' = {[fd]} ∪ open_fds h /\
     unkilled_pids h' = unkilled_pids h /\ (forall m k, map_value h' m k = map_value h m k) /\ 0 <= r /\
     h' = tap_events (sc_sandbox_id (si_config inst)) fd r ++ h).
Proof.
  pose proof (open_fresh h "/dev/net/tun" O_RDWR) as Hfresh. vm_unfold.
  set (fd := os_open h _ _) in *. destruct (Z.ltb_spec fd 0) as [Hf|Hf]; simpl.
  { left. eexists. split; [reflexivity|]. split; [|done]. simpl.
    by rewrite (proj2 (Z.leb_gt 0 fd) Hf). }
  specialize (Hfresh Hf). destruct (Z.ltb_spec (os_ioctl (EvOpen "/dev/net/tun" O_RDWR fd :: h) fd
    (strncpy_field IFNAMSIZ (tap_name (sc_sandbox_id (si_config inst))))) 0) as [Hr|Hr]; simpl.
  - left. eexists. split; [reflexivity|]. split; [|done]. simpl.
    rewrite (proj2 (Z.leb_le 0 fd) Hf). set_solver.
  - right. exists fd. do 2 eexists. split; [reflexivity|]. split; [done|]. split; [done|].
    split; [|by eauto]. simpl. by rewrite (proj2 (Z.leb_le 0 fd) Hf).
Qed.

(** Waiting polls at most [n] times, ten milliseconds apart. *)
Lemma wait_run n path c h :
  exists r h', wait_for_socket n path (c, h) = (r, (c, h')) /\ quiet h h' /\
    slept h <= slept h' <= slept h + 10 * Z.of_nat n /\
    (r = Ret Success \/ r = Ret ErrMicroVMBootFailed \/ r = Throw (filesystem_error path)) /\
    (r = Ret Success -> exists h0, h' = EvExists path (Some true) :: h0) /\
    (r = Ret ErrMicroVMBootFailed -> slept h' = slept h + 10 * Z.of_nat n).
Proof.
  revert h. induction n as [|n IH]; intros h; cbn [wait_for_socket].
  { do 2 eexists. split; [reflexivity|]. split; [done|]. split; [lia|]. split; [by auto|].
    split; [done|]. intros _. lia. }
  vm_unfold. destruct (os_exists h path) as [[|]|]; simpl.
  - do 2 eexists. split; [reflexivity|]. split; [done|]. split; [cbn [slept]; lia|].
    split; [by auto|]. split; [by eauto|done].
  - destruct (IH (EvSleep 10 :: EvExists path (Some false) :: h)) as (r & h' & -> & Hq & Hs & Hr & H1 & H2).
    do 2 eexists. split; [reflexivity|]. split; [by etrans; [|exact Hq]|]. simpl slept in *.
    split; [lia|]. split; [done|]. split; [done|]. intros Hb. specialize (H2 Hb). lia.
  - do 2 eexists. split; [reflexivity|]. split; [done|]. split; [cbn [slept]; lia|].
    split; [by auto|]. done.
Qed.

(** The ways [spawn_firecracker_process] ends. *)
Inductive spawn_outcome (inst : SandboxInstance) (h : history) :
    outcome (Status * SandboxInstance) -> history -> Prop :=
| SpawnThrow h' : quiet h h' -> slept h' = slept h ->
    spawn_outcome inst h (Throw (filesystem_error (socket_path inst))) h'
| SpawnChild h' : slept h' = slept h -> spawn_outcome inst h Exited h'
| SpawnNoFork h' : quiet h h' -> slept h' = slept h ->
    spawn_outcome inst h (Ret (ErrMicroVMBootFailed, inst)) h'
| SpawnForked r pid h1 h' :
    0 < pid -> pid = os_fork h1 -> quiet h h1 -> quiet (EvFork pid :: h1) h' ->
    slept h1 = slept h -> slept h' <= slept h + 500 ->
    r = Throw (filesystem_error (socket_path inst)) \/ r = Ret (Success, set_pid pid inst) \/
    r = Ret (ErrMicroVMBootFailed, set_pid pid inst) /\ slept h' = slept h + 500 ->
    keeps h h1 -> keeps (EvFork pid :: h1) h' ->
    spawn_outcome inst h r h'.

(** Removing a stale socket before the fork. *)
Lemma remove_stale_run path c h :
  exists r h', (ex ← fs_exists path; if (ex : bool) then fs_remove path else mret tt) (c, h) = (r, (c, h')) /\
    quiet h h' /\ slept h' = slept h /\ (r = Ret tt \/ r = Throw (filesystem_error path)).
Proof.
  vm_unfold. destruct (os_exists h path) as [[|]|]; simpl; [destruct (os_remove _ _); simpl| |];
    do 2 eexists; (split; [reflexivity|]); (split; [done|]); auto.
Qed.

#[local] Instance tidy_remove_stale path :
  Tidy (S := C * history) (ex ← fs_exists path; if (ex : bool) then fs_remove path else mret tt).
Proof. tidy_body. Qed.

#[local] Arguments wait_for_socket : simpl never.

Lemma spawn_run inst c h :
  exists r h', spawn_firecracker_process inst (c, h) = (r, (c, h')) /\ spawn_outcome inst h r h'.
Proof.
  unfold spawn_firecracker_process.
  assert (Hassoc : forall (k : unit -> M (C * history) (Status * SandboxInstance)) s,
    (ex ← fs_exists (socket_path inst);
     (if (ex : bool) then fs_remove (socket_path inst) else mret tt) ≫= k) s =
    ((ex ← fs_exists (socket_path inst);
      if (ex : bool) then fs_remove (socket_path inst) else mret tt) ≫= k) s)
    by (intros; symmetry; apply bind_assoc).
  rewrite Hassoc. clear Hassoc.
  destruct (remove_stale_run (socket_path inst) c h) as (r & h1 & Hrun & Hq & Hsl & [-> | ->]).
  2: { unfold mbind at 1, M_bind at 1. rewrite Hrun. do 2 eexists. split; [reflexivity|]. by constructor. }
  rewrite (bind_Ret _ _ _ _ _ Hrun).
  unfold sys_fork, call. unfold mbind at 1, M_bind at 1. simpl.
  destruct (Z.ltb_spec (os_fork h1) 0) as [Hf|Hf].
  { do 2 eexists. split; [reflexivity|]. constructor; [|done]. etrans; [exact Hq|].
    split; [done|]. split; [|done]. simpl. by rewrite (proj2 (Z.ltb_ge 0 _)) by lia. }
  destruct (Z.eqb_spec (os_fork h1) 0) as [Hz|Hz].
  { clear Hrun. unfold child_process. vm_unfold.
    destruct (0 <=? _); (do 2 eexists; split; [reflexivity|]); by constructor. }
  destruct (wait_run 50 (socket_path inst) c (EvFork (os_fork h1) :: h1))
    as (r & h' & Hw & Hqw & Hs & Hr & _ & Hfull).
  unfold mbind, M_bind. rewrite Hw. simpl in Hs, Hfull.
  destruct Hr as [-> |[-> | ->]]; do 2 eexists; (split; [reflexivity|]);
    (eapply SpawnForked; try done; try lia; rewrite ?Hsl in *; auto;
     [exact (tidy_remove_stale _ _ _ _ Hrun)|exact (tidy_wait _ _ _ _ _ Hw)]).
Qed.
End Runs.

(** C31: booting waits a bounded time: whatever the host answers, [spawn_firecracker_process]
    either ends before the fork or sleeps at most 500 milliseconds for the API socket, and it
    reports a boot failure after a successful fork only when it has slept exactly that long;
    the forked child has then not been killed. *)
Theorem spawn_bounded_wait {host : Host} `{!FreshChildren} (inst : SandboxInstance) (h : history) :
  exists r h', spawn_firecracker_process inst (tt, h) = (r, (tt, h')) /\
    slept h' <= slept h + 500 /\
    (forall inst', r = Ret (Success, inst') -> firecracker_pid inst' ∈ unkilled_pids h') /\
    (forall inst', r = Ret (ErrMicroVMBootFailed, inst') ->
       (inst' = inst /\ unkilled_pids h' = unkilled_pids h) \/
       (exists pid, inst' = set_pid pid inst /\ 0 < pid /\ (pid ∉ unkilled_pids h) /\
          unkilled_pids h' = {[pid]} ∪ unkilled_pids h /\ slept h' = slept h + 500)).
Proof.
  destruct (spawn_run inst tt h) as (r & h' & Hrun & Ho). exists r, h'. split; [done|].
  destruct Ho as [h' Hq Hs|h' Hs|h' (_ & Hq & _) Hs|r pid h1 h' Hpid Heq Hq1 (_ & Hp & _) Hs1 Hs Hr _ _].
  - split; [lia|done].
  - split; [lia|done].
  - split; [lia|]. split; [done|]. intros inst' [= <-]. by left.
  - cbn [unkilled_pids] in Hp. rewrite (proj2 (Z.ltb_lt 0 pid) Hpid) in Hp.
    pose proof Hq1 as (_ & Hp1 & _). rewrite Hp1 in Hp. split; [done|]. split; intros inst' ->.
    + destruct Hr as [?|[[= ->]|[? _]]]; [done| |done]. rewrite Hp. simpl. set_solver.
    + destruct Hr as [?|[?|[[= ->] Hb]]]; [done|done|]. right. exists pid.
      split; [done|]. split; [done|]. split; [|done]. rewrite <- Hp1. subst pid.
      by apply fork_fresh.
Qed.

(** A machine on which the API socket never appears. *)
Definition dead_vmm_host : Host := {|
  os_exists h p := Some false;
  os_create_directories h p := true;
  os_remove h p := true;
  os_write_file h p v := (true, true);
  os_read_file h p := None;
  os_stat h p := Some 4242;
  os_open h p fl := next_above (open_fds h);
  os_ioctl h fd name := 0;
  os_fork h := next_above (unkilled_pids h);
  os_socket h := next_above (open_fds h);
  os_connect h fd p := -1;
  os_write h fd data := -1;
  os_read h fd n := None;
  os_clock h := 0;
  bpf_open_file h p := None;
  bpf_load h o := -1;
  bpf_programs o := [];
  bpf_program_name p := None;
  bpf_find_program o n := None;
  bpf_attach h p t := None;
  bpf_find_map o n := None;
  bpf_map_fd m := -1;
  bpf_map_update h fd k v := -1;
  bpf_ring_new h fd := None
|}.
#[global] Instance dead_vmm_children : FreshChildren (H := dead_vmm_host).
Proof. split; intros; apply next_above_fresh. Qed.

Definition sample_instance : SandboxInstance :=
  {| si_config := default_config "sbx-1"; si_metadata := default_metadata 0;
     firecracker_pid := -1; socket_path := "/var/run/aegis/sbx-1/firecracker.socket";
     guest_vsock_path := "/var/run/aegis/sbx-1/guest_agent.socket"; tap_fd := -1;
     is_active := false |}.

(** The boot failure after a fork is reached, without killing the child. *)
Lemma spawn_bounded_wait_witness :
  exists pid h', spawn_firecracker_process (host := dead_vmm_host) sample_instance (tt, []) =
    (Ret (ErrMicroVMBootFailed, set_pid pid sample_instance), (tt, h')) /\
    0 < pid /\ slept h' <= 500.
Proof.
  destruct (spawn_bounded_wait (host := dead_vmm_host) sample_instance []) as (r & h' & Hrun & Hs & _).
  exists 3, h'. assert (r = Ret (ErrMicroVMBootFailed, set_pid 3 sample_instance)) as ->.
  { vm_compute in Hrun. injection Hrun. intros _ <-. reflexivity. }
  split; [exact Hrun|]. split; [lia|exact Hs].
Defined.
