(* ===== verification/SandboxManager.v ===== *)
(** * SandboxManager: src/runtime/sandbox_manager.cpp

    The manager composes the cgroup table, the eBPF loader, the policy engine
    and the microVM steps.  The objects behind its pointers are parts of its
    state; a null [shared_ptr] is [None].  Every public method holds the
    manager's own mutex while it calls the components, each of which takes
    its own. *)
From S2P Require Import Prelude Text Host Aegis PolicyEngine CgroupManager EBPFLoader MicroVM.

Record SandboxManager := {
  sm_mutex : bool;
  m_ebpf_loader : option EBPFLoader;
  m_policy_engine : option PolicyEngine;
  m_cgroup_manager : CgroupManager;
  m_base_runtime_dir : string;
  m_sandboxes : gmap string SandboxInstance
}.

#[global] Instance SandboxManager_mutex : HasMutex SandboxManager :=
  {| mutex_held := sm_mutex;
     set_mutex := fun b m => {| sm_mutex := b; m_ebpf_loader := m_ebpf_loader m;
       m_policy_engine := m_policy_engine m; m_cgroup_manager := m_cgroup_manager m;
       m_base_runtime_dir := m_base_runtime_dir m; m_sandboxes := m_sandboxes m |} |}.

Definition set_sandboxes (f : gmap string SandboxInstance -> gmap string SandboxInstance)
    (m : SandboxManager) : SandboxManager :=
  {| sm_mutex := sm_mutex m; m_ebpf_loader := m_ebpf_loader m;
     m_policy_engine := m_policy_engine m; m_cgroup_manager := m_cgroup_manager m;
     m_base_runtime_dir := m_base_runtime_dir m; m_sandboxes := f (m_sandboxes m) |}.
Definition set_cgroup_manager (cg : CgroupManager) (m : SandboxManager) : SandboxManager :=
  {| sm_mutex := sm_mutex m; m_ebpf_loader := m_ebpf_loader m;
     m_policy_engine := m_policy_engine m; m_cgroup_manager := cg;
     m_base_runtime_dir := m_base_runtime_dir m; m_sandboxes := m_sandboxes m |}.
Definition set_loader (l : option EBPFLoader) (m : SandboxManager) : SandboxManager :=
  {| sm_mutex := sm_mutex m; m_ebpf_loader := l; m_policy_engine := m_policy_engine m;
     m_cgroup_manager := m_cgroup_manager m; m_base_runtime_dir := m_base_runtime_dir m;
     m_sandboxes := m_sandboxes m |}.
Definition set_engine (e : option PolicyEngine) (m : SandboxManager) : SandboxManager :=
  {| sm_mutex := sm_mutex m; m_ebpf_loader := m_ebpf_loader m; m_policy_engine := e;
     m_cgroup_manager := m_cgroup_manager m; m_base_runtime_dir := m_base_runtime_dir m;
     m_sandboxes := m_sandboxes m |}.

Abbreviation SM := (SandboxManager * history)%type.

(** ** Calls into the components *)

(** [m_cgroup_manager->...]; the pointer is never null after the constructor. *)
Definition on_cgroups {A} (m : M CG A) : M SM A :=
  zoom (fun s => (m_cgroup_manager s.1, s.2)) (fun t s => (set_cgroup_manager t.1 s.1, t.2)) m.

(** [m_ebpf_loader->...] with the status discarded, as in every use; the callers
    have tested the pointer. *)
Definition on_loader (m : M EL Status) : M SM unit := fun s =>
  match m_ebpf_loader s.1 with
  | None => (Ret tt, s)
  | Some l =>
      (zoom (fun _ : SM => (l, s.2)) (fun t s => (set_loader (Some t.1) s.1, t.2)) m ;; mret tt) s
  end.

(** [m_policy_engine->get_policy(name)]; the callers have tested the pointer. *)
Definition engine_policy (name : string) : M SM (option SecurityPolicy) := fun s =>
  match m_policy_engine s.1 with
  | None => (Ret None, s)
  | Some e => zoom (fun _ : SM => (e, s.2)) (fun t s => (set_engine (Some t.1) s.1, t.2))
                (get_policy name) s
  end.

Section Operations.
Context {host : Host}.

(** ** Construction *)
Definition SandboxManager_init (loader : option EBPFLoader) (engine : option PolicyEngine)
    (base : string) : SandboxManager :=
  {| sm_mutex := false; m_ebpf_loader := loader; m_policy_engine := engine;
     m_cgroup_manager := CgroupManager_init "/sys/fs/cgroup/aegis";
     m_base_runtime_dir := base; m_sandboxes := ∅ |}.

Definition SandboxManager_ctor : M SM unit :=
  on_cgroups CgroupManager_ctor ;;
  base ← gets (fun s => m_base_runtime_dir s.1);
  create_directories base ;;
  mret tt.

(** ** Kernel policies *)
Definition apply_ebpf_policies (inst : SandboxInstance) : M SM Status :=
  ptrs ← gets (fun s => (m_ebpf_loader s.1, m_policy_engine s.1));
  match ptrs with
  | (Some _, Some _) =>
      id ← on_cgroups (get_cgroup_id (sc_sandbox_id (si_config inst)));
      if id =? 0 then mret ErrCgroupQuotaExceeded else
      on_loader (set_cgroup_monitored id true) ;;
      policy_opt ← engine_policy (security_policy_name (si_config inst));
      match policy_opt with
      | Some policy =>
          for_each (elements (blocked_syscalls (syscall_rule policy)))
            (fun sys_nr => on_loader (set_syscall_policy sys_nr 1)) ;;
          (if block_cloud_metadata (network_rule policy)
           then on_loader (set_blocked_ip metadata_ip true) else mret tt) ;;
          mret Success
      | None => mret Success
      end
  | _ => mret Success
  end.

(** ** Termination *)

(** [if (pid > 0) { kill(pid, SIGKILL); waitpid(pid, &status, WNOHANG); }] *)
Definition kill_process (pid : Z) : M SM unit :=
  if 0 <? pid then sys_kill pid 9 ;; sys_waitpid pid else mret tt.

Definition close_tap (fd : Z) : M SM unit :=
  if 0 <=? fd then sys_close fd else mret tt.

Definition terminate_sandbox (sbx_id : string) (force_wipe : bool) : M SM Status :=
  lock_guard (
    it ← gets (fun s => m_sandboxes s.1 !! sbx_id);
    match it with
    | None => mret ErrInvalidSandboxID
    | Some inst =>
        kill_process (firecracker_pid inst) ;;
        close_tap (tap_fd inst) ;;
        loader ← gets (fun s => m_ebpf_loader s.1);
        match loader with
        | Some _ =>
            id ← on_cgroups (get_cgroup_id sbx_id);
            if 0 <? id then on_loader (set_cgroup_monitored id false) else mret tt
        | None => mret tt
        end ;;
        on_cgroups (destroy_cgroup sbx_id) ;;
        base ← gets (fun s => m_base_runtime_dir s.1);
        remove_all (path_append base sbx_id) ;;
        modify (fun s => (set_sandboxes (delete sbx_id) s.1, s.2)) ;;
        mret Success
    end).

(** ** Creation *)

(** The instance as prepared before any resource is acquired (lines 98-113). *)
Definition prepare_instance (config : SandboxConfig) (sbx_dir : string) (now : Z) : SandboxInstance :=
  let limits := resource_limits config in
  {| si_config := config;
     si_metadata := {| md_sandbox_id := sc_sandbox_id config; md_environment := sc_environment config;
       md_state := Initializing; md_vcpus := cpu_cores limits; md_memory_mb := memory_mb limits;
       md_vram_mb := vram_mb limits; md_boot_time_ms := 0; md_guest_ip := "";
       md_tap_device_name := ""; md_created_at := now |};
     firecracker_pid := -1;
     socket_path := path_append sbx_dir "firecracker.socket";
     guest_vsock_path := path_append sbx_dir "guest_agent.socket";
     tap_fd := -1; is_active := false |}.

(** The instance as it is stored (lines 162-164). *)
Definition activate (boot_time : Z) (inst : SandboxInstance) : SandboxInstance :=
  let md := si_metadata inst in
  {| si_config := si_config inst;
     si_metadata := {| md_sandbox_id := md_sandbox_id md; md_environment := md_environment md;
       md_state := Running; md_vcpus := md_vcpus md; md_memory_mb := md_memory_mb md;
       md_vram_mb := md_vram_mb md; md_boot_time_ms := boot_time; md_guest_ip := md_guest_ip md;
       md_tap_device_name := md_tap_device_name md; md_created_at := md_created_at md |};
     firecracker_pid := firecracker_pid inst; socket_path := socket_path inst;
     guest_vsock_path := guest_vsock_path inst; tap_fd := tap_fd inst; is_active := true |}.

(** The early returns of the method end the acquisition of its resources; they are [inl]. *)

(** Steps 4 and 5 (lines 130-140): the microVM process. *)
Definition acquire_process (config : SandboxConfig) (inst : SandboxInstance) (sbx_dir : string)
    : M SM (Status + SandboxInstance) :=
  let id := sc_sandbox_id config in
  r ← spawn_firecracker_process inst;
  let '(status, inst2) := r in
  if negb (bool_decide (status = Success)) then
    close_tap (tap_fd inst2) ;; on_cgroups (destroy_cgroup id) ;; remove_all sbx_dir ;;
    mret (inl status)
  else
  on_cgroups (attach_pid id (firecracker_pid inst2)) ;;
  mret (inr inst2).

(** Step 3 (lines 122-128), then steps 4 and 5: the network interface. *)
Definition acquire_network (config : SandboxConfig) (inst : SandboxInstance) (sbx_dir : string)
    : M SM (Status + SandboxInstance) :=
  r ← setup_tap_interface inst;
  let '(status, inst2) := r in
  if negb (bool_decide (status = Success)) then
    on_cgroups (destroy_cgroup (sc_sandbox_id config)) ;; remove_all sbx_dir ;; mret (inl status)
  else acquire_process config inst2 sbx_dir.

(** Steps 1 and 2 (lines 96-120), then steps 3 to 5; the start time is kept for the last step. *)
Definition acquire_vm (config : SandboxConfig) : M SM (Status + SandboxInstance * Z) :=
  let id := sc_sandbox_id config in
  start ← clock_now;
  base ← gets (fun s => m_base_runtime_dir s.1);
  let sbx_dir := path_append base id in
  create_directories sbx_dir ;;
  now ← clock_now;
  let inst := prepare_instance config sbx_dir now in
  status ← on_cgroups (create_cgroup id (resource_limits config));
  if negb (bool_decide (status = Success)) then remove_all sbx_dir ;; mret (inl status) else
  r ← acquire_network config inst sbx_dir;
  mret (match r with inl st => inl st | inr inst2 => inr (inst2, start) end).

(** Step 6 (lines 142-147): the configuration or the snapshot is sent to the microVM. *)
Definition boot_request (config : SandboxConfig) (inst : SandboxInstance) : M SM Status :=
  snapshot ← (if use_snapshot_restore config then fs_exists (snapshot_dir_path config)
              else mret false);
  (if (snapshot : bool) then restore_firecracker_snapshot inst
   else configure_firecracker_api inst).

(** Steps 6 and 7 (lines 142-167): boot, enforce, record. *)
Definition boot_and_record (config : SandboxConfig) (inst : SandboxInstance) (start : Z) : M SM Status :=
  status ← boot_request config inst;
  if negb (bool_decide (status = Success))
  then terminate_sandbox (sc_sandbox_id config) true ;; mret status else
  status2 ← apply_ebpf_policies inst;
  if negb (bool_decide (status2 = Success))
  then terminate_sandbox (sc_sandbox_id config) true ;; mret status2 else
  finish ← clock_now;
  modify (fun s => (set_sandboxes <[sc_sandbox_id config := activate (finish - start) inst]> s.1, s.2)) ;;
  mret Success.

(** The method: the check of the identifier (lines 89-94), then all steps. *)
Definition create_sandbox (config : SandboxConfig) : M SM Status :=
  lock_guard (
    let id := sc_sandbox_id config in
    known ← gets (fun s => bool_decide (is_Some (m_sandboxes s.1 !! id)));
    if String.eqb id "" || known then mret ErrInvalidSandboxID else
    acquired ← acquire_vm config;
    match acquired with
    | inl status => mret status
    | inr (inst, start) => boot_and_record config inst start
    end).

(** ** Execution *)
Definition rejected_result (id : string) : ExecutionResult :=
  {| er_sandbox_id := id; er_exit_code := -1; er_stdout_output := "";
     er_stderr_output := "Error: Invalid or inactive sandbox ID."; er_boot_time_ms := 0;
     er_execution_time_ms := 0; er_security_violation_triggered := false;
     er_security_rule_violated := "" |}.

(** The exchange with the guest agent (lines 342-361): the exit code and standard output. *)
Definition agent_exchange (inst : SandboxInstance) (code_payload : string) : M SM (Z * string) :=
  agent_sock ← sys_socket;
  if 0 <=? agent_sock then
    c ← sys_connect agent_sock (strncpy_field SUN_PATH_SIZE (guest_vsock_path inst));
    out ← (if 0 <=? c then
             sys_write agent_sock code_payload ;;
             bytes ← sys_read agent_sock 8191;
             match bytes with
             | Some buf => if Nat.ltb 0 (String.length buf) then mret (0, c_string buf)
                           else mret (-1, "")
             | None => mret (-1, "")
             end
           else mret (-1, ""));
    sys_close agent_sock ;;
    mret out
  else mret (-1, "").

Definition execute_code (sandbox_id code_payload : string) : M SM ExecutionResult :=
  lock_guard (
    it ← gets (fun s => m_sandboxes s.1 !! sandbox_id);
    match it with
    | None => mret (rejected_result sandbox_id)
    | Some inst =>
        if negb (is_active inst) then mret (rejected_result sandbox_id) else
        start ← clock_now;
        out ← agent_exchange inst code_payload;
        finish ← clock_now;
        mret {| er_sandbox_id := sandbox_id; er_exit_code := out.1; er_stdout_output := out.2;
                er_stderr_output := ""; er_boot_time_ms := md_boot_time_ms (si_metadata inst);
                er_execution_time_ms := finish - start; er_security_violation_triggered := false;
                er_security_rule_violated := "" |}
    end).

(** ** Queries and the destructor *)
Definition get_metadata (sandbox_id : string) : M SM (option SandboxMetadata) :=
  lock_guard (gets (fun s => si_metadata <$> m_sandboxes s.1 !! sandbox_id)).

(** One iteration of the loop of [terminate_all]. *)
Definition release_sandbox (base : string) (entry : string * SandboxInstance) : M SM unit :=
  let '(id, inst) := entry in
  kill_process (firecracker_pid inst) ;;
  close_tap (tap_fd inst) ;;
  on_cgroups (destroy_cgroup id) ;;
  remove_all (path_append base id).

Definition terminate_all : M SM unit :=
  lock_guard (
    base ← gets (fun s => m_base_runtime_dir s.1);
    entries ← gets (fun s => map_to_list (m_sandboxes s.1));
    for_each entries (release_sandbox base) ;;
    modify (fun s => (set_sandboxes (fun _ => ∅) s.1, s.2))).

(** The body of the destructor, then that of the [unique_ptr<CgroupManager>] member. *)
Definition SandboxManager_dtor : M SM unit :=
  terminate_all ;;
  on_cgroups destroy_all.
End Operations.

(** ** Pushing a policy to the kernel, as a list of map updates *)
Section Pushes.
Context {host : Host}.

Definition push (h : history) (u : Z * Z * Z) : history :=
  let '(fd, key, value) := u in
  if fd <? 0 then h else EvMapUpdate fd key value (bpf_map_update h fd key value) :: h.
Definition push_all (h : history) (us : list (Z * Z * Z)) : history := fold_left push us h.

Definition syscall_pushes (obj : option Z) (nrs : list Z) : list (Z * Z * Z) :=
  (fun nr => (map_fd_of obj "aegis_syscall_policy", nr, 1)) <$> nrs.

(** The updates [apply_ebpf_policies] makes for a cgroup under a policy. *)
Definition policy_pushes (obj : option Z) (cgroup : Z) (pol : option SecurityPolicy)
    : list (Z * Z * Z) :=
  (monitored_fd obj, cgroup, 1) ::
  match pol with
  | None => []
  | Some p =>
      syscall_pushes obj (elements (blocked_syscalls (syscall_rule p))) ++
      (if block_cloud_metadata (network_rule p)
       then [(map_fd_of obj "aegis_blocked_ips", metadata_ip, 1)] else [])
  end.

Lemma push_resources h u :
  open_fds (push h u) = open_fds h /\ unkilled_pids (push h u) = unkilled_pids h.
Proof. destruct u as [[fd k] v]. unfold push. by destruct (fd <? 0). Qed.

Lemma push_all_resources us h :
  open_fds (push_all h us) = open_fds h /\ unkilled_pids (push_all h us) = unkilled_pids h.
Proof.
  unfold push_all. revert h. induction us as [|u us IH]; intros h; simpl; [done|].
  destruct (IH (push h u)) as [-> ->]. apply push_resources.
Qed.

Lemma set_loader_id m l : m_ebpf_loader m = Some l -> set_loader (Some l) m = m.
Proof. destruct m. simpl. by intros ->. Qed.

Lemma set_cgroup_manager_id m : set_cgroup_manager (m_cgroup_manager m) m = m.
Proof. by destruct m. Qed.

(** A setter called through the manager. *)
Lemma on_loader_run (op : M EL Status) m h l fd k v :
  m_ebpf_loader m = Some l -> op (l, h) = setter_result fd k v l h ->
  on_loader op (m, h) = (Ret tt, (m, push h (fd, k, v))).
Proof.
  intros Hl Hop. unfold on_loader. simpl. rewrite Hl. munfold. rewrite Hop.
  unfold setter_result, push. destruct (fd <? 0); simpl; by rewrite set_loader_id.
Qed.

Lemma engine_policy_run m h e name :
  m_policy_engine m = Some e -> pe_mutex e = false ->
  engine_policy name (m, h) = (Ret (m_policies e !! name), (m, h)).
Proof.
  intros He Hm. unfold engine_policy. simpl. rewrite He. munfold.
  rewrite get_policy_run by done. simpl. destruct m. simpl in *. by rewrite He.
Qed.

Lemma on_cgroups_run {A} (op : M CG A) m h r cg h' :
  op (m_cgroup_manager m, h) = (r, (cg, h')) ->
  on_cgroups op (m, h) = (r, (set_cgroup_manager cg m, h')).
Proof. intros Hop. unfold on_cgroups, zoom. simpl. by rewrite Hop. Qed.

Lemma push_syscalls_run m h l nrs :
  m_ebpf_loader m = Some l -> el_mutex l = false ->
  for_each nrs (fun nr => on_loader (set_syscall_policy nr 1)) (m, h) =
  (Ret tt, (m, push_all h (syscall_pushes (m_bpf_obj l) nrs))).
Proof.
  intros Hl Hm. revert h. induction nrs as [|nr nrs IH]; intros h; cbn [for_each]; [done|].
  erewrite bind_Ret by (eapply on_loader_run; [done|by apply set_syscall_policy_run]).
  apply IH.
Qed.

(** [apply_ebpf_policies] always succeeds for a sandbox with a cgroup, and does nothing but
    the map updates of its policy. *)
Lemma apply_ebpf_run m h inst l e :
  m_ebpf_loader m = Some l -> m_policy_engine m = Some e -> el_mutex l = false -> pe_mutex e = false ->
  cg_mutex (m_cgroup_manager m) = false ->
  let id := from_option cgroup_id 0 (m_cgroups (m_cgroup_manager m) !! sc_sandbox_id (si_config inst)) in
  id <> 0 ->
  apply_ebpf_policies inst (m, h) =
  (Ret Success, (m, push_all h (policy_pushes (m_bpf_obj l) id
                      (m_policies e !! security_policy_name (si_config inst))))).
Proof.
  intros Hl He Hml Hme Hmc id Hid. unfold apply_ebpf_policies.
  unfold gets. unfold mbind at 1, M_bind at 1. simpl. rewrite Hl, He.
  erewrite bind_Ret by (apply on_cgroups_run; by apply get_cgroup_id_run). fold id.
  rewrite (proj2 (Z.eqb_neq id 0) Hid), set_cgroup_manager_id.
  erewrite bind_Ret by (eapply on_loader_run; [done|by apply set_cgroup_monitored_run]).
  erewrite bind_Ret by (by eapply engine_policy_run).
  unfold policy_pushes. destruct (m_policies e !! _) as [p|]; [|done].
  erewrite bind_Ret by (by eapply push_syscalls_run).
  unfold push_all. cbn [fold_left]. rewrite fold_left_app.
  destruct (block_cloud_metadata (network_rule p)); [|done].
  erewrite bind_Ret by (eapply on_loader_run; [done|by apply set_blocked_ip_run]). done.
Qed.
End Pushes.

(** ** The invariant *)
Definition inst_wf (id : string) (inst : SandboxInstance) : Prop :=
  id <> "" /\ sc_sandbox_id (si_config inst) = id /\ md_sandbox_id (si_metadata inst) = id /\
  md_state (si_metadata inst) = Running /\ is_active inst = true /\
  0 < firecracker_pid inst /\ 0 <= tap_fd inst.

(** The components are unlocked, the stored sandboxes are running, each has its cgroup. *)
Record sm_wf (m : SandboxManager) : Prop := {
  wf_loader : forall l, m_ebpf_loader m = Some l -> el_mutex l = false;
  wf_engine : forall e, m_policy_engine m = Some e -> pe_mutex e = false;
  wf_insts : map_Forall inst_wf (m_sandboxes m);
  wf_entries : forall id inst, m_sandboxes m !! id = Some inst ->
    is_Some (m_cgroups (m_cgroup_manager m) !! id)
}.

Abbreviation taps m := (owned tap_fd (m_sandboxes m)).
Abbreviation vmms m := (owned firecracker_pid (m_sandboxes m)).

(** The open descriptors are [fds], one per cgroup and one per TAP device; the children
    not killed are [pids] and one per sandbox. *)
Record ledger (fds pids : gset Z) (s : SM) : Prop := {
  led_cgroups : cg_good (fds ∪ taps s.1) (m_cgroup_manager s.1, s.2);
  led_taps : taps s.1 ## fds;
  led_taps_once : owned_once tap_fd (m_sandboxes s.1);
  led_live : unkilled_pids s.2 = pids ∪ vmms s.1;
  led_vmms : vmms s.1 ## pids;
  led_vmms_once : owned_once firecracker_pid (m_sandboxes s.1)
}.

Definition sm_good (fds pids : gset Z) (s : SM) : Prop :=
  sm_mutex s.1 = false /\ sm_wf s.1 /\ ledger fds pids s.

Lemma sm_unlock_id m : sm_mutex m = false -> set_mutex false (set_mutex true m) = m.
Proof. destruct m as [[] ? ? ? ? ?]; [done|reflexivity]. Qed.

(** A method that runs to its end leaves the manager unlocked. *)
Lemma sm_locked {A} (body : M SM A) m h a m' h' :
  sm_mutex m = false -> body (set_mutex true m, h) = (Ret a, (set_mutex true m', h')) ->
  sm_mutex m' = false -> lock_guard body (m, h) = (Ret a, (m', h')).
Proof.
  intros Hm Hb Hm'. erewrite lock_guard_Ret by done.
  change (set_mutex false (set_mutex true m', h')) with (set_mutex false (set_mutex true m'), h').
  by rewrite sm_unlock_id.
Qed.

Lemma ledger_cg_mutex fds pids s : ledger fds pids s -> cg_mutex (m_cgroup_manager s.1) = false.
Proof. by intros [[[? _] _] _ _ _ _ _]. Qed.

(** The history may change as long as descriptors and children do not. *)
Lemma ledger_history fds pids m h h' :
  open_fds h' = open_fds h -> unkilled_pids h' = unkilled_pids h ->
  ledger fds pids (m, h) -> ledger fds pids (m, h').
Proof.
  intros Hf Hp []. split; simpl in *; try done; [|by rewrite Hp].
  by eapply cg_good_same.
Qed.

Lemma ledger_mutex fds pids b m h : ledger fds pids (set_mutex b m, h) <-> ledger fds pids (m, h).
Proof. split; intros []; by split. Qed.

Lemma sm_wf_mutex b m : sm_wf (set_mutex b m) <-> sm_wf m.
Proof. split; intros []; by split. Qed.

Lemma ledger_open fds pids m h :
  ledger fds pids (m, h) -> open_fds h = fds ∪ taps m ∪ owned_fds (m_cgroup_manager m).
Proof. by intros [[_ [? _]] _ _ _ _ _]. Qed.

Section Termination.
Context {host : Host}.

Lemma kill_process_run m h pid :
  0 < pid -> kill_process pid (m, h) = (Ret tt, (m, EvWaitpid pid :: EvKill pid 9 :: h)).
Proof. intros Hp. unfold kill_process. by rewrite (proj2 (Z.ltb_lt 0 pid) Hp). Qed.

Lemma close_tap_run m h fd :
  0 <= fd -> close_tap fd (m, h) = (Ret tt, (m, EvClose fd :: h)).
Proof. intros Hf. unfold close_tap. by rewrite (proj2 (Z.leb_le 0 fd) Hf). Qed.

(** Removing a sandbox and its cgroup from the tables. *)
Definition forget (id : string) (m : SandboxManager) : SandboxManager :=
  set_sandboxes (delete id)
    (set_cgroup_manager (set_cgroups (delete id) (m_cgroup_manager m)) m).

(** Disabling the monitoring of a cgroup, when there is a loader. *)
Definition unmonitor (m : SandboxManager) (cgroup : Z) (h : history) : history :=
  match m_ebpf_loader m with
  | Some l => push h (monitored_fd (m_bpf_obj l), cgroup, 0)
  | None => h
  end.

Lemma unmonitor_resources m cgroup h :
  open_fds (unmonitor m cgroup h) = open_fds h /\ unkilled_pids (unmonitor m cgroup h) = unkilled_pids h.
Proof. unfold unmonitor. destruct (m_ebpf_loader m); [apply push_resources|done]. Qed.

Lemma unmonitor_run m h id info :
  sm_wf m -> cg_mutex (m_cgroup_manager m) = false ->
  m_cgroups (m_cgroup_manager m) !! id = Some info -> 0 < cgroup_id info ->
  (loader ← gets (fun s : SM => m_ebpf_loader s.1);
   match loader with
   | Some _ =>
       cid ← on_cgroups (get_cgroup_id id);
       if 0 <? cid then on_loader (set_cgroup_monitored cid false) else mret tt
   | None => mret tt
   end) (m, h) = (Ret tt, (m, unmonitor m (cgroup_id info) h)).
Proof.
  intros Hwf Hm Hc Hpos. unfold unmonitor, gets. unfold mbind at 1, M_bind at 1. simpl.
  destruct (m_ebpf_loader m) as [l|] eqn:El; [|done].
  erewrite bind_Ret by (apply on_cgroups_run; by apply get_cgroup_id_run).
  rewrite Hc, set_cgroup_manager_id. simpl. rewrite (proj2 (Z.ltb_lt 0 _) Hpos).
  eapply on_loader_run; [done|]. apply set_cgroup_monitored_run. by apply (wf_loader _ Hwf).
Qed.

(** The events of releasing the processes and descriptors of a sandbox. *)
Definition released (m : SandboxManager) (inst : SandboxInstance) (info : CgroupInfo)
    (mon : history -> history) (h : history) : history :=
  EvRemoveAll (path_append (m_base_runtime_dir m) (sc_sandbox_id (si_config inst))) ::
  EvRemoveAll (cgroup_path info) :: EvClose (cgroup_fd info) ::
  mon (EvClose (tap_fd inst) :: EvWaitpid (firecracker_pid inst) ::
       EvKill (firecracker_pid inst) 9 :: h).

Lemma terminate_sandbox_run m h id b :
  sm_mutex m = false -> sm_wf m -> cg_wf (m_cgroup_manager m) ->
  match m_sandboxes m !! id with
  | None => terminate_sandbox id b (m, h) = (Ret ErrInvalidSandboxID, (m, h))
  | Some inst =>
      exists info, m_cgroups (m_cgroup_manager m) !! id = Some info /\
      terminate_sandbox id b (m, h) =
      (Ret Success, (forget id m, released m inst info (unmonitor m (cgroup_id info)) h))
  end.
Proof.
  intros Hmu Hwf [Hcm Hcw]. destruct (m_sandboxes m !! id) as [inst|] eqn:Ei.
  2: { apply sm_locked; [done| |done]. rewrite bind_gets. simpl. by rewrite Ei. }
  destruct (wf_insts _ Hwf _ _ Ei) as (_ & Hid & _ & _ & _ & Hpid & Htap).
  destruct (wf_entries _ Hwf _ _ Ei) as [info Hinfo]. exists info. split; [done|].
  destruct (Hcw _ _ Hinfo) as (_ & _ & Hnz & Hu & Hfd).
  apply sm_locked; [done| |done]. rewrite bind_gets. cbn [fst set_mutex pair_mutex SandboxManager_mutex m_sandboxes]. rewrite Ei.
  erewrite bind_Ret by (by apply kill_process_run).
  erewrite bind_Ret by (by apply close_tap_run).
  rewrite <- bind_assoc.
  erewrite bind_Ret by (eapply unmonitor_run; [by apply sm_wf_mutex|done..|unfold is_u64 in Hu; lia]).
  pose proof (destroy_cgroup_run (m_cgroup_manager m)
    (unmonitor (set_mutex true m) (cgroup_id info) (EvClose (tap_fd inst) ::
       EvWaitpid (firecracker_pid inst) :: EvKill (firecracker_pid inst) 9 :: h)) id Hcm) as Hd.
  rewrite Hinfo, (proj2 (Z.leb_le 0 _) Hfd) in Hd.
  erewrite bind_Ret by (apply on_cgroups_run; exact Hd).
  unfold released, forget. by rewrite Hid.
Qed.

(** A history in which the sandbox's process is killed and its two descriptors closed. *)
Lemma forget_ledger F P m h h1 h' id inst info :
  ledger F P (m, h) -> m_sandboxes m !! id = Some inst ->
  m_cgroups (m_cgroup_manager m) !! id = Some info ->
  open_fds h1 = open_fds h ∖ {[tap_fd inst]} ->
  open_fds h' = open_fds (EvClose (cgroup_fd info) :: h1) ->
  unkilled_pids h' = unkilled_pids h ∖ {[firecracker_pid inst]} ->
  ledger F P (forget id m, h').
Proof.
  intros [Hcg Ht Hto Hl Hv Hvo] Hi Hc Hf1 Hf' Hp. simpl in *.
  assert (Htap : tap_fd inst ∈ taps m) by (apply elem_of_owned; eauto).
  assert (Hpid : firecracker_pid inst ∈ vmms m) by (apply elem_of_owned; eauto).
  pose proof (owned_delete tap_fd _ _ _ Hto Hi) as Htd.
  pose proof (owned_delete firecracker_pid _ _ _ Hvo Hi) as Hvd.
  split; simpl; rewrite ?Htd, ?Hvd; try by apply owned_once_delete.
  - assert (HF : F ∪ taps m ∖ {[tap_fd inst]} = (F ∪ taps m) ∖ {[tap_fd inst]}).
    { clear - Ht Htap. set_solver. }
    rewrite HF. eapply (cg_good_same _ _ (EvClose (cgroup_fd info) :: h1)); [exact Hf'|]. apply destroy_good; [|done].
    eapply cg_good_closed; [done| |exact Hf1]. clear - Htap. set_solver.
  - clear - Ht. set_solver.
  - rewrite Hp, Hl. clear - Hv Hpid. set_solver.
  - clear - Hv. set_solver.
Qed.

Lemma forget_wf id m : sm_wf m -> sm_wf (forget id m).
Proof.
  intros [Hl He Hi Hc]. split; try done; simpl.
  - by apply map_Forall_delete.
  - intros j inst [Hne Hj]%lookup_delete_Some. rewrite lookup_delete_ne by done. eauto.
Qed.

Lemma released_resources m inst info mon h :
  (forall h0, open_fds (mon h0) = open_fds h0 /\ unkilled_pids (mon h0) = unkilled_pids h0) ->
  open_fds (released m inst info mon h) = open_fds h ∖ {[tap_fd inst]} ∖ {[cgroup_fd info]} /\
  unkilled_pids (released m inst info mon h) = unkilled_pids h ∖ {[firecracker_pid inst]}.
Proof.
  intros Hmon. unfold released. cbn [open_fds unkilled_pids].
  match goal with |- context [mon ?h0] => destruct (Hmon h0) as [-> ->] end. done.
Qed.

Lemma terminate_good F P m h id inst b :
  sm_good F P (m, h) -> m_sandboxes m !! id = Some inst ->
  exists info h', m_cgroups (m_cgroup_manager m) !! id = Some info /\
    terminate_sandbox id b (m, h) = (Ret Success, (forget id m, h')) /\
    h' = released m inst info (unmonitor m (cgroup_id info)) h /\
    sm_good F P (forget id m, h').
Proof.
  intros (Hmu & Hwf & Hled) Hi. simpl in Hmu.
  pose proof (terminate_sandbox_run m h id b Hmu Hwf (proj1 (led_cgroups _ _ _ Hled))) as Hrun.
  rewrite Hi in Hrun. destruct Hrun as (info & Hinfo & Hrun).
  exists info. eexists. split; [done|]. split; [exact Hrun|]. split; [reflexivity|].
  split; [done|]. split; [by apply forget_wf|].
  destruct (released_resources m inst info _ h (unmonitor_resources m (cgroup_id info))) as [Hf Hp].
  by eapply (forget_ledger _ _ _ _ (EvClose (tap_fd inst) :: h)).
Qed.

(** ** The loop of [terminate_all] *)

(** The manager with [t] as its table of sandboxes: the entries still to release. *)
Definition with_table (t : gmap string SandboxInstance) (m : SandboxManager) : SandboxManager :=
  set_sandboxes (fun _ => t) m.

Lemma release_sandbox_run m h base id inst info :
  inst_wf id inst -> cg_wf (m_cgroup_manager m) -> base = m_base_runtime_dir m ->
  m_cgroups (m_cgroup_manager m) !! id = Some info ->
  release_sandbox base (id, inst) (m, h) =
  (Ret tt, (set_cgroup_manager (set_cgroups (delete id) (m_cgroup_manager m)) m,
            released m inst info (fun x => x) h)).
Proof.
  intros (_ & Hid & _ & _ & _ & Hpid & Htap) [Hcm Hcw] -> Hinfo.
  destruct (Hcw _ _ Hinfo) as (_ & _ & _ & _ & Hfd). unfold release_sandbox.
  erewrite bind_Ret by (by apply kill_process_run).
  erewrite bind_Ret by (by apply close_tap_run).
  pose proof (destroy_cgroup_run (m_cgroup_manager m) (EvClose (tap_fd inst) ::
       EvWaitpid (firecracker_pid inst) :: EvKill (firecracker_pid inst) 9 :: h) id Hcm) as Hd.
  rewrite Hinfo, (proj2 (Z.leb_le 0 _) Hfd) in Hd.
  erewrite bind_Ret by (apply on_cgroups_run; exact Hd).
  unfold released. by rewrite Hid.
Qed.

Lemma release_all_sandboxes F P entries m h :
  NoDup entries.*1 -> sm_wf (with_table (list_to_map entries) m) ->
  ledger F P (with_table (list_to_map entries) m, h) ->
  exists m' h', for_each entries (release_sandbox (m_base_runtime_dir m)) (m, h) = (Ret tt, (m', h')) /\
    sm_mutex m' = sm_mutex m /\ sm_wf (with_table ∅ m') /\ ledger F P (with_table ∅ m', h') /\
    m_ebpf_loader m' = m_ebpf_loader m /\ same_maps h h'.
Proof.
  revert m h. induction entries as [|[id inst] entries IH]; intros m h Hnd Hwf Hled; cbn [for_each].
  { exists m, h. done. }
  apply NoDup_cons in Hnd as [Hni Hnd]. simpl in Hni.
  assert (Hi : m_sandboxes (with_table (list_to_map ((id, inst) :: entries)) m) !! id = Some inst)
    by (simpl; by rewrite lookup_insert_eq).
  destruct (wf_entries _ Hwf _ _ Hi) as [info Hinfo]. simpl in Hinfo.
  pose proof (wf_insts _ Hwf _ _ Hi) as Hinst.
  erewrite bind_Ret by (eapply release_sandbox_run; [done|apply (led_cgroups _ _ _ Hled)|done|done]).
  set (m1 := set_cgroup_manager _ m).
  assert (Hforget : forget id (with_table (list_to_map ((id, inst) :: entries)) m) =
                    with_table (list_to_map entries) m1).
  { unfold forget, with_table, set_sandboxes, m1, set_cgroup_manager. simpl.
    rewrite delete_insert_id; [done|]. by apply not_elem_of_list_to_map. }
  destruct (released_resources m inst info (fun x => x) h) as [Hf Hp]; [done|].
  destruct (IH m1 (released m inst info (fun x => x) h)) as (m' & h' & Hrun & Hrest).
  - done.
  - rewrite <- Hforget. by apply forget_wf.
  - rewrite <- Hforget. by eapply (forget_ledger _ _ _ _ (EvClose (tap_fd inst) :: h)).
  - exists m', h'. split; [exact Hrun|]. exact Hrest.
Qed.

Lemma terminate_all_good F P m h :
  sm_good F P (m, h) ->
  exists m' h', terminate_all (m, h) = (Ret tt, (m', h')) /\ m_sandboxes m' = ∅ /\
    sm_good F P (m', h') /\ m_ebpf_loader m' = m_ebpf_loader m /\ same_maps h h'.
Proof.
  intros (Hmu & Hwf & Hled). simpl in Hmu.
  destruct (release_all_sandboxes F P (map_to_list (m_sandboxes m)) (set_mutex true m) h)
    as (m' & h' & Hrun & Hmu' & Hwf' & Hled' & Hld & Hmap).
  - apply NoDup_fst_map_to_list.
  - rewrite list_to_map_to_list. by destruct Hwf.
  - rewrite list_to_map_to_list. by destruct Hled.
  - exists (set_mutex false (with_table ∅ m')), h'. split.
    + unfold terminate_all, lock_guard. change (mutex_held (m, h)) with (sm_mutex m). rewrite Hmu.
      rewrite !bind_gets. unfold mbind at 1, M_bind at 1.
      change (set_mutex true (m, h)) with (set_mutex true m, h).
      cbn [fst]. simpl m_base_runtime_dir in *. simpl m_sandboxes. rewrite Hrun. done.
    + split; [done|]. split; [|done]. split; [done|]. split; [by destruct Hwf'|]. by destruct Hled'.
Qed.
End Termination.

(** ** Creation *)
Section Creation.
Context {host : Host}.

(** Adding a sandbox and its cgroup to the tables. *)
Definition remember (id : string) (inst : SandboxInstance) (info : CgroupInfo) (m : SandboxManager)
    : SandboxManager :=
  set_sandboxes <[id := inst]>
    (set_cgroup_manager (set_cgroups <[id := info]> (m_cgroup_manager m)) m).

(** The kernel updates made for a new sandbox. *)
Definition policy_history (m : SandboxManager) (config : SandboxConfig) (cgroup : Z) (h : history)
    : history :=
  match m_ebpf_loader m, m_policy_engine m with
  | Some l, Some e =>
      push_all h (policy_pushes (m_bpf_obj l) cgroup (m_policies e !! security_policy_name config))
  | _, _ => h
  end.

Lemma policy_history_resources m config cgroup h :
  open_fds (policy_history m config cgroup h) = open_fds h /\
  unkilled_pids (policy_history m config cgroup h) = unkilled_pids h.
Proof.
  unfold policy_history. destruct (m_ebpf_loader m), (m_policy_engine m); try done.
  apply push_all_resources.
Qed.

Lemma push_keeps h u : keeps h (push h u).
Proof. destruct u as [[fd k] v]. unfold push. destruct (fd <? 0); [done|]. by apply keeps_cons. Qed.

Lemma push_all_keeps us h : keeps h (push_all h us).
Proof.
  unfold push_all. revert h. induction us as [|u us IH]; intros h; [done|]. cbn [fold_left].
  etrans; [apply push_keeps|apply IH].
Qed.

Lemma policy_history_keeps m config cgroup h : keeps h (policy_history m config cgroup h).
Proof.
  unfold policy_history. destruct (m_ebpf_loader m), (m_policy_engine m); try done.
  apply push_all_keeps.
Qed.

Lemma apply_policies_run m h inst info :
  sm_wf m -> cg_mutex (m_cgroup_manager m) = false ->
  m_cgroups (m_cgroup_manager m) !! sc_sandbox_id (si_config inst) = Some info ->
  cgroup_id info <> 0 ->
  apply_ebpf_policies inst (m, h) =
  (Ret Success, (m, policy_history m (si_config inst) (cgroup_id info) h)).
Proof.
  intros Hwf Hm Hi Hnz. unfold policy_history.
  destruct (m_ebpf_loader m) as [l|] eqn:El; [destruct (m_policy_engine m) as [e|] eqn:Ee|].
  - rewrite (apply_ebpf_run m h inst l e); rewrite ?Hi; try done.
    + by apply (wf_loader _ Hwf).
    + by apply (wf_engine _ Hwf).
  - unfold apply_ebpf_policies. rewrite bind_gets. simpl. by rewrite El, Ee.
  - unfold apply_ebpf_policies. rewrite bind_gets. simpl. by rewrite El.
Qed.

(** The boot request leaves the resources alone. *)
Lemma boot_request_run `{!FreshDescriptors} config inst m h :
  exists r h', boot_request config inst (m, h) = (r, (m, h')) /\ quiet h h' /\
    (r = Throw (filesystem_error (snapshot_dir_path config)) \/
     exists st, r = Ret st /\ (st = Success \/ st = ErrMicroVMBootFailed \/ st = ErrSnapshotRestoreFailed)).
Proof.
  unfold boot_request. destruct (use_snapshot_restore config).
  - unfold fs_exists, call. munfold. simpl.
    destruct (os_exists h _) as [[|]|]; simpl.
    + destruct (restore_run inst m (EvExists (snapshot_dir_path config) (Some true) :: h))
        as (st & h' & -> & Hq & Hst).
      do 2 eexists. split; [reflexivity|]. split; [by etrans; [|exact Hq]|]. naive_solver.
    + destruct (configure_run inst m (EvExists (snapshot_dir_path config) (Some false) :: h))
        as (st & h' & -> & Hq & Hst & _).
      do 2 eexists. split; [reflexivity|]. split; [by etrans; [|exact Hq]|]. naive_solver.
    + do 2 eexists. split; [reflexivity|]. split; [done|]. by left.
  - destruct (configure_run inst m h) as (st & h' & Hrun & Hq & Hst & _).
    munfold. simpl. rewrite Hrun. do 2 eexists. split; [reflexivity|]. split; [done|]. naive_solver.
Qed.

#[global] Instance tidy_boot_request `{!FreshDescriptors} config inst : Tidy (boot_request config inst).
Proof.
  unfold boot_request. apply tidy_bind.
  - destruct (use_snapshot_restore config); [apply tidy_fs_exists|apply tidy_ret].
  - intros [|]; [apply tidy_restore|apply tidy_configure].
Qed.

(** A refused boot request blocks on the mutex [create_sandbox] holds. *)
Lemma refused_boot_deadlocks config inst start m h st h' :
  sm_mutex m = true -> boot_request config inst (m, h) = (Ret st, (m, h')) -> st <> Success ->
  boot_and_record config inst start (m, h) = (Deadlock, (m, h')).
Proof.
  intros Hmu Hb Hst. unfold boot_and_record. rewrite (bind_Ret _ _ _ _ _ Hb).
  rewrite bool_decide_false by done. cbn [negb]. unfold mbind at 1, M_bind at 1, terminate_sandbox.
  by rewrite lock_guard_held.
Qed.

(** An accepted one is followed by the kernel updates and the record, whatever they answer. *)
Lemma accepted_boot_records config inst start m h h' info :
  sm_wf m -> cg_mutex (m_cgroup_manager m) = false -> si_config inst = config ->
  m_cgroups (m_cgroup_manager m) !! sc_sandbox_id config = Some info -> cgroup_id info <> 0 ->
  boot_request config inst (m, h) = (Ret Success, (m, h')) ->
  exists t, boot_and_record config inst start (m, h) =
    (Ret Success, (set_sandboxes <[sc_sandbox_id config := activate (t - start) inst]> m,
                   EvClock t :: policy_history m config (cgroup_id info) h')).
Proof.
  intros Hwf Hcm <- Hinfo Hnz Hb. eexists. unfold boot_and_record.
  rewrite (bind_Ret _ _ _ _ _ Hb), bool_decide_true by done. cbn [negb].
  rewrite (bind_Ret _ _ _ _ _ (apply_policies_run m h' inst info Hwf Hcm Hinfo Hnz)).
  by rewrite bool_decide_true by done.
Qed.

Lemma thrown_boot config inst start m h e h' :
  boot_request config inst (m, h) = (Throw e, (m, h')) ->
  boot_and_record config inst start (m, h) = (Throw e, (m, h')).
Proof. intros Hb. unfold boot_and_record. unfold mbind at 1, M_bind at 1. by rewrite Hb. Qed.

(** Undoing the cgroup of a sandbox that failed. *)
Lemma rollback_run {A} m h id info dir (st : A) cg :
  m_cgroup_manager m = set_cgroups <[id := info]> cg -> m_cgroups cg !! id = None ->
  cg_mutex cg = false -> 0 <= cgroup_fd info ->
  (on_cgroups (destroy_cgroup id) ;; remove_all dir ;; mret (M := M SM) (A := A) st) (m, h) =
  (Ret st, (set_cgroup_manager cg m,
     EvRemoveAll dir :: EvRemoveAll (cgroup_path info) :: EvClose (cgroup_fd info) :: h)).
Proof.
  intros Hm Hnone Hmu Hfd.
  pose proof (destroy_cgroup_run (m_cgroup_manager m) h id) as Hd. rewrite Hm in Hd. simpl in Hd.
  rewrite lookup_insert_eq, (proj2 (Z.leb_le 0 _) Hfd) in Hd. specialize (Hd Hmu).
  erewrite bind_Ret by (apply on_cgroups_run; rewrite Hm; exact Hd).
  unfold set_cgroups. simpl. rewrite delete_insert_id by done. by destruct cg.
Qed.

Lemma remember_ledger F P m h h' id inst info :
  ledger F P (m, h) -> m_sandboxes m !! id = None ->
  cg_good ({[tap_fd inst]} ∪ (F ∪ taps m)) (set_cgroups <[id := info]> (m_cgroup_manager m), h') ->
  tap_fd inst ∉ open_fds h -> unkilled_pids h' = {[firecracker_pid inst]} ∪ unkilled_pids h ->
  firecracker_pid inst ∉ unkilled_pids h ->
  ledger F P (remember id inst info m, h').
Proof.
  intros Hled Hnew Hcg Htap Hlive Hpid. pose proof (ledger_open _ _ _ _ Hled) as Hopen.
  destruct Hled as [_ Ht Hto Hl Hv Hvo]. simpl in *. rewrite Hopen in Htap. rewrite Hl in Hpid.
  split; simpl; rewrite ?owned_insert by done.
  - assert (HF : F ∪ ({[tap_fd inst]} ∪ taps m) = {[tap_fd inst]} ∪ (F ∪ taps m))
      by (clear; set_solver).
    by rewrite HF.
  - clear - Ht Htap. set_solver.
  - apply owned_once_insert; [done|]. clear - Htap. set_solver.
  - rewrite Hlive, Hl. clear. set_solver.
  - clear - Hv Hpid. set_solver.
  - apply owned_once_insert; [done|]. clear - Hpid. set_solver.
Qed.

Lemma remember_wf m id inst info :
  sm_wf m -> inst_wf id inst -> sm_wf (remember id inst info m).
Proof.
  intros [Hl He Hi Hc] Hinst. split; try done; simpl.
  - by apply map_Forall_insert_2.
  - intros j a Hj. destruct (decide (j = id)) as [->|Hne].
    + rewrite lookup_insert_eq. eauto.
    + rewrite lookup_insert_ne in Hj by done. rewrite lookup_insert_ne by done. eauto.
Qed.

(** ** The outcomes of creation *)

(** The statuses returned before the microVM is asked to boot. *)
Definition early_failure (st : Status) : bool :=
  match st with
  | ErrInvalidSandboxID | ErrCgroupQuotaExceeded | ErrTAPInterfaceCreationFailed
  | ErrMicroVMBootFailed => true
  | _ => false
  end.

Section Tail.
Context `{!FreshDescriptors} `{!FreshChildren}.
Context (F P : gset Z) (config : SandboxConfig) (m : SandboxManager) (h : history).
Abbreviation id := (sc_sandbox_id config).
Abbreviation dir := (path_append (m_base_runtime_dir m) (sc_sandbox_id config)).

(** The manager while its cgroup [info] exists and the sandbox is not recorded yet. *)
Definition mid (info : CgroupInfo) : SandboxManager :=
  set_cgroup_manager (set_cgroups <[id := info]> (m_cgroup_manager m)) (set_mutex true m).

(** What is known of the cgroup's calls: nothing but the creation of the directory and two
    readings of the clock came before them. *)
Definition cgroup_trace (info : CgroupInfo) (h3 : history) : Prop :=
  limits_wf (resource_limits config) ->
  exists cpu mem pids st_ino now made start, cgroup_id info = u64 st_ino /\
    h3 = cgroup_events (cgroup_path info) (resource_limits config) cpu mem pids st_ino (cgroup_fd info) ++
         [EvClock now; EvCreateDirectories dir made; EvClock start] ++ h.

(** How the resources of [inst] were acquired between [h] and [h1]: the cgroup, then the TAP
    device, whose descriptor was not closed again, then the process, which was put into the
    cgroup. *)
Definition vm_trace (inst : SandboxInstance) (info : CgroupInfo) (h1 : history) : Prop :=
  exists new r h3, h1 = new ++ tap_events id (tap_fd inst) r ++ h3 /\ 0 <= r /\
    (EvClose (tap_fd inst) ∉ new) /\ EvFork (firecracker_pid inst) ∈ new /\
    (exists opened stored, EvWriteFile (path_append (cgroup_path info) "cgroup.procs")
       (format_int (firecracker_pid inst)) opened stored ∈ new) /\
    cgroup_trace info h3.

Lemma vm_trace_keeps inst info h1 h2 :
  vm_trace inst info h1 -> tap_fd inst ∈ open_fds h1 -> keeps h1 h2 -> vm_trace inst info h2.
Proof.
  intros (new & r & h3 & -> & Hr & Hc & Hf & (o & st & Hw) & Hcg) Hopen (new2 & -> & H2).
  exists (new2 ++ new), r, h3. rewrite <- app_assoc. split; [done|]. split; [done|].
  split; [intros [Hx|Hx]%elem_of_app; [by apply (H2 _ Hx)|done]|].
  split; [set_solver|]. split; [exists o, st; set_solver|done].
Qed.

(** The instance between acquisition and boot. *)
Definition inst_ready (inst : SandboxInstance) : Prop :=
  si_config inst = config /\ md_sandbox_id (si_metadata inst) = id /\
  md_tap_device_name (si_metadata inst) = tap_name id /\
  0 <= tap_fd inst /\ tap_fd inst ∉ open_fds h.

(** A microVM that has been started, with its resources. *)
Record vm_ready (inst : SandboxInstance) (info : CgroupInfo) (h1 : history) : Prop := {
  vr_inst : inst_ready inst;
  vr_pid : 0 < firecracker_pid inst;
  vr_new_pid : firecracker_pid inst ∉ unkilled_pids h;
  vr_children : unkilled_pids h1 = {[firecracker_pid inst]} ∪ unkilled_pids h;
  vr_maps : same_maps h h1;
  vr_info : info_wf (m_root_path (m_cgroup_manager m)) id info;
  vr_new_cgroup : m_cgroups (m_cgroup_manager m) !! id = None;
  vr_tap : tap_fd inst ∈ open_fds h1;
  vr_fds : cg_good ({[tap_fd inst]} ∪ (F ∪ taps m)) (set_cgroups <[id := info]> (m_cgroup_manager m), h1);
  vr_trace : vm_trace inst info h1
}.

(** How the acquisition ends, and in which state: the lock is held, and either everything is
    released again, or an exception or the child leaves, or the microVM is ready. *)
Inductive acquire_outcome {A} (ok : SandboxInstance -> A) : outcome (Status + A) -> SM -> Prop :=
| AcqFail st h' :
    early_failure st = true -> open_fds h' = open_fds h -> unkilled_pids h' = unkilled_pids h ->
    (exists h1, h' = EvRemoveAll dir :: h1) ->
    acquire_outcome ok (Ret (inl st)) (set_mutex true m, h')
| AcqTimeout pid h' :
    0 < pid -> pid ∉ unkilled_pids h -> open_fds h' = open_fds h ->
    unkilled_pids h' = {[pid]} ∪ unkilled_pids h -> (exists h1, h' = EvRemoveAll dir :: h1) ->
    acquire_outcome ok (Ret (inl ErrMicroVMBootFailed)) (set_mutex true m, h')
| AcqThrow p m' h' :
    m_sandboxes m' = m_sandboxes m -> acquire_outcome ok (Throw (filesystem_error p)) (m', h')
| AcqChild s' : acquire_outcome ok Exited s'
| AcqReady inst info h1 :
    vm_ready inst info h1 -> acquire_outcome ok (Ret (inr (ok inst))) (mid info, h1).

Hypothesis Hmu : sm_mutex m = false.
Hypothesis Hwf : sm_wf m.
Hypothesis Hled : ledger F P (m, h).
Hypothesis Hnew : m_sandboxes m !! id = None.
Hypothesis Hid : id <> "".

Lemma mid_wf info : sm_wf (mid info).
Proof.
  destruct Hwf as [Hl He Hi Hc]. split; try done; simpl. intros j a Hj.
  destruct (decide (j = id)) as [->|Hne]; [by rewrite lookup_insert_eq|].
  rewrite lookup_insert_ne by done. eauto.
Qed.

(** The cleanup after a process that did not start. *)
Lemma give_up_process fd info h5 (st : Status + SandboxInstance) :
  0 <= fd -> (fd ∉ open_fds h) -> 0 <= cgroup_fd info -> (cgroup_fd info ∉ open_fds h) ->
  m_cgroups (m_cgroup_manager m) !! id = None ->
  open_fds h5 = {[fd]} ∪ ({[cgroup_fd info]} ∪ open_fds h) ->
  exists h', (close_tap fd ;; on_cgroups (destroy_cgroup id) ;; remove_all dir ;; mret (M := M SM) st)
      (mid info, h5) = (Ret st, (set_mutex true m, h')) /\
    open_fds h' = open_fds h /\ unkilled_pids h' = unkilled_pids h5 /\
    exists h1, h' = EvRemoveAll dir :: h1.
Proof.
  intros Hfd Hfn Hcfd Hcf Hnone H5. pose proof (ledger_cg_mutex _ _ _ Hled) as Hcm.
  rewrite (bind_Ret _ _ _ _ _ (close_tap_run _ _ _ Hfd)). erewrite rollback_run by done.
  eexists. split; [reflexivity|]. split; [|by eauto].
  cbn [open_fds]. rewrite H5. clear - Hcf Hfn. set_solver.
Qed.

(** The trace of an acquisition, from the calls before and after the fork. *)
Lemma process_trace inst info r h3 h1 h5 pid opened stored :
  let h4 := tap_events id (tap_fd inst) r ++ h3 in
  tap_fd inst ∈ open_fds h4 -> open_fds h1 = open_fds h4 -> 0 <= r -> cgroup_trace info h3 ->
  keeps h4 h1 -> keeps (EvFork pid :: h1) h5 ->
  vm_trace (set_pid pid inst) info
    (EvWriteFile (path_append (cgroup_path info) "cgroup.procs") (format_int pid) opened stored :: h5).
Proof.
  intros h4 Hopen Hsame Hr Htr (n1 & -> & Hn1) (n2 & -> & Hn2). subst h4.
  exists (EvWriteFile (path_append (cgroup_path info) "cgroup.procs") (format_int pid) opened stored ::
          n2 ++ EvFork pid :: n1), r, h3. simpl in *.
  split; [by rewrite <- app_assoc|]. split; [done|].
  rewrite !not_elem_of_cons, not_elem_of_app, not_elem_of_cons.
  split; [|split; [set_solver|split; [exists opened, stored; set_solver|done]]].
  split; [done|]. split; [intros Hx; apply (Hn2 _ Hx); by rewrite Hsame|]. split; [done|].
  intros Hx. by apply (Hn1 _ Hx).
Qed.

Lemma process_stage inst info r0 h3 h4 :
  inst_ready inst -> info_wf (m_root_path (m_cgroup_manager m)) id info ->
  m_cgroups (m_cgroup_manager m) !! id = None ->
  open_fds h4 = {[tap_fd inst]} ∪ ({[cgroup_fd info]} ∪ open_fds h) ->
  cgroup_fd info ∉ open_fds h -> unkilled_pids h4 = unkilled_pids h -> same_maps h h4 ->
  cg_good ({[tap_fd inst]} ∪ (F ∪ taps m)) (set_cgroups <[id := info]> (m_cgroup_manager m), h4) ->
  h4 = tap_events id (tap_fd inst) r0 ++ h3 -> 0 <= r0 -> cgroup_trace info h3 ->
  exists r s', acquire_process config inst dir (mid info, h4) = (r, s') /\ acquire_outcome (fun i => i) r s'.
Proof.
  intros Hready Hinfo Hnone Hf4 Hcf Hp4 Hm4 Hcg Hh4 Hr0 Htr. pose proof Hready as (Hcfg & _ & _ & Htap & Htf).
  pose proof (ledger_cg_mutex _ _ _ Hled) as Hcm. simpl in Hcm.
  pose proof Hinfo as (_ & _ & _ & _ & Hcfd).
  assert (Hback : forall h5 st, open_fds h5 = open_fds h4 -> exists h',
    (close_tap (tap_fd inst) ;; on_cgroups (destroy_cgroup id) ;; remove_all dir ;;
       mret (M := M SM) (A := Status + SandboxInstance) st) (mid info, h5) = (Ret st, (set_mutex true m, h')) /\
    open_fds h' = open_fds h /\ unkilled_pids h' = unkilled_pids h5 /\ exists h1, h' = EvRemoveAll dir :: h1)
    by (intros h5 st H5; apply (give_up_process (tap_fd inst) info); try done; congruence).
  unfold acquire_process.
  destruct (spawn_run inst (mid info) h4) as (r & h5 & Hs & Ho). unfold mbind at 1, M_bind at 1. rewrite Hs.
  destruct Ho as [h5 Hq _ |h5|h5 (Hq1 & Hq2 & _) _|r pid h1 h5 Hpid Heq (Hq1 & Hq2 & Hqm) (Hq3 & Hq4 & Hqm') _ _ Hr Hk1 Hk2].
  - do 2 eexists. split; [reflexivity|]. by constructor.
  - do 2 eexists. split; [reflexivity|]. constructor.
  - simpl. destruct (Hback h5 (inl ErrMicroVMBootFailed)) as (h' & -> & ? & ? & ?); [done|].
    do 2 eexists. split; [reflexivity|]. constructor; [done|done|congruence|done].
  - cbn [unkilled_pids] in Hq4. rewrite (proj2 (Z.ltb_lt 0 pid) Hpid) in Hq4. cbn [open_fds] in Hq3.
    assert (Hpn : pid ∉ unkilled_pids h).
    { rewrite <- Hp4, <- Hq2. subst pid. by apply fork_fresh. }
    assert (Hlive : unkilled_pids h5 = {[pid]} ∪ unkilled_pids h) by congruence.
    destruct Hr as [-> |[-> |[-> _]]].
    + do 2 eexists. split; [reflexivity|]. by constructor.
    + simpl. destruct (attach_pid_run (m_cgroup_manager (mid info)) h5 id pid Hcm)
        as (sta & h6 & Hat & (Hf6 & Hp6 & Hm6) & Hev).
      simpl in Hev. rewrite lookup_insert_eq in Hev. destruct Hev as (o & sto & Hh6 & _).
      erewrite bind_Ret by (apply on_cgroups_run; exact Hat). rewrite set_cgroup_manager_id.
      do 2 eexists. split; [reflexivity|]. apply (AcqReady (fun i => i) (set_pid pid inst)).
      assert (Hopen : tap_fd inst ∈ open_fds h4) by (rewrite Hf4; set_solver).
      split; try done; simpl.
      * congruence.
      * intros fd k. by rewrite Hm6, Hqm', <- Hm4, <- Hqm.
      * by rewrite Hf6, Hq3, Hq1.
      * by eapply cg_good_same; [|exact Hcg]; congruence.
      * subst h4 h6. by eapply process_trace.
    + simpl. destruct (Hback h5 (inl ErrMicroVMBootFailed)) as (h' & -> & ? & ? & ?); [congruence|].
      do 2 eexists. split; [reflexivity|]. apply (AcqTimeout _ pid); try done. congruence.
Qed.

Lemma network_stage inst info h3 :
  si_config inst = config -> md_sandbox_id (si_metadata inst) = id ->
  info_wf (m_root_path (m_cgroup_manager m)) id info ->
  m_cgroups (m_cgroup_manager m) !! id = None ->
  open_fds h3 = {[cgroup_fd info]} ∪ open_fds h -> cgroup_fd info ∉ open_fds h ->
  unkilled_pids h3 = unkilled_pids h -> same_maps h h3 ->
  cg_good (F ∪ taps m) (set_cgroups <[id := info]> (m_cgroup_manager m), h3) ->
  cgroup_trace info h3 ->
  exists r s', acquire_network config inst dir (mid info, h3) = (r, s') /\ acquire_outcome (fun i => i) r s'.
Proof.
  intros Hcfg Hmd Hinfo Hnone Hf3 Hcf Hp3 Hm3 Hcg Htr.
  pose proof (ledger_cg_mutex _ _ _ Hled) as Hcm. simpl in Hcm.
  pose proof Hinfo as (_ & _ & _ & _ & Hcfd). unfold acquire_network.
  destruct (tap_run inst (mid info) h3) as [(h4 & Hrun & Hq1 & Hq2 & _)|
    (fd & r0 & h4 & Hrun & Hfd & Hfn & Hf4 & Hp4 & Hm4 & Hr0 & Hh4)];
    rewrite (bind_Ret _ _ _ _ _ Hrun); simpl.
  - erewrite rollback_run by done. do 2 eexists. split; [reflexivity|].
    apply AcqFail; [done| | |by eauto]; cbn [open_fds unkilled_pids]; [|congruence].
    rewrite Hq1, Hf3. clear - Hcf. set_solver.
  - rewrite Hcfg in Hh4 |- *. eapply (process_stage _ info r0 h3); try done.
    + split; [done|]. split; [done|]. split; [done|]. split; [done|]. simpl.
      rewrite Hf3 in Hfn. clear - Hfn. set_solver.
    + simpl. by rewrite Hf4, Hf3.
    + congruence.
    + intros fd' k. by rewrite Hm4.
    + eapply cg_good_opened; [exact Hcg|done|done].
Qed.

(** The whole acquisition, once the identifier has been accepted. *)
Lemma acquire_vm_run :
  exists r s', acquire_vm config (set_mutex true m, h) = (r, s') /\
    acquire_outcome (fun inst => (inst, os_clock h)) r s'.
Proof.
  pose proof (ledger_cg_mutex _ _ _ Hled) as Hcm. simpl in Hcm.
  unfold acquire_vm, clock_now, create_directories, call, gets.
  unfold mbind at 1 2 3 4, M_bind at 1 2 3 4.
  cbn [history_of set_history pair_history fst snd]. change (m_base_runtime_dir (set_mutex true m)) with (m_base_runtime_dir m).
  match goal with |- context [prepare_instance config ?d ?t] => set (inst := prepare_instance config d t) end.
  match goal with |- context [(_, EvClock ?t :: ?h2)] => set (hp := EvClock t :: h2) end.
  assert (Hgood2 : cg_good (F ∪ taps m) (m_cgroup_manager m, hp))
    by (eapply cg_good_same; [|apply (led_cgroups _ _ _ Hled)]; done).
  destruct (create_cgroup_run (m_cgroup_manager m) hp id (resource_limits config) Hcm)
    as (st & cg & h3 & Hrun & Hp3 & Hm3 & Hst). simpl in Hst.
  erewrite bind_Ret by (apply (on_cgroups_run _ (set_mutex true m)); exact Hrun).
  destruct st; try done;
    match goal with |- context [bool_decide ?e] =>
      let b := eval vm_compute in (bool_decide e) in change (bool_decide e) with b end; cbn [negb].
  - destruct Hst as (Hnone & h2' & ino & fd & Hcg & Hino & Hu & Hfd & Hh2 & Hop & Hh3 & Hev). subst cg.
    destruct (cg_op_good _ (CgCreate id (resource_limits config)) _ Hgood2) as (s3 & Hop3 & Hgood3).
    unfold run_cg_op in Hop3. rewrite (bind_Ret _ _ _ _ _ Hrun) in Hop3. injection Hop3 as <-.
    assert (Hfn : fd ∉ open_fds h) by (rewrite <- (Hh2 : _ = open_fds h); subst fd; by apply open_fresh).
    match goal with |- context [set_cgroup_manager (set_cgroups <[id:=?i]> _) _] => set (info := i) in * end.
    change (set_cgroup_manager (set_cgroups <[id:=info]> (m_cgroup_manager m)) (set_mutex true m)) with (mid info).
    destruct (network_stage inst info h3) as (r & s' & Hnet & Ho); try done.
    + subst h3. cbn [open_fds]. rewrite (proj2 (Z.leb_le 0 fd) Hfd). simpl.
      by rewrite (Hh2 : _ = open_fds h).
    + intros Hwfl. destruct (Hev Hwfl) as (cpu & mem & pids & st_ino & -> & ->).
      subst hp. by do 7 eexists.
    + unfold mbind, M_bind. rewrite Hnet. set (ok := fun inst0 : SandboxInstance => (inst0, os_clock h)).
      destruct Ho as [st h'|pid h'|p m' h'|s'|inst0 info0 h1]; do 2 eexists; (split; [reflexivity|]).
      * by apply (AcqFail ok).
      * by apply (AcqTimeout ok pid).
      * by apply (AcqThrow ok).
      * apply (AcqChild ok).
      * by apply (AcqReady ok).
  - destruct Hst as (_ & -> & Hf3 & _). do 2 eexists. split; [reflexivity|].
    apply (AcqFail _ _ (EvRemoveAll dir :: h3)); [done|exact Hf3|exact Hp3|by eauto].
  - destruct Hst as (_ & -> & ->). do 2 eexists. split; [reflexivity|].
    apply (AcqFail _ _ (EvRemoveAll dir :: hp)); [done|done|done|by eauto].
Qed.

(** ** The outcomes of creation

    How the body of [create_sandbox] ends after its first check, and in which state: the
    manager's lock is held except where a return or an exception is about to release it. *)
Inductive tail_outcome : outcome Status -> SM -> Prop :=
| TailFail st h' :
    early_failure st = true -> open_fds h' = open_fds h -> unkilled_pids h' = unkilled_pids h ->
    (exists h1, h' = EvRemoveAll dir :: h1) ->
    tail_outcome (Ret st) (set_mutex true m, h')
| TailTimeout pid h' :
    0 < pid -> pid ∉ unkilled_pids h -> open_fds h' = open_fds h ->
    unkilled_pids h' = {[pid]} ∪ unkilled_pids h -> (exists h1, h' = EvRemoveAll dir :: h1) ->
    tail_outcome (Ret ErrMicroVMBootFailed) (set_mutex true m, h')
| TailThrow p m' h' :
    m_sandboxes m' = m_sandboxes m -> tail_outcome (Throw (filesystem_error p)) (m', h')
| TailChild s' : tail_outcome Exited s'
| TailDeadlock inst info start h1 st h' :
    vm_ready inst info h1 -> quiet h1 h' ->
    acquire_vm config (set_mutex true m, h) = (Ret (inr (inst, start)), (mid info, h1)) ->
    boot_request config inst (mid info, h1) = (Ret st, (mid info, h')) -> st <> Success ->
    tail_outcome Deadlock (mid info, h')
| TailOk inst info start h1 h2 t h' :
    vm_ready inst info h1 -> quiet h1 h2 ->
    acquire_vm config (set_mutex true m, h) = (Ret (inr (inst, start)), (mid info, h1)) ->
    boot_request config inst (mid info, h1) = (Ret Success, (mid info, h2)) ->
    h' = EvClock t :: policy_history m config (cgroup_id info) h2 ->
    tail_outcome (Ret Success) (set_mutex true (remember id (activate (t - start) inst) info m), h').

(** What a recorded sandbox owns. *)
Lemma recorded inst info start h1 h2 t :
  vm_ready inst info h1 -> quiet h1 h2 -> keeps h1 h2 ->
  let inst' := activate (t - start) inst in
  let h' := EvClock t :: policy_history m config (cgroup_id info) h2 in
  inst_wf id inst' /\ ledger F P (remember id inst' info m, h') /\ vm_trace inst' info h'.
Proof.
  intros Hvm (Hqf & Hqp & _) Hk inst' h'. destruct Hvm as [(Hcfg & Hmd & _ & Ht & Htn) Hpid Hpn Hlive _ Hinfo Hnone Htap Hcg Htr].
  destruct (policy_history_resources m config (cgroup_id info) h2) as [Hpf Hpp].
  split; [unfold inst_wf; simpl; by rewrite Hcfg|]. split.
  - eapply remember_ledger; [exact Hled|done| |done| |done]; subst h'.
    + simpl. eapply cg_good_same; [|exact Hcg]. cbn [open_fds]. congruence.
    + cbn [unkilled_pids]. simpl. congruence.
  - apply (vm_trace_keeps inst info h1); [done|done|]. etrans; [exact Hk|].
    etrans; [apply (policy_history_keeps m config (cgroup_id info))|by apply keeps_cons].
Qed.

Lemma create_tail :
  exists r s', (acquired ← acquire_vm config;
     match acquired with
     | inl status => mret status
     | inr (inst, start) => boot_and_record config inst start
     end) (set_mutex true m, h) = (r, s') /\ tail_outcome r s'.
Proof.
  destruct acquire_vm_run as (r & s' & Hrun & Ho). unfold mbind, M_bind. rewrite Hrun.
  destruct Ho as [st h'|pid h'|p m' h'|s'|inst info h1 Hvm];
    try (do 2 eexists; split; [reflexivity|]; by econstructor).
  destruct (boot_request_run config inst (mid info) h1) as (r1 & h2 & Hb & Hq & [-> |(st & -> & _)]).
  { rewrite (thrown_boot _ _ _ _ _ _ _ Hb). do 2 eexists. split; [reflexivity|]. by constructor. }
  destruct (decide (st = Success)) as [->|Hst].
  - destruct (vr_inst _ _ _ Hvm) as (Hcfg & _).
    destruct (accepted_boot_records config inst (os_clock h) (mid info) h1 h2 info) as (t & ->); try done.
    + by apply mid_wf.
    + apply (ledger_cg_mutex _ _ _ Hled).
    + simpl. by rewrite lookup_insert_eq.
    + by destruct (vr_info _ _ _ Hvm) as (_ & _ & ? & _).
    + do 2 eexists. split; [reflexivity|]. by eapply TailOk.
  - rewrite (refused_boot_deadlocks config inst (os_clock h) (mid info) h1 st h2 eq_refl Hb Hst).
    do 2 eexists. split; [reflexivity|]. by eapply TailDeadlock.
Qed.
End Tail.

Lemma create_sandbox_run `{!FreshDescriptors} `{!FreshChildren} F P config m h :
  sm_good F P (m, h) ->
  let id := sc_sandbox_id config in
  if String.eqb id "" || bool_decide (is_Some (m_sandboxes m !! id))
  then create_sandbox config (m, h) = (Ret ErrInvalidSandboxID, (m, h))
  else exists r s', tail_outcome F config m h r s' /\
    create_sandbox config (m, h) =
    match r with
    | Deadlock => (Deadlock, s')
    | Exited => (Exited, s')
    | r => (r, set_mutex false s')
    end.
Proof.
  intros (Hmu & Hwf & Hled). simpl in Hmu. cbn zeta.
  destruct (String.eqb _ _ || bool_decide (is_Some _)) eqn:Ek.
  - apply sm_locked; [done| |done]. rewrite bind_gets. cbn [fst m_sandboxes set_mutex SandboxManager_mutex].
    by rewrite Ek.
  - pose proof Ek as [Hid Hk]%orb_false_elim. apply bool_decide_eq_false in Hk.
    apply String.eqb_neq in Hid. apply eq_None_not_Some in Hk.
    destruct (create_tail F P config m h Hmu Hwf Hled Hk Hid) as (r & s' & Hrun & Ht).
    exists r, s'. split; [done|].
    unfold create_sandbox, lock_guard. change (mutex_held (m, h)) with (sm_mutex m). rewrite Hmu.
    rewrite bind_gets. change (m_sandboxes (set_mutex true (m, h)).1) with (m_sandboxes m). rewrite Ek.
    change (set_mutex true (m, h)) with (set_mutex true m, h). rewrite Hrun. by destruct r.
Qed.

(** Once the microVM is there, the rest of the method decides how it ends. *)
Lemma create_from_vm config m h inst start s1 :
  sm_mutex m = false -> sc_sandbox_id config <> "" -> m_sandboxes m !! sc_sandbox_id config = None ->
  acquire_vm config (set_mutex true m, h) = (Ret (inr (inst, start)), s1) ->
  create_sandbox config (m, h) =
  match boot_and_record config inst start s1 with
  | (Deadlock, s') => (Deadlock, s')
  | (Exited, s') => (Exited, s')
  | (r, s') => (r, set_mutex false s')
  end.
Proof.
  intros Hmu Hid%String.eqb_neq Hnew Hvm.
  unfold create_sandbox, lock_guard. change (mutex_held (m, h)) with (sm_mutex m). rewrite Hmu.
  rewrite bind_gets. change (m_sandboxes (set_mutex true (m, h)).1) with (m_sandboxes m).
  rewrite Hid, Hnew, bool_decide_false by (by intros [? ?]). cbn [orb].
  change (set_mutex true (m, h)) with (set_mutex true m, h).
  rewrite (bind_Ret _ _ _ _ _ Hvm). by destruct (boot_and_record config inst start s1) as [[] ?].
Qed.

(** A microVM that is acquired is in the state of [vm_ready]. *)
Lemma acquired_vm_ready `{!FreshDescriptors} `{!FreshChildren} F P config m h inst start m1 h1 :
  sm_good F P (m, h) -> sc_sandbox_id config <> "" -> m_sandboxes m !! sc_sandbox_id config = None ->
  acquire_vm config (set_mutex true m, h) = (Ret (inr (inst, start)), (m1, h1)) ->
  exists info, m1 = mid config m info /\ vm_ready F config m h inst info h1.
Proof.
  intros (Hmu & Hwf & Hled) Hid Hnew Hvm. simpl in Hmu.
  destruct (acquire_vm_run F P config m h Hmu Hwf Hled Hnew Hid) as (r & s & Hrun & Ho).
  rewrite Hvm in Hrun. injection Hrun as <- <-. inversion Ho; subst. by exists info.
Qed.
End Creation.

(** ** The two ends of a manager's life *)
Lemma initial_good loader engine base h :
  (forall l, loader = Some l -> el_mutex l = false) ->
  (forall e, engine = Some e -> pe_mutex e = false) ->
  sm_good (open_fds h) (unkilled_pids h) (SandboxManager_init loader engine base, h).
Proof.
  intros Hl He. split; [done|]. split.
  - by split.
  - split; simpl; rewrite ?owned_empty; try apply owned_once_empty; try set_solver.
    split; [split; [done|apply map_Forall_empty]|]. unfold fds_balanced, owned_fds. simpl.
    rewrite owned_empty. split; [set_solver|]. split; [set_solver|]. apply owned_once_empty.
Qed.

(** The destructor releases what the tables own, and nothing else. *)
Lemma dtor_good F P m h :
  sm_good F P (m, h) ->
  exists m' h', SandboxManager_dtor (m, h) = (Ret tt, (m', h')) /\ m_sandboxes m' = ∅ /\
    m_cgroups (m_cgroup_manager m') = ∅ /\ open_fds h' = F /\ unkilled_pids h' = P /\
    m_ebpf_loader m' = m_ebpf_loader m /\ same_maps h h'.
Proof.
  intros Hg.
  destruct (terminate_all_good _ _ _ _ Hg) as (m2 & h2 & Ht & Hempty & (_ & _ & Hled) & Hld & Hm2).
  pose proof (led_cgroups _ _ _ Hled) as Hcg. simpl in Hcg. rewrite Hempty, owned_empty in Hcg.
  destruct (destroy_all_good _ _ _ Hcg) as (h3 & Hd & _ & Hf).
  exists (set_cgroup_manager (set_cgroups (fun _ => ∅) (m_cgroup_manager m2)) m2), h3.
  split; [unfold SandboxManager_dtor; rewrite (bind_Ret _ _ _ _ _ Ht); by apply on_cgroups_run|].
  split; [done|]. split; [done|]. split; [rewrite Hf; set_solver|].
  destruct (destroy_all_run (m_cgroup_manager m2) h2) as (h3' & Hd' & Hp & Hm3 & _).
  { apply (ledger_cg_mutex _ _ _ Hled). }
  rewrite Hd in Hd'. injection Hd' as <-.
  pose proof (led_live _ _ _ Hled) as Hlv. simpl in Hlv. rewrite Hempty, owned_empty in Hlv.
  split; [rewrite Hp, Hlv; set_solver|]. split; [done|]. intros fd k. by rewrite Hm3, Hm2.
Qed.
