(* ===== verification/Lifecycle.v ===== *)
(** * Lifecycle: what the sandbox manager guarantees

    The properties of creation, execution and termination, over every
    behaviour of the host that hands out fresh descriptors and process
    identifiers: success, clean failure, the boot failures that never return,
    the accounting of descriptors and processes over all sequences of calls,
    and the registry the manager implements. *)
From S2P Require Import Prelude Text Host Aegis PolicyEngine CgroupManager EBPFLoader MicroVM.
From S2P Require Import SandboxManager.

Section Theorems.
Context {host : Host} `{!FreshDescriptors} `{!FreshChildren}.

Lemma sm_good_history F P m h h' :
  open_fds h' = open_fds h -> unkilled_pids h' = unkilled_pids h ->
  sm_good F P (m, h) -> sm_good F P (m, h').
Proof. intros Hf Hp (? & ? & ?). split; [done|]. split; [done|]. by eapply ledger_history. Qed.

(** A leaked child is accounted for separately. *)
Lemma sm_good_leak F P m h h' pid :
  open_fds h' = open_fds h -> unkilled_pids h' = {[pid]} ∪ unkilled_pids h -> pid ∉ unkilled_pids h ->
  sm_good F P (m, h) -> sm_good F ({[pid]} ∪ P) (m, h').
Proof.
  intros Hf Hp Hn (Hmu & Hwf & [Hcg Ht Hto Hl Hv Hvo]). simpl in *. rewrite Hl in Hn.
  split; [done|]. split; [done|]. split; simpl; try done.
  - by eapply cg_good_same.
  - rewrite Hp, Hl. clear. set_solver.
  - clear - Hv Hn. set_solver.
Qed.

(** The cases of creation, with the manager unlocked again. *)
Lemma create_cases F P config m h :
  sm_good F P (m, h) ->
  let id := sc_sandbox_id config in
  exists r m' h', create_sandbox config (m, h) = (r, (m', h')) /\
  match r with
  | Ret Success =>
      sm_good F P (m', h') /\ m_sandboxes m !! id = None /\
      exists inst info h1 t, m' = remember id inst info m /\ si_config inst = config /\
        inst_wf id inst /\ info_wf (m_root_path (m_cgroup_manager m)) id info /\
        m_cgroups (m_cgroup_manager m) !! id = None /\
        md_tap_device_name (si_metadata inst) = tap_name id /\ same_maps h h1 /\
        h' = EvClock t :: policy_history m config (cgroup_id info) h1 /\
        vm_trace config m h inst info h'
  | Ret st =>
      m' = m /\ early_failure st = true /\ open_fds h' = open_fds h /\
      ((sm_good F P (m, h') /\ unkilled_pids h' = unkilled_pids h) \/
       (st = ErrMicroVMBootFailed /\ exists pid, (pid ∉ unkilled_pids h) /\
          unkilled_pids h' = {[pid]} ∪ unkilled_pids h /\ sm_good F ({[pid]} ∪ P) (m, h'))) /\
      (((id = "" \/ is_Some (m_sandboxes m !! id)) /\ st = ErrInvalidSandboxID /\ h' = h) \/
       (id <> "" /\ m_sandboxes m !! id = None /\
        exists h1, h' = EvRemoveAll (path_append (m_base_runtime_dir m) id) :: h1))
  | Throw _ => m_sandboxes m' = m_sandboxes m /\ sm_mutex m' = false
  | Deadlock => id <> "" /\ m_sandboxes m !! id = None /\ tail_outcome F config m h Deadlock (m', h')
  | Exited => True
  end.
Proof.
  intros Hgood. pose proof Hgood as (Hmu & Hwf & _). simpl in Hmu.
  pose proof (create_sandbox_run F P config m h Hgood) as Hrun. cbn zeta in *.
  destruct (String.eqb _ _ || _) eqn:Ek.
  - exists (Ret ErrInvalidSandboxID), m, h. split; [done|]. split; [done|]. split; [done|].
    split; [done|]. split; [by left|]. left. split; [|done].
    apply orb_prop in Ek as [?%String.eqb_eq|?%bool_decide_eq_true]; auto.
  - apply orb_false_elim in Ek as [Hid%String.eqb_neq Hk0%bool_decide_eq_false].
    apply eq_None_not_Some in Hk0.
    destruct Hrun as (r & s' & Ht & Hrun).
    destruct Ht as [st h' Hst Hf Hp Hdir|pid h' Hpid Hn Hf Hp Hdir|p m' h' Hsb|s'|inst info start h1 st h'|
                    inst info start h1 h2 t h' Hvm Hq Hacq Hb Hh'].
    + exists (Ret st), m, h'. rewrite Hrun. split.
      { change (set_mutex false (set_mutex true m, h')) with (set_mutex false (set_mutex true m), h').
        by rewrite sm_unlock_id. }
      destruct st; try done; (split; [done|]); (split; [done|]); (split; [done|]);
        (split; [left; split; [by eapply sm_good_history|done]|]); right; auto.
    + exists (Ret ErrMicroVMBootFailed), m, h'. rewrite Hrun. split.
      { change (set_mutex false (set_mutex true m, h')) with (set_mutex false (set_mutex true m), h').
        by rewrite sm_unlock_id. }
      split; [done|]. split; [done|]. split; [done|]. split; [|right; auto].
      right. split; [done|]. exists pid. split; [done|]. split; [done|]. by eapply sm_good_leak.
    + exists (Throw (filesystem_error p)), (set_mutex false m'), h'. by rewrite Hrun.
    + destruct s' as [m' h']. exists Exited, m', h'. by rewrite Hrun.
    + exists Deadlock, (mid config m info), h'. rewrite Hrun. split; [done|]. do 2 (split; [done|]).
      by eapply TailDeadlock.
    + pose proof (tidy _ _ _ Hb) as Hkeeps. destruct Hgood as (_ & _ & Hled).
      destruct (recorded F P config m h Hled Hk0 Hid inst info start h1 h2 t Hvm Hq Hkeeps) as (Hi & Hl & Htr).
      exists (Ret Success), (remember (sc_sandbox_id config) (activate (t - start) inst) info m), h'.
      rewrite Hrun. split; [by rewrite <- (sm_unlock_id (remember _ _ _ m)) at 2|]. subst h'.
      destruct Hvm as [(Hcfg & _ & Htap & _) _ _ _ Hmaps Hinfo Hnone _ _ _].
      split; [split; [done|]; split; [by apply remember_wf|done]|]. split; [done|].
      do 4 eexists. do 6 (split; [done|]). split; [|done].
      destruct Hq as (_ & _ & Hqm). intros fd k. by rewrite Hqm.
Qed.

(** ** Creation *)


(** C5: when [create_sandbox] returns an error the manager is exactly as before and no
    descriptor stays open; the identifier check is the only failure without effects, every
    other one removes the sandbox's directory; the only thing that can be left behind is the
    microVM process of a boot that timed out, and a failed snapshot restore is never
    reported. *)
Theorem create_sandbox_failure (F P : gset Z) (config : SandboxConfig) (m m' : SandboxManager)
    (h h' : history) (st : Status) :
  sm_good F P (m, h) -> create_sandbox config (m, h) = (Ret st, (m', h')) -> st <> Success ->
  m' = m /\ open_fds h' = open_fds h /\ st <> ErrSnapshotRestoreFailed /\
  (unkilled_pids h' = unkilled_pids h \/
   st = ErrMicroVMBootFailed /\ exists pid, (pid ∉ unkilled_pids h) /\ unkilled_pids h' = {[pid]} ∪ unkilled_pids h) /\
  let id := sc_sandbox_id config in
  (id = "" \/ is_Some (m_sandboxes m !! id) -> st = ErrInvalidSandboxID /\ h' = h) /\
  (id <> "" -> m_sandboxes m !! id = None ->
     exists h1, h' = EvRemoveAll (path_append (m_base_runtime_dir m) id) :: h1).
Proof.
  intros Hgood Hrun Hst. destruct (create_cases F P config m h Hgood) as (r & m1 & h1 & Hr & Hc).
  rewrite Hrun in Hr. simplify_eq.
  destruct st; try done;
    destruct Hc as (-> & He & Hf & Hl & Hd); try done;
    (split; [done|]); (split; [done|]); (split; [done|]); (split; [naive_solver|]);
    destruct Hd as [(Hid & Hi & ->)|(Hid & Hk & Hd)]; try discriminate Hi;
    (split; [intros [Hx|Hx]|intros Hx1 Hx2]); try done;
    try (by rewrite Hk in Hx; destruct Hx);
    destruct Hid as [?|Hid]; [done|by rewrite Hx2 in Hid; destruct Hid].
Qed.

(** Every method locks the manager's mutex first. *)
Lemma held_blocks m h :
  sm_mutex m = true ->
  (forall id b, terminate_sandbox id b (m, h) = (Deadlock, (m, h))) /\
  (forall id code, execute_code id code (m, h) = (Deadlock, (m, h))) /\
  (forall config, create_sandbox config (m, h) = (Deadlock, (m, h))) /\
  (forall id, get_metadata id (m, h) = (Deadlock, (m, h))) /\
  terminate_all (m, h) = (Deadlock, (m, h)) /\
  SandboxManager_dtor (m, h) = (Deadlock, (m, h)).
Proof.
  intros Hm.
  assert (Hall : terminate_all (m, h) = (Deadlock, (m, h))) by (by apply lock_guard_held).
  do 4 (split; [intros; by apply lock_guard_held|]). split; [exact Hall|].
  unfold SandboxManager_dtor, mbind, M_bind. by rewrite Hall.
Qed.

(** What is known when creation blocks. *)
Lemma deadlock_inv F P config m m' h h' :
  sm_good F P (m, h) -> create_sandbox config (m, h) = (Deadlock, (m', h')) ->
  sc_sandbox_id config <> "" /\ m_sandboxes m !! sc_sandbox_id config = None /\
  exists inst info start h1 st, m' = mid config m info /\ vm_ready F config m h inst info h1 /\
    quiet h1 h' /\ keeps h1 h' /\
    acquire_vm config (set_mutex true m, h) = (Ret (inr (inst, start)), (m', h1)) /\
    boot_request config inst (m', h1) = (Ret st, (m', h')) /\ st <> Success.
Proof.
  intros Hgood Hrun. destruct (create_cases F P config m h Hgood) as (r & m1 & h1 & Hr & Hc).
  rewrite Hrun in Hr. simplify_eq. destruct Hc as (Hid & Hnew & Ht). do 2 (split; [done|]).
  inversion Ht as [| | | |inst info start h2 st h3 Hvm Hq Hacq Hb Hst|]; subst.
  pose proof (tidy _ _ _ Hb) as Hk. exists inst, info, start, h2, st. done.
Qed.

(** C7: [create_sandbox] never returns exactly when the identifier is acceptable, the microVM
    process starts, and that microVM then refuses its configuration or its snapshot: the method
    calls [terminate_sandbox] while it holds the same mutex.  At that point the new process has
    not been killed, its TAP device is open and its cgroup exists, acquired as for a created
    sandbox ([vm_trace]), but the sandbox is in no table, and every later call on the manager
    blocks as well: creation, execution, metadata, both terminations and the destructor. *)
Theorem create_sandbox_deadlock (F P : gset Z) (config : SandboxConfig) (m m' : SandboxManager)
    (h h' : history) :
  sm_good F P (m, h) ->
  let id := sc_sandbox_id config in
  (create_sandbox config (m, h) = (Deadlock, (m', h')) <->
   id <> "" /\ m_sandboxes m !! id = None /\
   exists inst start h1 st,
     acquire_vm config (set_mutex true m, h) = (Ret (inr (inst, start)), (m', h1)) /\
     boot_request config inst (m', h1) = (Ret st, (m', h')) /\ st <> Success) /\
  (create_sandbox config (m, h) = (Deadlock, (m', h')) ->
   (exists inst info, m_cgroups (m_cgroup_manager m') !! id = Some info /\
      unkilled_pids h' = {[firecracker_pid inst]} ∪ unkilled_pids h /\
      (firecracker_pid inst ∉ unkilled_pids h) /\ tap_fd inst ∈ open_fds h' ∖ open_fds h /\
      vm_trace config m h inst info h') /\
   m_sandboxes m' = m_sandboxes m /\
   (forall config', create_sandbox config' (m', h') = (Deadlock, (m', h'))) /\
   (forall id' code, execute_code id' code (m', h') = (Deadlock, (m', h'))) /\
   (forall id', get_metadata id' (m', h') = (Deadlock, (m', h'))) /\
   (forall id' b, terminate_sandbox id' b (m', h') = (Deadlock, (m', h'))) /\
   terminate_all (m', h') = (Deadlock, (m', h')) /\
   SandboxManager_dtor (m', h') = (Deadlock, (m', h'))).
Proof.
  intros Hgood. split; [split|].
  - intros Hrun. destruct (deadlock_inv F P config m m' h h' Hgood Hrun)
      as (Hid & Hnew & inst & info & start & h1 & st & -> & _ & _ & _ & Hacq & Hb & Hst). eauto 10.
  - intros (Hid & Hnew & inst & start & h1 & st & Hacq & Hb & Hst).
    destruct (acquired_vm_ready F P config m h inst start m' h1 Hgood Hid Hnew Hacq) as (info & -> & _).
    rewrite (create_from_vm config m h inst start (mid config m info, h1) (proj1 Hgood) Hid Hnew Hacq).
    by rewrite (refused_boot_deadlocks config inst start (mid config m info) h1 st h' eq_refl Hb Hst).
  - intros Hrun. destruct (deadlock_inv F P config m m' h h' Hgood Hrun)
      as (_ & _ & inst & info & start & h1 & st & -> & Hvm & (Hqf & Hqp & _) & Hk & _).
    destruct (held_blocks (mid config m info) h' eq_refl) as (Ht & He & Hc & Hg & Ha & Hd).
    split; [|by split]. destruct Hvm as [(_ & _ & _ & _ & Htn) _ Hpn Hch _ _ _ Htap _ Htr].
    exists inst, info. split; [simpl; by rewrite lookup_insert_eq|].
    rewrite Hqp, Hqf, elem_of_difference. do 3 (split; [done|]). by eapply vm_trace_keeps.
Qed.

(** ** Termination *)

(** C8: [terminate_sandbox] fails only on an unknown identifier, without any effect; on a
    known one it kills the microVM process, closes its TAP device and its cgroup descriptor,
    removes both directories and exactly this entry from the tables. *)
Theorem terminate_sandbox_spec (F P : gset Z) (m : SandboxManager) (h : history) (id : string)
    (b : bool) :
  sm_good F P (m, h) ->
  exists st m' h', terminate_sandbox id b (m, h) = (Ret st, (m', h')) /\
    (st = Success <-> is_Some (m_sandboxes m !! id)) /\
    (m_sandboxes m !! id = None -> st = ErrInvalidSandboxID /\ m' = m /\ h' = h) /\
    (forall inst, m_sandboxes m !! id = Some inst ->
       m_sandboxes m' = delete id (m_sandboxes m) /\
       m_cgroups (m_cgroup_manager m') = delete id (m_cgroups (m_cgroup_manager m)) /\
       unkilled_pids h' = unkilled_pids h ∖ {[firecracker_pid inst]} /\
       (exists info, m_cgroups (m_cgroup_manager m) !! id = Some info /\
          open_fds h' = open_fds h ∖ {[tap_fd inst]} ∖ {[cgroup_fd info]} /\
          EvRemoveAll (cgroup_path info) ∈ h') /\
       EvRemoveAll (path_append (m_base_runtime_dir m) id) ∈ h') /\
    sm_good F P (m', h').
Proof.
  intros Hgood. pose proof Hgood as (Hmu & Hwf & Hled). simpl in Hmu.
  destruct (m_sandboxes m !! id) as [inst|] eqn:Ei.
  - destruct (terminate_good F P m h id inst b Hgood Ei) as (info & h' & Hinfo & Hrun & Hh' & Hg).
    do 3 eexists. split; [exact Hrun|]. split; [split; [by eauto|done]|]. split; [done|].
    split; [|done]. intros ? [= <-].
    destruct (released_resources m inst info _ h (unmonitor_resources m (cgroup_id info))) as [Hf Hp].
    rewrite <- Hh' in Hf, Hp. split; [done|]. split; [done|]. split; [done|]. split.
    + exists info. split; [done|]. split; [done|]. subst h'. unfold released. set_solver.
    + destruct (wf_insts _ Hwf _ _ Ei) as (_ & Hid & _). subst h'. unfold released. rewrite Hid. left.
  - pose proof (terminate_sandbox_run m h id b Hmu Hwf (proj1 (led_cgroups _ _ _ Hled))) as Hrun.
    rewrite Ei in Hrun. do 3 eexists. split; [exact Hrun|].
    split; [split; [done|by intros [? ?]]|]. split; [done|]. split; [done|done].
Qed.

Lemma forget_remember id inst info m :
  m_sandboxes m !! id = None -> m_cgroups (m_cgroup_manager m) !! id = None ->
  forget id (remember id inst info m) = m.
Proof.
  intros H1 H2. unfold forget, remember, set_sandboxes, set_cgroup_manager, set_cgroups. simpl.
  rewrite !delete_insert_id by done. by destruct m as [? ? ? [] ? ?].
Qed.

(** C6: creating a sandbox and terminating it is the identity on the manager and on the
    process: the tables, the open descriptors and the children not killed are those of before. *)
Theorem create_terminate_roundtrip (F P : gset Z) (config : SandboxConfig) (m m1 : SandboxManager)
    (h h1 : history) (b : bool) :
  sm_good F P (m, h) -> create_sandbox config (m, h) = (Ret Success, (m1, h1)) ->
  exists h2, terminate_sandbox (sc_sandbox_id config) b (m1, h1) = (Ret Success, (m, h2)) /\
    open_fds h2 = open_fds h /\ unkilled_pids h2 = unkilled_pids h /\ sm_good F P (m, h2).
Proof.
  intros Hgood Hrun. destruct (create_cases F P config m h Hgood) as (r & m2 & h2 & Hr & Hc).
  rewrite Hrun in Hr. simplify_eq.
  destruct Hc as (Hg & Hnew & inst & info & h0 & t & -> & _ & _ & _ & Hnone & _).
  destruct (terminate_good F P _ h2 (sc_sandbox_id config) inst b Hg) as (info' & h3 & _ & Ht & _ & Hg3).
  { simpl. by rewrite lookup_insert_eq. }
  rewrite forget_remember in Ht, Hg3 by done.
  exists h3. split; [done|]. pose proof Hg3 as (_ & _ & Hled3). pose proof Hgood as (_ & _ & Hled).
  split; [by rewrite (ledger_open _ _ _ _ Hled3), (ledger_open _ _ _ _ Hled)|].
  split; [|done]. pose proof (led_live _ _ _ Hled3). pose proof (led_live _ _ _ Hled). simpl in *. congruence.
Qed.

(** ** Execution *)

(** What the guest agent answers to a payload, if it answers at all. *)
Definition agent_answer (h : history) (inst : SandboxInstance) (payload : string) : option string :=
  let fd := os_socket h in
  let h1 := EvSocket fd :: h in
  let addr := strncpy_field SUN_PATH_SIZE (guest_vsock_path inst) in
  let r := os_connect h1 fd addr in
  let h2 := EvConnect fd addr r :: h1 in
  let h3 := EvWrite fd payload (os_write h2 fd payload) :: h2 in
  if (0 <=? fd) && (0 <=? r) then
    match os_read h3 fd 8191 with
    | Some EmptyString | None => None
    | Some buf => Some buf
    end
  else None.

Lemma agent_exchange_run inst payload m h :
  exists h', agent_exchange inst payload (m, h) =
    (Ret (match agent_answer h inst payload with
          | Some buf => (0, c_string buf)
          | None => (-1, "")
          end), (m, h')) /\ quiet h h'.
Proof.
  pose proof (socket_fresh h) as Hfresh.
  unfold agent_exchange, agent_answer, sys_socket, sys_connect, sys_write, sys_read, sys_close, log, call.
  munfold. simpl. destruct (Z.leb_spec 0 (os_socket h)) as [Hs|Hs]; simpl.
  2: { eexists. split; [reflexivity|]. unfold quiet. simpl. by rewrite (proj2 (Z.leb_gt 0 _) Hs). }
  specialize (Hfresh Hs).
  destruct (0 <=? os_connect _ _ _); simpl.
  - match goal with |- context [os_read ?a ?b ?c] => destruct (os_read a b c) as [[|ch buf]|] end; simpl;
      (eexists; split; [reflexivity|]); (split; [|done]); cbn [open_fds];
      rewrite (proj2 (Z.leb_le 0 _) Hs); clear - Hfresh; set_solver.
  - eexists. split; [reflexivity|]. split; [|done]. cbn [open_fds].
    rewrite (proj2 (Z.leb_le 0 _) Hs). clear - Hfresh. set_solver.
Qed.

(** The run of [execute_code]. *)
Lemma execute_code_run F P m h id payload :
  sm_good F P (m, h) ->
  match m_sandboxes m !! id with
  | None => execute_code id payload (m, h) = (Ret (rejected_result id), (m, h))
  | Some inst =>
      exists h' t, quiet h h' /\ execute_code id payload (m, h) =
      (Ret {| er_sandbox_id := id;
              er_exit_code := from_option (fun _ => 0) (-1)
                (agent_answer (EvClock (os_clock h) :: h) inst payload);
              er_stdout_output := from_option c_string ""
                (agent_answer (EvClock (os_clock h) :: h) inst payload);
              er_stderr_output := ""; er_boot_time_ms := md_boot_time_ms (si_metadata inst);
              er_execution_time_ms := t; er_security_violation_triggered := false;
              er_security_rule_violated := "" |}, (m, h'))
  end.
Proof.
  intros (Hmu & Hwf & _). simpl in Hmu. destruct (m_sandboxes m !! id) as [inst|] eqn:Ei.
  - destruct (wf_insts _ Hwf _ _ Ei) as (_ & _ & _ & _ & Hact & _).
    destruct (agent_exchange_run inst payload (set_mutex true m) (EvClock (os_clock h) :: h))
      as (h1 & Hx & Hq).
    exists (EvClock (os_clock h1) :: h1). eexists. split; [by etrans; [|exact Hq]|].
    apply sm_locked; [done| |exact Hmu]. rewrite bind_gets.
    cbn [fst m_sandboxes set_mutex SandboxManager_mutex]. rewrite Ei, Hact. cbn [negb].
    erewrite (bind_Ret clock_now) by reflexivity. erewrite bind_Ret by exact Hx.
    erewrite (bind_Ret clock_now) by reflexivity. by destruct (agent_answer _ inst payload).
  - apply sm_locked; [done| |done]. rewrite bind_gets.
    cbn [fst m_sandboxes set_mutex SandboxManager_mutex]. by rewrite Ei.
Qed.

(** C30: [execute_code] never changes the manager and leaves no descriptor open; an unknown
    sandbox is refused without any effect; for a known one the exit code is 0 with the
    agent's answer, up to its first NUL, as standard output exactly when the agent answers
    at least one byte, and -1 otherwise: neither the guest's exit code nor a security
    violation is ever reported. *)
Theorem execute_code_spec (F P : gset Z) (m : SandboxManager) (h : history) (id payload : string) :
  sm_good F P (m, h) ->
  exists res h', execute_code id payload (m, h) = (Ret res, (m, h')) /\
    open_fds h' = open_fds h /\ unkilled_pids h' = unkilled_pids h /\
    er_sandbox_id res = id /\ er_security_violation_triggered res = false /\
    match m_sandboxes m !! id with
    | None => res = rejected_result id /\ h' = h
    | Some inst =>
        er_stderr_output res = "" /\
        match agent_answer (EvClock (os_clock h) :: h) inst payload with
        | Some buf => er_exit_code res = 0 /\ er_stdout_output res = c_string buf
        | None => er_exit_code res = -1 /\ er_stdout_output res = ""
        end
    end.
Proof.
  intros Hgood. pose proof (execute_code_run F P m h id payload Hgood) as Hrun.
  destruct (m_sandboxes m !! id) as [inst|].
  - destruct Hrun as (h' & t & (Hf & Hp & _) & ->). do 2 eexists. split; [reflexivity|]. simpl.
    split; [done|]. split; [done|]. split; [done|]. split; [done|]. split; [done|].
    by destruct (agent_answer _ inst payload).
  - rewrite Hrun. by do 2 eexists.
Qed.

(** ** All sequences of calls *)
Inductive sm_op : Type :=
| OpCreate (config : SandboxConfig)
| OpExecute (id payload : string)
| OpTerminate (id : string) (force_wipe : bool)
| OpMetadata (id : string)
| OpTerminateAll.

Inductive sm_result : Type :=
| RStatus (st : Status)
| RExecution (res : ExecutionResult)
| RMetadata (md : option SandboxMetadata)
| RUnit.

Definition run_sm_op (op : sm_op) : M SM sm_result :=
  match op with
  | OpCreate config => st ← create_sandbox config; mret (RStatus st)
  | OpExecute id payload => res ← execute_code id payload; mret (RExecution res)
  | OpTerminate id b => st ← terminate_sandbox id b; mret (RStatus st)
  | OpMetadata id => md ← get_metadata id; mret (RMetadata md)
  | OpTerminateAll => terminate_all ;; mret RUnit
  end.

(** ** The specification: a registry of running sandboxes *)
Abbreviation registry := (gmap string SandboxMetadata).

Inductive sandbox_step : sm_op -> registry -> sm_result -> registry -> Prop :=
| SpecCreated config md R :
    sc_sandbox_id config <> "" -> R !! sc_sandbox_id config = None ->
    md_sandbox_id md = sc_sandbox_id config -> md_state md = Running ->
    md_tap_device_name md = tap_name (sc_sandbox_id config) ->
    sandbox_step (OpCreate config) R (RStatus Success) (<[sc_sandbox_id config := md]> R)
| SpecCreateFailed config st R :
    st <> Success ->
    (sc_sandbox_id config = "" \/ is_Some (R !! sc_sandbox_id config) -> st = ErrInvalidSandboxID) ->
    sandbox_step (OpCreate config) R (RStatus st) R
| SpecExecuted id payload res R :
    er_sandbox_id res = id -> (R !! id = None -> res = rejected_result id) ->
    sandbox_step (OpExecute id payload) R (RExecution res) R
| SpecTerminated id b R :
    is_Some (R !! id) -> sandbox_step (OpTerminate id b) R (RStatus Success) (delete id R)
| SpecUnknown id b R :
    R !! id = None -> sandbox_step (OpTerminate id b) R (RStatus ErrInvalidSandboxID) R
| SpecMetadata id R : sandbox_step (OpMetadata id) R (RMetadata (R !! id)) R
| SpecCleared R : sandbox_step OpTerminateAll R RUnit ∅.

(** The results after which a forked process may be left that was never killed. *)
Definition timed_out (res : sm_result) : bool :=
  match res with RStatus ErrMicroVMBootFailed => true | _ => false end.

Fixpoint timeouts (rs : list sm_result) : nat :=
  match rs with [] => 0 | r :: rs' => Nat.b2n (timed_out r) + timeouts rs' end.

(** What a client can see of the manager. *)
Definition registry_of (m : SandboxManager) : registry := si_metadata <$> m_sandboxes m.

(** [L] are the processes a step leaves behind. *)
Lemma no_leftover F P (n : nat) s (Q : Prop) :
  sm_good F P s -> Q -> exists L : gset Z, (size L <= n)%nat /\ sm_good F (L ∪ P) s /\ Q.
Proof.
  intros Hg HQ. exists ∅. rewrite size_empty, (left_id_L ∅ (∪)).
  split; [lia|]. by split.
Qed.

Lemma create_refines F P config m h st m' h' :
  sm_good F P (m, h) -> create_sandbox config (m, h) = (Ret st, (m', h')) ->
  exists L : gset Z, (size L <= Nat.b2n (timed_out (RStatus st)))%nat /\ sm_good F (L ∪ P) (m', h') /\
    sandbox_step (OpCreate config) (registry_of m) (RStatus st) (registry_of m').
Proof.
  intros Hgood Hrun. destruct (create_cases F P config m h Hgood) as (r & m1 & h1 & Hr & Hc).
  rewrite Hrun in Hr. simplify_eq. unfold registry_of.
  destruct (decide (st = Success)) as [->|Hst].
  - destruct Hc as (Hg & Hnew & inst & info & _ & _ & -> & _ & Hi & _ & _ & Htap & _).
    apply no_leftover; [done|]. simpl. rewrite fmap_insert.
    destruct Hi as (Hid & _ & Hmd & Hrun' & _). apply SpecCreated; try done.
    by rewrite lookup_fmap, Hnew.
  - assert (Hf : m1 = m /\ ((sm_good F P (m, h1) /\ unkilled_pids h1 = unkilled_pids h) \/
        (st = ErrMicroVMBootFailed /\ exists pid, (pid ∉ unkilled_pids h) /\
           unkilled_pids h1 = {[pid]} ∪ unkilled_pids h /\ sm_good F ({[pid]} ∪ P) (m, h1))) /\
        (sc_sandbox_id config = "" \/ is_Some (m_sandboxes m !! sc_sandbox_id config) ->
         st = ErrInvalidSandboxID)).
    { destruct st; try done; destruct Hc as (-> & _ & _ & Hl & Hd); (split; [done|]);
        (split; [exact Hl|]); destruct Hd as [(_ & Hd & _)|(Hid & Hk & _)]; try done;
        intros [?|[? ?]]; congruence. }
    destruct Hf as (-> & Hg & Hinv).
    assert (Hstep : sandbox_step (OpCreate config) (si_metadata <$> m_sandboxes m) (RStatus st)
              (si_metadata <$> m_sandboxes m)).
    { apply SpecCreateFailed; [done|]. by rewrite lookup_fmap, fmap_is_Some. }
    destruct Hg as [[Hg _]|(-> & pid & _ & _ & Hg)]; [by apply no_leftover|].
    exists {[pid]}. rewrite size_singleton. by split.
Qed.

Lemma get_metadata_run m h id :
  sm_mutex m = false -> get_metadata id (m, h) = (Ret (registry_of m !! id), (m, h)).
Proof.
  intros Hm. unfold registry_of, get_metadata. rewrite lookup_fmap. by apply sm_locked.
Qed.

(** One call is one step of the registry. *)
Lemma registry_sim F P op s s' res :
  sm_good F P s -> run_sm_op op s = (Ret res, s') ->
  exists L : gset Z, (size L <= Nat.b2n (timed_out res))%nat /\ sm_good F (L ∪ P) s' /\
    sandbox_step op (registry_of s.1) res (registry_of s'.1).
Proof.
  destruct s as [m h], s' as [m' h']. intros Hgood Hrun. pose proof Hgood as (Hmu & _ & _).
  simpl in Hmu. destruct op as [config|id payload|id b|id|]; unfold run_sm_op in Hrun;
    apply bind_inv_Ret in Hrun as (a & s1 & Hop & Hret); injection Hret as <- ->.
  - by eapply create_refines.
  - pose proof (execute_code_run F P m h id payload Hgood) as Hx.
    unfold registry_of. simpl. destruct (m_sandboxes m !! id) as [inst|] eqn:Ei.
    + destruct Hx as (h1 & t & (Hf & Hp & _) & Hx). rewrite Hop in Hx. simplify_eq.
      apply no_leftover; [by eapply sm_good_history|]. apply SpecExecuted; [done|]. by rewrite lookup_fmap, Ei.
    + rewrite Hop in Hx. simplify_eq. apply no_leftover; [done|]. by apply SpecExecuted.
  - unfold registry_of. simpl.
    destruct (m_sandboxes m !! id) as [inst|] eqn:Ei.
    + destruct (terminate_good F P m h id inst b Hgood Ei) as (info & h1 & _ & Hx & _ & Hg).
      rewrite Hop in Hx. simplify_eq. apply no_leftover; [done|]. simpl. rewrite fmap_delete.
      apply SpecTerminated. rewrite lookup_fmap, Ei. by eexists.
    + pose proof Hgood as (_ & Hwf & Hled).
      pose proof (terminate_sandbox_run m h id b Hmu Hwf (proj1 (led_cgroups _ _ _ Hled))) as Hx.
      rewrite Ei, Hop in Hx. simplify_eq. apply no_leftover; [done|]. apply SpecUnknown. by rewrite lookup_fmap, Ei.
  - rewrite get_metadata_run in Hop by done. simplify_eq. apply no_leftover; [done|].
    constructor.
  - destruct (terminate_all_good F P m h Hgood) as (m1 & h1 & Hx & He & Hg & _).
    rewrite Hop in Hx. simplify_eq. apply no_leftover; [done|].
    unfold registry_of. simpl. rewrite He, fmap_empty. constructor.
Qed.

Fixpoint run_sm_ops (ops : list sm_op) : M SM (list sm_result) :=
  match ops with
  | [] => mret []
  | op :: ops' => r ← run_sm_op op; rs ← run_sm_ops ops'; mret (r :: rs)
  end.

Inductive registry_trace : list sm_op -> registry -> list sm_result -> registry -> Prop :=
| TraceNil R : registry_trace [] R [] R
| TraceCons op ops r rs R R1 R2 :
    sandbox_step op R r R1 -> registry_trace ops R1 rs R2 ->
    registry_trace (op :: ops) R (r :: rs) R2.

Lemma trace_sim F ops P s s' rs :
  sm_good F P s -> run_sm_ops ops s = (Ret rs, s') ->
  exists L : gset Z, (size L <= timeouts rs)%nat /\ sm_good F (L ∪ P) s' /\
    registry_trace ops (registry_of s.1) rs (registry_of s'.1).
Proof.
  revert s P rs. induction ops as [|op ops IH]; intros s P rs Hg Hrun; cbn [run_sm_ops] in Hrun.
  { injection Hrun as <- <-. apply no_leftover; [done|]. constructor. }
  apply bind_inv_Ret in Hrun as (r & s1 & Hop & Hrest).
  apply bind_inv_Ret in Hrest as (rs' & s2 & Hrest & Hr). injection Hr as <- ->.
  destruct (registry_sim F P op s s1 r Hg Hop) as (L1 & HL1 & Hg1 & Hs1).
  destruct (IH s1 (L1 ∪ P) rs' Hg1 Hrest) as (L2 & HL2 & Hg2 & Ht2).
  exists (L2 ∪ L1). rewrite <- (assoc_L (∪)). split; [|split; [done|by econstructor]].
  cbn [timeouts]. pose proof (size_union_alt L2 L1) as Hsz.
  assert (size (L1 ∖ L2) <= size L1)%nat by (apply subseteq_size; set_solver). lia.
Qed.

(** ** Calls that do not return *)
Definition returns {A} (r : outcome A) : bool := match r with Ret _ => true | _ => false end.

(** Only the creation of a new sandbox can fail to return. *)
Lemma returns_or_create F P op s :
  sm_good F P s -> returns (run_sm_op op s).1 = false ->
  exists config, op = OpCreate config /\ returns (create_sandbox config s).1 = false /\
    sc_sandbox_id config <> "" /\ registry_of s.1 !! sc_sandbox_id config = None.
Proof.
  destruct s as [m h]. intros Hgood. pose proof Hgood as (Hmu & Hwf & Hled). simpl in Hmu.
  destruct op as [config|id payload|id b|id|]; unfold run_sm_op.
  - intros Hr. exists config. split; [done|].
    assert (Hc : returns (create_sandbox config (m, h)).1 = false).
    { unfold mbind, M_bind in Hr. by destruct (create_sandbox config (m, h)) as [[] ?]. }
    split; [done|]. pose proof (create_sandbox_run F P config m h Hgood) as Hrun. cbn zeta in Hrun.
    destruct (String.eqb _ _ || _) eqn:Ek; [by rewrite Hrun in Hc|].
    apply orb_false_elim in Ek as [Hid%String.eqb_neq Hk%bool_decide_eq_false].
    split; [done|]. unfold registry_of. simpl. rewrite lookup_fmap, fmap_None.
    by apply eq_None_not_Some.
  - pose proof (execute_code_run F P m h id payload Hgood) as Hx.
    destruct (m_sandboxes m !! id); [destruct Hx as (? & ? & _ & Hx)|]; by rewrite (bind_Ret _ _ _ _ _ Hx).
  - destruct (m_sandboxes m !! id) as [inst|] eqn:Ei.
    + destruct (terminate_good F P m h id inst b Hgood Ei) as (? & ? & _ & Hx & _).
      by rewrite (bind_Ret _ _ _ _ _ Hx).
    + pose proof (terminate_sandbox_run m h id b Hmu Hwf (proj1 (led_cgroups _ _ _ Hled))) as Hx.
      rewrite Ei in Hx. by rewrite (bind_Ret _ _ _ _ _ Hx).
  - by rewrite (bind_Ret _ _ _ _ _ (get_metadata_run m h id Hmu)).
  - destruct (terminate_all_good F P m h Hgood) as (? & ? & Hx & _).
    by rewrite (bind_Ret _ _ _ _ _ Hx).
Qed.

(** The calls that return before one that does not. *)
Lemma run_prefix F ops P s :
  sm_good F P s ->
  exists pre post rs s', ops = pre ++ post /\ run_sm_ops pre s = (Ret rs, s') /\
    match post with
    | [] => True
    | op :: _ => exists config, op = OpCreate config /\
        returns (create_sandbox config s').1 = false /\ sc_sandbox_id config <> "" /\
        registry_of s'.1 !! sc_sandbox_id config = None
    end.
Proof.
  revert P s. induction ops as [|op ops IH]; intros P s Hg; [by exists [], [], [], s|].
  destruct (run_sm_op op s) as [o s1] eqn:Hop. destruct (returns o) eqn:Ho.
  - destruct o as [r| | |]; try done.
    destruct (registry_sim F P op s s1 r Hg Hop) as (L & _ & Hg1 & _).
    destruct (IH _ s1 Hg1) as (pre & post & rs & s' & -> & Hpre & Hpost).
    exists (op :: pre), post, (r :: rs), s'. split; [done|]. split; [|done].
    cbn [run_sm_ops]. rewrite (bind_Ret _ _ _ _ _ Hop). by rewrite (bind_Ret _ _ _ _ _ Hpre).
  - exists [], (op :: ops), [], s. split; [done|]. split; [done|].
    apply (returns_or_create F P op s Hg). by rewrite Hop.
Qed.

(** C2: the manager implements a registry of running sandboxes: whatever the host answers,
    every sequence of calls on a new manager returns, up to the first creation of a new
    sandbox that does not (an exception of the filesystem, a refused boot request, the forked
    child), and the results are those of a registry that starts empty: creation adds a fresh
    identifier or changes nothing, termination removes exactly the named one, metadata is what
    was stored, execution on an unknown identifier is refused. *)
Theorem manager_refines_registry (ops : list sm_op) (loader : option EBPFLoader)
    (engine : option PolicyEngine) (base : string) (h : history) :
  (forall l, loader = Some l -> el_mutex l = false) ->
  (forall e, engine = Some e -> pe_mutex e = false) ->
  exists pre post rs s, ops = pre ++ post /\
    run_sm_ops pre (SandboxManager_init loader engine base, h) = (Ret rs, s) /\
    registry_trace pre ∅ rs (registry_of s.1) /\
    match post with
    | [] => True
    | op :: _ => exists config, op = OpCreate config /\
        returns (create_sandbox config s).1 = false /\ sc_sandbox_id config <> "" /\
        registry_of s.1 !! sc_sandbox_id config = None
    end.
Proof.
  intros Hl He. pose proof (initial_good loader engine base h Hl He) as Hg.
  destruct (run_prefix _ ops _ _ Hg) as (pre & post & rs & s & -> & Hrun & Hpost).
  exists pre, post, rs, s. do 2 (split; [done|]). split; [|done].
  destruct (trace_sim _ pre _ _ s rs Hg Hrun) as (_ & _ & _ & Ht).
  unfold registry_of at 1 in Ht. simpl in Ht. by rewrite fmap_empty in Ht.
Qed.

(** C3: over every sequence of calls that return, starting from a new manager and ending with
    its destructor, no descriptor is leaked and every process of a recorded sandbox has been killed:
    what is open at the end is what was open at the start, and the children not killed are
    those of before and at most one for each boot failure that was reported. *)
Theorem manager_balance (ops : list sm_op) (loader : option EBPFLoader)
    (engine : option PolicyEngine) (base : string) (h : history) (s : SM) (rs : list sm_result) :
  (forall l, loader = Some l -> el_mutex l = false) ->
  (forall e, engine = Some e -> pe_mutex e = false) ->
  run_sm_ops ops (SandboxManager_init loader engine base, h) = (Ret rs, s) ->
  exists (leaked : gset Z) m' h', SandboxManager_dtor s = (Ret tt, (m', h')) /\
    m_sandboxes m' = ∅ /\ m_cgroups (m_cgroup_manager m') = ∅ /\ open_fds h' = open_fds h /\
    unkilled_pids h' = leaked ∪ unkilled_pids h /\ (size leaked <= timeouts rs)%nat /\
    vmms s.1 ## unkilled_pids h'.
Proof.
  intros Hl He Hrun.
  destruct (trace_sim _ ops _ _ s rs (initial_good loader engine base h Hl He) Hrun)
    as (L & HL & Hg & _). destruct s as [m1 h1].
  destruct (dtor_good _ _ _ _ Hg) as (m' & h' & Hd & Hs & Hc & Hf & Hp & _).
  exists L, m', h'. do 4 (split; [done|]). rewrite Hp. do 2 (split; [done|]).
  destruct Hg as (_ & _ & Hled1). exact (led_vmms _ _ _ Hled1).
Qed.

(** C40: an absolute identifier escapes the runtime directory: the sandbox directory is the
    identifier itself, and any failure to create the sandbox ends by removing that directory
    with everything in it. *)
Theorem absolute_id_removes_host_directory (F P : gset Z) (config : SandboxConfig)
    (m m' : SandboxManager) (h h' : history) (st : Status) :
  sm_good F P (m, h) -> is_absolute (sc_sandbox_id config) = true ->
  m_sandboxes m !! sc_sandbox_id config = None ->
  create_sandbox config (m, h) = (Ret st, (m', h')) -> st <> Success ->
  exists h1, h' = EvRemoveAll (sc_sandbox_id config) :: h1.
Proof.
  intros Hgood Habs Hnew Hrun Hst.
  assert (Hdir : path_append (m_base_runtime_dir m) (sc_sandbox_id config) = sc_sandbox_id config)
    by (unfold path_append; by rewrite Habs).
  destruct (create_cases F P config m h Hgood) as (r & m1 & h1 & Hr & Hc).
  rewrite Hrun in Hr. simplify_eq. cbn zeta in Hc. rewrite Hdir in Hc.
  destruct st; try done; destruct Hc as (_ & _ & _ & _ & [([Hid|Hk] & _)|(_ & _ & Hd)]);
    first [exact Hd | by rewrite Hid in Habs | by rewrite Hnew in Hk; destruct Hk].
Qed.

Lemma create_success_good F P config m h m' h' :
  sm_good F P (m, h) -> create_sandbox config (m, h) = (Ret Success, (m', h')) -> sm_good F P (m', h').
Proof.
  intros Hgood Hrun. destruct (create_cases F P config m h Hgood) as (r & m1 & h1 & Hr & Hc).
  rewrite Hrun in Hr. simplify_eq. apply Hc.
Qed.
End Theorems.

(** ** Witnesses *)

(** A machine on which everything works, one whose microVM refuses connections, and the one
    of MicroVM.v whose microVM never opens its socket. *)
Definition lc_host : Host := sample_host (fun _ => None) [].
Definition refusing_host : Host := {|
  os_exists h p := Some true;
  os_create_directories h p := true;
  os_remove h p := true;
  os_write_file h p v := (true, true);
  os_read_file h p := None;
  os_stat h p := Some 4242;
  os_open h p fl := next_above (open_fds h);
  os_ioctl h fd name := 0;
  os_fork h := next_above (unkilled_pids h);
  os_socket h := next_above (open_fds h);
  os_connect h fd p := -1;
  os_write h fd data := -1;
  os_read h fd n := None;
  os_clock h := 0;
  bpf_open_file h p := None;
  bpf_load h o := -1;
  bpf_programs o := [];
  bpf_program_name p := None;
  bpf_find_program o n := None;
  bpf_attach h p t := None;
  bpf_find_map o n := None;
  bpf_map_fd m := -1;
  bpf_map_update h fd k v := -1;
  bpf_ring_new h fd := None
|}.

#[global] Instance lc_fresh : FreshDescriptors (H := lc_host).
Proof. apply sample_host_fresh. Qed.
#[global] Instance lc_children : FreshChildren (H := lc_host).
Proof. apply sample_host_children. Qed.
#[global] Instance refusing_fresh : FreshDescriptors (H := refusing_host).
Proof. split; intros; apply next_above_fresh. Qed.
#[global] Instance refusing_children : FreshChildren (H := refusing_host).
Proof. split; intros; apply next_above_fresh. Qed.
#[global] Instance dead_vmm_fresh : FreshDescriptors (H := dead_vmm_host).
Proof. split; intros; apply next_above_fresh. Qed.

Definition lc_manager : SandboxManager := SandboxManager_init None None "/var/run/aegis".
Definition lc_config : SandboxConfig := default_config "sbx-1".

Lemma lc_good : sm_good ∅ ∅ (lc_manager, []).
Proof. by apply (initial_good None None "/var/run/aegis" []). Qed.

(** The state after a successful creation. *)
Definition lc_created : SM := (create_sandbox (host := lc_host) lc_config (lc_manager, [])).2.

Lemma lc_created_run :
  create_sandbox (host := lc_host) lc_config (lc_manager, []) =
  (Ret Success, (lc_created.1, lc_created.2)).
Proof. vm_compute. reflexivity. Qed.

Lemma lc_created_good : sm_good ∅ ∅ (lc_created.1, lc_created.2).
Proof. exact (create_success_good (host := lc_host) _ _ _ _ _ _ _ lc_good lc_created_run). Qed.


(** The state after a boot that timed out. *)
Definition lc_timeout : SM := (create_sandbox (host := dead_vmm_host) lc_config (lc_manager, [])).2.

Lemma create_sandbox_failure_witness :
  create_sandbox (host := dead_vmm_host) lc_config (lc_manager, []) =
    (Ret ErrMicroVMBootFailed, (lc_timeout.1, lc_timeout.2)) /\
  lc_timeout.1 = lc_manager /\ open_fds lc_timeout.2 = ∅ /\ unkilled_pids lc_timeout.2 = {[3]}.
Proof.
  assert (Hrun : create_sandbox (host := dead_vmm_host) lc_config (lc_manager, []) =
    (Ret ErrMicroVMBootFailed, (lc_timeout.1, lc_timeout.2))) by (vm_compute; reflexivity).
  destruct (create_sandbox_failure (host := dead_vmm_host) ∅ ∅ lc_config lc_manager lc_timeout.1 []
    lc_timeout.2 ErrMicroVMBootFailed lc_good Hrun ltac:(discriminate)) as (Hm & Hf & _).
  split; [exact Hrun|]. split; [exact Hm|]. split; [exact Hf|]. vm_compute. reflexivity.
Defined.

Definition lc_stuck : SM := (create_sandbox (host := refusing_host) lc_config (lc_manager, [])).2.

Lemma create_sandbox_deadlock_witness :
  create_sandbox (host := refusing_host) lc_config (lc_manager, []) =
    (Deadlock, (lc_stuck.1, lc_stuck.2)) /\
  SandboxManager_dtor (lc_stuck.1, lc_stuck.2) = (Deadlock, (lc_stuck.1, lc_stuck.2)).
Proof.
  assert (Hrun : create_sandbox (host := refusing_host) lc_config (lc_manager, []) =
    (Deadlock, (lc_stuck.1, lc_stuck.2))) by (vm_compute; reflexivity).
  split; [exact Hrun|].
  apply (proj2 (create_sandbox_deadlock (host := refusing_host) ∅ ∅ lc_config lc_manager lc_stuck.1 []
    lc_stuck.2 lc_good) Hrun).
Defined.

Lemma terminate_sandbox_spec_witness :
  exists st m' h', terminate_sandbox (host := lc_host) "sbx-1" true (lc_created.1, lc_created.2) = (Ret st, (m', h')) /\
    (st = Success <-> is_Some (m_sandboxes lc_created.1 !! "sbx-1")).
Proof.
  destruct (terminate_sandbox_spec (host := lc_host) ∅ ∅ lc_created.1 lc_created.2 "sbx-1" true
    lc_created_good) as (st & m' & h' & Hrun & Hst & _).
  exists st, m', h'. split; [exact Hrun|exact Hst].
Defined.

Lemma create_terminate_roundtrip_witness :
  exists h2, terminate_sandbox (host := lc_host) "sbx-1" true (lc_created.1, lc_created.2) =
    (Ret Success, (lc_manager, h2)) /\ open_fds h2 = ∅ /\ unkilled_pids h2 = ∅ /\
    sm_good ∅ ∅ (lc_manager, h2).
Proof.
  apply (create_terminate_roundtrip (host := lc_host) ∅ ∅ lc_config lc_manager lc_created.1 []
    lc_created.2 true lc_good lc_created_run).
Defined.

Lemma execute_code_spec_witness :
  exists res h', execute_code (host := lc_host) "sbx-1" "print(1)" (lc_created.1, lc_created.2) =
    (Ret res, (lc_created.1, h')) /\ er_exit_code res = 0 /\
    er_stdout_output res = "HTTP/1.1 204 No Content".
Proof.
  destruct (execute_code_spec (host := lc_host) ∅ ∅ lc_created.1 lc_created.2 "sbx-1" "print(1)"
    lc_created_good) as (res & h' & Hrun & _ & _ & _ & _ & Hres).
  exists res, h'. split; [exact Hrun|]. vm_compute in Hres. exact (proj2 Hres).
Defined.

Definition lc_ops : list sm_op :=
  [OpCreate lc_config; OpCreate (default_config "sbx-2"); OpExecute "sbx-1" "print(1)";
   OpMetadata "sbx-1"; OpTerminate "sbx-1" true; OpTerminate "sbx-1" true].
Definition lc_results : list sm_result :=
  match (run_sm_ops (host := lc_host) lc_ops (lc_manager, [])).1 with Ret rs => rs | _ => [] end.
Definition lc_final : SM := (run_sm_ops (host := lc_host) lc_ops (lc_manager, [])).2.

Lemma manager_refines_registry_witness :
  length lc_results = 6%nat /\
  exists pre post rs s, lc_ops = pre ++ post /\
    run_sm_ops (host := lc_host) pre (lc_manager, []) = (Ret rs, s) /\
    registry_trace pre ∅ rs (registry_of s.1) /\
    match post with
    | [] => True
    | op :: _ => exists config, op = OpCreate config /\
        returns (create_sandbox (host := lc_host) config s).1 = false /\
        sc_sandbox_id config <> "" /\ registry_of s.1 !! sc_sandbox_id config = None
    end.
Proof.
  split; [vm_compute; reflexivity|].
  apply (manager_refines_registry (host := lc_host) lc_ops None None "/var/run/aegis" []); discriminate.
Defined.

Lemma manager_balance_witness :
  exists (leaked : gset Z) m' h', SandboxManager_dtor lc_final = (Ret tt, (m', h')) /\
    m_sandboxes m' = ∅ /\ m_cgroups (m_cgroup_manager m') = ∅ /\ open_fds h' = ∅ /\
    unkilled_pids h' = leaked ∪ ∅ /\ (size leaked <= timeouts lc_results)%nat /\
    vmms lc_final.1 ## unkilled_pids h'.
Proof.
  apply (manager_balance (host := lc_host) lc_ops None None "/var/run/aegis" [] lc_final lc_results);
    [discriminate|discriminate|vm_compute; reflexivity].
Defined.

Definition etc_run : outcome Status * SM :=
  create_sandbox (host := dead_vmm_host) (default_config "/etc") (lc_manager, []).

(** A boot failure of the sandbox [/etc] removes /etc. *)
Lemma absolute_id_removes_host_directory_witness :
  etc_run.1 = Ret ErrMicroVMBootFailed /\ exists h1, etc_run.2.2 = EvRemoveAll "/etc" :: h1.
Proof.
  split; [vm_compute; reflexivity|].
  apply (absolute_id_removes_host_directory (host := dead_vmm_host) ∅ ∅ (default_config "/etc")
    lc_manager etc_run.2.1 [] etc_run.2.2 ErrMicroVMBootFailed lc_good);
    [reflexivity|reflexivity|vm_compute; reflexivity|discriminate].
Defined.
