(* ===== verification/Enforcement.v ===== *)
(** * Enforcement: from a policy to what the kernel does

    The map updates [SandboxManager::apply_ebpf_policies] makes, read by the
    eBPF programs: which calls of a sandboxed task are killed, how this relates
    to [PolicyEngine::eval_syscall], what termination undoes, and what the
    split of the maps over three object files leaves out.  A map is read off the
    history: the value of the last accepted update of a key. *)
From S2P Require Import Prelude Text Host Aegis PolicyEngine CgroupManager EBPFLoader Probes MicroVM.
From S2P Require Import SandboxManager Lifecycle.

(** [max_entries] of the hash of monitored cgroups and of the array of policies. *)
Definition MAX_CGROUPS : nat := 1024.
Definition MAX_SYSCALLS : Z := 512.

(** The maps a loaded object gives the two syscall-filter lookups: a hash, whose missing keys
    are not found, and an array, whose entries are 0 until they are written. *)
Definition monitored_cgroups `{Host} (obj : option Z) (h : history) : Z -> option Z :=
  map_value h (monitored_fd obj).
Definition syscall_policy `{Host} (obj : option Z) (h : history) (nr : Z) : option Z :=
  if (0 <=? nr) && (nr <? MAX_SYSCALLS)
  then Some (default 0 (map_value h (map_fd_of obj "aegis_syscall_policy") nr)) else None.

(** The object the loader holds: the maps of the syscall filter, and what bpf(2) documents of
    updates with BPF_ANY: the hash accepts a key exactly when it has it or has room for it,
    the array accepts every index. *)
Record filter_object `{Host} (obj : option Z) : Prop := {
  fo_monitored : 0 <= monitored_fd obj;
  fo_syscalls : 0 <= map_fd_of obj "aegis_syscall_policy";
  fo_distinct : monitored_fd obj <> map_fd_of obj "aegis_syscall_policy";
  fo_ips_syscalls : map_fd_of obj "aegis_blocked_ips" <> map_fd_of obj "aegis_syscall_policy";
  fo_ips_monitored : map_fd_of obj "aegis_blocked_ips" <> monitored_fd obj;
  fo_hash : forall h k v, bpf_map_update h (monitored_fd obj) k v = 0 <->
    k ∈ map_keys h (monitored_fd obj) \/ (size (map_keys h (monitored_fd obj)) < MAX_CGROUPS)%nat;
  fo_array_accepts : forall h k v, 0 <= k < MAX_SYSCALLS ->
    bpf_map_update h (map_fd_of obj "aegis_syscall_policy") k v = 0
}.

(** The hash of monitored cgroups has room for another key. *)
Definition has_room `{Host} (obj : option Z) (h : history) : Prop :=
  (size (map_keys h (monitored_fd obj)) < MAX_CGROUPS)%nat.
#[global] Instance has_room_dec `{Host} obj h : Decision (has_room obj h).
Proof. unfold has_room. apply _. Defined.

(** The numbers a policy blocks are indices of the array. *)
Definition numbers_in_range (p : SecurityPolicy) : Prop :=
  forall nr, nr ∈ blocked_syscalls (syscall_rule p) -> 0 <= nr < MAX_SYSCALLS.

Section Pushed.
Context {host : Host}.

Lemma push_other h fd k v fd' k' :
  (fd, k) <> (fd', k') -> map_value (push h (fd, k, v)) fd' k' = map_value h fd' k'.
Proof.
  intros Hne. unfold push. destruct (fd <? 0); [done|]. cbn [map_value].
  destruct (Z.eqb_spec fd fd'), (Z.eqb_spec k k'); simpl; try done. congruence.
Qed.

Lemma push_same h fd k v :
  0 <= fd -> bpf_map_update h fd k v = 0 -> map_value (push h (fd, k, v)) fd k = Some v.
Proof.
  intros Hfd Hacc. unfold push. rewrite (proj2 (Z.ltb_ge fd 0) Hfd). cbn [map_value].
  by rewrite Hacc, !Z.eqb_refl.
Qed.

Lemma push_refused h fd k v fd' k' :
  bpf_map_update h fd k v <> 0 -> map_value (push h (fd, k, v)) fd' k' = map_value h fd' k'.
Proof.
  intros Hacc. unfold push. destruct (fd <? 0); [done|]. cbn [map_value].
  by rewrite (proj2 (Z.eqb_neq _ 0) Hacc), andb_false_r.
Qed.

Lemma push_all_other us h fd k :
  Forall (fun u => u.1.1 <> fd) us -> map_value (push_all h us) fd k = map_value h fd k.
Proof.
  unfold push_all. intros Hall. revert h. induction Hall as [|[[fd0 k0] v0] us Hne _ IH]; intros h;
    cbn [fold_left]; [done|]. rewrite IH. apply push_other. simpl in Hne. congruence.
Qed.

(** After updates that all write 1, a key of a map that accepts them holds 1 exactly when it
    was updated or held it. *)
Lemma push_all_value us h fd k :
  Forall (fun u => u.2 = 1) us -> 0 <= fd ->
  (forall h0 k0, (fd, k0, 1) ∈ us -> bpf_map_update h0 fd k0 1 = 0) ->
  map_value (push_all h us) fd k =
  if bool_decide ((fd, k, 1) ∈ us) then Some 1 else map_value h fd k.
Proof.
  unfold push_all. intros Hall Hfd. revert h. induction us as [|[[fd0 k0] v0] us IH]; intros h Hacc; cbn [fold_left].
  { rewrite bool_decide_false; [done|]. apply not_elem_of_nil. }
  apply Forall_cons in Hall as [Hv Hall]. simpl in Hv. subst v0.
  rewrite IH by (done || intros ? ? ?; apply Hacc; by right).
  destruct (decide ((fd, k, 1) ∈ us)) as [Hin|Hin].
  { rewrite !bool_decide_true; [done|by right|done]. }
  rewrite (bool_decide_false _ Hin). destruct (decide (fd0 = fd /\ k0 = k)) as [[-> ->]|Hne].
  - rewrite bool_decide_true by (by left). apply push_same; [done|]. apply Hacc. by left.
  - rewrite bool_decide_false by (rewrite elem_of_cons; naive_solver).
    apply push_other. naive_solver.
Qed.

Lemma policy_pushes_ones obj cg pol : Forall (fun u => u.2 = 1) (policy_pushes obj cg pol).
Proof.
  unfold policy_pushes, syscall_pushes. constructor; [done|]. destruct pol as [p|]; [|constructor].
  apply Forall_app. split; [apply Forall_fmap, Forall_forall; by intros|].
  destruct (block_cloud_metadata _); repeat constructor.
Qed.

(** Where the updates of a policy go, when the three maps are different. *)
Lemma policy_pushes_syscall obj cg p nr :
  let fd := map_fd_of obj "aegis_syscall_policy" in
  fd <> monitored_fd obj -> fd <> map_fd_of obj "aegis_blocked_ips" ->
  (fd, nr, 1) ∈ policy_pushes obj cg (Some p) <-> nr ∈ blocked_syscalls (syscall_rule p).
Proof.
  intros fd Hm Hb. unfold policy_pushes, syscall_pushes. rewrite elem_of_cons, elem_of_app, list_elem_of_fmap.
  rewrite <- elem_of_elements. split.
  - intros [[= ? ?]|[(n & [= ->] & Hn)|Hx]]; [done|done|].
    destruct (block_cloud_metadata _); [|by apply not_elem_of_nil in Hx].
    apply list_elem_of_singleton in Hx as [= ? ?]. done.
  - intros Hn. right. left. by exists nr.
Qed.

(** Only the first update of a policy goes to the hash of monitored cgroups. *)
Lemma policy_pushes_monitored obj h cg pol cg' :
  let fd := monitored_fd obj in
  fd <> map_fd_of obj "aegis_syscall_policy" -> map_fd_of obj "aegis_blocked_ips" <> fd ->
  map_value (push_all h (policy_pushes obj cg pol)) fd cg' = map_value (push h (fd, cg, 1)) fd cg'.
Proof.
  intros fd Hs Hb. unfold policy_pushes, syscall_pushes. unfold push_all at 1. cbn [fold_left].
  apply push_all_other. destruct pol as [p|]; [|constructor]. apply Forall_app. split.
  - apply Forall_fmap, Forall_forall. intros nr _. simpl. congruence.
  - destruct (block_cloud_metadata _); by repeat constructor.
Qed.

(** The keys are determined by the values. *)
Lemma same_maps_keys h h' fd : same_maps h h' -> map_keys h' fd = map_keys h fd.
Proof. intros Hs. apply set_eq. intros k. by rewrite !map_keys_value, Hs. Qed.

(** An update of the hash of monitored cgroups, accepted or refused. *)
Lemma monitor_push obj h h0 k v cg :
  filter_object obj -> same_maps h h0 ->
  map_value (push h0 (monitored_fd obj, k, v)) (monitored_fd obj) cg =
  if bool_decide (cg = k /\ (k ∈ map_keys h (monitored_fd obj) \/ has_room obj h)) then Some v
  else monitored_cgroups obj h cg.
Proof.
  intros Hfo Hs. pose proof (fo_hash _ Hfo h0 k v) as Hacc.
  rewrite (same_maps_keys h h0) in Hacc by done. unfold monitored_cgroups. rewrite <- Hs.
  case_bool_decide as Hb.
  - destruct Hb as [-> Hb]. apply push_same; [apply (fo_monitored _ Hfo)|]. by apply Hacc.
  - destruct (decide (cg = k)) as [->|Hne]; [|by apply push_other; congruence].
    apply push_refused. rewrite Hacc. intros Hk. apply Hb. by split.
Qed.
End Pushed.

Section Theorems.
Context {host : Host} `{!FreshDescriptors} `{!FreshChildren}.

Lemma keeps_elem h h' ev : keeps h h' -> ev ∈ h -> ev ∈ h'.
Proof. intros (new & -> & _) Hin. apply elem_of_app. by right. Qed.

(** The end of a creation whose microVM accepted its boot request. *)
Lemma booted_records F P config m h inst start info h1 h2 :
  sm_good F P (m, h) -> vm_ready F config m h inst info h1 ->
  boot_request config inst (mid config m info, h1) = (Ret Success, (mid config m info, h2)) ->
  exists t, boot_and_record config inst start (mid config m info, h1) =
    (Ret Success, (set_sandboxes <[sc_sandbox_id config := activate (t - start) inst]> (mid config m info),
                   EvClock t :: policy_history m config (cgroup_id info) h2)) /\
    same_maps h h2.
Proof.
  intros (_ & Hwf & Hled) Hvm Hb. destruct (vr_inst _ _ _ _ _ _ _ Hvm) as (Hcfg & _).
  destruct (vr_info _ _ _ _ _ _ _ Hvm) as (_ & _ & Hnz & _).
  destruct (accepted_boot_records config inst start (mid config m info) h1 h2 info) as (t & Ht); try done.
  - by apply mid_wf.
  - apply (ledger_cg_mutex _ _ _ Hled).
  - simpl. by rewrite lookup_insert_eq.
  - exists t. split; [exact Ht|].
    destruct (boot_request_run config inst (mid config m info) h1) as (r & h2' & Hb' & (_ & _ & Hq) & _).
    rewrite Hb in Hb'. injection Hb' as <- <-. intros fd k. by rewrite Hq, (vr_maps _ _ _ _ _ _ _ Hvm).
Qed.

(** What the maps hold after a successful creation. *)
Lemma created_maps F P config m h m' h' l e p :
  sm_good F P (m, h) -> m_ebpf_loader m = Some l -> m_policy_engine m = Some e ->
  m_policies e !! security_policy_name config = Some p -> filter_object (m_bpf_obj l) ->
  numbers_in_range p -> create_sandbox config (m, h) = (Ret Success, (m', h')) ->
  exists info, m_cgroups (m_cgroup_manager m') !! sc_sandbox_id config = Some info /\
    (forall cg, monitored_cgroups (m_bpf_obj l) h' cg =
       if bool_decide (cg = cgroup_id info /\
            (cgroup_id info ∈ map_keys h (monitored_fd (m_bpf_obj l)) \/ has_room (m_bpf_obj l) h))
       then Some 1 else monitored_cgroups (m_bpf_obj l) h cg) /\
    (forall nr, syscall_policy (m_bpf_obj l) h' nr =
       if bool_decide (nr ∈ blocked_syscalls (syscall_rule p)) then Some 1
       else syscall_policy (m_bpf_obj l) h nr).
Proof.
  intros Hgood Hl He Hp Hfo Hnum Hrun. pose proof Hfo as [Hm Hs Hd Hi1 Hi2 _ Haa].
  destruct (create_cases F P config m h Hgood) as (r & m1 & h1 & Hr & Hc).
  rewrite Hrun in Hr. injection Hr as <- <- <-.
  destruct Hc as (_ & _ & inst & info & h2 & t & -> & _ & _ & _ & _ & _ & Hmaps & -> & _).
  exists info. split; [simpl; by rewrite lookup_insert_eq|]. unfold policy_history. rewrite Hl, He, Hp.
  split; intros k.
  - unfold monitored_cgroups at 1. cbn [map_value]. rewrite policy_pushes_monitored by done.
    by apply monitor_push.
  - assert (Hblk : forall n, (map_fd_of (m_bpf_obj l) "aegis_syscall_policy", n, 1) ∈
      policy_pushes (m_bpf_obj l) (cgroup_id info) (Some p) <-> n ∈ blocked_syscalls (syscall_rule p))
      by (intros n; apply policy_pushes_syscall; congruence).
    unfold syscall_policy. cbn [map_value].
    rewrite push_all_value, Hmaps; [|apply policy_pushes_ones|done|intros h0 k0 Hk%Hblk; by apply Haa, Hnum].
    rewrite (bool_decide_ext _ _ (Hblk k)). case_bool_decide as Hin; [|done].
    apply Hnum in Hin. by rewrite (proj2 (Z.leb_le 0 k)), (proj2 (Z.ltb_lt k MAX_SYSCALLS)) by lia.
Qed.

(** C1: the kernel kills what the policy blocks: once a sandbox is created under a policy
    whose blocked numbers are below 512, with a loaded syscall filter that blocks nothing yet
    and has room, the filter program, which is attached by another call, decides that every call of a task in its
    cgroup is killed exactly when the policy's block list contains its number; the calls of
    tasks in cgroups that were never monitored are untouched. *)
Theorem blocked_syscalls_killed (F P : gset Z) (config : SandboxConfig) (m m' : SandboxManager)
    (h h' : history) (l : EBPFLoader) (e : PolicyEngine) (p : SecurityPolicy) :
  sm_good F P (m, h) -> m_ebpf_loader m = Some l -> m_policy_engine m = Some e ->
  m_policies e !! security_policy_name config = Some p -> filter_object (m_bpf_obj l) ->
  numbers_in_range p -> (forall nr, syscall_policy (m_bpf_obj l) h nr <> Some 1) ->
  has_room (m_bpf_obj l) h ->
  create_sandbox config (m, h) = (Ret Success, (m', h')) ->
  exists info, m_cgroups (m_cgroup_manager m') !! sc_sandbox_id config = Some info /\
  forall reserve t id,
    let acts := (handle_sys_enter (monitored_cgroups (m_bpf_obj l) h')
                   (syscall_policy (m_bpf_obj l) h') reserve t id).2 in
    (t_cgroup_id t = cgroup_id info ->
       SendSignal SIGKILL ∈ acts <-> u32 id ∈ blocked_syscalls (syscall_rule p)) /\
    (t_cgroup_id t <> cgroup_id info -> monitored_cgroups (m_bpf_obj l) h (t_cgroup_id t) = None ->
       acts = []).
Proof.
  intros Hgood Hl He Hp Hfo Hnum Hempty Hroom Hrun.
  destruct (created_maps F P config m h m' h' l e p Hgood Hl He Hp Hfo Hnum Hrun) as (info & Hinfo & Hmon & Hpol).
  exists info. split; [done|]. intros reserve t id acts. subst acts. split.
  - intros Ht. rewrite sys_enter_kills_iff, Ht, Hmon, bool_decide_true, Hpol by auto.
    specialize (Hempty (u32 id)). case_bool_decide; naive_solver.
  - intros Ht Hnone. rewrite handle_sys_enter_idle; [done|]. left.
    by rewrite Hmon, bool_decide_false, Hnone by naive_solver.
Qed.

(** C21: the kernel enforces the block list only: under a policy whose blocked numbers are
    below 512, a call of the new sandbox that the filter kills is one [eval_syscall] denies,
    unless its entry of the shared array was already 1 before the creation; and a call that is
    neither blocked nor whitelisted, under a policy that denies by default and with an entry
    that was not 1, is denied by [eval_syscall] and runs. *)
Theorem kernel_enforces_block_list_only (F P : gset Z) (config : SandboxConfig)
    (m m' : SandboxManager) (h h' : history) (l : EBPFLoader) (e : PolicyEngine) (p : SecurityPolicy) :
  sm_good F P (m, h) -> m_ebpf_loader m = Some l -> m_policy_engine m = Some e ->
  m_policies e !! security_policy_name config = Some p -> filter_object (m_bpf_obj l) ->
  numbers_in_range p ->
  create_sandbox config (m, h) = (Ret Success, (m', h')) ->
  exists info, m_cgroups (m_cgroup_manager m') !! sc_sandbox_id config = Some info /\
  forall reserve t id, t_cgroup_id t = cgroup_id info ->
    let acts := (handle_sys_enter (monitored_cgroups (m_bpf_obj l) h')
                   (syscall_policy (m_bpf_obj l) h') reserve t id).2 in
    (SendSignal SIGKILL ∈ acts ->
       eval_syscall (security_policy_name config) (u32 id) (e, h') = (Ret false, (e, h')) \/
       syscall_policy (m_bpf_obj l) h (u32 id) = Some 1) /\
    (u32 id ∉ blocked_syscalls (syscall_rule p) -> u32 id ∉ allowed_syscalls (syscall_rule p) ->
     default_allow (syscall_rule p) = false -> syscall_policy (m_bpf_obj l) h (u32 id) <> Some 1 ->
       eval_syscall (security_policy_name config) (u32 id) (e, h') = (Ret false, (e, h')) /\ acts = []).
Proof.
  intros Hgood Hl He Hp Hfo Hnum Hrun. pose proof Hgood as (_ & Hwf & _).
  destruct (created_maps F P config m h m' h' l e p Hgood Hl He Hp Hfo Hnum Hrun) as (info & Hinfo & _ & Hpol).
  exists info. split; [done|]. intros reserve t id Ht acts. subst acts.
  rewrite eval_syscall_run, Hp by (by apply (wf_engine _ Hwf)). split.
  - rewrite sys_enter_kills_iff, Hpol. intros [_ Hb]. case_bool_decide as Hin; [left|by right].
    unfold syscall_rule_allows. by rewrite bool_decide_true.
  - intros Hnb Hna Hd Hold. split.
    + unfold syscall_rule_allows. by rewrite !bool_decide_false, Hd.
    + rewrite handle_sys_enter_idle; [done|]. right. rewrite Hpol, bool_decide_false by done.
      apply not_true_is_false. by rewrite is_one_iff.
Qed.

(** The maps after termination: the cgroup is marked unmonitored, if the hash accepts it;
    nothing else changes. *)
Lemma terminated_maps F P m h id b m' h' l inst :
  sm_good F P (m, h) -> m_ebpf_loader m = Some l -> filter_object (m_bpf_obj l) ->
  m_sandboxes m !! id = Some inst -> terminate_sandbox id b (m, h) = (Ret Success, (m', h')) ->
  exists info, m_cgroups (m_cgroup_manager m) !! id = Some info /\ m_ebpf_loader m' = Some l /\
    m_policy_engine m' = m_policy_engine m /\ sm_good F P (m', h') /\
    (forall cg, monitored_cgroups (m_bpf_obj l) h' cg =
       if bool_decide (cg = cgroup_id info /\
            (cgroup_id info ∈ map_keys h (monitored_fd (m_bpf_obj l)) \/ has_room (m_bpf_obj l) h))
       then Some 0 else monitored_cgroups (m_bpf_obj l) h cg) /\
    (forall nr, syscall_policy (m_bpf_obj l) h' nr = syscall_policy (m_bpf_obj l) h nr).
Proof.
  intros Hgood Hl Hfo Hi Hrun. pose proof (fo_distinct _ Hfo) as Hd.
  destruct (terminate_good F P m h id inst b Hgood Hi) as (info & h1 & Hinfo & Hx & Hh & Hg).
  rewrite Hrun in Hx. simplify_eq. exists info.
  split; [done|]. split; [done|]. split; [done|]. split; [done|].
  unfold released, unmonitor. rewrite Hl. split.
  - intros cg. unfold monitored_cgroups at 1. cbn [map_value]. by apply monitor_push.
  - intros nr. unfold syscall_policy. cbn [map_value]. rewrite push_other; [done|congruence].
Qed.

(** C24: termination stops enforcement for the sandbox's cgroup, but not its policy: no call
    of a task that is still in that cgroup is acted on any more, while every number that was
    blocked stays blocked in the shared array, for whatever sandbox comes next. *)
Theorem terminate_unmonitors (F P : gset Z) (m m' : SandboxManager) (h h' : history) (id : string)
    (b : bool) (l : EBPFLoader) (inst : SandboxInstance) :
  sm_good F P (m, h) -> m_ebpf_loader m = Some l -> filter_object (m_bpf_obj l) ->
  m_sandboxes m !! id = Some inst -> terminate_sandbox id b (m, h) = (Ret Success, (m', h')) ->
  exists info, m_cgroups (m_cgroup_manager m) !! id = Some info /\
    (forall reserve t sys_id, t_cgroup_id t = cgroup_id info ->
       handle_sys_enter (monitored_cgroups (m_bpf_obj l) h') (syscall_policy (m_bpf_obj l) h')
         reserve t sys_id = (0, [])) /\
    (forall nr, syscall_policy (m_bpf_obj l) h' nr = syscall_policy (m_bpf_obj l) h nr).
Proof.
  intros Hgood Hl Hfo Hi Hrun.
  destruct (terminated_maps F P m h id b m' h' l inst Hgood Hl Hfo Hi Hrun)
    as (info & Hinfo & _ & _ & _ & Hmon & Hpol).
  exists info. split; [done|]. split; [|done]. intros reserve t sys_id Ht.
  apply handle_sys_enter_idle. left. rewrite Ht, Hmon. case_bool_decide as Hacc; [done|].
  destruct (monitored_cgroups (m_bpf_obj l) h (cgroup_id info)) eqn:Em; [|done].
  destruct Hacc. split; [done|]. left. apply map_keys_value. eauto.
Qed.

(** C22: policies accumulate across sandboxes: after a sandbox under policy [p1] has come and
    gone, a sandbox under policy [p2] is killed for the numbers blocked by either, although
    its own policy may not block them. *)
Theorem policies_accumulate (F P : gset Z) (c1 c2 : SandboxConfig) (m m1 m2 m3 : SandboxManager)
    (h h1 h2 h3 : history) (b : bool) (l : EBPFLoader) (e : PolicyEngine) (p1 p2 : SecurityPolicy) :
  sm_good F P (m, h) -> m_ebpf_loader m = Some l -> m_policy_engine m = Some e ->
  m_policies e !! security_policy_name c1 = Some p1 ->
  m_policies e !! security_policy_name c2 = Some p2 ->
  filter_object (m_bpf_obj l) -> numbers_in_range p1 -> numbers_in_range p2 ->
  (forall nr, syscall_policy (m_bpf_obj l) h nr <> Some 1) ->
  create_sandbox c1 (m, h) = (Ret Success, (m1, h1)) ->
  terminate_sandbox (sc_sandbox_id c1) b (m1, h1) = (Ret Success, (m2, h2)) ->
  has_room (m_bpf_obj l) h2 -> create_sandbox c2 (m2, h2) = (Ret Success, (m3, h3)) ->
  exists info, m_cgroups (m_cgroup_manager m3) !! sc_sandbox_id c2 = Some info /\
  forall reserve t id, t_cgroup_id t = cgroup_id info ->
    SendSignal SIGKILL ∈ (handle_sys_enter (monitored_cgroups (m_bpf_obj l) h3)
                            (syscall_policy (m_bpf_obj l) h3) reserve t id).2 <->
    u32 id ∈ blocked_syscalls (syscall_rule p1) ∪ blocked_syscalls (syscall_rule p2).
Proof.
  intros Hgood Hl He Hp1 Hp2 Hfo Hn1 Hn2 Hempty Hr1 Hr2 Hroom Hr3.
  destruct (created_maps F P c1 m h m1 h1 l e p1 Hgood Hl He Hp1 Hfo Hn1 Hr1) as (_ & _ & _ & Hpol1).
  destruct (create_cases F P c1 m h Hgood) as (r & m1' & h1' & Hr & Hc).
  rewrite Hr1 in Hr. simplify_eq.
  destruct Hc as (Hg1 & _ & inst & info1 & _ & _ & -> & _ & _ & _ & Hnone & _).
  destruct (terminated_maps F P _ h1' (sc_sandbox_id c1) b m2 h2 l inst Hg1 Hl Hfo
    ltac:(by simpl; rewrite lookup_insert_eq) Hr2) as (_ & _ & Hl2 & He2 & Hg2 & _ & Hpol2).
  assert (He2' : m_policy_engine m2 = Some e) by (rewrite He2; exact He).
  destruct (created_maps F P c2 m2 h2 m3 h3 l e p2 Hg2 Hl2 He2' Hp2 Hfo Hn2 Hr3)
    as (info & Hinfo & Hmon3 & Hpol3).
  exists info. split; [done|]. intros reserve t id Ht.
  rewrite sys_enter_kills_iff, Ht, Hmon3, bool_decide_true, Hpol3, Hpol2, Hpol1 by auto.
  specialize (Hempty (u32 id)). rewrite elem_of_union. repeat case_bool_decide; naive_solver.
Qed.

(** C23: enforcement ends when the hash of monitored cgroups is full: with the syscall filter
    loaded and no room in the hash, a sandbox whose microVM starts and accepts its boot request
    in a cgroup that was never monitored is reported as created and recorded as running, the
    kernel having refused the update that monitors it, and none of its calls is acted on. *)
Theorem full_hash_unenforced (F P : gset Z) (config : SandboxConfig) (m m1 : SandboxManager)
    (h h1 h2 : history) (l : EBPFLoader) (e : PolicyEngine) (inst : SandboxInstance) (start : Z)
    (info : CgroupInfo) :
  sm_good F P (m, h) -> m_ebpf_loader m = Some l -> m_policy_engine m = Some e ->
  filter_object (m_bpf_obj l) -> ~ has_room (m_bpf_obj l) h ->
  sc_sandbox_id config <> "" -> m_sandboxes m !! sc_sandbox_id config = None ->
  acquire_vm config (set_mutex true m, h) = (Ret (inr (inst, start)), (m1, h1)) ->
  boot_request config inst (m1, h1) = (Ret Success, (m1, h2)) ->
  m_cgroups (m_cgroup_manager m1) !! sc_sandbox_id config = Some info ->
  cgroup_id info ∉ map_keys h (monitored_fd (m_bpf_obj l)) ->
  exists m' h', create_sandbox config (m, h) = (Ret Success, (m', h')) /\
    (exists inst', m_sandboxes m' !! sc_sandbox_id config = Some inst' /\
       md_state (si_metadata inst') = Running) /\
    (exists err, err <> 0 /\ EvMapUpdate (monitored_fd (m_bpf_obj l)) (cgroup_id info) 1 err ∈ h') /\
    forall reserve t id, t_cgroup_id t = cgroup_id info ->
      handle_sys_enter (monitored_cgroups (m_bpf_obj l) h') (syscall_policy (m_bpf_obj l) h')
        reserve t id = (0, []).
Proof.
  intros Hgood Hl He Hfo Hfull Hid Hnew Hacq Hb Hinfo Hcg.
  destruct (acquired_vm_ready F P config m h inst start m1 h1 Hgood Hid Hnew Hacq) as (info' & -> & Hvm).
  simpl in Hinfo. rewrite lookup_insert_eq in Hinfo. injection Hinfo as ->.
  pose proof (create_from_vm config m h inst start _ (proj1 Hgood) Hid Hnew Hacq) as Hrun.
  destruct (booted_records F P config m h inst start info h1 h2 Hgood Hvm Hb) as (t & Hbr & Hmaps).
  rewrite Hbr in Hrun. do 2 eexists. split; [exact Hrun|].
  split; [eexists; simpl; rewrite lookup_insert_eq; done|].
  pose proof (fo_hash _ Hfo h2 (cgroup_id info) 1) as Hacc. rewrite (same_maps_keys h h2) in Hacc by done.
  unfold policy_history. rewrite Hl, He. split.
  - eexists. split; [intros Hok; apply Hacc in Hok; naive_solver|].
    right. eapply keeps_elem; [unfold push_all; cbn [fold_left policy_pushes]; apply push_all_keeps|].
    unfold push. rewrite (proj2 (Z.ltb_ge _ 0) (fo_monitored _ Hfo)). left.
  - intros reserve tk id Ht. apply handle_sys_enter_idle. left.
    unfold monitored_cgroups at 1. cbn [snd map_value].
    rewrite policy_pushes_monitored, Ht, (monitor_push _ h) by (done || by destruct Hfo).
    rewrite bool_decide_false by naive_solver. unfold monitored_cgroups.
    destruct (map_value _ _ _) eqn:Ev; [|done]. destruct Hcg. apply map_keys_value. eauto.
Qed.
End Theorems.

(** ** The object files *)

(** A loaded object file defines exactly the maps [names]. *)
Definition defines_maps `{Host} (o : Z) (names : list string) : Prop :=
  forall n, (exists map, bpf_find_map o n = Some map /\ 0 <= bpf_map_fd map) <-> n ∈ names.

Definition object_files : list (list string) := [sys_filter_maps; net_filter_maps; process_monitor_maps].

Lemma map_fd_defined `{Host} o names n :
  defines_maps o names -> c_string n = n -> 0 <= map_fd_of (Some o) n -> n ∈ names.
Proof.
  intros Hd Hn Hfd. apply Hd. unfold map_fd_of in Hfd. rewrite Hn in Hfd.
  destruct (bpf_find_map o n) as [mp|]; [|lia]. by exists mp.
Qed.

(** C34: no single object file can enforce both halves of a policy: the loader keeps one
    object, and of the three the repository builds none defines both the syscall array and
    the blocked addresses.  With the syscall filter loaded, pushing a blocked address fails
    without effect, a failure [apply_ebpf_policies] ignores. *)
Theorem no_object_enforces_both {host : Host} (o : Z) (names : list string) (l : EBPFLoader)
    (h : history) (ip : Z) :
  names ∈ object_files -> defines_maps o names -> m_bpf_obj l = Some o -> el_mutex l = false ->
  ~ (0 <= map_fd_of (Some o) "aegis_syscall_policy" /\ 0 <= map_fd_of (Some o) "aegis_blocked_ips") /\
  (0 <= map_fd_of (Some o) "aegis_syscall_policy" ->
     set_blocked_ip ip true (l, h) = (Ret ErrEBPFProbeLoadFailed, (l, h))).
Proof.
  intros Hin Hd Ho Hm.
  assert (Hboth : ~ (0 <= map_fd_of (Some o) "aegis_syscall_policy" /\
                     0 <= map_fd_of (Some o) "aegis_blocked_ips")).
  { intros [H1%(map_fd_defined o names) H2%(map_fd_defined o names)]; try done.
    assert (Hno : Forall (fun ns => ~ ("aegis_syscall_policy" ∈ ns /\ "aegis_blocked_ips" ∈ ns)) object_files)
      by decide_by_vm.
    rewrite Forall_forall in Hno. by apply (Hno names Hin). }
  split; [done|]. intros Hs. rewrite set_blocked_ip_run by done. rewrite Ho. unfold setter_result.
  by rewrite (proj2 (Z.ltb_lt _ 0)) by lia.
Qed.

(** ** Witnesses: the syscall filter loaded on the sample machine *)

(** [map_keys] as a table that is built by insertions. *)
Fixpoint key_table (h : history) (fd : Z) : gmap Z unit :=
  match h with
  | [] => ∅
  | EvMapUpdate fd' k _ err :: h' =>
      if (fd' =? fd) && (err =? 0) then <[k := tt]> (key_table h' fd) else key_table h' fd
  | _ :: h' => key_table h' fd
  end.

Lemma dom_key_table h fd : dom (key_table h fd) = map_keys h fd.
Proof.
  induction h as [|ev h IH]; [apply dom_empty_L|]. destruct ev; cbn [key_table map_keys]; try exact IH.
  destruct (_ && _); [|exact IH]. by rewrite dom_insert_L, IH.
Qed.

Lemma size_key_table h fd : size (key_table h fd) = size (map_keys h fd).
Proof. by rewrite <- dom_key_table, size_dom. Qed.

Definition map_update_answer (h : history) (fd k v : Z) : Z :=
  if fd =? 101 then (if (0 <=? k) && (k <? MAX_SYSCALLS) then 0 else -7)
  else if bool_decide (is_Some (key_table h fd !! k)) || Nat.ltb (size (key_table h fd)) MAX_CGROUPS
  then 0 else -7.

Definition enf_host : Host := {|
  os_exists h p := Some true;
  os_create_directories h p := true;
  os_remove h p := true;
  os_write_file h p v := (true, true);
  os_read_file h p := None;
  os_stat h p := Some 4242;
  os_open h p fl := next_above (open_fds h);
  os_ioctl h fd name := 0;
  os_fork h := next_above (unkilled_pids h);
  os_socket h := next_above (open_fds h);
  os_connect h fd p := 0;
  os_write h fd data := Z.of_nat (String.length data);
  os_read h fd n := Some "HTTP/1.1 204 No Content";
  os_clock h := 0;
  bpf_open_file h p := Some 1;
  bpf_load h o := 0;
  bpf_programs o := [1];
  bpf_program_name p := Some "handle_sys_enter";
  bpf_find_program o n := if String.eqb n "handle_sys_enter" then Some 1 else None;
  bpf_attach h p t := Some 1;
  bpf_find_map o n := find_index n sys_filter_maps 100;
  bpf_map_fd m := m;
  bpf_map_update := map_update_answer;
  bpf_ring_new h fd := Some 1
|}.

#[global] Instance enf_fresh : FreshDescriptors (H := enf_host).
Proof. split; intros; apply next_above_fresh. Qed.
#[global] Instance enf_children : FreshChildren (H := enf_host).
Proof. split; intros; apply next_above_fresh. Qed.

Definition enf_loader : EBPFLoader :=
  {| el_mutex := false; m_bpf_obj := Some 1; m_bpf_links := []; m_programs := ∅; m_is_loaded := true |}.

(** A policy that blocks nothing and allows by default, next to strict_python. *)
Definition open_policy : SecurityPolicy :=
  {| policy_name := "open";
     syscall_rule := {| allowed_syscalls := ∅; blocked_syscalls := ∅; default_allow := true |};
     network_rule := {| block_all_egress := false; block_cloud_metadata := false; blocked_cidrs := [];
                        blocked_ips_network_order := [] |};
     max_execution_time_sec := 30 |}.
Definition enf_engine : PolicyEngine := (register_policy open_policy (make_PolicyEngine, [])).2.1.
Definition enf_manager : SandboxManager :=
  SandboxManager_init (Some enf_loader) (Some enf_engine) "/var/run/aegis".
Definition enf_config : SandboxConfig := default_config "sbx-1".

Lemma enf_good : sm_good ∅ ∅ (enf_manager, []).
Proof.
  apply (initial_good (Some enf_loader) (Some enf_engine) "/var/run/aegis" []);
    intros ? [= <-]; reflexivity.
Qed.

Lemma enf_object : filter_object (H := enf_host) (m_bpf_obj enf_loader).
Proof.
  split; try (vm_compute; (reflexivity || discriminate)).
  - intros h k v. change (map_update_answer h 100 k v = 0 <->
      k ∈ map_keys h 100 \/ (size (map_keys h 100) < MAX_CGROUPS)%nat).
    unfold map_update_answer. change (100 =? 101) with false. cbn iota.
    rewrite size_key_table. case_bool_decide as Hin; rewrite <- elem_of_dom, dom_key_table in Hin;
      cbn [orb]; [naive_solver|].
    destruct (Nat.ltb_spec (size (map_keys h 100)) MAX_CGROUPS); [naive_solver|].
    split; [done|]. intros [?|?]; [done|lia].
  - intros h k v Hk. change (map_update_answer h 101 k v = 0). unfold map_update_answer. simpl.
    by rewrite (proj2 (Z.leb_le 0 k)), (proj2 (Z.ltb_lt k _)) by lia.
Qed.

Lemma enf_empty nr : syscall_policy (H := enf_host) (m_bpf_obj enf_loader) [] nr <> Some 1.
Proof. unfold syscall_policy. simpl. by destruct (_ && _). Qed.

Lemma enf_room h : (size (map_keys h 100) < MAX_CGROUPS)%nat -> has_room (H := enf_host) (m_bpf_obj enf_loader) h.
Proof. done. Qed.

Lemma enf_strict : m_policies enf_engine !! "strict_python" = Some strict_python_policy.
Proof. vm_compute. reflexivity. Qed.

Lemma enf_numbers : numbers_in_range strict_python_policy.
Proof.
  intros nr. rewrite (proj2 strict_python_sets), !elem_of_union, !elem_of_singleton.
  unfold MAX_SYSCALLS. lia.
Qed.

Definition enf_created : SM := (create_sandbox (host := enf_host) enf_config (enf_manager, [])).2.
Lemma enf_created_run :
  create_sandbox (host := enf_host) enf_config (enf_manager, []) =
  (Ret Success, (enf_created.1, enf_created.2)).
Proof. vm_compute. reflexivity. Qed.

Lemma blocked_syscalls_killed_witness :
  exists info, m_cgroups (m_cgroup_manager enf_created.1) !! "sbx-1" = Some info /\
    forall reserve t id, t_cgroup_id t = cgroup_id info ->
      SendSignal SIGKILL ∈ (handle_sys_enter (monitored_cgroups (H := enf_host) (Some 1) enf_created.2)
        (syscall_policy (H := enf_host) (Some 1) enf_created.2) reserve t id).2 <->
      u32 id ∈ blocked_syscalls (syscall_rule strict_python_policy).
Proof.
  destruct (blocked_syscalls_killed (host := enf_host) ∅ ∅ enf_config enf_manager enf_created.1 []
    enf_created.2 enf_loader enf_engine strict_python_policy enf_good eq_refl eq_refl enf_strict
    enf_object enf_numbers enf_empty (enf_room [] ltac:(apply Nat.ltb_lt; vm_compute; reflexivity)) enf_created_run)
    as (info & Hinfo & Hk).
  exists info. split; [exact Hinfo|]. intros reserve t id. exact (proj1 (Hk reserve t id)).
Defined.

(** Under strict_python [execve] (59) is denied by the engine and not killed. *)
Lemma kernel_enforces_block_list_only_witness :
  exists info, m_cgroups (m_cgroup_manager enf_created.1) !! "sbx-1" = Some info /\
    forall reserve t, t_cgroup_id t = cgroup_id info ->
      eval_syscall "strict_python" 59 (enf_engine, enf_created.2) =
        (Ret false, (enf_engine, enf_created.2)) /\
      (handle_sys_enter (monitored_cgroups (H := enf_host) (Some 1) enf_created.2)
        (syscall_policy (H := enf_host) (Some 1) enf_created.2) reserve t 59).2 = [].
Proof.
  destruct (kernel_enforces_block_list_only (host := enf_host) ∅ ∅ enf_config enf_manager enf_created.1 []
    enf_created.2 enf_loader enf_engine strict_python_policy enf_good eq_refl eq_refl enf_strict
    enf_object enf_numbers enf_created_run) as (info & Hinfo & Hk).
  exists info. split; [exact Hinfo|]. intros reserve t Ht.
  apply (proj2 (Hk reserve t 59 Ht)).
  - rewrite (proj2 strict_python_sets), !elem_of_union, !elem_of_singleton. vm_compute. intuition discriminate.
  - rewrite (proj1 strict_python_sets). apply (bool_decide_eq_true_1 (_ ∉ _)). vm_compute. reflexivity.
  - reflexivity.
  - apply enf_empty.
Defined.

Lemma enf_created_good : sm_good ∅ ∅ (enf_created.1, enf_created.2).
Proof. exact (create_success_good (host := enf_host) _ _ _ _ _ _ _ enf_good enf_created_run). Qed.

Definition enf_terminated : SM :=
  (terminate_sandbox (host := enf_host) "sbx-1" true (enf_created.1, enf_created.2)).2.
Lemma enf_terminated_run :
  terminate_sandbox (host := enf_host) "sbx-1" true (enf_created.1, enf_created.2) =
  (Ret Success, (enf_terminated.1, enf_terminated.2)).
Proof. vm_compute. reflexivity. Qed.

Lemma enf_created_inst : exists inst, m_sandboxes enf_created.1 !! "sbx-1" = Some inst.
Proof. eexists. vm_compute. reflexivity. Qed.

Lemma terminate_unmonitors_witness :
  exists info, m_cgroups (m_cgroup_manager enf_created.1) !! "sbx-1" = Some info /\
    forall nr, syscall_policy (H := enf_host) (Some 1) enf_terminated.2 nr =
               syscall_policy (H := enf_host) (Some 1) enf_created.2 nr.
Proof.
  destruct enf_created_inst as [inst Hi].
  destruct (terminate_unmonitors (host := enf_host) ∅ ∅ enf_created.1 enf_terminated.1 enf_created.2
    enf_terminated.2 "sbx-1" true enf_loader inst enf_created_good eq_refl enf_object Hi
    enf_terminated_run) as (info & Hinfo & _ & Hpol).
  exists info. split; [exact Hinfo|exact Hpol].
Defined.

(** A sandbox under [open_policy] after one under strict_python. *)
Definition open_config : SandboxConfig :=
  {| sc_sandbox_id := "sbx-2"; sc_environment := Python311; resource_limits := default_limits;
     security_policy_name := "open"; use_snapshot_restore := true;
     firecracker_bin_path := ""; rootfs_image_path := ""; kernel_image_path := "";
     snapshot_dir_path := "" |}.
Definition enf_second : SM :=
  (create_sandbox (host := enf_host) open_config (enf_terminated.1, enf_terminated.2)).2.
Lemma enf_second_run :
  create_sandbox (host := enf_host) open_config (enf_terminated.1, enf_terminated.2) =
  (Ret Success, (enf_second.1, enf_second.2)).
Proof. vm_compute. reflexivity. Qed.
Lemma enf_open : m_policies enf_engine !! "open" = Some open_policy.
Proof. vm_compute. reflexivity. Qed.

(** [ptrace] (101), which [open_policy] does not block, is killed. *)
Lemma policies_accumulate_witness :
  exists info, m_cgroups (m_cgroup_manager enf_second.1) !! "sbx-2" = Some info /\
    forall reserve t, t_cgroup_id t = cgroup_id info ->
      SendSignal SIGKILL ∈ (handle_sys_enter (monitored_cgroups (H := enf_host) (Some 1) enf_second.2)
        (syscall_policy (H := enf_host) (Some 1) enf_second.2) reserve t 101).2.
Proof.
  destruct (policies_accumulate (host := enf_host) ∅ ∅ enf_config open_config enf_manager
    enf_created.1 enf_terminated.1 enf_second.1 [] enf_created.2 enf_terminated.2 enf_second.2 true
    enf_loader enf_engine strict_python_policy open_policy enf_good eq_refl eq_refl enf_strict
    enf_open enf_object enf_numbers (fun nr Hnr => False_ind _ (not_elem_of_empty nr Hnr))
    enf_empty enf_created_run enf_terminated_run (enf_room enf_terminated.2 ltac:(apply Nat.ltb_lt; vm_compute; reflexivity))
    enf_second_run) as (info & Hinfo & Hk).
  exists info. split; [exact Hinfo|]. intros reserve t Ht. apply (proj2 (Hk reserve t 101 Ht)).
  rewrite (proj2 strict_python_sets), !elem_of_union, !elem_of_singleton. vm_compute. tauto.
Defined.

(** A process that has monitored 1024 other cgroups. *)
Definition full_history : history := (fun k => EvMapUpdate 100 k 0 0) <$> seqZ 5000 1024.
Definition enf_locked : SandboxManager := set_mutex true enf_manager.
Definition full_vm : outcome (Status + SandboxInstance * Z) * SM :=
  acquire_vm (host := enf_host) enf_config (enf_locked, full_history).
Definition full_inst : SandboxInstance :=
  match full_vm.1 with Ret (inr (inst, _)) => inst | _ => prepare_instance enf_config "" 0 end.
Definition full_booted : history :=
  (boot_request (host := enf_host) enf_config full_inst full_vm.2).2.2.

Lemma full_vm_run :
  acquire_vm (host := enf_host) enf_config (enf_locked, full_history) =
  (Ret (inr (full_inst, 0)), (full_vm.2.1, full_vm.2.2)).
Proof. vm_compute. reflexivity. Qed.

Lemma full_boot_run :
  boot_request (host := enf_host) enf_config full_inst (full_vm.2.1, full_vm.2.2) =
  (Ret Success, (full_vm.2.1, full_booted)).
Proof. vm_compute. reflexivity. Qed.

Definition full_info : CgroupInfo :=
  {| ci_sandbox_id := "sbx-1"; cgroup_path := "/sys/fs/cgroup/aegis/sbx-1"; cgroup_id := 4242;
     cgroup_fd := 3; ci_limits := default_limits |}.

Lemma full_vm_cgroup : m_cgroups (m_cgroup_manager full_vm.2.1) !! "sbx-1" = Some full_info.
Proof. vm_compute. reflexivity. Qed.

(** The cgroup of the new sandbox is none of the 1024. *)
Lemma full_new : cgroup_id full_info ∉ map_keys full_history 100.
Proof. rewrite <- dom_key_table, not_elem_of_dom. vm_compute. reflexivity. Qed.

Lemma enf_full_good : sm_good (open_fds full_history) (unkilled_pids full_history) (enf_manager, full_history).
Proof.
  apply (initial_good (Some enf_loader) (Some enf_engine) "/var/run/aegis" full_history);
    intros ? [= <-]; reflexivity.
Qed.

Lemma enf_full : ~ has_room (H := enf_host) (m_bpf_obj enf_loader) full_history.
Proof.
  change (~ (size (map_keys full_history 100) < MAX_CGROUPS)%nat).
  rewrite <- size_key_table, Nat.lt_nge. intros Hlt. apply Hlt. apply Nat.leb_le. vm_compute. reflexivity.
Qed.

Lemma full_hash_unenforced_witness :
  exists m' h', create_sandbox (host := enf_host) enf_config (enf_manager, full_history) =
    (Ret Success, (m', h')) /\
    (exists inst', m_sandboxes m' !! "sbx-1" = Some inst' /\ md_state (si_metadata inst') = Running) /\
    (exists err, err <> 0 /\ EvMapUpdate 100 4242 1 err ∈ h') /\
    forall reserve t id, t_cgroup_id t = 4242 ->
      handle_sys_enter (monitored_cgroups (H := enf_host) (Some 1) h')
        (syscall_policy (H := enf_host) (Some 1) h') reserve t id = (0, []).
Proof.
  exact (full_hash_unenforced (host := enf_host) (open_fds full_history) (unkilled_pids full_history)
    enf_config enf_manager full_vm.2.1 full_history full_vm.2.2 full_booted enf_loader enf_engine
    full_inst 0 full_info enf_full_good eq_refl eq_refl enf_object enf_full ltac:(discriminate)
    eq_refl full_vm_run full_boot_run full_vm_cgroup full_new).
Defined.

Lemma enf_defines : defines_maps (H := enf_host) 1 sys_filter_maps.
Proof.
  intros n. unfold sys_filter_maps. rewrite !elem_of_cons. cbn.
  destruct (String.eqb_spec n "aegis_monitored_cgroups") as [->|H1];
    [split; [by left|intros _; by exists 100]|].
  destruct (String.eqb_spec n "aegis_syscall_policy") as [->|H2];
    [split; [by right; left|intros _; by exists 101]|].
  destruct (String.eqb_spec n "aegis_security_events") as [->|H3];
    [split; [by right; right; left|intros _; by exists 102]|].
  split; [by intros (? & ? & _)|]. intros [?|[?|[?|?%elem_of_nil]]]; done.
Qed.

Lemma no_object_enforces_both_witness :
  set_blocked_ip (host := enf_host) metadata_ip true (enf_loader, []) =
  (Ret ErrEBPFProbeLoadFailed, (enf_loader, [])).
Proof.
  apply (proj2 (no_object_enforces_both (host := enf_host) 1 sys_filter_maps enf_loader [] metadata_ip
    ltac:(left) enf_defines eq_refl eq_refl)). vm_compute. discriminate.
Defined.
