(* ===== verification/Cli.v ===== *)
(** * Cli: cmd/aegis-cli/main.cpp

    Argument parsing, the commands, the lifetime of the manager that [main]
    creates, and the signal handler.  Text goes to the history as it is
    printed; the two things the language library formats from floating-point
    and exception objects are parameters. *)
From S2P Require Import Prelude Text Host Aegis PolicyEngine CgroupManager EBPFLoader MicroVM.
From S2P Require Import SandboxManager Lifecycle.
From Stdlib Require Import Ascii.

(** ** Text *)
Definition LF : string := String (ascii_of_nat 10) "".
Definition ESC : string := String (ascii_of_nat 27) "".
(** [\033[<code>m] *)
Definition color (code : string) : string := ESC +:+ "[" +:+ code +:+ "m".
Definition backslash : string := String (ascii_of_nat 92) "".

Definition header_text : string :=
  color "1;36" +:+
  "   ___   _______ ____ ______   _____ ___   _  ______  ___  OX" +:+ LF +:+
  "  / _ " +:+ backslash +:+ " / __/ _ /  _/ __/  | / / _ / _ " +:+ backslash +:+ "/ |/ / _ " +:+
    backslash +:+ "/ _ " +:+ backslash +:+ LF +:+
  " / __ |/ _// __// // _// /| |/ __ / // /    / // / // /" +:+ LF +:+
  "/_/ |_/___/_/  /___/___/_/ |_/_/ |_/____/_/|_/____/____/" +:+ LF +:+
  color "0" +:+ color "1;32" +:+ "Sub-10ms MicroVM & eBPF Isolation Engine for AI Agents (v" +:+
  AEGIS_VERSION_STRING +:+ ")" +:+ color "0" +:+ LF +:+ LF.

Definition usage_text (prog : string) : string :=
  "Usage:" +:+ LF +:+
  "  " +:+ prog +:+ " <command> [options]" +:+ LF +:+ LF +:+
  "Commands:" +:+ LF +:+
  "  create    Create and boot a new isolated Firecracker microVM sandbox" +:+ LF +:+
  "  exec      Execute untrusted AI agent code (Python/Bash) inside a sandbox" +:+ LF +:+
  "  terminate Destroy and wipe an active sandbox instance" +:+ LF +:+
  "  status    Display metadata for active sandboxes and eBPF enforcement maps" +:+ LF +:+
  "  version   Display version details and build information" +:+ LF +:+ LF +:+
  "Options:" +:+ LF +:+
  "  --id <string>         Sandbox ID (default: sbx-demo)" +:+ LF +:+
  "  --policy <string>     Security policy name (default: strict_python)" +:+ LF +:+
  "  --code <string>       Code payload string to execute" +:+ LF +:+
  "  --cpus <int>          vCPU core count limit (default: 1)" +:+ LF +:+
  "  --mem <int>           RAM limit in Megabytes (default: 512)" +:+ LF +:+ LF +:+
  "Examples:" +:+ LF +:+
  "  " +:+ prog +:+ " create --id sbx-test --policy strict_python --cpus 2 --mem 1024" +:+ LF +:+
  "  " +:+ prog +:+ " exec --id sbx-test --code " +:+ json_quoted "print('Hello from aegis microVM')" +:+ LF +:+
  "  " +:+ prog +:+ " terminate --id sbx-test" +:+ LF.

(** ** Options *)
Record options := {
  o_sandbox_id : string;
  o_policy_name : string;
  o_code_payload : string;
  o_cpus : Z;
  o_memory_mb : Z
}.

Definition default_options : options :=
  {| o_sandbox_id := "sbx-demo"; o_policy_name := "strict_python";
     o_code_payload := "print('Hello from Aegis Isolated MicroVM!')"; o_cpus := 1; o_memory_mb := 512 |}.

(** The leading digits of a text. *)
Fixpoint leading_digits (s : string) : string :=
  match s with
  | String c s' => if is_digit c then String c (leading_digits s') else ""
  | EmptyString => ""
  end.
Fixpoint skip_spaces (s : string) : string :=
  match s with
  | String c s' => if is_space c then skip_spaces s' else s
  | EmptyString => ""
  end.

(** [static_cast<uint32_t>(std::atoi(s))]: glibc's [atoi] is [strtol] in base 10, which
    saturates at the limits of [long], cut down to [int].  For values that are no [int] the
    C standard leaves [atoi] undefined; this is what glibc on a 64-bit Linux returns. *)
Definition atoi_u32 (s : string) : Z :=
  let clamp z := Z.max (- 2 ^ 63) (Z.min (2 ^ 63 - 1) z) in
  match skip_spaces s with
  | String c rest =>
      if Ascii.eqb c "-" then u32 (clamp (- digits_val 0 (leading_digits rest)))
      else if Ascii.eqb c "+" then u32 (clamp (digits_val 0 (leading_digits rest)))
      else u32 (clamp (digits_val 0 (leading_digits (String c rest))))
  | EmptyString => 0
  end.

(** One recognised option with its value. *)
Definition set_option (o : options) (arg v : string) : option options :=
  if String.eqb arg "--id" then
    Some {| o_sandbox_id := v; o_policy_name := o_policy_name o; o_code_payload := o_code_payload o;
            o_cpus := o_cpus o; o_memory_mb := o_memory_mb o |}
  else if String.eqb arg "--policy" then
    Some {| o_sandbox_id := o_sandbox_id o; o_policy_name := v; o_code_payload := o_code_payload o;
            o_cpus := o_cpus o; o_memory_mb := o_memory_mb o |}
  else if String.eqb arg "--code" then
    Some {| o_sandbox_id := o_sandbox_id o; o_policy_name := o_policy_name o; o_code_payload := v;
            o_cpus := o_cpus o; o_memory_mb := o_memory_mb o |}
  else if String.eqb arg "--cpus" then
    Some {| o_sandbox_id := o_sandbox_id o; o_policy_name := o_policy_name o;
            o_code_payload := o_code_payload o; o_cpus := atoi_u32 v; o_memory_mb := o_memory_mb o |}
  else if String.eqb arg "--mem" then
    Some {| o_sandbox_id := o_sandbox_id o; o_policy_name := o_policy_name o;
            o_code_payload := o_code_payload o; o_cpus := o_cpus o; o_memory_mb := atoi_u32 v |}
  else None.

(** The loop over [argv[2..]]: an option without a value, like any other text, is skipped. *)
Fixpoint parse_args (o : options) (args : list string) : options :=
  match args with
  | [] => o
  | arg :: rest =>
      match rest with
      | [] => o
      | v :: rest' =>
          match set_option o arg v with
          | Some o' => parse_args o' rest'
          | None => parse_args o rest
          end
      end
  end.

Definition cli_config (o : options) : SandboxConfig :=
  let c := default_config (o_sandbox_id o) in
  {| sc_sandbox_id := sc_sandbox_id c; sc_environment := sc_environment c;
     resource_limits := {| cpu_cores := o_cpus o; memory_mb := o_memory_mb o;
                           vram_mb := vram_mb default_limits; max_pids := max_pids default_limits |};
     security_policy_name := o_policy_name o; use_snapshot_restore := true;
     firecracker_bin_path := firecracker_bin_path c; rootfs_image_path := rootfs_image_path c;
     kernel_image_path := kernel_image_path c; snapshot_dir_path := snapshot_dir_path c |}.

Section Main.
Context {host : Host}.
Variable format_ms : Z -> string.                  (* {:.2f} of a time, in milliseconds *)
Variable exception_text : cxx_exception -> string. (* std::exception::what() *)

Definition print_header : M SM unit := print_out header_text.
Definition print_usage (prog : string) : M SM unit := print_header ;; print_out (usage_text prog).

Definition error_line (text : string) : string := color "1;31" +:+ text +:+ color "0" +:+ LF.

Definition cmd_create (o : options) : M SM Z :=
  print_header ;;
  print_out (color "1;34" +:+ "[AEGIS-CLI] Booting MicroVM Sandbox [" +:+ o_sandbox_id o +:+ "]..." +:+
    color "0" +:+ LF) ;;
  status ← create_sandbox (cli_config o);
  if bool_decide (status = Success) then
    meta ← get_metadata (o_sandbox_id o);
    print_out (color "1;32" +:+ "[AEGIS-CLI] Sandbox Created Successfully!" +:+ color "0" +:+ LF +:+
      "  • Sandbox ID  : " +:+ o_sandbox_id o +:+ LF +:+
      "  • Boot Time   : " +:+ format_ms (from_option md_boot_time_ms 0 meta) +:+
      " ms (Snapshot Restore)" +:+ LF +:+
      "  • vCPUs / RAM : " +:+ format_int (o_cpus o) +:+ " Core(s) / " +:+
      format_int (o_memory_mb o) +:+ " MB" +:+ LF +:+
      "  • Policy      : " +:+ o_policy_name o +:+ " (eBPF Active)" +:+ LF) ;;
    mret 0
  else
    print_err (error_line ("[AEGIS-CLI] Failed to create sandbox: " +:+ status_to_string status)) ;;
    mret 1.

Definition cmd_exec (o : options) : M SM Z :=
  print_out (color "1;34" +:+ "[AEGIS-CLI] Executing code in Sandbox [" +:+ o_sandbox_id o +:+ "]..." +:+
    color "0" +:+ LF) ;;
  result ← execute_code (o_sandbox_id o) (o_code_payload o);
  print_out (LF +:+ color "1;36" +:+ "--- [Execution Output] ---" +:+ color "0" +:+ LF +:+
    er_stdout_output result +:+ LF +:+
    color "1;36" +:+ "--------------------------" +:+ color "0" +:+ LF +:+
    "  • Exit Code      : " +:+ format_int (er_exit_code result) +:+ LF +:+
    "  • Execution Time : " +:+ format_ms (er_execution_time_ms result) +:+ " ms" +:+ LF +:+
    "  • eBPF Violations: " +:+
    (if er_security_violation_triggered result then "YES (Blocked)" else "None (Clean)") +:+ LF) ;;
  mret 0.

Definition cmd_terminate (o : options) : M SM Z :=
  print_out (color "1;33" +:+ "[AEGIS-CLI] Terminating Sandbox [" +:+ o_sandbox_id o +:+ "]..." +:+
    color "0" +:+ LF) ;;
  status ← terminate_sandbox (o_sandbox_id o) true;
  if bool_decide (status = Success) then
    print_out (color "1;32" +:+ "[AEGIS-CLI] Sandbox Terminated & Memory Wiped." +:+ color "0" +:+ LF) ;;
    mret 0
  else
    print_err (error_line ("[AEGIS-CLI] Termination failed: " +:+ status_to_string status)) ;;
    mret 1.

Definition cmd_status (o : options) : M SM Z :=
  print_header ;;
  print_out (color "1;34" +:+ "[AEGIS-CLI] Querying Active Sandbox Status..." +:+ color "0" +:+ LF) ;;
  meta ← get_metadata (o_sandbox_id o);
  print_out (match meta with
             | Some md => "Active Sandbox: " +:+ md_sandbox_id md +:+ " | Boot: " +:+
                 format_ms (md_boot_time_ms md) +:+ "ms | State: Running" +:+ LF
             | None => "No active sandboxes found." +:+ LF
             end) ;;
  mret 0.

Definition run_command (prog command : string) (o : options) : M SM Z :=
  if String.eqb command "create" then cmd_create o
  else if String.eqb command "exec" then cmd_exec o
  else if String.eqb command "terminate" then cmd_terminate o
  else if String.eqb command "status" then cmd_status o
  else
    print_err (color "1;31" +:+ "[AEGIS-CLI] Unknown command: " +:+ command +:+ color "0" +:+ LF +:+ LF) ;;
    print_usage prog ;;
    mret 1.

(** ** main *)

(** The manager [main] constructs over a new loader and a new engine. *)
Definition cli_manager : SandboxManager :=
  SandboxManager_init (Some EBPFLoader_init) (Some make_PolicyEngine) "/var/run/aegis".

(** The end of the [try] block: the manager is destroyed, then the loader it shared, on
    every way out, and an exception is reported after that. *)
Definition leave_scope (r : outcome Z) (s : SM) : outcome Z * history :=
  let finish code h :=
    match code with
    | Ret c => (Ret c, h)
    | Throw e => (Ret 1, EvStderr (error_line ("[AEGIS-FATAL] Standard Exception: " +:+ exception_text e)) :: h)
    | Deadlock => (Deadlock, h)
    | Exited => (Exited, h)
    end in
  match r with
  | Ret _ | Throw _ =>
      match (SandboxManager_dtor ;; on_loader (detach_all ;; mret Success)) s with
      | (Ret _, s') => finish r s'.2
      | (Throw e, s') => (Exited, s'.2)
      | (Deadlock, s') => (Deadlock, s'.2)
      | (Exited, s') => (Exited, s'.2)
      end
  | Deadlock => (Deadlock, s.2)
  | Exited => (Exited, s.2)
  end.

Definition main (argv : list string) (h : history) : outcome Z * history :=
  match argv with
  | prog :: command :: args =>
      if String.eqb command "version" || String.eqb command "--version" || String.eqb command "-v"
      then (Ret 0, EvStdout header_text :: h)
      else
        let o := parse_args default_options args in
        let '(r, s) := (SandboxManager_ctor ;; run_command prog command o) (cli_manager, h) in
        leave_scope r s
  | _ => (Ret 1, EvStdout (usage_text (default "" (head argv))) :: EvStdout header_text :: h)
  end.

(** ** The signal handler, on the thread it interrupts *)
Definition signal_handler (registered : bool) (signal : Z) : M SM unit :=
  (if registered then
     print_out (LF +:+ color "1;33" +:+ "[AEGIS-CLI] Signal " +:+ format_int signal +:+
       " received. Wiping active sandboxes..." +:+ color "0" +:+ LF) ;;
     terminate_all
   else mret tt) ;;
  exited.
End Main.

(** ** Options: lemmas *)
Lemma leading_digits_all s : str_all is_digit s = true -> leading_digits s = s.
Proof.
  induction s as [|c s IH]; cbn [str_all leading_digits]; [done|]. intros [-> Hs]%andb_prop.
  by rewrite IH.
Qed.

Lemma digit_head c s : str_all is_digit (String c s) = true ->
  is_space c = false /\ Ascii.eqb c "-" = false /\ Ascii.eqb c "+" = false.
Proof.
  cbn [str_all]. intros [Hc _]%andb_prop. revert Hc.
  destruct c as [[] [] [] [] [] [] [] []]; vm_compute; try discriminate; by intros _.
Qed.

Lemma atoi_format n : is_u32 n -> atoi_u32 (format_int n) = n.
Proof.
  intros Hn. unfold is_u32 in Hn. unfold atoi_u32.
  pose proof (format_int_digits n ltac:(lia)) as Hd. pose proof (format_int_nonempty n ltac:(lia)) as Hne.
  pose proof (digits_val_format n ltac:(lia)) as Hv.
  destruct (format_int n) as [|c s]; [done|]. destruct (digit_head c s Hd) as (Hsp & Hm & Hp).
  cbn [skip_spaces]. rewrite Hsp, Hm, Hp, leading_digits_all, Hv by done.
  rewrite Z.min_r, Z.max_r by lia. by apply u32_id.
Qed.

(** The command line that spells out all options. *)
Definition render_options (o : options) : list string :=
  ["--id"; o_sandbox_id o; "--policy"; o_policy_name o; "--code"; o_code_payload o;
   "--cpus"; format_int (o_cpus o); "--mem"; format_int (o_memory_mb o)].

(** C37: the options round-trip through the command line, whatever their texts (an option's
    value is taken as it is, even if it looks like another option), and later options
    override earlier ones. *)
Theorem parse_args_roundtrip (o d : options) (rest : list string) :
  is_u32 (o_cpus o) -> is_u32 (o_memory_mb o) ->
  parse_args d (render_options o ++ rest) = parse_args o rest.
Proof.
  intros Hc Hm. unfold render_options. cbn [app parse_args set_option String.eqb].
  simpl. rewrite !atoi_format by done. by destruct o.
Qed.

Definition sample_options : options :=
  {| o_sandbox_id := "sbx-test"; o_policy_name := "--mem"; o_code_payload := ""; o_cpus := 2;
     o_memory_mb := 4294967295 |}.

Lemma parse_args_roundtrip_witness :
  parse_args default_options (render_options sample_options ++ ["--verbose"]) = sample_options.
Proof.
  apply (parse_args_roundtrip sample_options default_options ["--verbose"]);
    (split; [discriminate|reflexivity]).
Defined.

(** ** Runs of main *)
Section Runs.
Context {host : Host}.
Variable format_ms : Z -> string.
Variable exception_text : cxx_exception -> string.

(** What the commands that act on no sandbox may do: print, create the two directories of the
    constructor and enable the controllers. *)
Definition idle_event (ev : event) : bool :=
  match ev with
  | EvStdout _ | EvStderr _ => true
  | EvCreateDirectories p _ => String.eqb p "/sys/fs/cgroup/aegis" || String.eqb p "/var/run/aegis"
  | EvWriteFile p v _ _ =>
      String.eqb p "/sys/fs/cgroup/cgroup.subtree_control" && String.eqb v "+cpu +memory +pids"
  | _ => false
  end.

(** A history that grew by such events only. *)
Definition idles (h h' : history) : Prop := exists new, h' = new ++ h /\ forallb idle_event new = true.

Lemma idles_print h h' ev : idles h h' -> idle_event ev = true -> idles h (ev :: h').
Proof. intros (new & -> & Hn) He. exists (ev :: new). split; [done|]. simpl. by rewrite He. Qed.

Lemma cli_ctor_run h :
  exists h', SandboxManager_ctor (cli_manager, h) = (Ret tt, (cli_manager, h')) /\ quiet h h' /\
    writes h' = writes h /\ idles h h'.
Proof.
  set (h1 := EvCreateDirectories "/sys/fs/cgroup/aegis" (os_create_directories h "/sys/fs/cgroup/aegis") :: h).
  set (w := os_write_file h1 "/sys/fs/cgroup/cgroup.subtree_control" "+cpu +memory +pids").
  set (h2 := if os_create_directories h "/sys/fs/cgroup/aegis"
             then EvWriteFile "/sys/fs/cgroup/cgroup.subtree_control" "+cpu +memory +pids" w.1 w.2 :: h1 else h1).
  exists (EvCreateDirectories "/var/run/aegis" (os_create_directories h2 "/var/run/aegis") :: h2).
  split.
  - unfold SandboxManager_ctor, CgroupManager_ctor, on_cgroups, write_sysfs_file, sys_write_file,
      create_directories, call. munfold. subst h2 w h1. simpl.
    destruct (os_create_directories h _); simpl; [destruct (os_write_file _ _ _) as [[] []]; simpl|]; done.
  - subst h2 h1. destruct (os_create_directories h _); (split; [done|]); (split; [done|]);
      repeat (apply idles_print; [|reflexivity]); by exists [].
Qed.

Lemma cli_manager_good h : sm_good (open_fds h) (unkilled_pids h) (cli_manager, h).
Proof.
  apply (initial_good (Some EBPFLoader_init) (Some make_PolicyEngine) "/var/run/aegis" h);
    intros ? [= <-]; [done|]. by rewrite make_PolicyEngine_eq.
Qed.

(** Leaving the scope of a manager whose loader holds no object. *)
Lemma scope_end_run F P m h :
  sm_good F P (m, h) -> m_ebpf_loader m = Some EBPFLoader_init ->
  exists h', (SandboxManager_dtor ;; on_loader (detach_all ;; mret Success)) (m, h) =
     (Ret tt, h') /\ open_fds h'.2 = F /\ unkilled_pids h'.2 = P /\ same_maps h h'.2.
Proof.
  intros Hg Hl. destruct (dtor_good F P m h Hg) as (m' & h' & Hd & _ & _ & Hf & Hp & Hl' & Hm).
  rewrite (bind_Ret _ _ _ _ _ Hd). unfold on_loader. simpl. rewrite Hl', Hl. munfold.
  rewrite detach_all_run by done. simpl. eexists. split; [reflexivity|]. done.
Qed.

Lemma cli_end_empty h :
  exists m', (SandboxManager_dtor ;; on_loader (detach_all ;; mret Success)) (cli_manager, h) =
    (Ret tt, (m', h)).
Proof. eexists. vm_compute. reflexivity. Qed.

Lemma main_command prog command args h :
  String.eqb command "version" || String.eqb command "--version" || String.eqb command "-v" = false ->
  main format_ms exception_text (prog :: command :: args) h =
  let '(r, s) := (SandboxManager_ctor ;; run_command format_ms prog command
                    (parse_args default_options args)) (cli_manager, h) in
  leave_scope exception_text r s.
Proof. intros Hv. unfold main. by rewrite Hv. Qed.

(** A command that returns without touching the manager's tables. *)
Lemma main_unchanged prog command args h h1 h2 c :
  String.eqb command "version" || String.eqb command "--version" || String.eqb command "-v" = false ->
  SandboxManager_ctor (cli_manager, h) = (Ret tt, (cli_manager, h1)) ->
  run_command format_ms prog command (parse_args default_options args) (cli_manager, h1) =
    (Ret c, (cli_manager, h2)) ->
  main format_ms exception_text (prog :: command :: args) h = (Ret c, h2).
Proof.
  intros Hv Hc Hr. rewrite main_command by done. rewrite (bind_Ret _ _ _ _ _ Hc), Hr.
  unfold leave_scope. destruct (cli_end_empty h2) as [m' ->]. done.
Qed.

Lemma print_out_run (m : SandboxManager) h t : print_out t (m, h) = (Ret tt, (m, EvStdout t :: h)).
Proof. done. Qed.
Lemma print_err_run (m : SandboxManager) h t : print_err t (m, h) = (Ret tt, (m, EvStderr t :: h)).
Proof. done. Qed.
Lemma cli_no_sandbox id : m_sandboxes cli_manager !! id = None.
Proof. done. Qed.

Lemma cli_terminate_none h id b :
  terminate_sandbox id b (cli_manager, h) = (Ret ErrInvalidSandboxID, (cli_manager, h)).
Proof.
  destruct (cli_manager_good h) as (Hm & Hw & Hl).
  pose proof (terminate_sandbox_run cli_manager h id b Hm Hw (proj1 (led_cgroups _ _ _ Hl))) as Ht.
  by rewrite cli_no_sandbox in Ht.
Qed.

Lemma cli_exec_none `{!FreshDescriptors} h id code :
  execute_code id code (cli_manager, h) = (Ret (rejected_result id), (cli_manager, h)).
Proof.
  pose proof (execute_code_run _ _ _ _ id code (cli_manager_good h)) as Hx.
  by rewrite cli_no_sandbox in Hx.
Qed.

Lemma cli_metadata_none h id : get_metadata id (cli_manager, h) = (Ret None, (cli_manager, h)).
Proof. by rewrite get_metadata_run. Qed.
End Runs.
#[global] Opaque cli_manager.

Section Theorems.
Context {host : Host}.
Variable format_ms : Z -> string.
Variable exception_text : cxx_exception -> string.

(** C36: an invocation of the tool never sees the sandboxes of another one: whatever the
    identifier and the host, [terminate] fails with exit code 1, [exec] succeeds with exit
    code 0 without contacting any guest, and [status] succeeds; each of them only prints,
    creates the two directories of the constructor and enables the controllers in
    cgroup.subtree_control, so that no descriptor, child or kernel map changes. *)
Theorem cli_sees_no_sandbox `{!FreshDescriptors} (prog : string) (args : list string) (h : history) :
  Forall (fun ck : string * Z =>
    exists h', main format_ms exception_text (prog :: ck.1 :: args) h = (Ret ck.2, h') /\
      idles h h' /\ quiet h h' /\ writes h' = writes h)
    [("terminate", 1); ("exec", 0); ("status", 0)].
Proof.
  destruct (cli_ctor_run h) as (h1 & Hc & Hq & Hw & Hi).
  set (o := parse_args default_options args).
  repeat apply Forall_cons_2; [| | |apply Forall_nil_2]; cbn [fst snd];
    (eexists; split; [eapply main_unchanged; [done|exact Hc|]; fold o|]).
  - unfold run_command, cmd_terminate. cbn -[create_sandbox execute_code terminate_sandbox].
    erewrite bind_Ret by apply print_out_run. erewrite bind_Ret by apply cli_terminate_none. reflexivity.
  - split; [by repeat apply idles_print|done].
  - unfold run_command, cmd_exec. cbn -[create_sandbox execute_code terminate_sandbox].
    erewrite bind_Ret by apply print_out_run. erewrite bind_Ret by apply cli_exec_none. reflexivity.
  - split; [by repeat apply idles_print|done].
  - unfold run_command, cmd_status. cbn -[create_sandbox execute_code terminate_sandbox].
    erewrite bind_Ret by apply print_out_run. erewrite bind_Ret by apply print_out_run.
    erewrite bind_Ret by apply cli_metadata_none. reflexivity.
  - split; [by repeat apply idles_print|done].
Qed.

Lemma no_object_pushes pol cg h : push_all h (policy_pushes None cg pol) = h.
Proof.
  unfold policy_pushes, syscall_pushes, push_all. cbn [fold_left].
  change (push h (monitored_fd None, cg, 1)) with h. destruct pol as [p|]; [|done].
  rewrite fold_left_app.
  assert (Hs : forall l h0, fold_left push ((fun nr => (map_fd_of None "aegis_syscall_policy", nr, 1)) <$> l) h0 = h0)
    by (induction l; intros h0; simpl; auto).
  rewrite Hs. by destruct (block_cloud_metadata _).
Qed.

(** A creation through the tool that succeeds, up to the end of its scope. *)
Lemma cli_create_good `{!FreshDescriptors} `{!FreshChildren} o h m h' :
  cmd_create format_ms o (cli_manager, h) = (Ret 0, (m, h')) ->
  sm_good (open_fds h) (unkilled_pids h) (m, h') /\ m_ebpf_loader m = Some EBPFLoader_init /\ same_maps h h'.
Proof.
  unfold cmd_create. erewrite bind_Ret by apply print_out_run. erewrite bind_Ret by apply print_out_run.
  match goal with |- context [(cli_manager, ?h2)] => set (h0 := h2) end.
  intros (st & s1 & Hcr & Hrest)%bind_inv_Ret.
  destruct (create_cases _ _ (cli_config o) cli_manager h0 (cli_manager_good h0)) as (r & m1 & h1 & Hr & Hc).
  rewrite Hcr in Hr. injection Hr as <- ->. case_bool_decide as Hst.
  2: { apply bind_inv_Ret in Hrest as (? & ? & ? & Hrest). discriminate Hrest. }
  subst st. destruct Hc as (Hg & _ & inst & info & h2 & t & -> & _ & _ & _ & _ & _ & Hmaps & -> & _).
  rewrite (bind_Ret _ _ _ _ _ (get_metadata_run _ _ _ (proj1 Hg))) in Hrest.
  rewrite (bind_Ret _ _ _ _ _ (print_out_run _ _ _)) in Hrest. injection Hrest as <- <-.
  split; [eapply sm_good_history; [| |exact Hg]; done|]. split; [done|].
  intros fd k. cbn [map_value]. unfold policy_history.
  change (m_ebpf_loader cli_manager) with (Some EBPFLoader_init).
  change (m_policy_engine cli_manager) with (Some make_PolicyEngine). cbn [m_bpf_obj EBPFLoader_init].
  rewrite no_object_pushes. apply Hmaps.
Qed.

(** C35: the sandbox that [create] reports as successfully created, with its policy active, is
    gone when the tool exits: no process, descriptor or kernel map entry of it remains,
    and no map was ever written, because the tool loads no eBPF object. *)
Theorem cli_create_leaves_nothing `{!FreshDescriptors} `{!FreshChildren} (prog : string)
    (args : list string) (h h' : history) :
  main format_ms exception_text (prog :: "create" :: args) h = (Ret 0, h') ->
  open_fds h' = open_fds h /\ unkilled_pids h' = unkilled_pids h /\ same_maps h h'.
Proof.
  rewrite main_command by done. destruct (cli_ctor_run h) as (h1 & Hc & (Hf & Hp & Hm) & _).
  rewrite (bind_Ret _ _ _ _ _ Hc). unfold run_command. cbn [String.eqb Ascii.eqb Bool.eqb].
  destruct (cmd_create format_ms _ (cli_manager, h1)) as [[c|e| |] [m h2]] eqn:Er; unfold leave_scope;
    [| |discriminate|discriminate].
  - destruct ((SandboxManager_dtor ;; on_loader (detach_all ;; mret Success)) (m, h2))
      as [[u|e| |] s] eqn:Ed; [|discriminate..]. intros [= -> <-].
    destruct (cli_create_good _ _ _ _ Er) as (Hg & Hl & Hm2).
    destruct (scope_end_run _ _ m h2 Hg Hl) as (s' & Hd & Hf' & Hp' & Hm').
    rewrite Ed in Hd. injection Hd as _ ->. split; [congruence|]. split; [congruence|].
    intros fd k. by rewrite Hm', Hm2.
  - destruct ((SandboxManager_dtor ;; on_loader (detach_all ;; mret Success)) (m, h2))
      as [[u|e'| |] s]; discriminate.
Qed.

End Theorems.

(** the signal handler wipes every sandbox of an idle manager and ends the process, but
    a signal that interrupts a call of the manager blocks on the mutex that call holds,
    with nothing wiped. *)
Theorem signal_handler_spec (F P : gset Z) (m : SandboxManager) (h : history) (signal : Z) :
  (sm_good F P (m, h) ->
     exists m' h', signal_handler true signal (m, h) = (Exited, (m', h')) /\
       m_sandboxes m' = ∅ /\ vmms m ## unkilled_pids h') /\
  (sm_mutex m = true ->
     exists h', signal_handler true signal (m, h) = (Deadlock, (m, h')) /\ unkilled_pids h' = unkilled_pids h).
Proof.
  unfold signal_handler. split.
  - intros Hg. rewrite bind_assoc, (bind_Ret _ _ _ _ _ (print_out_run _ _ _)).
    match goal with |- context [(m, ?h0)] =>
      destruct (terminate_all_good F P m h0) as (m' & h' & Ht & He & (_ & _ & Hled) & _);
        [by eapply sm_good_history; [| |exact Hg]|] end.
    rewrite (bind_Ret _ _ _ _ _ Ht). exists m', h'. split; [done|]. split; [done|].
    pose proof (led_live _ _ _ Hled) as Hl. simpl in Hl. rewrite Hl, He, owned_empty.
    destruct Hg as (_ & _ & Hled0). pose proof (led_vmms _ _ _ Hled0). simpl in *. set_solver.
  - intros Hm. rewrite bind_assoc, (bind_Ret _ _ _ _ _ (print_out_run _ _ _)).
    unfold terminate_all, mbind, M_bind. rewrite lock_guard_held by exact Hm.
    eexists. split; [reflexivity|]. done.
Qed.

(** ** Witnesses *)
Lemma cli_sees_no_sandbox_witness :
  exists h', main (host := lc_host) (fun _ => "0.00") (fun _ => "") ["aegis"; "exec"; "--id"; "sbx-1"] [] =
    (Ret 0, h') /\ idles [] h' /\ quiet [] h' /\ writes h' = [].
Proof.
  pose proof (cli_sees_no_sandbox (host := lc_host) (fun _ => "0.00") (fun _ => "") "aegis"
    ["--id"; "sbx-1"] []) as H.
  apply Forall_cons_1 in H as [_ H]. apply Forall_cons_1 in H as [H _]. exact H.
Defined.

Definition cli_created : outcome Z * history :=
  main (host := lc_host) (fun _ => "0.00") (fun _ => "") ["aegis"; "create"; "--id"; "sbx-1"] [].

(** The creation succeeds on the sample machine. *)
Lemma cli_create_leaves_nothing_witness :
  open_fds cli_created.2 = ∅ /\ unkilled_pids cli_created.2 = ∅ /\ same_maps [] cli_created.2.
Proof.
  apply (cli_create_leaves_nothing (host := lc_host) (fun _ => "0.00") (fun _ => "") "aegis"
    ["--id"; "sbx-1"] [] cli_created.2). vm_compute. reflexivity.
Defined.

Lemma signal_handler_spec_witness :
  exists h', signal_handler true 2 (set_mutex true cli_manager, []) =
    (Deadlock, (set_mutex true cli_manager, h')) /\ unkilled_pids h' = ∅.
Proof.
  apply (proj2 (signal_handler_spec ∅ ∅ (set_mutex true cli_manager) [] 2)). reflexivity.
Defined.
